(** * examredy-backend: AI structure ingestion, rate limiter and fetch guard

    A shallow embedding of the ingestion routes of the backend
    (routes/structure.js, routes/aiFetch.js, services/aiService.js) and the
    properties its specification states about them.

    Conventions of the embedding:
    - JavaScript strings are [string]s of ASCII characters; [toLowerCase],
      [includes], [trim] and [substring] are written out below.
    - Numeric ids and timestamps are [Z]; a nullable SQL integer column or a
      possibly missing body field is [option Z] ([None] is NULL/undefined).
    - SQL conditions follow three-valued logic: a condition evaluates to
      [option bool] ([None] is UNKNOWN) and WHERE keeps a row only when the
      condition is TRUE.
    - A table is the list of its rows in insertion order.
    - Route handlers are written in a small state-and-exception monad over
      the database session, so that try/catch/finally and
      BEGIN/COMMIT/ROLLBACK read as in the source. *)

From Stdlib Require Import ZArith Lia Bool List Ascii String.
From stdpp Require Import base option gmap sets list strings pretty.
Import ListNotations.

Local Open Scope string_scope.
Local Open Scope Z_scope.

(** ** JavaScript string primitives *)

Module Js.

Definition is_upper (c : ascii) : bool :=
  ((65 <=? nat_of_ascii c) && (nat_of_ascii c <=? 90))%nat.

Definition lower_char (c : ascii) : ascii :=
  if is_upper c then ascii_of_nat (nat_of_ascii c + 32) else c.

(** [s.toLowerCase()] *)
Fixpoint toLowerCase (s : string) : string :=
  match s with
  | EmptyString => EmptyString
  | String c s' => String (lower_char c) (toLowerCase s')
  end.

(** [s.startsWith(kw)] *)
Fixpoint startsWith (s kw : string) : bool :=
  match kw, s with
  | EmptyString, _ => true
  | String _ _, EmptyString => false
  | String a kw', String b s' => if Ascii.eqb a b then startsWith s' kw' else false
  end.

(** [s.includes(kw)] *)
Fixpoint includes (s kw : string) : bool :=
  startsWith s kw ||
  match s with
  | EmptyString => false
  | String _ s' => includes s' kw
  end.

(** White space removed by [trim] (tab, line feed, vertical tab, form feed,
    carriage return, space). *)
Definition is_space (c : ascii) : bool :=
  let n := nat_of_ascii c in
  (((9 <=? n) && (n <=? 13)) || (n =? 32))%nat.

Fixpoint trimStart (s : string) : string :=
  match s with
  | EmptyString => EmptyString
  | String c s' => if is_space c then trimStart s' else s
  end.

Fixpoint trimEnd (s : string) : string :=
  match s with
  | EmptyString => EmptyString
  | String c s' =>
      match trimEnd s' with
      | EmptyString => if is_space c then EmptyString else String c EmptyString
      | r => String c r
      end
  end.

(** [s.trim()] *)
Definition trim (s : string) : string := trimEnd (trimStart s).

(** [s.substring(0, n)] *)
Definition substring0 (n : nat) (s : string) : string := String.substring 0 n s.

(** [!s] for a string: the empty string is falsy. *)
Definition is_empty (s : string) : bool :=
  match s with EmptyString => true | _ => false end.

(** [a || b] where [a] is a possibly undefined string. *)
Definition or_string (a : option string) (b : string) : string :=
  match a with
  | Some s => if is_empty s then b else s
  | None => b
  end.

(** [!v] for a possibly undefined number. *)
Definition falsy (v : option Z) : bool :=
  match v with
  | Some n => n =? 0
  | None => true
  end.

(** [v || null] for a possibly undefined number. *)
Definition or_null (v : option Z) : option Z :=
  if falsy v then None else v.

(** [kws.some(kw => s.includes(kw))] *)
Definition some_includes (kws : list string) (s : string) : bool :=
  existsb (fun kw => includes s kw) kws.

End Js.

(** ** The rate limiter of routes/structure.js *)

Module RateLimit.

Record record := { count : Z; resetTime : Z }.

(** What the middleware needs of the request. *)
Record request := { ip : option string; remoteAddress : option string }.

Inductive verdict := Next | Status429.

Definition windowMs : Z := 15 * 60 * 1000.
Definition maxRequests : Z := 10.

(** [req.ip || req.connection.remoteAddress || 'unknown'] *)
Definition client (req : request) : string :=
  Js.or_string (ip req) (Js.or_string (remoteAddress req) "unknown").

(** [rateLimitMiddleware]: [now] is [Date.now()], the map is
    [rateLimitMap].  The record stored in the map is mutated in place in
    the source; the map is its only holder, so the mutation is the
    replacement of the entry. *)
Definition rateLimitMiddleware (now : Z) (req : request)
    (rateLimitMap : gmap string record) : gmap string record * verdict :=
  let ip := client req in
  match rateLimitMap !! ip with
  | None =>
      (<[ip := {| count := 1; resetTime := now + windowMs |}]> rateLimitMap, Next)
  | Some rec =>
      if resetTime rec <? now then
        (<[ip := {| count := 1; resetTime := now + windowMs |}]> rateLimitMap, Next)
      else
        let rec' := {| count := count rec + 1; resetTime := resetTime rec |} in
        let map' := <[ip := rec']> rateLimitMap in
        if maxRequests <? count rec' then (map', Status429) else (map', Next)
  end.

(** A run of checks by one client, at the given instants. *)
Fixpoint checks (req : request) (nows : list Z) (m : gmap string record)
    : gmap string record * list verdict :=
  match nows with
  | [] => (m, [])
  | now :: rest =>
      let '(m1, v) := rateLimitMiddleware now req m in
      let '(m2, vs) := checks req rest m1 in
      (m2, v :: vs)
  end.

End RateLimit.

(** ** The relational store: rows, three-valued conditions and the statements
    the ingestion routes issue *)

Module Sql.

(** A nullable integer column or parameter. *)
Definition sqlint := option Z.

(** [a = b]: UNKNOWN as soon as one side is NULL. *)
Definition eq_int (a b : sqlint) : option bool :=
  match a, b with
  | Some x, Some y => Some (x =? y)
  | _, _ => None
  end.

(** [a = b] on text that is never NULL (names are JavaScript strings). *)
Definition eq_text (a b : string) : option bool := Some (String.eqb a b).

(** [a IS NULL] *)
Definition is_null (a : sqlint) : option bool :=
  match a with
  | None => Some true
  | Some _ => Some false
  end.

(** [p AND q] and [p OR q] of three-valued logic. *)
Definition and3 (p q : option bool) : option bool :=
  match p, q with
  | Some false, _ | _, Some false => Some false
  | Some true, Some true => Some true
  | _, _ => None
  end.

Definition or3 (p q : option bool) : option bool :=
  match p, q with
  | Some true, _ | _, Some true => Some true
  | Some false, Some false => Some false
  | _, _ => None
  end.

(** WHERE keeps a row only when its condition is TRUE. *)
Definition holds (c : option bool) : bool :=
  match c with
  | Some true => true
  | _ => false
  end.

(** [LOWER(s)] *)
Definition LOWER (s : string) : string := Js.toLowerCase s.

Record board := {
  board_id : Z;
  board_name : string;
  board_state_id : sqlint;
  board_is_active : bool
}.

Record university := {
  university_id : Z;
  university_name : string;
  university_state_id : sqlint;
  university_is_approved : bool
}.

Record paper_stage := {
  paper_stage_id : Z;
  paper_stage_name : string;
  paper_stage_category_id : sqlint;
  paper_stage_is_approved : bool
}.

Record subject := {
  subject_id : Z;
  subject_name : string;
  subject_category_id : sqlint;
  subject_board_id : sqlint;
  subject_university_id : sqlint;
  subject_class_id : sqlint;
  subject_stream_id : sqlint;
  subject_semester_id : sqlint;
  subject_degree_type_id : sqlint;
  subject_paper_stage_id : sqlint;
  subject_is_active : bool;
  subject_is_approved : bool
}.

Record chapter := {
  chapter_id : Z;
  chapter_name : string;
  chapter_subject_id : sqlint;
  chapter_is_active : bool
}.

Record db := {
  boards : list board;
  universities : list university;
  papers_stages : list paper_stage;
  subjects : list subject;
  chapters : list chapter
}.

Definition set_boards (t : list board) (d : db) : db :=
  {| boards := t; universities := universities d; papers_stages := papers_stages d;
     subjects := subjects d; chapters := chapters d |}.
Definition set_universities (t : list university) (d : db) : db :=
  {| boards := boards d; universities := t; papers_stages := papers_stages d;
     subjects := subjects d; chapters := chapters d |}.
Definition set_papers_stages (t : list paper_stage) (d : db) : db :=
  {| boards := boards d; universities := universities d; papers_stages := t;
     subjects := subjects d; chapters := chapters d |}.
Definition set_subjects (t : list subject) (d : db) : db :=
  {| boards := boards d; universities := universities d; papers_stages := papers_stages d;
     subjects := t; chapters := chapters d |}.
Definition set_chapters (t : list chapter) (d : db) : db :=
  {| boards := boards d; universities := universities d; papers_stages := papers_stages d;
     subjects := subjects d; chapters := t |}.

(** Modelled from the spec: the schema (db.js) is not among the sources.
    The [id] columns are serial keys: a new row takes an id above every id
    of the table. *)
Definition fresh {A : Type} (id : A -> Z) (t : list A) : Z :=
  1 + fold_right (fun r m => Z.max (id r) m) 0 t.

(** Modelled from the spec: the uniqueness constraint on (scope key, name)
    that [ON CONFLICT (state_id, name)] names.  As in a unique index, the
    name is compared exactly and a NULL key conflicts with nothing. *)
Definition board_conflict (name : string) (state_id : sqlint) (r : board) : bool :=
  holds (and3 (eq_int (board_state_id r) state_id) (eq_text (board_name r) name)).

Definition university_conflict (name : string) (state_id : sqlint) (r : university) : bool :=
  holds (and3 (eq_int (university_state_id r) state_id) (eq_text (university_name r) name)).

Definition paper_stage_conflict (name : string) (category_id : sqlint) (r : paper_stage) : bool :=
  holds (and3 (eq_int (paper_stage_category_id r) category_id)
              (eq_text (paper_stage_name r) name)).

Definition chapter_conflict (name : string) (subject_id : sqlint) (r : chapter) : bool :=
  holds (and3 (eq_int (chapter_subject_id r) subject_id) (eq_text (chapter_name r) name)).

Definition activate_board (r : board) : board :=
  {| board_id := board_id r; board_name := board_name r;
     board_state_id := board_state_id r; board_is_active := true |}.

Definition activate_chapter (r : chapter) : chapter :=
  {| chapter_id := chapter_id r; chapter_name := chapter_name r;
     chapter_subject_id := chapter_subject_id r; chapter_is_active := true |}.

Definition activate_subject (r : subject) : subject :=
  {| subject_id := subject_id r; subject_name := subject_name r;
     subject_category_id := subject_category_id r;
     subject_board_id := subject_board_id r;
     subject_university_id := subject_university_id r;
     subject_class_id := subject_class_id r;
     subject_stream_id := subject_stream_id r;
     subject_semester_id := subject_semester_id r;
     subject_degree_type_id := subject_degree_type_id r;
     subject_paper_stage_id := subject_paper_stage_id r;
     subject_is_active := true;
     subject_is_approved := subject_is_approved r |}.

(** [INSERT INTO boards (name, state_id, is_active) VALUES ($1, $2, TRUE)
     ON CONFLICT (state_id, name) DO UPDATE SET is_active = TRUE
     RETURNING id, name] *)
Definition upsert_board (name : string) (state_id : sqlint) (t : list board)
    : list board * list (Z * string) :=
  if existsb (board_conflict name state_id) t then
    (map (fun r => if board_conflict name state_id r then activate_board r else r) t,
     map (fun r => (board_id r, board_name r)) (List.filter (board_conflict name state_id) t))
  else
    let r := {| board_id := fresh board_id t; board_name := name;
                board_state_id := state_id; board_is_active := true |} in
    ((t ++ [r])%list, [(board_id r, board_name r)]).

(** [INSERT INTO boards (name, state_id, is_active) VALUES ($1, $2, $3)
     ON CONFLICT (state_id, name) DO NOTHING RETURNING *] *)
Definition insert_board_do_nothing (name : string) (state_id : sqlint) (is_active : bool)
    (t : list board) : list board * list board :=
  if existsb (board_conflict name state_id) t then (t, [])
  else
    let r := {| board_id := fresh board_id t; board_name := name;
                board_state_id := state_id; board_is_active := is_active |} in
    ((t ++ [r])%list, [r]).

(** [INSERT INTO universities (name, state_id, is_approved) VALUES ($1, $2, $3)
     ON CONFLICT DO NOTHING RETURNING *] *)
Definition insert_university_do_nothing (name : string) (state_id : sqlint)
    (is_approved : bool) (t : list university) : list university * list university :=
  if existsb (university_conflict name state_id) t then (t, [])
  else
    let r := {| university_id := fresh university_id t; university_name := name;
                university_state_id := state_id; university_is_approved := is_approved |} in
    ((t ++ [r])%list, [r]).

(** [INSERT INTO papers_stages (name, category_id, is_approved) VALUES ($1, $2, $3)
     ON CONFLICT DO NOTHING RETURNING *] *)
Definition insert_paper_stage_do_nothing (name : string) (category_id : sqlint)
    (is_approved : bool) (t : list paper_stage) : list paper_stage * list paper_stage :=
  if existsb (paper_stage_conflict name category_id) t then (t, [])
  else
    let r := {| paper_stage_id := fresh paper_stage_id t; paper_stage_name := name;
                paper_stage_category_id := category_id;
                paper_stage_is_approved := is_approved |} in
    ((t ++ [r])%list, [r]).

(** [INSERT INTO chapters (name, subject_id, is_active) VALUES ($1, $2, $3)
     ON CONFLICT (subject_id, name) DO NOTHING RETURNING *] *)
Definition insert_chapter_do_nothing (name : string) (subject_id : sqlint) (is_active : bool)
    (t : list chapter) : list chapter * list chapter :=
  if existsb (chapter_conflict name subject_id) t then (t, [])
  else
    let r := {| chapter_id := fresh chapter_id t; chapter_name := name;
                chapter_subject_id := subject_id; chapter_is_active := is_active |} in
    ((t ++ [r])%list, [r]).

(** [INSERT INTO chapters (name, subject_id, is_active) VALUES ($1, $2, TRUE)
     ON CONFLICT (subject_id, name) DO UPDATE SET is_active = TRUE
     RETURNING id, name] *)
Definition upsert_chapter (name : string) (subject_id : sqlint) (t : list chapter)
    : list chapter * list (Z * string) :=
  if existsb (chapter_conflict name subject_id) t then
    (map (fun r => if chapter_conflict name subject_id r then activate_chapter r else r) t,
     map (fun r => (chapter_id r, chapter_name r))
         (List.filter (chapter_conflict name subject_id) t))
  else
    let r := {| chapter_id := fresh chapter_id t; chapter_name := name;
                chapter_subject_id := subject_id; chapter_is_active := true |} in
    ((t ++ [r])%list, [(chapter_id r, chapter_name r)]).

(** The WHERE clause of the existence query of POST /fetch-out-subjects:
    [board_id = $1 AND class_id = $2
     AND (stream_id = $3 OR (stream_id IS NULL AND $3 IS NULL))
     AND LOWER(name) = LOWER($4)] *)
Definition fetch_out_subject_where (p1 p2 p3 : sqlint) (p4 : string) (r : subject)
    : option bool :=
  and3 (and3 (and3 (eq_int (subject_board_id r) p1) (eq_int (subject_class_id r) p2))
             (or3 (eq_int (subject_stream_id r) p3)
                  (and3 (is_null (subject_stream_id r)) (is_null p3))))
       (eq_text (LOWER (subject_name r)) (LOWER p4)).

(** [SELECT id FROM subjects WHERE ...] *)
Definition select_existing_subjects (p1 p2 p3 : sqlint) (p4 : string) (t : list subject)
    : list Z :=
  map subject_id (List.filter (fun r => holds (fetch_out_subject_where p1 p2 p3 p4 r)) t).

(** [UPDATE subjects SET is_active = TRUE WHERE id = $1] *)
Definition update_subject_active (id : Z) (t : list subject) : list subject :=
  map (fun r => if subject_id r =? id then activate_subject r else r) t.

(** [INSERT INTO subjects (name, category_id, board_id, class_id, stream_id,
     is_active, is_approved) VALUES ($1, 1, $2, $3, $4, TRUE, TRUE)
     RETURNING id, name] *)
Definition insert_subject_fetch_out (p1 : string) (p2 p3 p4 : sqlint) (t : list subject)
    : list subject * list (Z * string) :=
  let r := {| subject_id := fresh subject_id t; subject_name := p1;
              subject_category_id := Some 1;
              subject_board_id := p2; subject_university_id := None;
              subject_class_id := p3; subject_stream_id := p4;
              subject_semester_id := None; subject_degree_type_id := None;
              subject_paper_stage_id := None;
              subject_is_active := true; subject_is_approved := true |} in
  ((t ++ [r])%list, [(subject_id r, subject_name r)]).

(** The WHERE clause of the NOT EXISTS subquery of POST /ai-fetch/subjects:
    [board_id = $3 AND class_id = $5
     AND (stream_id = $6 OR (stream_id IS NULL AND $6 IS NULL))
     AND name = $1] *)
Definition admin_subject_where (p1 : string) (p3 p5 p6 : sqlint) (r : subject)
    : option bool :=
  and3 (and3 (and3 (eq_int (subject_board_id r) p3) (eq_int (subject_class_id r) p5))
             (or3 (eq_int (subject_stream_id r) p6)
                  (and3 (is_null (subject_stream_id r)) (is_null p6))))
       (eq_text (subject_name r) p1).

(** [EXISTS (SELECT 1 FROM subjects WHERE ...)] *)
Definition admin_subject_exists (p1 : string) (p3 p5 p6 : sqlint) (t : list subject) : bool :=
  existsb (fun r => holds (admin_subject_where p1 p3 p5 p6 r)) t.

(** Modelled from the spec: the default of [subjects.is_approved], which
    the admin INSERT leaves unset; admin-triggered fetches are saved as
    pending approval. *)
Definition subject_is_approved_default : bool := false.

(** [INSERT INTO subjects (name, category_id, board_id, university_id,
     class_id, stream_id, semester_id, degree_type_id, paper_stage_id,
     is_active) SELECT $1, ..., $9, TRUE WHERE NOT EXISTS (...) RETURNING *] *)
Definition insert_subject_where_not_exists (p1 : string)
    (p2 p3 p4 p5 p6 p7 p8 p9 : sqlint) (t : list subject) : list subject * list subject :=
  if admin_subject_exists p1 p3 p5 p6 t then (t, [])
  else
    let r := {| subject_id := fresh subject_id t; subject_name := p1;
                subject_category_id := p2;
                subject_board_id := p3; subject_university_id := p4;
                subject_class_id := p5; subject_stream_id := p6;
                subject_semester_id := p7; subject_degree_type_id := p8;
                subject_paper_stage_id := p9;
                subject_is_active := true;
                subject_is_approved := subject_is_approved_default |} in
    ((t ++ [r])%list, [r]).

(** The WHERE clause of the existence query of POST /fetch-out-chapters:
    [subject_id = $1 AND LOWER(name) = LOWER($2)] *)
Definition fetch_out_chapter_where (p1 : sqlint) (p2 : string) (r : chapter) : option bool :=
  and3 (eq_int (chapter_subject_id r) p1) (eq_text (LOWER (chapter_name r)) (LOWER p2)).

(** [SELECT id FROM chapters WHERE ...] *)
Definition select_existing_chapters (p1 : sqlint) (p2 : string) (t : list chapter) : list Z :=
  map chapter_id (List.filter (fun r => holds (fetch_out_chapter_where p1 p2 r)) t).

(** [UPDATE chapters SET is_active = TRUE WHERE id = $1] *)
Definition update_chapter_active (id : Z) (t : list chapter) : list chapter :=
  map (fun r => if chapter_id r =? id then activate_chapter r else r) t.

End Sql.

(** ** Route handlers: state, exceptions and transactions *)

Module Route.
Import Sql.

(** What a handler can observe and change: the rows of the store, the
    snapshot taken by BEGIN while a transaction is open, and the
    process-wide set [activeFetches]. *)
Record state := {
  data : db;
  snapshot : option db;
  activeFetches : gset string
}.

Inductive outcome (A : Type) :=
| Ok (a : A)
| Throw (message : string).
Arguments Ok {A} a.
Arguments Throw {A} message.

Definition M (A : Type) : Type := state -> outcome A * state.

Definition ret {A} (a : A) : M A := fun s => (Ok a, s).

Definition bind {A B} (m : M A) (k : A -> M B) : M B :=
  fun s =>
    match m s with
    | (Ok a, s') => k a s'
    | (Throw e, s') => (Throw e, s')
    end.

Definition throw {A} (e : string) : M A := fun s => (Throw e, s).

(** [try { m } catch (err) { h err }] *)
Definition try_catch {A} (m : M A) (h : string -> M A) : M A :=
  fun s =>
    match m s with
    | (Ok a, s') => (Ok a, s')
    | (Throw e, s') => h e s'
    end.

(** [try { m } finally { f }] *)
Definition try_finally {A} (m : M A) (f : M unit) : M A :=
  fun s =>
    match m s with
    | (Ok a, s') =>
        match f s' with
        | (Ok _, s'') => (Ok a, s'')
        | (Throw e, s'') => (Throw e, s'')
        end
    | (Throw e, s') =>
        match f s' with
        | (Ok _, s'') => (Throw e, s'')
        | (Throw e', s'') => (Throw e', s'')
        end
    end.

Notation "'let*' x ':=' m 'in' k" := (bind m (fun x => k))
  (at level 10, x name, m at level 100, k at level 200).
Notation "m ';;' k" := (bind m (fun _ => k))
  (at level 100, k at level 200, right associativity).

(** [for (const x of l) { acc = body x acc }]; [continue] is [ret acc]. *)
Fixpoint for_of {A S : Type} (l : list A) (body : A -> S -> M S) (acc : S) : M S :=
  match l with
  | [] => ret acc
  | x :: l' => let* acc' := body x acc in for_of l' body acc'
  end.

(** [if (result.rows[0]) saved.push(result.rows[0])] *)
Definition push_first {A} (saved : list A) (rows : list A) : list A :=
  match rows with
  | r :: _ => (saved ++ [r])%list
  | [] => saved
  end.

Definition with_data (d : db) (s : state) : state :=
  {| data := d; snapshot := snapshot s; activeFetches := activeFetches s |}.

(** [query('BEGIN')]: opens a transaction; inside one it changes nothing. *)
Definition BEGIN : M unit :=
  fun s =>
    match snapshot s with
    | None => (Ok tt, {| data := data s; snapshot := Some (data s);
                         activeFetches := activeFetches s |})
    | Some _ => (Ok tt, s)
    end.

(** [query('COMMIT')] *)
Definition COMMIT : M unit :=
  fun s => (Ok tt, {| data := data s; snapshot := None;
                      activeFetches := activeFetches s |}).

(** [query('ROLLBACK')] *)
Definition ROLLBACK : M unit :=
  fun s =>
    match snapshot s with
    | Some d => (Ok tt, {| data := d; snapshot := None;
                           activeFetches := activeFetches s |})
    | None => (Ok tt, s)
    end.

Definition has_active (key : string) : M bool :=
  fun s => (Ok (bool_decide (key ∈ activeFetches s)), s).

Definition add_active (key : string) : M unit :=
  fun s => (Ok tt, {| data := data s; snapshot := snapshot s;
                      activeFetches := {[key]} ∪ activeFetches s |}).

Definition delete_active (key : string) : M unit :=
  fun s => (Ok tt, {| data := data s; snapshot := snapshot s;
                      activeFetches := activeFetches s ∖ {[key]} |}).

Definition on_boards {A} (f : list board -> list board * A) (d : db) : db * A :=
  let '(t, a) := f (boards d) in (set_boards t d, a).
Definition on_universities {A} (f : list university -> list university * A) (d : db) : db * A :=
  let '(t, a) := f (universities d) in (set_universities t d, a).
Definition on_papers_stages {A} (f : list paper_stage -> list paper_stage * A) (d : db)
    : db * A :=
  let '(t, a) := f (papers_stages d) in (set_papers_stages t d, a).
Definition on_subjects {A} (f : list subject -> list subject * A) (d : db) : db * A :=
  let '(t, a) := f (subjects d) in (set_subjects t d, a).
Definition on_chapters {A} (f : list chapter -> list chapter * A) (d : db) : db * A :=
  let '(t, a) := f (chapters d) in (set_chapters t d, a).

(** The kind of a row statement, for the fault oracle below. *)
Inductive statement := Select | Update | Insert.

(** The responses the ingestion routes send: [res.json(...)] with the saved
    rows, or a status 400, 429 or 500 with its message. [Unhandled] stands
    for an exception that leaves the handler. *)
Inductive response (A : Type) :=
| Json200 (count : nat) (rows : list A)
| Status400
| Status429
| Status500
| Unhandled.
Arguments Json200 {A} count rows.
Arguments Status400 {A}.
Arguments Status429 {A}.
Arguments Status500 {A}.
Arguments Unhandled {A}.

Definition respond {A} (m : M (response A)) (s : state) : response A * state :=
  match m s with
  | (Ok r, s') => (r, s')
  | (Throw _, s') => (Unhandled, s')
  end.

(** Which row statements the store refuses (a value the column does not
    take, a violated foreign key, a lost connection) is given by an oracle
    [raises] on the kind of the statement and the name bound to it.
    [query] is [await query(text, params)] for a row statement. *)
Definition query {A} (raises : statement -> string -> bool)
    (kind : statement) (bound : string) (stmt : db -> db * A) : M A :=
  fun s =>
    if raises kind bound then (Throw "query failed", s)
    else let '(d, a) := stmt (data s) in (Ok a, with_data d s).

End Route.

(** ** routes/structure.js: the public fetch-out routes *)

Module Structure.
Import Sql Route.

(** One generated candidate as the fetch-out routes read it: [item.name]
    may be missing. *)
Record item := { name : option string }.

Record boards_body := { state_id : option Z; state_name : option string }.

Record subjects_body := {
  board_id : option Z; board_name : option string;
  class_id : option Z; class_name : option string;
  stream_id : option Z; stream_name : option string
}.

Record chapters_body := {
  subject_id : option Z; subject_name : option string;
  chapter_board_name : option string; chapter_class_name : option string
}.

Definition missing (v : option string) : bool := Js.is_empty (Js.or_string v EmptyString).

Definition template (v : option Z) : string :=
  match v with
  | Some n => pretty n
  | None => "undefined"
  end.

Definition nonSchoolKeywords : list string :=
  ["university"; "joint entrance"; "entrance examination"; "jee"; "neet";
   "council of higher"; "technical education"; "medical"; "engineering"; "college";
   "polytechnic"; "distance education"; "open university"; "deemed"; "affiliated"].

(** [(item.name || '').substring(0, 200).trim()] *)
Definition candidate_name (it : item) : string :=
  Js.trim (Js.substring0 200 (Js.or_string (name it) EmptyString)).

Section Faults.

Variable raises : statement -> string -> bool.

Definition fetch_out_boards_row (state_id : option Z) (it : item)
    (saved : list (Z * string)) : M (list (Z * string)) :=
  let name := candidate_name it in
  if Js.is_empty name then ret saved else
  let isNonSchoolBoard := Js.some_includes nonSchoolKeywords (Js.toLowerCase name) in
  if isNonSchoolBoard then ret saved else
  let* result := query raises Insert name (on_boards (upsert_board name state_id)) in
  ret (push_first saved result).

(** POST /fetch-out-boards, after [rateLimitMiddleware]; [generated] is
    what [generateSchoolBoards(state_name)] resolved to. *)
Definition fetch_out_boards (body : boards_body) (generated : list item)
    : M (response (Z * string)) :=
  if Js.falsy (state_id body) || missing (state_name body) then ret Status400 else
  let key := "boards_" +:+ template (state_id body) in
  let* held := has_active key in
  if held then ret Status429 else
  add_active key ;;
  try_finally
    (try_catch
       (let* saved := for_of generated (fetch_out_boards_row (state_id body)) [] in
        ret (Json200 (length saved) saved))
       (fun err => ret Status500))
    (delete_active key).

Definition fetch_out_subjects_row (board_id class_id stream_id : option Z) (it : item)
    (saved : list (Z * string)) : M (list (Z * string)) :=
  let name := candidate_name it in
  if Js.is_empty name then ret saved else
  let* existing :=
    query raises Select name
      (fun d => (d, select_existing_subjects board_id class_id (Js.or_null stream_id)
                      name (subjects d))) in
  match existing with
  | id :: _ =>
      query raises Update name (on_subjects (fun t => (update_subject_active id t, tt))) ;;
      ret (saved ++ [(id, name)])%list
  | [] =>
      let* result :=
        query raises Insert name
          (on_subjects (insert_subject_fetch_out name board_id class_id
                          (Js.or_null stream_id))) in
      ret (push_first saved result)
  end.

(** POST /fetch-out-subjects *)
Definition fetch_out_subjects (body : subjects_body) (generated : list item)
    : M (response (Z * string)) :=
  if Js.falsy (board_id body) || missing (board_name body)
     || Js.falsy (class_id body) || missing (class_name body) then ret Status400 else
  let key := "subjects_" +:+ template (board_id body) +:+ "_" +:+ template (class_id body)
             +:+ "_" +:+ (if Js.falsy (stream_id body) then "all"
                          else template (stream_id body)) in
  let* held := has_active key in
  if held then ret Status429 else
  add_active key ;;
  try_finally
    (try_catch
       (let* saved :=
          for_of generated
            (fetch_out_subjects_row (board_id body) (class_id body) (stream_id body)) [] in
        ret (Json200 (length saved) saved))
       (fun err => ret Status500))
    (delete_active key).

Definition fetch_out_chapters_row (subject_id : option Z) (it : item)
    (saved : list (Z * string)) : M (list (Z * string)) :=
  let name := candidate_name it in
  if Js.is_empty name then ret saved else
  let* existing :=
    query raises Select name
      (fun d => (d, select_existing_chapters subject_id name (chapters d))) in
  match existing with
  | id :: _ =>
      query raises Update name (on_chapters (fun t => (update_chapter_active id t, tt))) ;;
      ret (saved ++ [(id, name)])%list
  | [] =>
      let* result :=
        query raises Insert name (on_chapters (upsert_chapter name subject_id)) in
      ret (push_first saved result)
  end.

(** POST /fetch-out-chapters *)
Definition fetch_out_chapters (body : chapters_body) (generated : list item)
    : M (response (Z * string)) :=
  if Js.falsy (subject_id body) || missing (subject_name body)
     || missing (chapter_board_name body) || missing (chapter_class_name body)
  then ret Status400 else
  let key := "chapters_" +:+ template (subject_id body) in
  let* held := has_active key in
  if held then ret Status429 else
  add_active key ;;
  try_finally
    (try_catch
       (let* saved := for_of generated (fetch_out_chapters_row (subject_id body)) [] in
        ret (Json200 (length saved) saved))
       (fun err => ret Status500))
    (delete_active key).

End Faults.

End Structure.

(** ** routes/aiFetch.js: the admin ingestion routes *)

Module AiFetch.
Import Sql Route.

Record boards_body := { state_id : option Z; state_name : option string }.

Record papers_body := { papers_category_id : option Z; category_name : option string }.

Record subjects_body := {
  category_id : option Z; board_id : option Z; university_id : option Z;
  class_id : option Z; stream_id : option Z; semester_id : option Z;
  degree_type_id : option Z; paper_stage_id : option Z;
  context_name : option string
}.

Record chapters_body := { subject_id : option Z; subject_name : option string }.

(** [name.toLowerCase().includes(kind) || name.toLowerCase().includes('placeholder')] *)
Definition placeholder (kind : string) (name : string) : bool :=
  Js.includes (Js.toLowerCase name) kind || Js.includes (Js.toLowerCase name) "placeholder".

(** The transaction every admin route wraps around its loop:
    [await query('BEGIN'); try { body; await query('COMMIT') }
     catch (err) { await query('ROLLBACK'); throw err }] *)
Definition transaction {A} (body : M A) : M A :=
  BEGIN ;;
  try_catch
    (let* a := body in COMMIT ;; ret a)
    (fun err => ROLLBACK ;; throw err).

(** The outer [try { ... res.json({message, data: saved}) }
    catch (error) { res.status(500).json({message: error.message}) }] *)
Definition handler {A} (work : M (list A)) : M (response A) :=
  try_catch
    (let* saved := work in ret (Json200 (length saved) saved))
    (fun error => ret Status500).

Section Faults.

Variable raises : statement -> string -> bool.

Definition boards_row (state_id : option Z) (name : string) (saved : list board)
    : M (list board) :=
  if placeholder "board " name then ret saved else
  let* result :=
    query raises Insert name (on_boards (insert_board_do_nothing name state_id true)) in
  ret (push_first saved result).

(** POST /ai-fetch/boards; [boards] is what [fetchAIStructure] resolved
    to, an array of strings. *)
Definition post_boards (body : boards_body) (boards : list string) : M (response board) :=
  handler (transaction (for_of boards (boards_row (state_id body)) [])).

Definition universities_row (state_id : option Z) (name : string)
    (saved : list university) : M (list university) :=
  if placeholder "university " name then ret saved else
  let* result :=
    query raises Insert name
      (on_universities (insert_university_do_nothing name state_id false)) in
  ret (push_first saved result).

(** POST /ai-fetch/universities *)
Definition post_universities (body : boards_body) (universities : list string)
    : M (response university) :=
  handler (transaction (for_of universities (universities_row (state_id body)) [])).

Definition papers_row (category_id : option Z) (name : string)
    (saved : list paper_stage) : M (list paper_stage) :=
  let* result :=
    query raises Insert name
      (on_papers_stages (insert_paper_stage_do_nothing name category_id false)) in
  ret (push_first saved result).

(** POST /ai-fetch/papers *)
Definition post_papers (body : papers_body) (papers : list string)
    : M (response paper_stage) :=
  handler (transaction (for_of papers (papers_row (papers_category_id body)) [])).

Definition subjects_row (body : subjects_body) (name : string) (saved : list subject)
    : M (list subject) :=
  if placeholder "subject " name then ret saved else
  let* result :=
    query raises Insert name
      (on_subjects
         (insert_subject_where_not_exists name (category_id body) (board_id body)
            (university_id body) (class_id body) (stream_id body) (semester_id body)
            (degree_type_id body) (paper_stage_id body))) in
  ret (push_first saved result).

(** POST /ai-fetch/subjects *)
Definition post_subjects (body : subjects_body) (subjects : list string)
    : M (response subject) :=
  handler (transaction (for_of subjects (subjects_row body) [])).

Definition chapters_row (subject_id : option Z) (name : string) (saved : list chapter)
    : M (list chapter) :=
  if placeholder "chapter " name then ret saved else
  let* result :=
    query raises Insert name
      (on_chapters (insert_chapter_do_nothing name subject_id true)) in
  ret (push_first saved result).

(** POST /ai-fetch/chapters *)
Definition post_chapters (body : chapters_body) (chapters : list string)
    : M (response chapter) :=
  handler (transaction (for_of chapters (chapters_row (subject_id body)) [])).

End Faults.

End AiFetch.

(** ** services/aiService.js: the generation client *)

Module AiService.
Import Route.

(** A value as [JSON.parse] yields it. *)
#[warnings="-register-all"]
Inductive json :=
| JNull
| JBool (b : bool)
| JNumber (n : Z)
| JString (s : string)
| JArray (elements : list json)
| JObject (fields : list (string * json)).

(** A row of [ai_providers]. *)
Record provider := {
  api_key : option string;
  model_name : string;
  base_url : string
}.

(** What [axios.post] does: it rejects without a response, or a response
    arrives with a status code; [text] is
    [response.data?.candidates?.[0]?.content?.parts?.[0]?.text]. *)
Inductive http :=
| NetworkError
| Response (code : nat) (text : option string).

(** The collaborators of the client: the provider lookup ([None] when the
    query itself raises), the provider's endpoint, and [JSON.parse]
    ([None] when it raises a SyntaxError). *)
Record env := {
  ai_providers : option (list provider);
  post : string -> string -> http;
  JSON_parse : string -> option json
}.

Definition dquote : string := String (ascii_of_nat 34) EmptyString.
Definition backticks : string :=
  String (ascii_of_nat 96) (String (ascii_of_nat 96) (String (ascii_of_nat 96) EmptyString)).

(** [s.replace(/pat/g, '')] for a literal, non-empty pattern: [skip] counts
    the characters of a match still to drop. *)
Fixpoint remove_all_from (pat : string) (skip : nat) (s : string) : string :=
  match s with
  | EmptyString => EmptyString
  | String c s' =>
      match skip with
      | S k => remove_all_from pat k s'
      | O =>
          if Js.startsWith s pat then remove_all_from pat (String.length pat - 1) s'
          else String c (remove_all_from pat 0 s')
      end
  end.

Definition remove_all (pat : string) (s : string) : string := remove_all_from pat 0 s.

(** [responseText.replace(/```json/g, '').replace(/```/g, '').trim()] *)
Definition cleanText (responseText : string) : string :=
  Js.trim (remove_all backticks (remove_all (backticks +:+ "json") responseText)).

(** JavaScript truthiness of a parsed value. *)
Definition truthy (v : json) : bool :=
  match v with
  | JNull => false
  | JBool b => b
  | JNumber n => negb (n =? 0)
  | JString s => negb (Js.is_empty s)
  | JArray _ | JObject _ => true
  end.

Fixpoint lookup_field (key : string) (fields : list (string * json)) : option json :=
  match fields with
  | [] => None
  | (k, v) :: rest => if String.eqb k key then Some v else lookup_field key rest
  end.

(** [v.key]: a TypeError on null, undefined ([None]) where the property
    is absent. *)
Definition property (v : json) (key : string) : outcome (option json) :=
  match v with
  | JNull => Throw "TypeError"
  | JObject fields => Ok (lookup_field key fields)
  | _ => Ok None
  end.

(** [a || b || []] over two property reads. *)
Definition first_truthy (a b : option json) : json :=
  match a with
  | Some v => if truthy v then v else
      match b with
      | Some w => if truthy w then w else JArray []
      | None => JArray []
      end
  | None =>
      match b with
      | Some w => if truthy w then w else JArray []
      | None => JArray []
      end
  end.

(** [Array.isArray(parsedData) ? parsedData : (parsedData.k1 || parsedData.k2 || [])] *)
Definition normalize (k1 k2 : string) (parsedData : json) : outcome json :=
  match parsedData with
  | JArray _ => Ok parsedData
  | _ =>
      match property parsedData k1, property parsedData k2 with
      | Ok a, Ok b => Ok (first_truthy a b)
      | Throw e, _ | _, Throw e => Throw e
      end
  end.

Definition configured (rows : list provider) : option provider :=
  match rows with
  | p :: _ => if Js.is_empty (Js.or_string (api_key p) EmptyString) then None else Some p
  | [] => None
  end.

Definition endpoint (p : provider) : string :=
  base_url p +:+ "/" +:+ model_name p +:+ ":generateContent?key="
    +:+ Js.or_string (api_key p) EmptyString.

Definition structure_prompt (type context : string) : string :=
  "Generate a list of exactly 10 " +:+ type +:+ " for the following context: " +:+ dquote
    +:+ context +:+ dquote +:+ ". 
        Return the result as a valid JSON array of strings. 
        Example: [" +:+ dquote +:+ "Item 1" +:+ dquote +:+ ", " +:+ dquote +:+ "Item 2"
    +:+ dquote +:+ ", ...]
        Return ONLY the JSON.".

(** [fallbackMockStructure] *)
Definition fallbackMockStructure (type context : string) : json :=
  JArray
    [JString ("Sample " +:+ type +:+ " 1 (" +:+ context +:+ ")");
     JString ("Sample " +:+ type +:+ " 2 (" +:+ context +:+ ")");
     JString ("Sample " +:+ type +:+ " 3 (" +:+ context +:+ ")");
     JString ("Sample " +:+ type +:+ " 4 (" +:+ context +:+ ")");
     JString ("Sample " +:+ type +:+ " 5 (" +:+ context +:+ ")")].

(** The [try] block of [fetchAIStructure]: its outcome and the number of
    outbound calls it made. *)
Definition fetchAIStructure_try (w : env) (type context : string) : outcome json * nat :=
  match ai_providers w with
  | None => (Throw "query failed", 0%nat)
  | Some rows =>
      match configured rows with
      | None => (Throw "AI Provider not configured", 0%nat)
      | Some p =>
          match post w (endpoint p) (structure_prompt type context) with
          | NetworkError => (Throw "Network Error", 1%nat)
          | Response code text =>
              if ((200 <=? code) && (code <? 300))%nat then
                let responseText := Js.or_string text EmptyString in
                if Js.is_empty responseText then (Throw "Empty AI response", 1%nat)
                else
                  match JSON_parse w (cleanText responseText) with
                  | None => (Throw "SyntaxError", 1%nat)
                  | Some parsedData => (normalize "items" "list" parsedData, 1%nat)
                  end
              else (Throw "Request failed", 1%nat)
          end
      end
  end.

(** [fetchAIStructure(type, context)]: the value it resolves to and the
    number of outbound calls. *)
Definition fetchAIStructure (w : env) (type context : string) : json * nat :=
  match fetchAIStructure_try w type context with
  | (Ok v, calls) => (v, calls)
  | (Throw _, calls) => (fallbackMockStructure type context, calls)
  end.

(** [b => typeof b === 'string' ? { name: b } : b] *)
Definition wrap_name (b : json) : json :=
  match b with
  | JString s => JObject [("name", b)]
  | _ => b
  end.

(** [Array.isArray(v) ? v.map(wrap_name) : []] *)
Definition as_named (v : json) : list json :=
  match v with
  | JArray l => map wrap_name l
  | _ => []
  end.

Definition boards_prompt (stateName : string) : string :=
  "Return a list of REAL, officially recognized primary/secondary school education boards in the state of "
    +:+ dquote +:+ stateName +:+ dquote +:+ ", India. 
    Examples: WBCHSE, CBSE, WBBSE, ICSE, MSBSHSE, UPMSP.
    - DO NOT generate placeholders like " +:+ dquote +:+ "Board 1" +:+ dquote +:+ " or "
    +:+ dquote +:+ "Board A" +:+ dquote +:+ ".
    - DO NOT use generic names.
    - Return exactly 10 boards if possible. 
    Return only a JSON array of objects with a " +:+ dquote +:+ "name" +:+ dquote +:+ " key.
    Example: [{" +:+ dquote +:+ "name" +:+ dquote +:+ ": " +:+ dquote +:+ "CBSE" +:+ dquote
    +:+ "}, {" +:+ dquote +:+ "name" +:+ dquote +:+ ": " +:+ dquote +:+ "WBBSE" +:+ dquote
    +:+ "}]
    Return ONLY JSON. STRICTLY NO MARKDOWN.".

(** [generateSchoolBoards(stateName)] *)
Definition generateSchoolBoards (w : env) (stateName : string) : list json * nat :=
  let '(boards, calls) := fetchAIStructure w "boards" (boards_prompt stateName) in
  (as_named boards, calls).

(** [streamName ? `(${streamName})` : ''] *)
Definition stream_part (streamName : option string) : string :=
  match streamName with
  | Some s => if Js.is_empty s then EmptyString else "(" +:+ s +:+ ")"
  | None => EmptyString
  end.

Definition subjects_prompt (boardName className : string) (streamName : option string)
    : string :=
  "Return a list of STRICTLY syllabus-accurate subjects for " +:+ className +:+ " "
    +:+ stream_part streamName +:+ " under the REAL " +:+ dquote +:+ boardName +:+ dquote
    +:+ " education board in India.
    - DO NOT use placeholders like " +:+ dquote +:+ "Subject 1" +:+ dquote +:+ ".
    - Use real academic subjects (e.g., Mathematics, Bengali, Physics, History).
    Return only a JSON array of objects with a " +:+ dquote +:+ "name" +:+ dquote +:+ " key.
    Example: [{" +:+ dquote +:+ "name" +:+ dquote +:+ ": " +:+ dquote +:+ "Mathematics"
    +:+ dquote +:+ "}, {" +:+ dquote +:+ "name" +:+ dquote +:+ ": " +:+ dquote
    +:+ "Physics" +:+ dquote +:+ "}]
    Return ONLY JSON. STRICTLY NO MARKDOWN.".

(** [generateSchoolSubjects(boardName, className, streamName)] *)
Definition generateSchoolSubjects (w : env) (boardName className : string)
    (streamName : option string) : list json * nat :=
  let '(subjects, calls) :=
    fetchAIStructure w "subjects" (subjects_prompt boardName className streamName) in
  (as_named subjects, calls).

Definition chapters_prompt (subjectName boardName className : string) : string :=
  "Return a list of OFFICIALLY CORRECT chapters for the subject " +:+ dquote
    +:+ subjectName +:+ dquote +:+ " in " +:+ className +:+ " of the " +:+ boardName
    +:+ " board in India.
    - DO NOT use placeholders like " +:+ dquote +:+ "Chapter 1" +:+ dquote +:+ ".
    - Use real, specific chapter names from the authorized textbook syllabus.
    Return only a JSON array of objects with a " +:+ dquote +:+ "name" +:+ dquote +:+ " key.
    Example: [{" +:+ dquote +:+ "name" +:+ dquote +:+ ": " +:+ dquote +:+ "Trigonometry"
    +:+ dquote +:+ "}, {" +:+ dquote +:+ "name" +:+ dquote +:+ ": " +:+ dquote
    +:+ "Calculus" +:+ dquote +:+ "}]
    Return ONLY JSON. STRICTLY NO MARKDOWN.".

(** [generateSchoolChapters(subjectName, boardName, className)] *)
Definition generateSchoolChapters (w : env) (subjectName boardName className : string)
    : list json * nat :=
  let '(chapters, calls) :=
    fetchAIStructure w "chapters" (chapters_prompt subjectName boardName className) in
  (as_named chapters, calls).

(** [v.slice(0, count)] *)
Definition slice0 (count : nat) (v : json) : outcome json :=
  match v with
  | JArray l => Ok (JArray (firstn count l))
  | JString s => Ok (JString (Js.substring0 count s))
  | _ => Throw "TypeError"
  end.

Definition mock_mcq (topic : string) (i : nat) : json :=
  JObject
    [("question", JString ("[MOCK] " +:+ topic +:+ " practice question "
                             +:+ pretty (i + 1)%nat +:+ "?"));
     ("options", JArray [JString "Option 1"; JString "Option 2";
                         JString "Option 3"; JString "Option 4"]);
     ("correct_option", JNumber 0);
     ("explanation", JString ("This is a fallback mock explanation for " +:+ topic
                                +:+ ". Please check AI API configuration."));
     ("subject", JString topic);
     ("chapter", JString "General")].

(** [fallbackMock(topic, count)] *)
Definition fallbackMock (topic : string) (count : nat) : json :=
  JArray (map (mock_mcq topic) (seq 0 count)).

Definition mcq_prompt (topic : string) (count : nat) : string :=
  "Generate exactly " +:+ pretty count
    +:+ " multiple-choice questions (MCQs) about the topic: " +:+ dquote +:+ topic
    +:+ dquote +:+ ". 
        The output must be a valid JSON array of objects. Each object must have:
        - " +:+ dquote +:+ "question" +:+ dquote +:+ ": (string) The MCQ question.
        - " +:+ dquote +:+ "options" +:+ dquote
    +:+ ": (array of 4 strings) Four distinct options.
        - " +:+ dquote +:+ "correct_option" +:+ dquote
    +:+ ": (integer, 0-3) The index of the correct option.
        - " +:+ dquote +:+ "explanation" +:+ dquote
    +:+ ": (string) A detailed explanation of why the answer is correct.
        - " +:+ dquote +:+ "subject" +:+ dquote +:+ ": (string) Set as " +:+ dquote
    +:+ topic +:+ dquote +:+ ".
        - " +:+ dquote +:+ "chapter" +:+ dquote
    +:+ ": (string) A logical chapter name related to the topic.
        
        Return ONLY the JSON array. Do not include markdown formatting like ```json.".

(** The [try] block of [generateMCQInitial]. With no provider it returns
    the mock directly. *)
Definition generateMCQInitial_try (w : env) (topic : string) (count : nat)
    : outcome json * nat :=
  match ai_providers w with
  | None => (Throw "query failed", 0%nat)
  | Some rows =>
      match configured rows with
      | None => (Ok (fallbackMock topic count), 0%nat)
      | Some p =>
          match post w (endpoint p) (mcq_prompt topic count) with
          | NetworkError => (Throw "Network Error", 1%nat)
          | Response code text =>
              if ((200 <=? code) && (code <? 300))%nat then
                let responseText := Js.or_string text EmptyString in
                if Js.is_empty responseText
                then (Throw "AI Provider returned an empty response", 1%nat)
                else
                  match JSON_parse w (cleanText responseText) with
                  | None => (Throw "AI output was not valid JSON", 1%nat)
                  | Some parsedData =>
                      match normalize "mcqs" "questions" parsedData with
                      | Ok mcqs =>
                          match slice0 count mcqs with
                          | Ok v => (Ok v, 1%nat)
                          | Throw _ => (Throw "AI output was not valid JSON", 1%nat)
                          end
                      | Throw _ => (Throw "AI output was not valid JSON", 1%nat)
                      end
                  end
              else (Throw "Request failed", 1%nat)
          end
      end
  end.

(** [generateMCQInitial(topic, count)] *)
Definition generateMCQInitial (w : env) (topic : string) (count : nat) : json * nat :=
  match generateMCQInitial_try w topic count with
  | (Ok v, calls) => (v, calls)
  | (Throw _, calls) => (fallbackMock topic count, calls)
  end.

End AiService.

(** ** Requests taking turns

    A handler runs without interruption between two [await]s.  An [async]
    function is a tree of synchronous effects and [await]s; a request that
    arrives runs up to its first [await], a suspended request that is
    resumed runs up to its next one or to its end, and between two turns of
    one request any other request may take its turn. *)

Module Concurrent.
Import Route.

(** The guard of a fetch-out route, as one uninterrupted step. *)
Definition acquire (key : string) : M bool :=
  let* held := has_active key in
  if held then ret false else add_active key ;; ret true.

(** The shape the three fetch-out routes share after validation. *)
Definition guarded {A} (key : string) (body : M (response A)) : M (response A) :=
  let* ok := acquire key in
  if ok then try_finally body (delete_active key) else ret Status429.

(** An [async] function as the event loop runs it: the synchronous
    effects on the state of the process, and the points ([await]) where the
    function gives way and the other requests may run. *)
Inductive prog (A : Type) : Type :=
| Return (a : A)
| Raise (e : string)
| Do {X : Type} (m : M X) (k : outcome X -> prog A)
| Await (k : prog A).
Arguments Return {A} a.
Arguments Raise {A} e.
Arguments Do {A X} m k.
Arguments Await {A} k.

(** A synchronous statement, whose exception is raised on the spot. *)
Definition sync {X A} (m : M X) (k : X -> prog A) : prog A :=
  Do m (fun o => match o with Ok x => k x | Throw e => Raise e end).

(** [await query(...)]: the function gives way, the statement takes effect
    on the store when the pool runs it, and the function is resumed with
    the result, or the exception, at a later turn of the loop. *)
Definition await {X} (m : M X) : prog X :=
  Await (Do m (fun o => Await (match o with Ok x => Return x | Throw e => Raise e end))).

Fixpoint andThen {A B} (p : prog A) (f : A -> prog B) : prog B :=
  match p with
  | Return a => f a
  | Raise e => Raise e
  | Do m k => Do m (fun o => andThen (k o) f)
  | Await k => Await (andThen k f)
  end.

(** [try { p } catch (err) { h err }] *)
Fixpoint tryCatch {A} (p : prog A) (h : string -> prog A) : prog A :=
  match p with
  | Return a => Return a
  | Raise e => h e
  | Do m k => Do m (fun o => tryCatch (k o) h)
  | Await k => Await (tryCatch k h)
  end.

(** [try { p } finally { f }], for a [finally] block without [await]. *)
Fixpoint tryFinally {A} (p : prog A) (f : M unit) : prog A :=
  match p with
  | Return a => Do f (fun o => match o with Ok _ => Return a | Throw e => Raise e end)
  | Raise e => Do f (fun o => match o with Ok _ => Raise e | Throw e' => Raise e' end)
  | Do m k => Do m (fun o => tryFinally (k o) f)
  | Await k => Await (tryFinally k f)
  end.

(** [for (const x of l) { acc = body x acc }] with [await] in the body. *)
Fixpoint forOf {X S : Type} (l : list X) (body : X -> S -> prog S) (acc : S) : prog S :=
  match l with
  | [] => Return acc
  | x :: l' => andThen (body x acc) (forOf l' body)
  end.

(** The function run alone, with no other request between its turns. *)
Fixpoint run {A} (p : prog A) (s : state) : outcome A * state :=
  match p with
  | Return a => (Ok a, s)
  | Raise e => (Throw e, s)
  | Do m k => let '(o, s') := m s in run (k o) s'
  | Await k => run k s
  end.

(** A request is suspended at an [await], with what remains to run, or it
    has finished. *)
Inductive status (A : Type) : Type :=
| Suspended (k : prog A)
| Finished (o : outcome A).
Arguments Suspended {A} k.
Arguments Finished {A} o.

(** One turn of the event loop for one function: it runs up to its next
    [await] or to its end. *)
Fixpoint advance {A} (p : prog A) (s : state) : status A * state :=
  match p with
  | Return a => (Finished (Ok a), s)
  | Raise e => (Finished (Throw e), s)
  | Do m k => let '(o, s') := m s in advance (k o) s'
  | Await k => (Suspended k, s)
  end.

(** The function leaves [activeFetches] alone; with [may_raise] false, no
    exception leaves it either. *)
Inductive calm {A : Type} (may_raise : bool) : prog A -> Prop :=
| calm_Return (a : A) : calm may_raise (Return a)
| calm_Raise (e : string) : may_raise = true -> calm may_raise (Raise e)
| calm_Do {X : Type} (m : M X) (k : outcome X -> prog A) :
    (forall s, activeFetches (m s).2 = activeFetches s) ->
    (forall o, calm may_raise (k o)) ->
    calm may_raise (Do m k)
| calm_Await (k : prog A) : calm may_raise k -> calm may_raise (Await k).

(** The process: the shared state, and the requests received so far, each
    with what it asked for. *)
Record system (L A : Type) := {
  shared : state;
  requests : list (L * status A)
}.
Arguments shared {L A} _.
Arguments requests {L A} _.

Definition initial {L A} (d : Sql.db) : system L A :=
  {| shared := {| data := d; snapshot := None; activeFetches := ∅ |};
     requests := [] |}.

Section Server.

Context {L A : Type}.
Variable handler : L -> prog A.

(** A request arrives: its handler runs up to its first [await]. *)
Definition arrive (l : L) (σ : system L A) : system L A :=
  let '(st, s') := advance (handler l) (shared σ) in
  {| shared := s'; requests := (requests σ ++ [(l, st)])%list |}.

(** The suspended request [i] is resumed and runs up to its next [await]. *)
Definition resume (i : nat) (l : L) (k : prog A) (σ : system L A) : system L A :=
  let '(st, s') := advance k (shared σ) in
  {| shared := s'; requests := <[i := (l, st)]> (requests σ) |}.

(** Another route, or another process, changes the rows. *)
Definition elsewhere (d : Sql.db) (σ : system L A) : system L A :=
  {| shared := with_data d (shared σ); requests := requests σ |}.

Inductive step : system L A -> system L A -> Prop :=
| step_arrive (σ : system L A) (l : L) : step σ (arrive l σ)
| step_resume (σ : system L A) (i : nat) (l : L) (k : prog A) :
    requests σ !! i = Some (l, Suspended k) ->
    step σ (resume i l k σ)
| step_elsewhere (σ : system L A) (d : Sql.db) : step σ (elsewhere d σ).

Inductive reachable (d : Sql.db) : system L A -> Prop :=
| reachable_initial : reachable d (initial d)
| reachable_step (σ σ' : system L A) : reachable d σ -> step σ σ' -> reachable d σ'.

End Server.

End Concurrent.

(** ** routes/structure.js: the public browsing routes *)

Module Browse.
Import Sql Route.

(** [safeFetch(q, params, res)]: the rows, or status 500 with an empty
    [data] when the query raises. *)
Definition safeFetch {A} (run : M (list A)) : M (response A) :=
  try_catch
    (let* rows := run in ret (Json200 (length rows) rows))
    (fun error => ret Status500).

Section Collation.

(** The order of [ORDER BY name ASC] is the collation of the database. *)
Variable name_le : string -> string -> bool.

Fixpoint insert_by_name (x : Z * string) (l : list (Z * string)) : list (Z * string) :=
  match l with
  | [] => [x]
  | y :: l' => if name_le x.2 y.2 then x :: y :: l' else y :: insert_by_name x l'
  end.

(** [ORDER BY name ASC] on the selected [(id, name)] pairs. *)
Fixpoint order_by_name (l : list (Z * string)) : list (Z * string) :=
  match l with
  | [] => []
  | x :: l' => insert_by_name x (order_by_name l')
  end.

Variable raises : statement -> string -> bool.

(** [SELECT id, name FROM boards WHERE state_id = $1 AND is_active = TRUE
     ORDER BY name ASC] *)
Definition select_boards (p1 : sqlint) (t : list board) : list (Z * string) :=
  order_by_name
    (map (fun r => (board_id r, board_name r))
         (List.filter
            (fun r => holds (and3 (eq_int (board_state_id r) p1) (Some (board_is_active r))))
            t)).

(** GET /boards/:state_id; [state_id] is the number of the path segment. *)
Definition get_boards (state_id : Z) : M (response (Z * string)) :=
  safeFetch
    (query raises Select (pretty state_id)
       (fun d => (d, select_boards (Some state_id) (boards d)))).

(** [SELECT id, name FROM subjects WHERE class_id = $1 AND is_active = TRUE
     ORDER BY name ASC] *)
Definition select_subjects_of_class (p1 : sqlint) (t : list subject) : list (Z * string) :=
  order_by_name
    (map (fun r => (subject_id r, subject_name r))
         (List.filter
            (fun r => holds (and3 (eq_int (subject_class_id r) p1)
                                  (Some (subject_is_active r))))
            t)).

(** GET /subjects/:class_id *)
Definition get_subjects_of_class (class_id : Z) : M (response (Z * string)) :=
  safeFetch
    (query raises Select (pretty class_id)
       (fun d => (d, select_subjects_of_class (Some class_id) (subjects d)))).

(** [SELECT id, name FROM chapters WHERE subject_id = $1 AND is_active = TRUE
     ORDER BY name ASC] *)
Definition select_chapters (p1 : sqlint) (t : list chapter) : list (Z * string) :=
  order_by_name
    (map (fun r => (chapter_id r, chapter_name r))
         (List.filter
            (fun r => holds (and3 (eq_int (chapter_subject_id r) p1)
                                  (Some (chapter_is_active r))))
            t)).

(** GET /chapters/:subject_id *)
Definition get_chapters (subject_id : Z) : M (response (Z * string)) :=
  safeFetch
    (query raises Select (pretty subject_id)
       (fun d => (d, select_chapters (Some subject_id) (chapters d)))).

(** The columns GET /subjects can filter on. *)
Inductive column :=
| category_id | board_id | class_id | stream_id | university_id | semester_id
| paper_stage_id.

Definition column_of (c : column) (r : subject) : sqlint :=
  match c with
  | category_id => subject_category_id r
  | board_id => subject_board_id r
  | class_id => subject_class_id r
  | stream_id => subject_stream_id r
  | university_id => subject_university_id r
  | semester_id => subject_semester_id r
  | paper_stage_id => subject_paper_stage_id r
  end.

(** The query under construction: the conditions [AND column = $n] appended
    to [q] so far, and [params]. *)
Record building := {
  conditions : list (column * nat);
  params : list Z
}.

(** [if (v) { params.push(v); q += ` AND column = $${params.length}`; }]
    A query-string value is a string: it counts as given unless it is
    missing or empty, so [Some 0] is a filter. *)
Definition push_filter (c : column) (v : option Z) (q : building) : building :=
  match v with
  | Some x =>
      let params' := (params q ++ [x])%list in
      {| conditions := (conditions q ++ [(c, length params')])%list; params := params' |}
  | None => q
  end.

(** [req.query] of GET /subjects. *)
Record subjects_query := {
  q_category_id : option Z; q_board_id : option Z; q_class_id : option Z;
  q_stream_id : option Z; q_university_id : option Z; q_semester_id : option Z;
  q_paper_stage_id : option Z
}.

Definition build (rq : subjects_query) : building :=
  push_filter paper_stage_id (q_paper_stage_id rq)
    (push_filter semester_id (q_semester_id rq)
       (push_filter university_id (q_university_id rq)
          (push_filter stream_id (q_stream_id rq)
             (push_filter class_id (q_class_id rq)
                (push_filter board_id (q_board_id rq)
                   (push_filter category_id (q_category_id rq)
                      {| conditions := []; params := [] |})))))).

(** [$n] is the [n]-th parameter; an unbound placeholder is NULL here (the
    store would refuse the statement). *)
Definition placeholder (ps : list Z) (n : nat) : sqlint :=
  match n with
  | O => None
  | S k => nth_error ps k
  end.

(** The WHERE clause of the built query on one row:
    [is_active = TRUE AND column = $n AND ...] *)
Definition built_where (q : building) (r : subject) : option bool :=
  fold_left
    (fun acc cn => and3 acc (eq_int (column_of cn.1 r) (placeholder (params q) cn.2)))
    (conditions q) (Some (subject_is_active r)).

(** [SELECT id, name FROM subjects WHERE ... ORDER BY name ASC] *)
Definition select_subjects (q : building) (t : list subject) : list (Z * string) :=
  order_by_name
    (map (fun r => (subject_id r, subject_name r))
         (List.filter (fun r => holds (built_where q r)) t)).

(** GET /subjects *)
Definition get_subjects (rq : subjects_query) : M (response (Z * string)) :=
  safeFetch
    (query raises Select EmptyString
       (fun d => (d, select_subjects (build rq) (subjects d)))).

End Collation.

End Browse.

(** ** server.js: the CORS origin callback *)

Module Server.

(** [list.filter(Boolean)] on possibly undefined strings. *)
Fixpoint filter_Boolean (l : list (option string)) : list string :=
  match l with
  | [] => []
  | v :: l' =>
      match v with
      | Some s => if Js.is_empty s then filter_Boolean l' else s :: filter_Boolean l'
      | None => filter_Boolean l'
      end
  end.

(** [allowedOrigins], given [process.env.FRONTEND_URL]. *)
Definition allowedOrigins (FRONTEND_URL : option string) : list string :=
  filter_Boolean
    [ FRONTEND_URL; Some "http://localhost:5173"; Some "http://localhost:3000";
      Some "http://localhost:4173" ].

(** [list.indexOf(x)] *)
Fixpoint indexOf_from (i : Z) (x : string) (l : list string) : Z :=
  match l with
  | [] => -1
  | y :: l' => if String.eqb y x then i else indexOf_from (i + 1) x l'
  end.

Definition indexOf (l : list string) (x : string) : Z := indexOf_from 0 x l.

(** What the callback is called with: [callback(null, true)] or
    [callback(new Error(message))]. *)
Inductive decision :=
| Allowed
| Refused (message : string).

(** The [origin] function of the CORS options; [origin] is the request's
    Origin header, undefined when the header is absent. *)
Definition origin (FRONTEND_URL : option string) (origin : option string) : decision :=
  match origin with
  | None => Allowed
  | Some o =>
      if Js.is_empty o then Allowed
      else if Js.startsWith o "http://localhost" || Js.startsWith o "http://127.0.0.1"
      then Allowed
      else if negb (indexOf (allowedOrigins FRONTEND_URL) o =? -1) then Allowed
      else if Js.includes o "vercel.app" then Allowed
      else Refused "Not allowed by CORS"
  end.

End Server.

(** ** routes/admin.js and middleware: providers, settings, subscriptions *)

Module Admin.

(** A field of a JSON request body, as far as these routes tell values
    apart: missing, null, a boolean, an integer, a string.  [Number n]
    stands for the number [JSON.parse] makes of the numeral [n], which is
    [n] itself for the safe integers, from -(2^53 - 1) to 2^53 - 1; beyond
    them the parsed number is a rounding of [n]. *)
Inductive value :=
| Undefined
| Null
| Bool (b : bool)
| Number (n : Z)
| Text (s : string).

(** [String(v)].  For a number this is the text of a safe integer, its
    decimal digits; JavaScript prints a number from 1e21 on with an
    exponent, and a numeral beyond the safe integers is rounded before it
    is printed, which this function does not describe. *)
Definition String_of (v : value) : string :=
  match v with
  | Undefined => "undefined"
  | Null => "null"
  | Bool true => "true"
  | Bool false => "false"
  | Number n => pretty n
  | Text s => s
  end.

(** A row of a table whose columns the routes do not name: [SELECT *]. *)
Definition row : Type := list (string * value).

(** A row of [ai_providers]. *)
Record ai_provider := {
  ai_id : Z;
  ai_name : option string;
  ai_base_url : option string;
  ai_api_key : option string;
  ai_model_name : option string;
  ai_is_active : option bool
}.

(** The columns of [users] that the subscription route and the
    subscription check read or write; times are milliseconds. *)
Record user := {
  user_id : Z;
  role : string;
  is_premium : option bool;
  sessions_left : option Z;
  premium_expiry : option Z
}.

Record store := {
  ai_providers : list ai_provider;
  system_settings : list (string * string);
  legal_pages : list row;
  payment_gateway_settings : list row;
  users : list user
}.

Definition set_ai_providers (t : list ai_provider) (s : store) : store :=
  {| ai_providers := t; system_settings := system_settings s; legal_pages := legal_pages s;
     payment_gateway_settings := payment_gateway_settings s; users := users s |}.

Definition set_system_settings (t : list (string * string)) (s : store) : store :=
  {| ai_providers := ai_providers s; system_settings := t; legal_pages := legal_pages s;
     payment_gateway_settings := payment_gateway_settings s; users := users s |}.

Definition set_users (t : list user) (s : store) : store :=
  {| ai_providers := ai_providers s; system_settings := system_settings s;
     legal_pages := legal_pages s;
     payment_gateway_settings := payment_gateway_settings s; users := t |}.

(** Handlers of this router: state passing over the store, with the
    exceptions of [await query(...)]. *)
Definition M (A : Type) : Type := store -> Route.outcome A * store.

Definition ret {A} (a : A) : M A := fun s => (Route.Ok a, s).

Definition bind {A B} (m : M A) (k : A -> M B) : M B :=
  fun s =>
    match m s with
    | (Route.Ok a, s') => k a s'
    | (Route.Throw e, s') => (Route.Throw e, s')
    end.

Definition throw {A} (e : string) : M A := fun s => (Route.Throw e, s).

(** [try { m } catch (err) { h err }] *)
Definition try_catch {A} (m : M A) (h : string -> M A) : M A :=
  fun s =>
    match m s with
    | (Route.Ok a, s') => (Route.Ok a, s')
    | (Route.Throw e, s') => h e s'
    end.

Local Notation "'let*' x ':=' m 'in' k" := (bind m (fun x => k))
  (at level 10, x name, m at level 100, k at level 200).
Local Notation "m ';;' k" := (bind m (fun _ => k))
  (at level 100, k at level 200, right associativity).

(** [for (const x of l) { await body(x) }] *)
Fixpoint for_of {X} (l : list X) (body : X -> M unit) : M unit :=
  match l with
  | [] => ret tt
  | x :: l' => body x ;; for_of l' body
  end.

(** These handlers have no [try]: the response is sent, or the handler's
    promise rejects and the handler sends nothing. *)
Inductive reply (A : Type) :=
| Sent (a : A)
| Rejected.
Arguments Sent {A} a.
Arguments Rejected {A}.

Definition handle {A} (m : M A) (s : store) : reply A * store :=
  match m s with
  | (Route.Ok a, s') => (Sent a, s')
  | (Route.Throw _, s') => (Rejected, s')
  end.

Section Faults.

(** Which statements the store refuses, by their text and parameters. *)
Variable raises : string -> list value -> bool.

Definition query {A} (sql : string) (params : list value) (stmt : store -> store * A)
    : M A :=
  fun s =>
    if raises sql params then (Route.Throw "query", s)
    else let '(s', a) := stmt s in (Route.Ok a, s').

(** *** AI management *)

(** [req.body] of PUT /ai-providers/:id; a missing field is bound as NULL. *)
Record provider_body := {
  body_base_url : option string;
  body_api_key : option string;
  body_model_name : option string;
  body_is_active : option bool
}.

Definition text (v : option string) : value :=
  match v with
  | Some s => Text s
  | None => Null
  end.

Definition boolean (v : option bool) : value :=
  match v with
  | Some b => Bool b
  | None => Null
  end.

(** [if (is_active)] *)
Definition truthy (v : option bool) : bool :=
  match v with
  | Some b => b
  | None => false
  end.

(** [UPDATE ai_providers SET is_active = FALSE] *)
Definition deactivate_all (t : list ai_provider) : list ai_provider :=
  map (fun r => {| ai_id := ai_id r; ai_name := ai_name r; ai_base_url := ai_base_url r;
                   ai_api_key := ai_api_key r; ai_model_name := ai_model_name r;
                   ai_is_active := Some false |}) t.

(** [UPDATE ai_providers SET base_url=$1, api_key=$2, model_name=$3,
     is_active=$4 WHERE id=$5] *)
Definition update_provider (body : provider_body) (id : Z) (t : list ai_provider)
    : list ai_provider :=
  map (fun r => if ai_id r =? id
                then {| ai_id := ai_id r; ai_name := ai_name r;
                        ai_base_url := body_base_url body;
                        ai_api_key := body_api_key body;
                        ai_model_name := body_model_name body;
                        ai_is_active := body_is_active body |}
                else r) t.

Definition deactivate_sql : string := "UPDATE ai_providers SET is_active = FALSE".

Definition update_provider_sql : string :=
  "UPDATE ai_providers SET base_url=$1, api_key=$2, model_name=$3, is_active=$4 WHERE id=$5".

(** [[base_url, api_key, model_name, is_active, req.params.id]] *)
Definition provider_params (body : provider_body) (id : Z) : list value :=
  [text (body_base_url body); text (body_api_key body); text (body_model_name body);
   boolean (body_is_active body); Number id].

(** PUT /ai-providers/:id *)
Definition put_ai_provider (body : provider_body) (id : Z) : M string :=
  (if truthy (body_is_active body)
   then query deactivate_sql []
          (fun s => (set_ai_providers (deactivate_all (ai_providers s)) s, tt))
   else ret tt) ;;
  query update_provider_sql (provider_params body id)
    (fun s => (set_ai_providers (update_provider body id (ai_providers s)) s, tt)) ;;
  ret "AI Provider updated".

(** routes/aiFetch.js, GET /providers:
    [SELECT id, name, model_name, is_active FROM ai_providers
     WHERE is_active = TRUE], inside [try], with status 500 in [catch]. *)
Record provider_view := {
  view_id : Z;
  view_name : option string;
  view_model_name : option string;
  view_is_active : option bool
}.

Definition providers_sql : string :=
  "SELECT id, name, model_name, is_active FROM ai_providers WHERE is_active = TRUE".

Definition select_providers (t : list ai_provider) : list provider_view :=
  map (fun r => {| view_id := ai_id r; view_name := ai_name r;
                   view_model_name := ai_model_name r; view_is_active := ai_is_active r |})
      (List.filter (fun r => Sql.holds (ai_is_active r)) t).

Definition get_providers : M (Route.response provider_view) :=
  try_catch
    (let* rows := query providers_sql [] (fun s => (s, select_providers (ai_providers s))) in
     ret (Route.Json200 (length rows) rows))
    (fun error => ret Route.Status500).

(** *** System settings *)

(** [INSERT INTO system_settings (key, value) VALUES ($1, $2)
     ON CONFLICT (key) DO UPDATE SET value = $2] *)
Definition upsert_sql : string :=
  "INSERT INTO system_settings (key, value) VALUES ($1, $2) ON CONFLICT (key) DO UPDATE SET value = $2".

Definition upsert_setting (key value : string) (t : list (string * string))
    : list (string * string) :=
  if existsb (fun r => String.eqb r.1 key) t
  then map (fun r => if String.eqb r.1 key then (r.1, value) else r) t
  else (t ++ [(key, value)])%list.

(** [await query(upsert_sql, [key, String(value)])] *)
Definition put_setting (kv : string * value) : M unit :=
  query upsert_sql [Text kv.1; Text (String_of kv.2)]
    (fun s => (set_system_settings
                 (upsert_setting kv.1 (String_of kv.2) (system_settings s)) s, tt)).

(** PUT /settings/global; [settings] is [Object.entries(req.body.settings)],
    which raises a TypeError when the field is missing. *)
Definition put_settings_global (settings : option (list (string * value))) : M string :=
  match settings with
  | None => throw "TypeError"
  | Some entries => for_of entries put_setting ;; ret "Settings updated"
  end.

(** PUT /settings/free-limit *)
Definition put_settings_free_limit (limit logic : value) : M string :=
  put_setting ("FREE_DAILY_LIMIT", limit) ;;
  put_setting ("FREE_LIMIT_RESET_LOGIC", logic) ;;
  ret "Free limit control updated".

(** [req.body] of PUT /settings/ads. *)
Record ads_body := {
  ADS_HEADER_SCRIPT : value;
  ADS_BODY_SCRIPT : value;
  ADS_TXT : value;
  ADS_ENABLED : value
}.

Definition ads_keys (body : ads_body) : list (string * value) :=
  [ ("ADS_HEADER_SCRIPT", ADS_HEADER_SCRIPT body);
    ("ADS_BODY_SCRIPT", ADS_BODY_SCRIPT body);
    ("ADS_TXT", ADS_TXT body);
    ("ADS_ENABLED", Text (String_of (ADS_ENABLED body))) ].

(** PUT /settings/ads *)
Definition put_settings_ads (body : ads_body) : M string :=
  for_of (ads_keys body) put_setting ;; ret "Ads settings updated".

(** [req.body] of PUT /settings/seo. *)
Record seo_body := {
  GA_ID : value;
  SEARCH_CONSOLE_CODE : value;
  META_TITLE : value;
  META_DESC : value;
  KEYWORDS : value
}.

Definition seo_keys (body : seo_body) : list (string * value) :=
  [ ("GOOGLE_ANALYTICS_ID", GA_ID body);
    ("GOOGLE_SEARCH_CONSOLE_CODE", SEARCH_CONSOLE_CODE body);
    ("META_TITLE", META_TITLE body);
    ("META_DESC", META_DESC body);
    ("META_KEYWORDS", KEYWORDS body) ].

(** PUT /settings/seo *)
Definition put_settings_seo (body : seo_body) : M string :=
  for_of (seo_keys body) put_setting ;; ret "SEO settings updated".

(** [Object.fromEntries(rows.map(r => [r.key, r.value]))]: a later entry
    replaces an earlier one with the same key. *)
Definition fromEntries (rows : list (string * string)) : gmap string string :=
  fold_left (fun m r => <[r.1 := r.2]> m) rows ∅.

(** The body of the response of GET /settings. *)
Record settings := {
  system : gmap string string;
  legal : list row;
  payment : list row
}.

(** GET /settings *)
Definition get_settings : M settings :=
  let* sys := query "SELECT * FROM system_settings" [] (fun s => (s, system_settings s)) in
  let* legal := query "SELECT * FROM legal_pages" [] (fun s => (s, legal_pages s)) in
  let* pay :=
    query "SELECT * FROM payment_gateway_settings" []
      (fun s => (s, payment_gateway_settings s)) in
  ret {| system := fromEntries sys; legal := legal; payment := pay |}.

(** *** Subscriptions *)

(** One hour of [INTERVAL '1 hour'], in milliseconds. *)
Definition hour : Z := 3600000.

(** [req.body.action === 'extend' ? 24 : -24] *)
Definition hours_of (action : value) : Z :=
  match action with
  | Text s => if String.eqb s "extend" then 24 else -24
  | _ => -24
  end.

(** [UPDATE users SET premium_expiry =
       COALESCE(premium_expiry, CURRENT_TIMESTAMP) + $1 * INTERVAL '1 hour',
     is_premium = TRUE WHERE id = $2] *)
Definition update_subscription (now hours id : Z) (t : list user) : list user :=
  map (fun u => if user_id u =? id
                then {| user_id := user_id u; role := role u; is_premium := Some true;
                        sessions_left := sessions_left u;
                        premium_expiry :=
                          Some (default now (premium_expiry u) + hours * hour) |}
                else u) t.

Definition subscription_sql : string :=
  "UPDATE users SET premium_expiry = COALESCE(premium_expiry, CURRENT_TIMESTAMP) + $1 * INTERVAL '1 hour', is_premium = TRUE WHERE id = $2".

(** PUT /users/:id/subscription; [now] is CURRENT_TIMESTAMP. *)
Definition put_user_subscription (now : Z) (action : value) (id : Z) : M string :=
  let hours := hours_of action in
  query subscription_sql [Number hours; Number id]
    (fun s => (set_users (update_subscription now hours id (users s)) s, tt)) ;;
  ret "Subscription updated".

End Faults.

(** [subscriptionCheck]: the value it stores in [req.isPremium] before it
    calls [next()], which it does on both branches; [now] is [new Date()]. *)
Definition subscriptionCheck (now : Z) (req_user : option user) : bool :=
  match req_user with
  | None => false
  | Some u =>
      String.eqb (role u) "admin"
      || (truthy (is_premium u)
          && (match sessions_left u with Some n => 0 <? n | None => false end
              || match premium_expiry u with Some t => now <? t | None => false end))
  end.

(** [SELECT * FROM ai_providers WHERE is_active = TRUE LIMIT 1], the lookup
    of the generation client, on this table. *)
Definition select_active_provider (t : list ai_provider) : list ai_provider :=
  firstn 1 (List.filter (fun r => Sql.holds (ai_is_active r)) t).

(** [`${v}`] for a column that may be NULL. *)
Definition template (v : option string) : string :=
  match v with
  | Some s => s
  | None => "null"
  end.

(** The row as the client destructures it. *)
Definition as_provider (r : ai_provider) : AiService.provider :=
  {| AiService.api_key := ai_api_key r;
     AiService.model_name := template (ai_model_name r);
     AiService.base_url := template (ai_base_url r) |}.

End Admin.

(** ** routes/structure.js: the fetch-out routes from the limiter to the response *)

Module Endpoint.
Import Route AiService.

(** [(item.name || '')] followed by [.substring(0, 200)], on one element of
    the generated array: reading a property of null raises a TypeError, and
    so does calling [substring] on a truthy value that is not a string. *)
Definition item_of (v : json) : outcome Structure.item :=
  match property v "name" with
  | Throw e => Throw e
  | Ok None => Ok {| Structure.name := None |}
  | Ok (Some n) =>
      if truthy n then
        match n with
        | JString s => Ok {| Structure.name := Some s |}
        | _ => Throw "TypeError"
        end
      else Ok {| Structure.name := None |}
  end.

(** One iteration of [for (const item of generated)], from the read of
    [item.name] on. *)
Definition reading {A} (row : Structure.item -> A -> M A) (v : json) (acc : A) : M A :=
  match item_of v with
  | Ok it => row it acc
  | Throw e => throw e
  end.

(** What the client receives: the 429 of the limiter, or the response of
    the handler. *)
Inductive answer (A : Type) :=
| Limited
| Handled (r : response A).
Arguments Limited {A}.
Arguments Handled {A} r.

(** The two stores of the process: [rateLimitMap], and the rows with
    [activeFetches]. *)
Record world := {
  rateLimitMap : gmap string RateLimit.record;
  server : state
}.

(** [router.post(path, rateLimitMiddleware, handler)]; the handler yields
    its response and the number of outbound calls it made. No handler
    below lets an exception leave its [try]. *)
Definition limited {A} (now : Z) (req : RateLimit.request) (handler : M (response A * nat))
    (g : world) : (answer A * nat) * world :=
  match RateLimit.rateLimitMiddleware now req (rateLimitMap g) with
  | (m, RateLimit.Status429) =>
      ((Limited, 0%nat), {| rateLimitMap := m; server := server g |})
  | (m, RateLimit.Next) =>
      match handler (server g) with
      | (Ok (r, calls), s) => ((Handled r, calls), {| rateLimitMap := m; server := s |})
      | (Throw _, s) => ((Handled Unhandled, 0%nat), {| rateLimitMap := m; server := s |})
      end
  end.

Section Faults.

Variable raises : statement -> string -> bool.
Variable w : env.

(** The handler of POST /fetch-out-boards. *)
Definition fetch_out_boards (body : Structure.boards_body) : M (response (Z * string) * nat) :=
  if Js.falsy (Structure.state_id body) || Structure.missing (Structure.state_name body)
  then ret (Status400, 0%nat) else
  let key := "boards_" +:+ Structure.template (Structure.state_id body) in
  let* held := has_active key in
  if held then ret (Status429, 0%nat) else
  add_active key ;;
  let generated :=
    generateSchoolBoards w (Js.or_string (Structure.state_name body) EmptyString) in
  try_finally
    (try_catch
       (let* saved :=
          for_of generated.1
            (reading (Structure.fetch_out_boards_row raises (Structure.state_id body))) [] in
        ret (Json200 (length saved) saved, generated.2))
       (fun err => ret (Status500, generated.2)))
    (delete_active key).

(** The handler of POST /fetch-out-subjects. *)
Definition fetch_out_subjects (body : Structure.subjects_body)
    : M (response (Z * string) * nat) :=
  if Js.falsy (Structure.board_id body) || Structure.missing (Structure.board_name body)
     || Js.falsy (Structure.class_id body) || Structure.missing (Structure.class_name body)
  then ret (Status400, 0%nat) else
  let key := "subjects_" +:+ Structure.template (Structure.board_id body) +:+ "_"
             +:+ Structure.template (Structure.class_id body) +:+ "_"
             +:+ (if Js.falsy (Structure.stream_id body) then "all"
                  else Structure.template (Structure.stream_id body)) in
  let* held := has_active key in
  if held then ret (Status429, 0%nat) else
  add_active key ;;
  let generated :=
    generateSchoolSubjects w (Js.or_string (Structure.board_name body) EmptyString)
      (Js.or_string (Structure.class_name body) EmptyString) (Structure.stream_name body) in
  try_finally
    (try_catch
       (let* saved :=
          for_of generated.1
            (reading (Structure.fetch_out_subjects_row raises (Structure.board_id body)
                        (Structure.class_id body) (Structure.stream_id body))) [] in
        ret (Json200 (length saved) saved, generated.2))
       (fun err => ret (Status500, generated.2)))
    (delete_active key).

(** The handler of POST /fetch-out-chapters. *)
Definition fetch_out_chapters (body : Structure.chapters_body)
    : M (response (Z * string) * nat) :=
  if Js.falsy (Structure.subject_id body) || Structure.missing (Structure.subject_name body)
     || Structure.missing (Structure.chapter_board_name body)
     || Structure.missing (Structure.chapter_class_name body)
  then ret (Status400, 0%nat) else
  let key := "chapters_" +:+ Structure.template (Structure.subject_id body) in
  let* held := has_active key in
  if held then ret (Status429, 0%nat) else
  add_active key ;;
  let generated :=
    generateSchoolChapters w (Js.or_string (Structure.subject_name body) EmptyString)
      (Js.or_string (Structure.chapter_board_name body) EmptyString)
      (Js.or_string (Structure.chapter_class_name body) EmptyString) in
  try_finally
    (try_catch
       (let* saved :=
          for_of generated.1
            (reading (Structure.fetch_out_chapters_row raises (Structure.subject_id body)))
            [] in
        ret (Json200 (length saved) saved, generated.2))
       (fun err => ret (Status500, generated.2)))
    (delete_active key).

End Faults.

End Endpoint.

(** ** routes/structure.js: the fetch-out handlers with their [await]s *)

Module Async.
Import Route AiService Concurrent.

Local Notation "'let^' x ':=' p 'in' k" := (andThen p (fun x => k))
  (at level 10, x name, p at level 100, k at level 200).

(** One iteration of [for (const item of generated)], from the read of
    [item.name] on. *)
Definition reading {A} (row : Structure.item -> A -> prog A) (v : json) (acc : A) : prog A :=
  match Endpoint.item_of v with
  | Ok it => row it acc
  | Throw e => Raise e
  end.

Section Faults.

Variable raises : statement -> string -> bool.
Variable w : env.

Definition fetch_out_boards_row (state_id : option Z) (it : Structure.item)
    (saved : list (Z * string)) : prog (list (Z * string)) :=
  let name := Structure.candidate_name it in
  if Js.is_empty name then Return saved else
  let isNonSchoolBoard :=
    Js.some_includes Structure.nonSchoolKeywords (Js.toLowerCase name) in
  if isNonSchoolBoard then Return saved else
  let^ result :=
    await (query raises Insert name (on_boards (Sql.upsert_board name state_id))) in
  Return (push_first saved result).

(** The handler of POST /fetch-out-boards: the validation and the guard run
    in the turn the request arrives in, up to
    [await generateSchoolBoards(state_name)]. *)
Definition fetch_out_boards (body : Structure.boards_body)
    : prog (response (Z * string) * nat) :=
  if Js.falsy (Structure.state_id body) || Structure.missing (Structure.state_name body)
  then Return (Status400, 0%nat) else
  let key := "boards_" +:+ Structure.template (Structure.state_id body) in
  sync (has_active key) (fun held =>
  if held then Return (Status429, 0%nat) else
  sync (add_active key) (fun _ =>
  let generated :=
    generateSchoolBoards w (Js.or_string (Structure.state_name body) EmptyString) in
  tryFinally
    (tryCatch
       (Await
          (let^ saved :=
             forOf generated.1
               (reading (fetch_out_boards_row (Structure.state_id body))) [] in
           Return (Json200 (length saved) saved, generated.2)))
       (fun err => Return (Status500, generated.2)))
    (delete_active key))).

Definition fetch_out_subjects_row (board_id class_id stream_id : option Z)
    (it : Structure.item) (saved : list (Z * string)) : prog (list (Z * string)) :=
  let name := Structure.candidate_name it in
  if Js.is_empty name then Return saved else
  let^ existing :=
    await (query raises Select name
             (fun d => (d, Sql.select_existing_subjects board_id class_id
                             (Js.or_null stream_id) name (Sql.subjects d)))) in
  match existing with
  | id :: _ =>
      let^ _ :=
        await (query raises Update name
                 (on_subjects (fun t => (Sql.update_subject_active id t, tt)))) in
      Return (saved ++ [(id, name)])%list
  | [] =>
      let^ result :=
        await (query raises Insert name
                 (on_subjects (Sql.insert_subject_fetch_out name board_id class_id
                                     (Js.or_null stream_id)))) in
      Return (push_first saved result)
  end.

(** The handler of POST /fetch-out-subjects. *)
Definition fetch_out_subjects (body : Structure.subjects_body)
    : prog (response (Z * string) * nat) :=
  if Js.falsy (Structure.board_id body) || Structure.missing (Structure.board_name body)
     || Js.falsy (Structure.class_id body) || Structure.missing (Structure.class_name body)
  then Return (Status400, 0%nat) else
  let key := "subjects_" +:+ Structure.template (Structure.board_id body) +:+ "_"
             +:+ Structure.template (Structure.class_id body) +:+ "_"
             +:+ (if Js.falsy (Structure.stream_id body) then "all"
                  else Structure.template (Structure.stream_id body)) in
  sync (has_active key) (fun held =>
  if held then Return (Status429, 0%nat) else
  sync (add_active key) (fun _ =>
  let generated :=
    generateSchoolSubjects w (Js.or_string (Structure.board_name body) EmptyString)
      (Js.or_string (Structure.class_name body) EmptyString) (Structure.stream_name body) in
  tryFinally
    (tryCatch
       (Await
          (let^ saved :=
             forOf generated.1
               (reading (fetch_out_subjects_row (Structure.board_id body)
                           (Structure.class_id body) (Structure.stream_id body))) [] in
           Return (Json200 (length saved) saved, generated.2)))
       (fun err => Return (Status500, generated.2)))
    (delete_active key))).

Definition fetch_out_chapters_row (subject_id : option Z) (it : Structure.item)
    (saved : list (Z * string)) : prog (list (Z * string)) :=
  let name := Structure.candidate_name it in
  if Js.is_empty name then Return saved else
  let^ existing :=
    await (query raises Select name
             (fun d => (d, Sql.select_existing_chapters subject_id name (Sql.chapters d)))) in
  match existing with
  | id :: _ =>
      let^ _ :=
        await (query raises Update name
                 (on_chapters (fun t => (Sql.update_chapter_active id t, tt)))) in
      Return (saved ++ [(id, name)])%list
  | [] =>
      let^ result :=
        await (query raises Insert name
                 (on_chapters (Sql.upsert_chapter name subject_id))) in
      Return (push_first saved result)
  end.

(** The handler of POST /fetch-out-chapters. *)
Definition fetch_out_chapters (body : Structure.chapters_body)
    : prog (response (Z * string) * nat) :=
  if Js.falsy (Structure.subject_id body) || Structure.missing (Structure.subject_name body)
     || Structure.missing (Structure.chapter_board_name body)
     || Structure.missing (Structure.chapter_class_name body)
  then Return (Status400, 0%nat) else
  let key := "chapters_" +:+ Structure.template (Structure.subject_id body) in
  sync (has_active key) (fun held =>
  if held then Return (Status429, 0%nat) else
  sync (add_active key) (fun _ =>
  let generated :=
    generateSchoolChapters w (Js.or_string (Structure.subject_name body) EmptyString)
      (Js.or_string (Structure.chapter_board_name body) EmptyString)
      (Js.or_string (Structure.chapter_class_name body) EmptyString) in
  tryFinally
    (tryCatch
       (Await
          (let^ saved :=
             forOf generated.1
               (reading (fetch_out_chapters_row (Structure.subject_id body))) [] in
           Return (Json200 (length saved) saved, generated.2)))
       (fun err => Return (Status500, generated.2)))
    (delete_active key))).

(** A request to one of the three routes, with its body. *)
Inductive request :=
| Boards (body : Structure.boards_body)
| Subjects (body : Structure.subjects_body)
| Chapters (body : Structure.chapters_body).

(** [router.post(path, rateLimitMiddleware, handler)] for the three paths. *)
Definition handler (l : request) : prog (response (Z * string) * nat) :=
  match l with
  | Boards body => fetch_out_boards body
  | Subjects body => fetch_out_subjects body
  | Chapters body => fetch_out_chapters body
  end.

End Faults.

End Async.

(** ** routes/aiFetch.js: the admin routes from the client's answer to the response *)

Module Ingest.
Import Route AiService.

(** [`${v}`] for a string of the body that may be missing. *)
Definition template (v : option string) : string :=
  match v with
  | Some s => s
  | None => "undefined"
  end.

(** What [for (const name of generated)] walks through: the elements of an
    array, the characters of a string; no other value is iterable. *)
Definition iterate (v : json) : outcome (list json) :=
  match v with
  | JArray l => Ok l
  | JString s => Ok (map (fun c => JString (String c EmptyString)) (list_ascii_of_string s))
  | _ => Throw "TypeError"
  end.

(** [name.toLowerCase()] is a TypeError unless [name] is a string. *)
Definition name_of (v : json) : outcome string :=
  match v with
  | JString s => Ok s
  | _ => Throw "TypeError"
  end.

(** One iteration, from the call of [name.toLowerCase()] on. *)
Definition reading {A} (row : string -> A -> M A) (v : json) (acc : A) : M A :=
  match name_of v with
  | Ok name => row name acc
  | Throw e => throw e
  end.

(** [for (const name of generated) { ... }] with [saved] empty at first. *)
Definition loop {R} (generated : json) (row : string -> list R -> M (list R)) : M (list R) :=
  match iterate generated with
  | Ok l => for_of l (reading row) []
  | Throw e => throw e
  end.

Definition boards_context (state_name : option string) : string :=
  "State of " +:+ template state_name
    +:+ ", India. Strictly provide original board names only. No placeholders.".

Definition universities_context (state_name : option string) : string :=
  "State of " +:+ template state_name +:+ ", India. Strictly provide original names only.".

Definition subjects_context (context_name : option string) : string :=
  "Context: " +:+ template context_name
    +:+ ". Strictly original syllabus subject names only. No placeholders.".

Definition chapters_context (subject_name : option string) : string :=
  "Subject: " +:+ template subject_name
    +:+ ". Strictly original syllabus chapter names only.".

Section Faults.

Variable raises : statement -> string -> bool.
Variable w : env.

(** Each route: the handler, and the outbound calls of the client, which
    is asked before the transaction begins. *)

(** POST /ai-fetch/boards *)
Definition post_boards (body : AiFetch.boards_body) : M (response Sql.board) * nat :=
  let generated :=
    fetchAIStructure w "Education Boards" (boards_context (AiFetch.state_name body)) in
  (AiFetch.handler
     (AiFetch.transaction
        (loop generated.1 (AiFetch.boards_row raises (AiFetch.state_id body)))),
   generated.2).

(** POST /ai-fetch/universities *)
Definition post_universities (body : AiFetch.boards_body)
    : M (response Sql.university) * nat :=
  let generated :=
    fetchAIStructure w "Universities" (universities_context (AiFetch.state_name body)) in
  (AiFetch.handler
     (AiFetch.transaction
        (loop generated.1 (AiFetch.universities_row raises (AiFetch.state_id body)))),
   generated.2).

(** POST /ai-fetch/subjects *)
Definition post_subjects (body : AiFetch.subjects_body) : M (response Sql.subject) * nat :=
  let generated :=
    fetchAIStructure w "Subjects" (subjects_context (AiFetch.context_name body)) in
  (AiFetch.handler (AiFetch.transaction (loop generated.1 (AiFetch.subjects_row raises body))),
   generated.2).

(** POST /ai-fetch/chapters *)
Definition post_chapters (body : AiFetch.chapters_body) : M (response Sql.chapter) * nat :=
  let generated :=
    fetchAIStructure w "Chapters" (chapters_context (AiFetch.subject_name body)) in
  (AiFetch.handler
     (AiFetch.transaction
        (loop generated.1 (AiFetch.chapters_row raises (AiFetch.subject_id body)))),
   generated.2).

End Faults.

End Ingest.

(** * Vocabulary of the properties

    The predicates the statements below are written with, and the concrete
    stores, requests and providers they are tried on. *)

Section Vocabulary.
Import Sql Route AiService Concurrent RateLimit.

(** A client that has used up its window, which ends at instant 1000. *)
Definition limited_map : gmap string record :=
  {[ "203.0.113.9" := {| count := 11; resetTime := 1000 |} ]}.

(** A request of that client. *)
Definition probe : request := {| ip := Some "203.0.113.9"; remoteAddress := None |}.

(** No usable provider: no active row, or a row without an API key. *)
Definition unconfigured (w : env) : Prop :=
  exists rows, ai_providers w = Some rows /\ configured rows = None.

(** The marker of a mock structure item. *)
Definition mock_marker : string := "Sample ".

(** A string that starts with the marker. *)
Definition is_mock_item (v : json) : Prop :=
  exists s, v = JString s /\ Js.startsWith s mock_marker = true.

(** No provider row at all. *)
Definition offline : env :=
  {| ai_providers := Some [];
     post := fun _ _ => NetworkError;
     JSON_parse := fun _ => None |}.

(** The failures of a call: the provider lookup raises, or the configured
    provider's answer to [prompt] is a network error, a status outside 2xx,
    an envelope without text, or a text that does not parse. *)
Inductive failure (w : env) (prompt : string) : Prop :=
| lookup_raises :
    ai_providers w = None -> failure w prompt
| network_error rows p :
    ai_providers w = Some rows -> configured rows = Some p ->
    post w (endpoint p) prompt = NetworkError -> failure w prompt
| non_2xx rows p code text :
    ai_providers w = Some rows -> configured rows = Some p ->
    post w (endpoint p) prompt = Response code text ->
    ((200 <=? code) && (code <? 300))%nat = false -> failure w prompt
| missing_text rows p code text :
    ai_providers w = Some rows -> configured rows = Some p ->
    post w (endpoint p) prompt = Response code text ->
    Js.is_empty (Js.or_string text EmptyString) = true -> failure w prompt
| malformed_json rows p code text :
    ai_providers w = Some rows -> configured rows = Some p ->
    post w (endpoint p) prompt = Response code (Some text) ->
    JSON_parse w (cleanText text) = None -> failure w prompt.

(** The provider answers 2xx with a text that parses to the empty array. *)
Definition empty_parse_result (w : env) (prompt : string) : Prop :=
  exists rows p code text,
    ai_providers w = Some rows /\ configured rows = Some p
    /\ post w (endpoint p) prompt = Response code (Some text)
    /\ ((200 <=? code) && (code <? 300))%nat = true
    /\ Js.is_empty text = false
    /\ JSON_parse w (cleanText text) = Some (JArray []).

(** A configured provider row. *)
Definition gemini : provider :=
  {| api_key := Some "k"; model_name := "gemini-pro"; base_url := "https://example.test" |}.

(** A provider that cannot be reached. *)
Definition unreachable : env :=
  {| ai_providers := Some [gemini];
     post := fun _ _ => NetworkError;
     JSON_parse := fun _ => None |}.

(** A provider that answers 200 with the text of an empty array;
    [JSON.parse] is given on that text only. *)
Definition answers_empty : env :=
  {| ai_providers := Some [gemini];
     post := fun _ _ => Response 200 (Some "[]");
     JSON_parse := fun s => if String.eqb s "[]" then Some (JArray []) else None |}.

(** The text of the object whose [items] field is the string CBSE. *)
Definition items_text : string :=
  "{" +:+ dquote +:+ "items" +:+ dquote +:+ ":" +:+ dquote +:+ "CBSE" +:+ dquote +:+ "}".

(** A provider that answers 200 with that text; [JSON.parse] is given on
    that text only. *)
Definition answers_text : env :=
  {| ai_providers := Some [gemini];
     post := fun _ _ => Response 200 (Some items_text);
     JSON_parse := fun s => if String.eqb s items_text
                            then Some (JObject [("items", JString "CBSE")]) else None |}.

(** The subject Physics of board 3, class 11, in the given stream. *)
Definition physics (stream : sqlint) : subject :=
  {| subject_id := 1; subject_name := "Physics"; subject_category_id := Some 1;
     subject_board_id := Some 3; subject_university_id := None;
     subject_class_id := Some 11; subject_stream_id := stream;
     subject_semester_id := None; subject_degree_type_id := None;
     subject_paper_stage_id := None;
     subject_is_active := true; subject_is_approved := true |}.

(** Two names differ at most in letter case. *)
Definition same_up_to_case (a b : string) : Prop := Js.toLowerCase a = Js.toLowerCase b.

(** The rows of a table that stand for a candidate in its scope. *)
Definition boards_for (n : string) (z : Z) (t : list board) : list board :=
  List.filter (board_conflict n (Some z)) t.

(** The chapters the existence query selects, and those the conflict test
    of the unique index matches. *)
Definition chapters_for (n : string) (z : Z) (t : list chapter) : list chapter :=
  List.filter (fun r => holds (fetch_out_chapter_where (Some z) n r)) t.

Definition chapters_named (n : string) (z : Z) (t : list chapter) : list chapter :=
  List.filter (chapter_conflict n (Some z)) t.

(** The subjects the existence query of the fetch-out route selects. *)
Definition subjects_for (n : string) (b c : Z) (st : sqlint) (t : list subject)
    : list subject :=
  List.filter (fun r => holds (fetch_out_subject_where (Some b) (Some c) st n r)) t.

(** No statement is refused. *)
Definition no_faults : Route.statement -> string -> bool := fun _ _ => false.

(** A store without rows, and a state with no transaction open and no
    fetch in flight. *)
Definition empty_db : Sql.db :=
  {| Sql.boards := []; Sql.universities := []; Sql.papers_stages := [];
     Sql.subjects := []; Sql.chapters := [] |}.

Definition idle (d : Sql.db) : Route.state :=
  {| Route.data := d; Route.snapshot := None; Route.activeFetches := ∅ |}.

(** The body [{state_id: 7, state_name: "West Bengal"}]. *)
Definition west_bengal : Structure.boards_body :=
  {| Structure.state_id := Some 7; Structure.state_name := Some "West Bengal" |}.

(** A row statement changes the rows only. *)
Definition frame (s s' : state) : Prop :=
  snapshot s' = snapshot s /\ activeFetches s' = activeFetches s.

(** The store refuses names longer than eight characters. *)
Definition refuses_long : Route.statement -> string -> bool :=
  fun _ name => (8 <? String.length name)%nat.

(** What the insert branch of the route fixes on a new row. *)
Definition public_defaults (r : subject) : Prop :=
  subject_category_id r = Some 1
  /\ subject_is_active r = true
  /\ subject_is_approved r = true.

(** A row of the table before the request, as the request may leave it. *)
Definition kept (before after : subject) : Prop :=
  after = before \/ after = activate_subject before.

(** [t] is [t0] with some rows reactivated, followed by inserted rows that
    all carry the public defaults. *)
Definition grown (t0 t : list subject) : Prop :=
  exists old inserted,
    t = (old ++ inserted)%list
    /\ Forall2 kept t0 old
    /\ Forall public_defaults inserted.

(** A fetch-out body for class 11 of board 3, without a stream. *)
Definition class_eleven : Structure.subjects_body :=
  {| Structure.board_id := Some 3; Structure.board_name := Some "WBCHSE";
     Structure.class_id := Some 11; Structure.class_name := Some "Class 11";
     Structure.stream_id := None; Structure.stream_name := None |}.

(** The key a fetch-out request is filed under. *)
Definition key_of (l : Async.request) : string :=
  match l with
  | Async.Boards body => "boards_" +:+ Structure.template (Structure.state_id body)
  | Async.Subjects body =>
      "subjects_" +:+ Structure.template (Structure.board_id body) +:+ "_"
      +:+ Structure.template (Structure.class_id body) +:+ "_"
      +:+ (if Js.falsy (Structure.stream_id body) then "all"
           else Structure.template (Structure.stream_id body))
  | Async.Chapters body => "chapters_" +:+ Structure.template (Structure.subject_id body)
  end.

(** The body of the request has the fields its route requires. *)
Definition complete (l : Async.request) : bool :=
  match l with
  | Async.Boards body =>
      negb (Js.falsy (Structure.state_id body) || Structure.missing (Structure.state_name body))
  | Async.Subjects body =>
      negb (Js.falsy (Structure.board_id body) || Structure.missing (Structure.board_name body)
            || Js.falsy (Structure.class_id body)
            || Structure.missing (Structure.class_name body))
  | Async.Chapters body =>
      negb (Js.falsy (Structure.subject_id body)
            || Structure.missing (Structure.subject_name body)
            || Structure.missing (Structure.chapter_board_name body)
            || Structure.missing (Structure.chapter_class_name body))
  end.

(** The processes of fetch-out requests. *)
Definition fetch_out_system : Type :=
  Concurrent.system Async.request (Route.response (Z * string) * nat).

(** Request [i] is in flight under [key]: it has been let in and is
    suspended at an [await]. *)
Definition in_flight (σ : fetch_out_system) (i : nat) (key : string) : Prop :=
  exists l k, Concurrent.requests σ !! i = Some (l, Concurrent.Suspended k) /\ key_of l = key.

(** What remains of a request that holds [key]: the rest of a [try] block
    that leaves [activeFetches] alone and lets no exception out, under the
    [finally] that deletes the key. *)
Definition in_try {A} (key : string) (k : Concurrent.prog A) : Prop :=
  exists q, k = Concurrent.tryFinally q (Route.delete_active key) /\ Concurrent.calm false q.

(** The invariant of the guard: every suspended request is in its [try]
    block, the keys of [activeFetches] are the keys of the requests in
    flight, and no two of these have the same key. *)
Definition guard_invariant (σ : fetch_out_system) : Prop :=
  (forall i l k, Concurrent.requests σ !! i = Some (l, Concurrent.Suspended k) ->
                 in_try (key_of l) k)
  /\ (forall key, key ∈ activeFetches (Concurrent.shared σ) <-> exists i, in_flight σ i key)
  /\ (forall i j key, in_flight σ i key -> in_flight σ j key -> i = j).

(** A request for the boards of state 7 has arrived, with no provider
    configured; and a second one for the same state after it. *)
Definition one_request : fetch_out_system :=
  Concurrent.arrive (Async.handler no_faults offline) (Async.Boards west_bengal)
    (Concurrent.initial empty_db).

Definition two_requests : fetch_out_system :=
  Concurrent.arrive (Async.handler no_faults offline) (Async.Boards west_bengal) one_request.

(** The admin body for the same scope. *)
Definition class_eleven_admin : AiFetch.subjects_body :=
  {| AiFetch.category_id := Some 1; AiFetch.board_id := Some 3;
     AiFetch.university_id := None; AiFetch.class_id := Some 11;
     AiFetch.stream_id := None; AiFetch.semester_id := None;
     AiFetch.degree_type_id := None; AiFetch.paper_stage_id := None;
     AiFetch.context_name := Some "WBCHSE Class 11" |}.

(** Admin bodies that name their scope but carry no id for it. *)
Definition state_without_id : AiFetch.boards_body :=
  {| AiFetch.state_id := None; AiFetch.state_name := Some "West Bengal" |}.

Definition subject_without_id : AiFetch.chapters_body :=
  {| AiFetch.subject_id := None; AiFetch.subject_name := Some "Physics" |}.

Definition class_eleven_without_board : AiFetch.subjects_body :=
  {| AiFetch.category_id := Some 1; AiFetch.board_id := None;
     AiFetch.university_id := Some 2; AiFetch.class_id := Some 11;
     AiFetch.stream_id := None; AiFetch.semester_id := None;
     AiFetch.degree_type_id := None; AiFetch.paper_stage_id := None;
     AiFetch.context_name := Some "Class 11" |}.

(** A string is trimmed at the start: it is empty or starts with a
    character that is no white space. *)
Definition starts_clean (s : string) : bool :=
  match s with
  | EmptyString => true
  | String c _ => negb (Js.is_space c)
  end.

(** The route answered, with one of its four statuses. *)
Definition answered {A} (r : Route.response A) : Prop :=
  (exists saved, r = Route.Json200 (length saved) saved)
  \/ r = Route.Status400 \/ r = Route.Status429 \/ r = Route.Status500.

(** The route answered before its [try] block. *)
Definition turned_away {A} (r : Route.response A) : Prop :=
  r = Route.Status400 \/ r = Route.Status429.

(** The loop of a fetch-out route refuses every statement bound to the
    name of this candidate. *)
Definition refused (raises : Route.statement -> string -> bool) (it : Structure.item) : Prop :=
  Js.is_empty (Structure.candidate_name it) = false
  /\ forall kind, raises kind (Structure.candidate_name it) = true.

(** A board of the table before the request, as the request may leave it. *)
Definition kept_board (before after : Sql.board) : Prop :=
  after = before \/ after = Sql.activate_board before.

(** A row as the loop of the route inserts it for a state: active, under a
    name that is not empty, has at most 200 characters, no white space at
    its ends and none of the non-school keywords in any letter case. *)
Definition school_board_row (state_id : option Z) (r : Sql.board) : Prop :=
  Sql.board_state_id r = state_id
  /\ Sql.board_is_active r = true
  /\ Js.is_empty (Sql.board_name r) = false
  /\ (String.length (Sql.board_name r) <= 200)%nat
  /\ Js.trim (Sql.board_name r) = Sql.board_name r
  /\ Js.some_includes Structure.nonSchoolKeywords (Js.toLowerCase (Sql.board_name r)) = false.

Definition grown_boards (state_id : option Z) (t0 t : list Sql.board) : Prop :=
  exists old inserted,
    t = (old ++ inserted)%list
    /\ Forall2 kept_board t0 old
    /\ Forall (school_board_row state_id) inserted.

(** The rows an admin route reports: each carries the name of a candidate
    that its placeholder guard lets through, and the columns [fixed] that
    the statement of the route sets. *)
Definition from_candidates {R} (name_of : R -> string) (guard : string -> bool)
    (fixed : R -> Prop) (names : list string) (saved : list R) : Prop :=
  Forall (fun r => In (name_of r) names /\ guard (name_of r) = false /\ fixed r) saved.

(** An admin route succeeded on [s]: it answered with the rows [saved], the
    transaction is closed, the in-flight set is as before and the table
    [table] is the one before the request followed by [saved]. *)
Definition committed {R} (table : Sql.db -> list R) (s : Route.state)
    (run : Route.response R * Route.state) (saved : list R) : Prop :=
  run.1 = Route.Json200 (length saved) saved
  /\ table (Route.data run.2) = (table (Route.data s) ++ saved)%list
  /\ Route.snapshot run.2 = None
  /\ Route.activeFetches run.2 = Route.activeFetches s.

(** One iteration that is not refused adds to the table what it adds to
    the saved rows. *)
Definition appending {R} (raises : statement -> string -> bool)
    (table : db -> list R) (name_of : R -> string)
    (guard : string -> bool) (fixed : R -> Prop)
    (row : string -> list R -> M (list R)) : Prop :=
  forall x acc s,
    raises Insert x = false ->
    exists new s',
      row x acc s = (Ok (acc ++ new)%list, s')
      /\ table (data s') = (table (data s) ++ new)%list
      /\ frame s s'
      /\ Forall (fun r => name_of r = x /\ guard x = false /\ fixed r) new.

(** The columns the INSERT of each admin route sets from the request. *)
Definition admin_board_columns (state_id : option Z) (r : Sql.board) : Prop :=
  Sql.board_state_id r = state_id /\ Sql.board_is_active r = true.

Definition admin_university_columns (state_id : option Z) (r : Sql.university) : Prop :=
  Sql.university_state_id r = state_id /\ Sql.university_is_approved r = false.

Definition admin_paper_columns (category_id : option Z) (r : Sql.paper_stage) : Prop :=
  Sql.paper_stage_category_id r = category_id /\ Sql.paper_stage_is_approved r = false.

Definition admin_subject_columns (body : AiFetch.subjects_body) (r : Sql.subject) : Prop :=
  Sql.subject_category_id r = AiFetch.category_id body
  /\ Sql.subject_board_id r = AiFetch.board_id body
  /\ Sql.subject_university_id r = AiFetch.university_id body
  /\ Sql.subject_class_id r = AiFetch.class_id body
  /\ Sql.subject_stream_id r = AiFetch.stream_id body
  /\ Sql.subject_semester_id r = AiFetch.semester_id body
  /\ Sql.subject_degree_type_id r = AiFetch.degree_type_id body
  /\ Sql.subject_paper_stage_id r = AiFetch.paper_stage_id body
  /\ Sql.subject_is_active r = true.

Definition admin_chapter_columns (subject_id : option Z) (r : Sql.chapter) : Prop :=
  Sql.chapter_subject_id r = subject_id /\ Sql.chapter_is_active r = true.

(** The loop body of an admin route whose INSERT skips known names. *)
Definition skipping_row {R} (raises : statement -> string -> bool)
    (lift : (list R -> list R * list R) -> db -> db * list R) (guard : string -> bool)
    (known : string -> list R -> bool) (mk : string -> list R -> R)
    (x : string) (saved : list R) : M (list R) :=
  if guard x then ret saved
  else let* result :=
         query raises Insert x
           (lift (fun t => if known x t then (t, [])
                           else ((t ++ [mk x t])%list, [mk x t]))) in
       ret (push_first saved result).

(** The provider lookup succeeded and a provider with a key is active. *)
Definition provider_ready (w : AiService.env) : Prop :=
  exists rows p, AiService.ai_providers w = Some rows /\ AiService.configured rows = Some p.

(** The provider answered 2xx with a text that [JSON.parse] turns into [v]. *)
Definition parsed_as (w : AiService.env) (prompt : string) (v : AiService.json) : Prop :=
  exists rows p code text,
    AiService.ai_providers w = Some rows /\ AiService.configured rows = Some p
    /\ AiService.post w (AiService.endpoint p) prompt = AiService.Response code (Some text)
    /\ ((200 <=? code) && (code <? 300))%nat = true
    /\ Js.is_empty text = false
    /\ AiService.JSON_parse w (AiService.cleanText text) = Some v.

(** A mock question as [fallbackMock] writes it for a topic. *)
Definition is_mock_mcq (topic : string) (v : AiService.json) : Prop :=
  exists fields question,
    v = AiService.JObject fields
    /\ AiService.lookup_field "question" fields = Some (AiService.JString question)
    /\ Js.startsWith question "[MOCK] " = true
    /\ AiService.lookup_field "subject" fields = Some (AiService.JString topic)
    /\ AiService.lookup_field "correct_option" fields = Some (AiService.JNumber 0).

(** An item as the fetch-out routes can read it: no bare string. *)
Definition not_bare_string (v : AiService.json) : Prop :=
  forall s, v <> AiService.JString s.

(** A provider that answers 200 with an array of three items;
    [JSON.parse] is given on that text only. *)
Definition answers_three : AiService.env :=
  {| AiService.ai_providers := Some [gemini];
     AiService.post := fun _ _ => AiService.Response 200 (Some "[1, 2, 3]");
     AiService.JSON_parse := fun s =>
       if String.eqb s "[1, 2, 3]"
       then Some (AiService.JArray [AiService.JNumber 1; AiService.JNumber 2;
                                    AiService.JNumber 3])
       else None |}.

(** An object whose [name] is a string that starts with the mock marker. *)
Definition is_named_mock (v : AiService.json) : Prop :=
  exists s, v = AiService.JObject [("name", AiService.JString s)]
            /\ Js.startsWith s mock_marker = true.

(** Every saved pair is listed: with its name as saved, or with a name
    that differs at most in letter case. *)
Definition listed_exactly (saved rows : list (Z * string)) : Prop :=
  forall id n, In (id, n) saved -> In (id, n) rows.

Definition listed_up_to_case (saved rows : list (Z * string)) : Prop :=
  forall id n, In (id, n) saved -> exists n', In (id, n') rows /\ same_up_to_case n' n.

(** The saved pairs stand for active boards of state [z]. *)
Definition boards_on_display (z : Z) (acc : list (Z * string)) (s : state) : Prop :=
  forall id n, In (id, n) acc ->
    exists r, In r (boards (data s)) /\ board_id r = id /\ board_name r = n
              /\ board_state_id r = Some z /\ board_is_active r = true.

(** The saved pairs stand for active subjects of class [c], and for active
    chapters of subject [z], under a name equal up to letter case. *)
Definition subjects_on_display (c : Z) (acc : list (Z * string)) (s : Route.state) : Prop :=
  forall id n, In (id, n) acc ->
    exists r, In r (Sql.subjects (Route.data s)) /\ Sql.subject_id r = id
              /\ same_up_to_case (Sql.subject_name r) n
              /\ Sql.subject_class_id r = Some c /\ Sql.subject_is_active r = true.

Definition chapters_on_display (z : Z) (acc : list (Z * string)) (s : Route.state) : Prop :=
  forall id n, In (id, n) acc ->
    exists r, In r (Sql.chapters (Route.data s)) /\ Sql.chapter_id r = id
              /\ same_up_to_case (Sql.chapter_name r) n
              /\ Sql.chapter_subject_id r = Some z /\ Sql.chapter_is_active r = true.

(** A query-string value [v], when given, is the value of the column. *)
Definition wanted (v : option Z) (col : Sql.sqlint) : Prop :=
  match v with
  | Some x => col = Some x
  | None => True
  end.

(** The row is active and agrees with every filter the request gives. *)
Definition passes_filters (rq : Browse.subjects_query) (r : Sql.subject) : Prop :=
  Sql.subject_is_active r = true
  /\ wanted (Browse.q_category_id rq) (Sql.subject_category_id r)
  /\ wanted (Browse.q_board_id rq) (Sql.subject_board_id r)
  /\ wanted (Browse.q_class_id rq) (Sql.subject_class_id r)
  /\ wanted (Browse.q_stream_id rq) (Sql.subject_stream_id r)
  /\ wanted (Browse.q_university_id rq) (Sql.subject_university_id r)
  /\ wanted (Browse.q_semester_id rq) (Sql.subject_semester_id r)
  /\ wanted (Browse.q_paper_stage_id rq) (Sql.subject_paper_stage_id r).

(** Every placeholder of the query text so far has its parameter. *)
Definition well_numbered (q : Browse.building) : Prop :=
  Forall (fun cn : Browse.column * nat =>
            exists k, cn.2 = S k /\ (k < length (Browse.params q))%nat)
         (Browse.conditions q).

(** The request [?class_id=11]. *)
Definition of_class_eleven : Browse.subjects_query :=
  {| Browse.q_category_id := None; Browse.q_board_id := None;
     Browse.q_class_id := Some 11; Browse.q_stream_id := None;
     Browse.q_university_id := None; Browse.q_semester_id := None;
     Browse.q_paper_stage_id := None |}.

(** The number of backticks a string begins with. *)
Fixpoint lead (s : string) : nat :=
  match s with
  | EmptyString => 0
  | String c s' => if Ascii.eqb (ascii_of_nat 96) c then S (lead s') else 0
  end.

(** The values whose text [Admin.String_of] gives: every value but a
    number outside the safe integers. *)
Definition safe_integer (v : Admin.value) : Prop :=
  match v with
  | Admin.Number n => -9007199254740991 <= n <= 9007199254740991
  | _ => True
  end.

Definition safe_values (l : list Admin.value) : Prop := Forall safe_integer l.

(** No statement is refused. *)
Definition accepts_all : string -> list Admin.value -> bool := fun _ _ => false.

(** The object [new] is [old] with every entry written as a string. *)
Definition written (entries : list (string * Admin.value)) (old new : gmap string string)
    : Prop :=
  (forall k v, In (k, v) entries -> new !! k = Some (Admin.String_of v))
  /\ (forall k, ~ In k (map fst entries) -> new !! k = old !! k).

(** After the route has answered [message], GET /settings reads back the
    entries the route wrote; the other tables are as they were. *)
Definition reads_back (route : Admin.M string) (message : string)
    (entries : list (string * Admin.value)) : Prop :=
  forall s, exists s' r,
    Admin.handle route s = (Admin.Sent message, s')
    /\ Admin.ai_providers s' = Admin.ai_providers s
    /\ Admin.users s' = Admin.users s
    /\ Admin.handle (Admin.get_settings accepts_all) s' = (Admin.Sent r, s')
    /\ written entries (Admin.fromEntries (Admin.system_settings s)) (Admin.system r)
    /\ Admin.legal r = Admin.legal_pages s
    /\ Admin.payment r = Admin.payment_gateway_settings s.

(** The store accepts the write of every one of the entries. *)
Definition accepted (raises : string -> list Admin.value -> bool)
    (entries : list (string * Admin.value)) : Prop :=
  forall kv, In kv entries ->
    raises Admin.upsert_sql [Admin.Text kv.1; Admin.Text (Admin.String_of kv.2)] = false.

(** The store refuses to write the key MAINTENANCE. *)
Definition refuses_maintenance : string -> list Admin.value -> bool :=
  fun sql params =>
    match params with
    | Admin.Text k :: _ => String.eqb k "MAINTENANCE"
    | _ => false
    end.

(** The store with one setting, and a body with two. *)
Definition one_setting : Admin.store :=
  {| Admin.ai_providers := []; Admin.system_settings := [("SITE_NAME", "ExamRedy")];
     Admin.legal_pages := []; Admin.payment_gateway_settings := []; Admin.users := [] |}.

Definition two_settings : list (string * Admin.value) :=
  [("SITE_NAME", Admin.Text "Exam Ready"); ("MAINTENANCE", Admin.Bool false)].

Definition into_map (m : gmap string string) (rows : list (string * string))
    : gmap string string :=
  fold_left (fun m r => <[r.1 := r.2]> m) rows m.

(** The writes of a loop over entries, on the table. *)
Definition write_all (entries : list (string * Admin.value)) (t : list (string * string))
    : list (string * string) :=
  fold_left (fun t kv => Admin.upsert_setting kv.1 (Admin.String_of kv.2) t) entries t.

(** The provider rows that are active. *)
Definition active_providers (s : Admin.store) : list Admin.ai_provider :=
  List.filter (fun r => Sql.holds (Admin.ai_is_active r)) (Admin.ai_providers s).

(** The rows the lookup of the generation client returns on this store. *)
Definition client_rows (s : Admin.store) : list AiService.provider :=
  map Admin.as_provider (Admin.select_active_provider (Admin.ai_providers s)).

(** The row [r] as a request with [is_active: true] rewrites it. *)
Definition switched_on (body : Admin.provider_body) (r : Admin.ai_provider)
    : Admin.ai_provider :=
  {| Admin.ai_id := Admin.ai_id r; Admin.ai_name := Admin.ai_name r;
     Admin.ai_base_url := Admin.body_base_url body;
     Admin.ai_api_key := Admin.body_api_key body;
     Admin.ai_model_name := Admin.body_model_name body;
     Admin.ai_is_active := Some true |}.

(** Two providers, the first one active; a body that names a key. *)
Definition two_providers : Admin.store :=
  {| Admin.ai_providers :=
       [ {| Admin.ai_id := 1; Admin.ai_name := Some "Provider A";
            Admin.ai_base_url := Some "https://a.example/v1";
            Admin.ai_api_key := Some "key-a"; Admin.ai_model_name := Some "model-a";
            Admin.ai_is_active := Some true |};
         {| Admin.ai_id := 2; Admin.ai_name := Some "Provider B";
            Admin.ai_base_url := Some "https://b.example/v1";
            Admin.ai_api_key := None; Admin.ai_model_name := Some "model-b";
            Admin.ai_is_active := Some false |} ];
     Admin.system_settings := []; Admin.legal_pages := [];
     Admin.payment_gateway_settings := []; Admin.users := [] |}.

Definition provider_b : Admin.provider_body :=
  {| Admin.body_base_url := Some "https://b.example/v1"; Admin.body_api_key := Some "key-b";
     Admin.body_model_name := Some "model-b"; Admin.body_is_active := Some true |}.

(** The store refuses the UPDATE of one provider row. *)
Definition refuses_provider_update : string -> list Admin.value -> bool :=
  fun sql params => String.eqb sql Admin.update_provider_sql.

(** The user row after the subscription route has set its expiry. *)
Definition renewed (u : Admin.user) (until : Z) : Admin.user :=
  {| Admin.user_id := Admin.user_id u; Admin.role := Admin.role u;
     Admin.is_premium := Some true; Admin.sessions_left := Admin.sessions_left u;
     Admin.premium_expiry := Some until |}.

(** A student whose subscription ran out at time 1000, alone in the store. *)
Definition lapsed_student : Admin.user :=
  {| Admin.user_id := 5; Admin.role := "student"; Admin.is_premium := Some false;
     Admin.sessions_left := Some 0; Admin.premium_expiry := Some 1000 |}.

Definition one_user : Admin.store :=
  {| Admin.ai_providers := []; Admin.system_settings := []; Admin.legal_pages := [];
     Admin.payment_gateway_settings := []; Admin.users := [lapsed_student] |}.

(** Every saved row is listed under its id and name. *)
Definition rows_listed {R} (id_of : R -> Z) (name_of : R -> string) (saved : list R)
    (rows : list (Z * string)) : Prop :=
  forall r, In r saved -> In (id_of r, name_of r) rows.

(** The route answered 200 with [saved] and left the state [s']; the
    browsing route then answers 200 on [s'] and lists every saved row. *)
Definition saved_then_listed {R} (id_of : R -> Z) (name_of : R -> string)
    (post : Route.M (Route.response R)) (get : Route.M (Route.response (Z * string)))
    (s : Route.state) : Prop :=
  exists saved rows s',
    Route.respond post s = (Route.Json200 (length saved) saved, s')
    /\ Route.respond get s' = (Route.Json200 (length rows) rows, s')
    /\ rows_listed id_of name_of saved rows.

(** The five sample names of [fallbackMockStructure], and the items the
    generators make of them. *)
Definition sample_names (type context : string) : list string :=
  [ "Sample " +:+ type +:+ " 1 (" +:+ context +:+ ")";
    "Sample " +:+ type +:+ " 2 (" +:+ context +:+ ")";
    "Sample " +:+ type +:+ " 3 (" +:+ context +:+ ")";
    "Sample " +:+ type +:+ " 4 (" +:+ context +:+ ")";
    "Sample " +:+ type +:+ " 5 (" +:+ context +:+ ")" ].

Definition sample_items (type context : string) : list Structure.item :=
  map (fun s => {| Structure.name := Some s |}) (sample_names type context).

(** Every element of the generated array can be read, as these items. *)
Definition readable (generated : list AiService.json) (items : list Structure.item) : Prop :=
  Forall2 (fun v it => Endpoint.item_of v = Route.Ok it) generated items.

(** The outbound calls behind a response: none when the handler answered
    before its [try]. *)
Definition calls_behind {A} (calls : nat) (r : Route.response A) : nat :=
  match r with
  | Route.Status400 | Route.Status429 => 0%nat
  | _ => calls
  end.

(** The handler over the generated array does what the loop over the items
    does, with the calls of the generator. *)
Definition agrees {A} (end_to_end : Route.M (Route.response A * nat))
    (loop : Route.M (Route.response A)) (calls : nat) : Prop :=
  forall s,
    end_to_end s
    = match loop s with
      | (Route.Ok r, s') => (Route.Ok (r, calls_behind calls r), s')
      | (Route.Throw e, s') => (Route.Throw e, s')
      end.

(** Every saved name has the property. *)
Definition names_all (P : string -> Prop) (saved : list (Z * string)) : Prop :=
  Forall (fun p => P p.2) saved.

(** A process that has served nobody yet, on an empty store. *)
Definition first_request : Endpoint.world :=
  {| Endpoint.rateLimitMap := ∅; Endpoint.server := idle empty_db |}.

(** The pairs a 200 reports. *)
Definition saved_pairs (a : Endpoint.answer (Z * string)) : list (Z * string) :=
  match a with
  | Endpoint.Handled (Route.Json200 _ saved) => saved
  | _ => []
  end.

(** A run of a fetch-out route from [g]: the transaction snapshot and the
    in-flight set are left as found; at most one outbound call is made, and
    only with a configured provider; the client gets the 429 of the
    limiter or one of the four responses of the handler; and a request that
    is turned away by the limiter, by the body check or by the guard makes no
    call and leaves the rows alone. *)
Definition contained {A} (w : AiService.env) (g : Endpoint.world)
    (run : (Endpoint.answer A * nat) * Endpoint.world) : Prop :=
  Route.snapshot (Endpoint.server run.2) = Route.snapshot (Endpoint.server g)
  /\ Route.activeFetches (Endpoint.server run.2) = Route.activeFetches (Endpoint.server g)
  /\ (run.1.2 <= 1)%nat
  /\ (run.1.2 = 1%nat -> provider_ready w)
  /\ match run.1.1 with
     | Endpoint.Limited => run.1.2 = 0%nat /\ Endpoint.server run.2 = Endpoint.server g
     | Endpoint.Handled r =>
         answered r
         /\ (turned_away r -> run.1.2 = 0%nat /\ Endpoint.server run.2 = Endpoint.server g)
     end.

(** A provider whose answer parses to two named items with a null between
    them. *)
Definition answers_with_null : AiService.env :=
  {| AiService.ai_providers := Some [gemini];
     AiService.post := fun _ _ => AiService.Response 200 (Some "[...]");
     AiService.JSON_parse := fun _ =>
       Some (AiService.JArray
               [ AiService.JObject [("name", AiService.JString "CBSE")];
                 AiService.JNull;
                 AiService.JObject [("name", AiService.JString "ICSE")] ]) |}.

(** A 200 without rows that leaves the state alone, after no call. *)
Definition nothing_saved {R} (route : Route.M (Route.response R) * nat) (s : Route.state)
    : Prop :=
  route.2 = 0%nat /\ Route.respond route.1 s = (Route.Json200 0 [], s).

(** A 500 that leaves the state alone. *)
Definition rolled_back {R} (route : Route.M (Route.response R) * nat) (s : Route.state)
    : Prop :=
  Route.respond route.1 s = (Route.Status500, s).

(** The client's answer cannot be walked through as a list of names. *)
Definition unusable (generated : AiService.json) : Prop :=
  (exists e, Ingest.iterate generated = Route.Throw e)
  \/ exists l v e, Ingest.iterate generated = Route.Ok l /\ In v l
                   /\ Ingest.name_of v = Route.Throw e.

(** A provider whose answer parses to an array with a number in it. *)
Definition answers_with_number : AiService.env :=
  {| AiService.ai_providers := Some [gemini];
     AiService.post := fun _ _ => AiService.Response 200 (Some "[...]");
     AiService.JSON_parse := fun _ =>
       Some (AiService.JArray [AiService.JString "CBSE"; AiService.JNumber 7]) |}.

(** The body [{state_id: 7, state_name: "West Bengal"}] of an admin route. *)
Definition west_bengal_admin : AiFetch.boards_body :=
  {| AiFetch.state_id := Some 7; AiFetch.state_name := Some "West Bengal" |}.

End Vocabulary.

(** * Properties *)

(** ** The string primitives on examples *)

Example trim_example : Js.trim "  West Bengal Board 	" = "West Bengal Board".
Proof. reflexivity. Qed.

Example toLowerCase_example : Js.toLowerCase "Board 1 (CBSE)" = "board 1 (cbse)".
Proof. reflexivity. Qed.

Example includes_example :
  Js.includes "joint entrance examination" "entrance" = true
  /\ Js.includes "wbchse" "jee" = false
  /\ Js.includes "cbse" EmptyString = true.
Proof. repeat split. Qed.

Example substring_example : Js.substring0 5 "WBCHSE" = "WBCHS" /\ Js.substring0 200 "CBSE" = "CBSE".
Proof. split; reflexivity. Qed.

Example cleanText_example :
  AiService.cleanText
    (AiService.backticks +:+ "json
[1, 2]
" +:+ AiService.backticks)
  = "[1, 2]".
Proof. reflexivity. Qed.

Example template_example : Structure.template (Some 42) = "42".
Proof. reflexivity. Qed.

(** ** The rate limiter *)

Section RateLimitProperties.
Import RateLimit.

(** A check never touches the record of another client. *)
Lemma rateLimitMiddleware_other (now : Z) (req : request) (m : gmap string record)
    (other : string) :
  other ≠ client req ->
  (rateLimitMiddleware now req m).1 !! other = m !! other.
Proof.
  intros Hne. unfold rateLimitMiddleware.
  destruct (m !! client req) as [rec|] eqn:Hrec; simpl.
  - destruct (resetTime rec <? now); simpl.
    + by rewrite lookup_insert_ne.
    + destruct (maxRequests <? count rec + 1); simpl; rewrite lookup_insert_ne; done.
  - by rewrite lookup_insert_ne.
Qed.

(** Inside the window every check is counted, and answered by the count. *)
Lemma rateLimitMiddleware_counts (now : Z) (req : request) (m : gmap string record)
    (rec : record) :
  m !! client req = Some rec ->
  now <= resetTime rec ->
  (rateLimitMiddleware now req m).1 !! client req
    = Some {| count := count rec + 1; resetTime := resetTime rec |}
  /\ ((rateLimitMiddleware now req m).2 = Status429 <-> 10 < count rec + 1)
  /\ ((rateLimitMiddleware now req m).2 = Next <-> count rec + 1 <= 10).
Proof.
  intros Hrec Hnow. unfold rateLimitMiddleware, maxRequests. rewrite Hrec.
  rewrite (proj2 (Z.ltb_ge (resetTime rec) now) Hnow). cbn [count].
  destruct (Z.ltb_spec 10 (count rec + 1)); cbn [fst snd];
    rewrite lookup_insert_eq; (split; [done|]); split; split; intros; (done || lia).
Qed.

(** C8. One check of the rate limiter, for any state of the map (hence
    after any sequence of earlier checks): with no record the client gets
    count 1, a window of 15 minutes from now, and passes; with a record
    whose [resetTime] has passed the record is reset to count 1 and a
    fresh window, and the client passes, whatever its count was; otherwise
    the count is incremented, the window kept, and the check is answered
    429 exactly when the incremented count exceeds 10. *)
Theorem rate_limiter_check (now : Z) (req : request) (m : gmap string record) :
  let m' := (rateLimitMiddleware now req m).1 in
  let v := (rateLimitMiddleware now req m).2 in
  (m !! client req = None ->
     m' !! client req = Some {| count := 1; resetTime := now + 15 * 60 * 1000 |}
     /\ v = Next)
  /\ (forall rec, m !! client req = Some rec -> resetTime rec < now ->
        m' !! client req = Some {| count := 1; resetTime := now + 15 * 60 * 1000 |}
        /\ v = Next)
  /\ (forall rec, m !! client req = Some rec -> now <= resetTime rec ->
        m' !! client req = Some {| count := count rec + 1; resetTime := resetTime rec |}
        /\ (v = Status429 <-> 10 < count rec + 1)
        /\ (v = Next <-> count rec + 1 <= 10)).
Proof.
  cbv zeta. unfold rateLimitMiddleware, windowMs, maxRequests.
  split; [|split].
  - intros ->. simpl. by rewrite lookup_insert_eq.
  - intros rec -> Hlt. apply Z.ltb_lt in Hlt. rewrite Hlt. simpl.
    by rewrite lookup_insert_eq.
  - intros rec -> Hle.
    assert ((resetTime rec <? now) = false) as -> by (apply Z.ltb_ge; lia).
    simpl.
    destruct (10 <? count rec + 1) eqn:Hmax; simpl; rewrite lookup_insert_eq.
    + apply Z.ltb_lt in Hmax. repeat split; try done; intros; lia.
    + apply Z.ltb_ge in Hmax. repeat split; try done; intros; lia.
Qed.

Lemma rate_limiter_check_witness :
  ((rateLimitMiddleware 5 probe ∅).2 = Next)
  /\ ((rateLimitMiddleware 1001 probe limited_map).1 !! "203.0.113.9"
      = Some {| count := 1; resetTime := 1001 + 15 * 60 * 1000 |})
  /\ ((rateLimitMiddleware 1000 probe limited_map).2 = Status429).
Proof.
  split; [|split].
  - apply (proj1 (rate_limiter_check 5 probe ∅)). reflexivity.
  - apply (proj1 (proj2 (rate_limiter_check 1001 probe limited_map))
             {| count := 11; resetTime := 1000 |}).
    + reflexivity.
    + simpl. lia.
  - destruct (proj2 (proj2 (rate_limiter_check 1000 probe limited_map))
                {| count := 11; resetTime := 1000 |} eq_refl) as (_ & Hreject & _).
    + simpl. lia.
    + apply Hreject. simpl. lia.
Defined.

(** A burst inside one window: the [k]-th check after a record with count
    [c] is answered 429 exactly when [c + k] exceeds 10, and every check is
    counted, rejected or not. *)
Lemma checks_within_window (req : request) (nows : list Z) (m : gmap string record)
    (rec : record) :
  m !! client req = Some rec ->
  Forall (fun now => now <= resetTime rec) nows ->
  (checks req nows m).1 !! client req
    = Some {| count := count rec + Z.of_nat (length nows); resetTime := resetTime rec |}
  /\ (checks req nows m).2
     = map (fun k => if 10 <? count rec + Z.of_nat k then Status429 else Next)
           (seq 1 (length nows)).
Proof.
  revert m rec. induction nows as [|now nows IH]; intros m rec Hrec Hall.
  - simpl. rewrite Z.add_0_r. by destruct rec.
  - inversion Hall as [|? ? Hnow Hrest]; subst.
    destruct (rateLimitMiddleware_counts now req m rec Hrec Hnow)
      as (Hnext & Hreject & Hpass).
    cbn [checks].
    destruct (rateLimitMiddleware now req m) as [m1 v] eqn:Hcheck. cbn [fst snd] in *.
    specialize (IH m1 _ Hnext Hrest). cbn [count resetTime] in IH.
    destruct (checks req nows m1) as [m2 vs]. cbn [fst snd] in *.
    destruct IH as [IHmap IHvs]. split.
    + rewrite IHmap. f_equal. f_equal. cbn [length]. lia.
    + cbn [length seq map]. rewrite <- seq_shift, map_map, IHvs. f_equal.
      * change (Z.of_nat 1) with 1.
        destruct (10 <? count rec + 1) eqn:Hmax.
        -- apply Hreject. by apply Z.ltb_lt.
        -- apply Hpass. by apply Z.ltb_ge.
      * apply map_ext. intros k.
        replace (count rec + 1 + Z.of_nat k) with (count rec + Z.of_nat (S k)) by lia. done.
Qed.

End RateLimitProperties.

(** ** The generation client *)

Section GenerationClientProperties.
Import Route AiService.

Lemma startsWith_append (p r : string) : Js.startsWith (p +:+ r) p = true.
Proof.
  induction p as [|c p IH].
  - change (EmptyString +:+ r) with r. by destruct r.
  - change (String c p +:+ r) with (String c (p +:+ r)).
    simpl. by rewrite Ascii.eqb_refl.
Qed.

Lemma includes_startsWith (s kw : string) :
  Js.startsWith s kw = true -> Js.includes s kw = true.
Proof. intros H. destruct s; simpl in *; by rewrite H. Qed.

Lemma includes_append (p q r : string) : Js.includes (p +:+ q +:+ r) q = true.
Proof.
  induction p as [|c p IH].
  - change (EmptyString +:+ q +:+ r) with (q +:+ r).
    apply includes_startsWith, startsWith_append.
  - change (String c p +:+ q +:+ r) with (String c (p +:+ q +:+ r)).
    simpl. rewrite IH. apply orb_true_r.
Qed.

Lemma fallbackMockStructure_items (type context : string) :
  exists items,
    fallbackMockStructure type context = JArray items
    /\ length items = 5%nat
    /\ Forall is_mock_item items.
Proof.
  eexists. split; [reflexivity|]. split; [reflexivity|].
  repeat constructor; eexists; (split; [reflexivity|]);
    unfold mock_marker; apply startsWith_append.
Qed.

(** C6. With no active provider row, or a row without an API key,
    [fetchAIStructure] resolves to exactly five items that all start with
    the mock marker, makes no outbound call, and its result does not
    depend on what the provider's endpoint would answer. *)
Theorem fallback_without_provider (w : env) (type context : string) :
  unconfigured w ->
  (exists items,
     fetchAIStructure w type context = (JArray items, 0%nat)
     /\ length items = 5%nat
     /\ Forall is_mock_item items)
  /\ (forall endpoint_behaviour,
        fetchAIStructure
          {| ai_providers := ai_providers w; post := endpoint_behaviour;
             JSON_parse := JSON_parse w |} type context
        = fetchAIStructure w type context).
Proof.
  intros (rows & Hrows & Hnone). split.
  - destruct (fallbackMockStructure_items type context) as (items & Hitems & Hlen & Hall).
    exists items. split; [|done].
    unfold fetchAIStructure, fetchAIStructure_try. rewrite Hrows, Hnone. simpl.
    by rewrite Hitems.
  - intros endpoint_behaviour.
    unfold fetchAIStructure, fetchAIStructure_try. simpl. by rewrite Hrows, Hnone.
Qed.

Lemma fallback_without_provider_witness :
  exists items,
    fetchAIStructure offline "boards" "West Bengal" = (JArray items, 0%nat)
    /\ length items = 5%nat
    /\ Forall is_mock_item items.
Proof.
  apply (fallback_without_provider offline "boards" "West Bengal").
  exists []. split; reflexivity.
Defined.

Lemma or_string_some (text : string) :
  Js.is_empty text = false -> Js.or_string (Some text) EmptyString = text.
Proof. intros H. unfold Js.or_string. by rewrite H. Qed.

Lemma fetchAIStructure_failure (w : env) (type context : string) :
  failure w (structure_prompt type context) ->
  (fetchAIStructure w type context).1 = fallbackMockStructure type context.
Proof.
  unfold fetchAIStructure, fetchAIStructure_try.
  intros [Hq | rows p Hq Hp Hpost | rows p code text Hq Hp Hpost Hcode
          | rows p code text Hq Hp Hpost Htext | rows p code text Hq Hp Hpost Hparse];
    rewrite Hq; try rewrite Hp; try rewrite Hpost; try done.
  - by rewrite Hcode.
  - destruct ((200 <=? code) && (code <? 300))%nat; [|done]. by rewrite Htext.
  - destruct ((200 <=? code) && (code <? 300))%nat; [|done].
    destruct (Js.is_empty (Js.or_string (Some text) EmptyString)) eqn:Hempty; [done|].
    assert (Js.or_string (Some text) EmptyString = text) as ->.
    { unfold Js.or_string in *. by destruct (Js.is_empty text). }
    by rewrite Hparse.
Qed.

Lemma generateMCQInitial_failure (w : env) (topic : string) (count : nat) :
  failure w (mcq_prompt topic count) ->
  (generateMCQInitial w topic count).1 = fallbackMock topic count.
Proof.
  unfold generateMCQInitial, generateMCQInitial_try.
  intros [Hq | rows p Hq Hp Hpost | rows p code text Hq Hp Hpost Hcode
          | rows p code text Hq Hp Hpost Htext | rows p code text Hq Hp Hpost Hparse];
    rewrite Hq; try rewrite Hp; try rewrite Hpost; try done.
  - by rewrite Hcode.
  - destruct ((200 <=? code) && (code <? 300))%nat; [|done]. by rewrite Htext.
  - destruct ((200 <=? code) && (code <? 300))%nat; [|done].
    destruct (Js.is_empty (Js.or_string (Some text) EmptyString)) eqn:Hempty; [done|].
    assert (Js.or_string (Some text) EmptyString = text) as ->.
    { unfold Js.or_string in *. by destruct (Js.is_empty text). }
    by rewrite Hparse.
Qed.

(** C7, as the code has it. On a failed provider lookup, a network error,
    a non-2xx response, a missing text field or malformed JSON, both
    clients resolve to the output of their fallback mock generator; when
    the text parses to an empty array they resolve to the empty list, not
    to the mock. *)
Theorem client_failures_fall_back (w : env) :
  (forall type context,
     failure w (structure_prompt type context) ->
     (fetchAIStructure w type context).1 = fallbackMockStructure type context)
  /\ (forall topic count,
        failure w (mcq_prompt topic count) ->
        (generateMCQInitial w topic count).1 = fallbackMock topic count)
  /\ (forall type context,
        empty_parse_result w (structure_prompt type context) ->
        (fetchAIStructure w type context).1 = JArray [])
  /\ (forall topic count,
        empty_parse_result w (mcq_prompt topic count) ->
        (generateMCQInitial w topic count).1 = JArray []).
Proof.
  split; [|split; [|split]].
  - apply fetchAIStructure_failure.
  - apply generateMCQInitial_failure.
  - intros type context (rows & p & code & text & Hq & Hp & Hpost & Hcode & Htext & Hparse).
    unfold fetchAIStructure, fetchAIStructure_try.
    rewrite Hq, Hp, Hpost, Hcode, (or_string_some _ Htext), Htext, Hparse. done.
  - intros topic count (rows & p & code & text & Hq & Hp & Hpost & Hcode & Htext & Hparse).
    unfold generateMCQInitial, generateMCQInitial_try.
    rewrite Hq, Hp, Hpost, Hcode, (or_string_some _ Htext), Htext, Hparse. simpl.
    by destruct count.
Qed.

Lemma client_failures_fall_back_witness :
  (fetchAIStructure unreachable "boards" "West Bengal").1
  = fallbackMockStructure "boards" "West Bengal".
Proof.
  apply (proj1 (client_failures_fall_back unreachable) "boards" "West Bengal").
  apply (network_error unreachable _ [gemini] gemini); reflexivity.
Defined.

(** C7 as stated fails: an empty parse result is returned as it is, not
    replaced by the mock; and a truthy [items] field is returned whatever it
    is, here a string and no list. *)
Lemma empty_parse_result_is_not_mock :
  empty_parse_result answers_empty (structure_prompt "boards" "West Bengal")
  /\ fetchAIStructure answers_empty "boards" "West Bengal" = (JArray [], 1%nat)
  /\ (fetchAIStructure answers_empty "boards" "West Bengal").1
     <> fallbackMockStructure "boards" "West Bengal"
  /\ fetchAIStructure answers_text "boards" "West Bengal" = (JString "CBSE", 1%nat).
Proof.
  split; [|split; [|split]].
  - exists [gemini], gemini, 200%nat, "[]". repeat split; reflexivity.
  - reflexivity.
  - discriminate.
  - reflexivity.
Qed.

End GenerationClientProperties.

(** ** The existence checks *)

Section ExistenceCheckProperties.
Import Sql.

(** The stream clause [stream_id = p OR (stream_id IS NULL AND p IS NULL)]
    is TRUE exactly when the two are the same value or both NULL. *)
Lemma stream_clause (stored p : sqlint) :
  holds (or3 (eq_int stored p) (and3 (is_null stored) (is_null p))) = true <-> stored = p.
Proof.
  destruct stored as [x|], p as [y|]; simpl; try (split; [discriminate | congruence]).
  - destruct (x =? y) eqn:Hxy; simpl.
    + apply Z.eqb_eq in Hxy. subst. done.
    + apply Z.eqb_neq in Hxy. split; [discriminate | congruence].
  - done.
Qed.

Lemma and3_true (p q : option bool) :
  holds (and3 p q) = true <-> holds p = true /\ holds q = true.
Proof. destruct p as [[]|], q as [[]|]; simpl; intuition congruence. Qed.

Lemma holds_eq_int (a : sqlint) (b : Z) : holds (eq_int a (Some b)) = true <-> a = Some b.
Proof.
  destruct a as [x|]; simpl; [|split; congruence].
  destruct (x =? b) eqn:Hxb.
  - apply Z.eqb_eq in Hxb. subst. done.
  - apply Z.eqb_neq in Hxb. split; congruence.
Qed.

Lemma holds_eq_text (a b : string) : holds (eq_text a b) = true <-> a = b.
Proof.
  unfold eq_text. simpl. destruct (String.eqb a b) eqn:Hab.
  - apply String.eqb_eq in Hab. done.
  - apply String.eqb_neq in Hab. split; congruence.
Qed.

(** When the query of POST /fetch-out-subjects selects a row. *)
Lemma fetch_out_subject_where_spec (b c : Z) (st : sqlint) (n : string) (r : subject) :
  holds (fetch_out_subject_where (Some b) (Some c) st n r) = true
  <-> subject_board_id r = Some b /\ subject_class_id r = Some c
      /\ subject_stream_id r = st /\ LOWER (subject_name r) = LOWER n.
Proof.
  unfold fetch_out_subject_where.
  rewrite !and3_true, !holds_eq_int, stream_clause, holds_eq_text. tauto.
Qed.

(** When the subquery of POST /ai-fetch/subjects finds a row. *)
Lemma admin_subject_where_spec (b c : Z) (st : sqlint) (n : string) (r : subject) :
  holds (admin_subject_where n (Some b) (Some c) st r) = true
  <-> subject_board_id r = Some b /\ subject_class_id r = Some c
      /\ subject_stream_id r = st /\ subject_name r = n.
Proof.
  unfold admin_subject_where.
  rewrite !and3_true, !holds_eq_int, stream_clause, holds_eq_text. tauto.
Qed.

(** Only the stream key is compared null-aware: with a NULL board or class
    parameter the comparison is UNKNOWN and no row is selected. *)
Lemma subject_where_null_board (n : string) (c st : sqlint) (r : subject) :
  holds (fetch_out_subject_where None c st n r) = false
  /\ holds (admin_subject_where n None c st r) = false.
Proof.
  unfold fetch_out_subject_where, admin_subject_where.
  assert (eq_int (subject_board_id r) None = None) as -> by (by destruct (subject_board_id r)).
  split.
  - by destruct (eq_int (subject_class_id r) c) as [[]|], (or3 _ _) as [[]|],
         (eq_text _ _) as [[]|].
  - by destruct (eq_int (subject_class_id r) c) as [[]|], (or3 _ _) as [[]|],
         (eq_text _ _) as [[]|].
Qed.

Lemma subject_where_null_class (n : string) (b st : sqlint) (r : subject) :
  holds (fetch_out_subject_where b None st n r) = false
  /\ holds (admin_subject_where n b None st r) = false.
Proof.
  unfold fetch_out_subject_where, admin_subject_where.
  assert (eq_int (subject_class_id r) None = None) as -> by (by destruct (subject_class_id r)).
  split.
  - by destruct (eq_int (subject_board_id r) b) as [[]|], (or3 _ _) as [[]|],
         (eq_text _ _) as [[]|].
  - by destruct (eq_int (subject_board_id r) b) as [[]|], (or3 _ _) as [[]|],
         (eq_text _ _) as [[]|].
Qed.

Lemma filter_none {A} (P : A -> bool) (t : list A) :
  (forall r, P r = false) -> List.filter P t = [].
Proof. intros HP. induction t as [|r t IH]; simpl; [done|]. by rewrite HP. Qed.

Lemma existsb_none {A} (P : A -> bool) (t : list A) :
  (forall r, P r = false) -> existsb P t = false.
Proof. intros HP. induction t as [|r t IH]; simpl; [done|]. by rewrite HP. Qed.

(** The rows the existence query of POST /fetch-out-subjects returns. *)
Lemma select_existing_subjects_spec (b c : Z) (st : sqlint) (n : string) (t : list subject)
    (id : Z) :
  In id (select_existing_subjects (Some b) (Some c) st n t)
  <-> exists r, In r t /\ subject_id r = id
                /\ subject_board_id r = Some b /\ subject_class_id r = Some c
                /\ subject_stream_id r = st /\ same_up_to_case (subject_name r) n.
Proof.
  unfold select_existing_subjects. rewrite List.in_map_iff. split.
  - intros (r & Hid & Hin). apply List.filter_In in Hin as [Hin Hwhere].
    apply fetch_out_subject_where_spec in Hwhere. exists r. tauto.
  - intros (r & Hin & Hid & Hrow). exists r. split; [done|].
    apply List.filter_In. split; [done|]. by apply fetch_out_subject_where_spec.
Qed.

(** When the EXISTS of POST /ai-fetch/subjects is true. *)
Lemma admin_subject_exists_spec (b c : Z) (st : sqlint) (n : string) (t : list subject) :
  admin_subject_exists n (Some b) (Some c) st t = true
  <-> exists r, In r t
                /\ subject_board_id r = Some b /\ subject_class_id r = Some c
                /\ subject_stream_id r = st /\ subject_name r = n.
Proof.
  unfold admin_subject_exists. rewrite List.existsb_exists. split.
  - intros (r & Hin & Hwhere). apply admin_subject_where_spec in Hwhere. by exists r.
  - intros (r & Hin & Hrow). exists r. split; [done|]. by apply admin_subject_where_spec.
Qed.

(** C2, as the code has it. In both subject existence checks, over any
    table: for a concrete board and class, the check of POST
    /fetch-out-subjects returns the ids of the rows of that board and
    class whose stream is the candidate's stream as a nullable value (the
    same id, or both NULL) and whose name is the candidate's up to letter
    case, and the EXISTS of POST /ai-fetch/subjects is true exactly when
    there is a row of that board and class with the candidate's stream as a
    nullable value and the candidate's name.  The board and the class are
    compared with [=]: with a NULL board or a NULL class both checks find
    no row, whatever the table holds. *)
Theorem stream_scope_null_aware (t : list subject) (n : string) (st : sqlint) :
  (forall (b c id : Z),
     In id (select_existing_subjects (Some b) (Some c) st n t)
     <-> exists r, In r t /\ subject_id r = id
                   /\ subject_board_id r = Some b /\ subject_class_id r = Some c
                   /\ subject_stream_id r = st /\ same_up_to_case (subject_name r) n)
  /\ (forall (b c : Z),
        admin_subject_exists n (Some b) (Some c) st t = true
        <-> exists r, In r t
                      /\ subject_board_id r = Some b /\ subject_class_id r = Some c
                      /\ subject_stream_id r = st /\ subject_name r = n)
  /\ (forall (p : sqlint),
        select_existing_subjects None p st n t = []
        /\ select_existing_subjects p None st n t = []
        /\ admin_subject_exists n None p st t = false
        /\ admin_subject_exists n p None st t = false).
Proof.
  split; [|split].
  - intros b c id. apply select_existing_subjects_spec.
  - intros b c. apply admin_subject_exists_spec.
  - intros p. unfold select_existing_subjects, admin_subject_exists.
    rewrite !filter_none, !existsb_none; [done|..]; intros r.
    + apply subject_where_null_class.
    + apply subject_where_null_board.
    + apply subject_where_null_class.
    + apply subject_where_null_board.
Qed.

Lemma stream_scope_null_aware_witness :
  In 1 (select_existing_subjects (Some 3) (Some 11) None "Physics" [physics None])
  /\ ~ In 1 (select_existing_subjects (Some 3) (Some 11) None "Physics" [physics (Some 5)])
  /\ admin_subject_exists "Physics" (Some 3) (Some 11) (Some 5) [physics None] <> true
  /\ admin_subject_exists "Physics" None (Some 11) None [physics None] = false.
Proof.
  split; [|split; [|split]].
  - apply (proj1 (stream_scope_null_aware [physics None] "Physics" None) 3 11 1).
    exists (physics None). repeat split; by left.
  - intros H.
    apply (proj1 (stream_scope_null_aware [physics (Some 5)] "Physics" None) 3 11 1) in H.
    destruct H as (r & [<-|[]] & _ & _ & _ & Hstream & _). discriminate Hstream.
  - intros H.
    apply (proj1 (proj2 (stream_scope_null_aware [physics None] "Physics" (Some 5))) 3 11)
      in H.
    destruct H as (r & [<-|[]] & _ & _ & Hstream & _). discriminate Hstream.
  - apply (proj2 (proj2 (stream_scope_null_aware [physics None] "Physics" None)) (Some 11)).
Defined.

Lemma board_conflict_spec (n : string) (z : Z) (r : board) :
  board_conflict n (Some z) r = true <-> board_state_id r = Some z /\ board_name r = n.
Proof. unfold board_conflict. by rewrite and3_true, holds_eq_int, holds_eq_text. Qed.

Lemma chapter_conflict_spec (n : string) (z : Z) (r : chapter) :
  chapter_conflict n (Some z) r = true <-> chapter_subject_id r = Some z /\ chapter_name r = n.
Proof. unfold chapter_conflict. by rewrite and3_true, holds_eq_int, holds_eq_text. Qed.

Lemma fetch_out_chapter_where_spec (z : Z) (n : string) (r : chapter) :
  holds (fetch_out_chapter_where (Some z) n r) = true
  <-> chapter_subject_id r = Some z /\ LOWER (chapter_name r) = LOWER n.
Proof. unfold fetch_out_chapter_where. by rewrite and3_true, holds_eq_int, holds_eq_text. Qed.

(** C3, as the code has it. Over a table of one stored row in the
    candidate's scope (a concrete board, class and the row's stream for a
    subject, a concrete subject for a chapter): the existence queries of
    POST /fetch-out-subjects and POST /fetch-out-chapters return the row
    exactly when its name equals the candidate's up to letter case; the
    EXISTS of POST /ai-fetch/subjects is true exactly when the two names
    are equal character for character. *)
Theorem name_comparison_by_path (n : string) :
  (forall (r : subject) (b c : Z),
     subject_board_id r = Some b -> subject_class_id r = Some c ->
     (select_existing_subjects (Some b) (Some c) (subject_stream_id r) n [r] <> []
      <-> same_up_to_case (subject_name r) n)
     /\ (admin_subject_exists n (Some b) (Some c) (subject_stream_id r) [r] = true
         <-> subject_name r = n))
  /\ (forall (r : chapter) (z : Z),
        chapter_subject_id r = Some z ->
        (select_existing_chapters (Some z) n [r] <> [] <-> same_up_to_case (chapter_name r) n)).
Proof.
  split.
  - intros r b c Hb Hc. split.
    + unfold select_existing_subjects. simpl.
      pose proof (fetch_out_subject_where_spec b c (subject_stream_id r) n r) as Hspec.
      destruct (holds (fetch_out_subject_where _ _ _ _ _)); simpl.
      * split; [intros _; apply Hspec; done | done].
      * split; [done | intros Hsame].
        assert (false = true) by (apply Hspec; done). discriminate.
    + unfold admin_subject_exists. simpl. rewrite orb_false_r, admin_subject_where_spec.
      tauto.
  - intros r z Hz.
    unfold select_existing_chapters. simpl.
    pose proof (fetch_out_chapter_where_spec z n r) as Hspec.
    destruct (holds (fetch_out_chapter_where (Some z) n r)); simpl.
    + split; [intros _; apply Hspec; done | done].
    + split; [done | intros Hsame].
      assert (false = true) by (apply Hspec; done). discriminate.
Qed.

Lemma name_comparison_by_path_witness :
  select_existing_subjects (Some 3) (Some 11) None "PHYSICS" [physics None] <> []
  /\ admin_subject_exists "PHYSICS" (Some 3) (Some 11) None [physics None] <> true.
Proof.
  split.
  - apply (proj1 (proj1 (name_comparison_by_path "PHYSICS") (physics None) 3 11
                    eq_refl eq_refl)).
    reflexivity.
  - intros H.
    apply (proj2 (proj1 (name_comparison_by_path "PHYSICS") (physics None) 3 11
                    eq_refl eq_refl)) in H.
    discriminate H.
Defined.

End ExistenceCheckProperties.

(** ** Ingesting a name twice *)

Section IdempotenceProperties.
Import Sql Route.

Variable raises : statement -> string -> bool.

Lemma query_ok {A} (kind : statement) (bound : string) (stmt : db -> db * A) (s : state) :
  raises kind bound = false ->
  query raises kind bound stmt s = (Ok (stmt (data s)).2, with_data (stmt (data s)).1 s).
Proof. intros H. unfold query. rewrite H. by destruct (stmt (data s)). Qed.

Lemma query_raises {A} (kind : statement) (bound : string) (stmt : db -> db * A) (s : state) :
  raises kind bound = true ->
  query raises kind bound stmt s = (Throw "query failed", s).
Proof. intros H. unfold query. by rewrite H. Qed.

Lemma filter_snoc {A} (P : A -> bool) (t : list A) (r : A) :
  List.filter P (t ++ [r]) = (List.filter P t ++ if P r then [r] else [])%list.
Proof. rewrite List.filter_app. simpl. by destruct (P r). Qed.

Lemma filter_map_stable {A} (P : A -> bool) (f : A -> A) (t : list A) :
  (forall r, P (f r) = P r) ->
  List.filter P (map f t) = map f (List.filter P t).
Proof.
  intros Hstable. induction t as [|r t IH]; simpl; [done|].
  rewrite Hstable. destruct (P r); simpl; by rewrite IH.
Qed.

Lemma existsb_filter_nil {A} (P : A -> bool) (t : list A) :
  List.filter P t = [] -> existsb P t = false.
Proof.
  induction t as [|r t IH]; simpl; [done|].
  destruct (P r); [discriminate | done].
Qed.

Lemma existsb_filter_cons {A} (P : A -> bool) (t : list A) (r : A) (rest : list A) :
  List.filter P t = r :: rest -> existsb P t = true.
Proof.
  induction t as [|x t IH]; simpl; [discriminate|].
  destruct (P x); [done | auto].
Qed.

Lemma board_conflict_self (n : string) (z id : Z) (a : bool) :
  board_conflict n (Some z)
    {| board_id := id; board_name := n; board_state_id := Some z; board_is_active := a |}
  = true.
Proof. by apply board_conflict_spec. Qed.

Lemma chapter_conflict_self (n : string) (z id : Z) (a : bool) :
  chapter_conflict n (Some z)
    {| chapter_id := id; chapter_name := n; chapter_subject_id := Some z;
       chapter_is_active := a |}
  = true.
Proof. by apply chapter_conflict_spec. Qed.

Lemma chapter_conflict_where (n : string) (z : Z) (r : chapter) :
  chapter_conflict n (Some z) r = true -> holds (fetch_out_chapter_where (Some z) n r) = true.
Proof.
  rewrite chapter_conflict_spec, fetch_out_chapter_where_spec. intros [-> ->]. done.
Qed.

Lemma chapters_for_nil_named (n : string) (z : Z) (t : list chapter) :
  chapters_for n z t = [] -> existsb (chapter_conflict n (Some z)) t = false.
Proof.
  unfold chapters_for. induction t as [|r t IH]; simpl; [done|].
  destruct (holds (fetch_out_chapter_where (Some z) n r)) eqn:Hwhere; [discriminate|].
  intros Hnil. rewrite (IH Hnil), orb_false_r.
  destruct (chapter_conflict n (Some z) r) eqn:Hconflict; [|done].
  apply chapter_conflict_where in Hconflict. congruence.
Qed.

(** *** POST /fetch-out-boards *)

Lemma fetch_out_boards_twice (it : Structure.item) (z : Z) (saved : list (Z * string))
    (s : state) :
  let n := Structure.candidate_name it in
  Js.is_empty n = false ->
  Js.some_includes Structure.nonSchoolKeywords (Js.toLowerCase n) = false ->
  raises Insert n = false ->
  boards_for n z (boards (data s)) = [] ->
  exists id s1 s2,
    Structure.fetch_out_boards_row raises (Some z) it saved s
      = (Ok (saved ++ [(id, n)])%list, s1)
    /\ Structure.fetch_out_boards_row raises (Some z) it (saved ++ [(id, n)])%list s1
       = (Ok ((saved ++ [(id, n)]) ++ [(id, n)])%list, s2)
    /\ boards_for n z (boards (data s2))
       = [{| board_id := id; board_name := n; board_state_id := Some z;
             board_is_active := true |}]
    /\ length (boards (data s2)) = length (boards (data s1)).
Proof.
  intros n Hname Hschool Hok Hnone. subst n.
  set (n := Structure.candidate_name it) in *.
  set (r := {| board_id := fresh board_id (boards (data s)); board_name := n;
               board_state_id := Some z; board_is_active := true |}).
  assert (boards_for n z (boards (data s) ++ [r]) = [r]) as Hone.
  { unfold boards_for in *. rewrite filter_snoc, Hnone. simpl.
    unfold r. by rewrite board_conflict_self. }
  set (t1 := (boards (data s) ++ [r])%list) in *.
  set (t2 := map (fun x => if board_conflict n (Some z) x then activate_board x else x) t1).
  exists (board_id r), (with_data (set_boards t1 (data s)) s),
    (with_data (set_boards t2 (set_boards t1 (data s))) (with_data (set_boards t1 (data s)) s)).
  assert (boards_for n z t2 = [r]) as Htwo.
  { unfold boards_for, t2. rewrite filter_map_stable.
    - fold (boards_for n z t1). rewrite Hone. simpl.
      unfold r. by rewrite board_conflict_self.
    - intros x. by destruct (board_conflict n (Some z) x) eqn:Hx. }
  split; [|split; [|split]].
  - unfold Structure.fetch_out_boards_row. fold n. rewrite Hname, Hschool.
    unfold bind. rewrite query_ok by done. unfold on_boards, upsert_board.
    rewrite (existsb_filter_nil _ _ Hnone). reflexivity.
  - unfold Structure.fetch_out_boards_row. fold n. rewrite Hname, Hschool.
    unfold bind. rewrite query_ok by done. unfold on_boards, upsert_board.
    cbn [data with_data boards set_boards].
    rewrite (existsb_filter_cons _ _ _ _ Hone).
    fold (boards_for n z t1). rewrite Hone. reflexivity.
  - exact Htwo.
  - cbn [data with_data boards set_boards]. unfold t2. by rewrite length_map.
Qed.

(** *** POST /fetch-out-subjects *)

Lemma fetch_out_subjects_twice (it : Structure.item) (b c : Z) (stream : option Z)
    (saved : list (Z * string)) (s : state) :
  let n := Structure.candidate_name it in
  let st := Js.or_null stream in
  Js.is_empty n = false ->
  (forall kind, raises kind n = false) ->
  subjects_for n b c st (subjects (data s)) = [] ->
  exists id s1 s2 r,
    Structure.fetch_out_subjects_row raises (Some b) (Some c) stream it saved s
      = (Ok (saved ++ [(id, n)])%list, s1)
    /\ Structure.fetch_out_subjects_row raises (Some b) (Some c) stream it
         (saved ++ [(id, n)])%list s1
       = (Ok ((saved ++ [(id, n)]) ++ [(id, n)])%list, s2)
    /\ subjects_for n b c st (subjects (data s2)) = [r]
    /\ subject_id r = id /\ subject_name r = n /\ subject_is_active r = true
    /\ length (subjects (data s2)) = length (subjects (data s1)).
Proof.
  intros n st Hname Hok Hnone. subst n st.
  set (n := Structure.candidate_name it) in *.
  set (st := Js.or_null stream) in *.
  destruct s as [d snap act]. cbn [data] in Hnone.
  set (r := {| subject_id := fresh subject_id (subjects d); subject_name := n;
               subject_category_id := Some 1;
               subject_board_id := Some b; subject_university_id := None;
               subject_class_id := Some c; subject_stream_id := st;
               subject_semester_id := None; subject_degree_type_id := None;
               subject_paper_stage_id := None;
               subject_is_active := true; subject_is_approved := true |}).
  set (t1 := (subjects d ++ [r])%list).
  set (f := fun x => if subject_id x =? subject_id r then activate_subject x else x).
  assert (holds (fetch_out_subject_where (Some b) (Some c) st n r) = true) as Hself.
  { by apply fetch_out_subject_where_spec. }
  assert (subjects_for n b c st t1 = [r]) as Hone.
  { unfold subjects_for, t1 in *. rewrite filter_snoc, Hnone. simpl.
    by rewrite Hself. }
  assert (f r = r) as Hfix.
  { unfold f. by rewrite Z.eqb_refl. }
  assert (subjects_for n b c st (map f t1) = [r]) as Htwo.
  { unfold subjects_for. rewrite filter_map_stable.
    - fold (subjects_for n b c st t1). rewrite Hone. simpl. by rewrite Hfix.
    - intros x. unfold f. by destruct (subject_id x =? subject_id r). }
  exists (subject_id r),
    {| data := set_subjects t1 d; snapshot := snap; activeFetches := act |},
    {| data := set_subjects (map f t1) (set_subjects t1 d); snapshot := snap;
       activeFetches := act |}, r.
  split; [|split; [|split; [|split; [|split; [|split]]]]]; try done.
  - unfold Structure.fetch_out_subjects_row. fold n st. rewrite Hname.
    unfold bind. rewrite query_ok by done.
    cbn [data with_data fst snd]. unfold select_existing_subjects.
    fold (subjects_for n b c st (subjects d)). rewrite Hnone. cbn [map].
    rewrite query_ok by done. reflexivity.
  - unfold Structure.fetch_out_subjects_row. fold n st. rewrite Hname.
    unfold bind. rewrite query_ok by done.
    cbn [data with_data fst snd subjects set_subjects]. unfold select_existing_subjects.
    fold (subjects_for n b c st t1). rewrite Hone. cbn [map].
    rewrite query_ok by done. reflexivity.
  - cbn [data subjects set_subjects]. by rewrite length_map.
Qed.

(** *** POST /fetch-out-chapters *)

Lemma fetch_out_chapters_twice (it : Structure.item) (z : Z) (saved : list (Z * string))
    (s : state) :
  let n := Structure.candidate_name it in
  Js.is_empty n = false ->
  (forall kind, raises kind n = false) ->
  chapters_for n z (chapters (data s)) = [] ->
  exists id s1 s2,
    Structure.fetch_out_chapters_row raises (Some z) it saved s
      = (Ok (saved ++ [(id, n)])%list, s1)
    /\ Structure.fetch_out_chapters_row raises (Some z) it (saved ++ [(id, n)])%list s1
       = (Ok ((saved ++ [(id, n)]) ++ [(id, n)])%list, s2)
    /\ chapters_for n z (chapters (data s2))
       = [{| chapter_id := id; chapter_name := n; chapter_subject_id := Some z;
             chapter_is_active := true |}]
    /\ length (chapters (data s2)) = length (chapters (data s1)).
Proof.
  intros n Hname Hok Hnone. subst n.
  set (n := Structure.candidate_name it) in *.
  destruct s as [d snap act]. cbn [data] in Hnone.
  set (r := {| chapter_id := fresh chapter_id (chapters d); chapter_name := n;
               chapter_subject_id := Some z; chapter_is_active := true |}).
  set (t1 := (chapters d ++ [r])%list).
  set (f := fun x => if chapter_id x =? chapter_id r then activate_chapter x else x).
  assert (holds (fetch_out_chapter_where (Some z) n r) = true) as Hself.
  { by apply fetch_out_chapter_where_spec. }
  assert (chapters_for n z t1 = [r]) as Hone.
  { unfold chapters_for, t1 in *. rewrite filter_snoc, Hnone. simpl.
    by rewrite Hself. }
  assert (f r = r) as Hfix.
  { unfold f. by rewrite Z.eqb_refl. }
  assert (chapters_for n z (map f t1) = [r]) as Htwo.
  { unfold chapters_for. rewrite filter_map_stable.
    - fold (chapters_for n z t1). rewrite Hone. simpl. by rewrite Hfix.
    - intros x. unfold f. by destruct (chapter_id x =? chapter_id r). }
  exists (chapter_id r),
    {| data := set_chapters t1 d; snapshot := snap; activeFetches := act |},
    {| data := set_chapters (map f t1) (set_chapters t1 d); snapshot := snap;
       activeFetches := act |}.
  split; [|split; [|split]]; try done.
  - unfold Structure.fetch_out_chapters_row. fold n. rewrite Hname.
    unfold bind. rewrite query_ok by done.
    cbn [data with_data fst snd]. unfold select_existing_chapters.
    change (List.filter _ (chapters d)) with (chapters_for n z (chapters d)).
    rewrite Hnone. cbn [map].
    rewrite query_ok by done. unfold on_chapters, upsert_chapter.
    cbn [data with_data].
    rewrite (chapters_for_nil_named _ _ _ Hnone). reflexivity.
  - unfold Structure.fetch_out_chapters_row. fold n. rewrite Hname.
    unfold bind. rewrite query_ok by done.
    cbn [data with_data fst snd chapters set_chapters]. unfold select_existing_chapters.
    change (List.filter _ t1) with (chapters_for n z t1).
    rewrite Hone. cbn [map].
    rewrite query_ok by done. reflexivity.
  - cbn [data chapters set_chapters]. by rewrite length_map.
Qed.

(** *** POST /ai-fetch/boards and POST /ai-fetch/chapters *)

Lemma admin_boards_twice (n : string) (z : Z) (saved saved' : list board) (s : state) :
  AiFetch.placeholder "board " n = false ->
  raises Insert n = false ->
  boards_for n z (boards (data s)) = [] ->
  exists r s1,
    AiFetch.boards_row raises (Some z) n saved s = (Ok (saved ++ [r])%list, s1)
    /\ AiFetch.boards_row raises (Some z) n saved' s1 = (Ok saved', s1)
    /\ boards_for n z (boards (data s1)) = [r]
    /\ board_name r = n /\ board_state_id r = Some z.
Proof.
  intros Hguard Hok Hnone. destruct s as [d snap act]. cbn [data] in Hnone.
  set (r := {| board_id := fresh board_id (boards d); board_name := n;
               board_state_id := Some z; board_is_active := true |}).
  assert (boards_for n z (boards d ++ [r]) = [r]) as Hone.
  { unfold boards_for in *. rewrite filter_snoc, Hnone. simpl.
    unfold r. by rewrite board_conflict_self. }
  exists r, {| data := set_boards (boards d ++ [r]) d; snapshot := snap;
               activeFetches := act |}.
  split; [|split; [|split]]; try done.
  - unfold AiFetch.boards_row. rewrite Hguard.
    unfold bind. rewrite query_ok by done. unfold on_boards, insert_board_do_nothing.
    cbn [data with_data]. rewrite (existsb_filter_nil _ _ Hnone). reflexivity.
  - unfold AiFetch.boards_row. rewrite Hguard.
    unfold bind. rewrite query_ok by done. unfold on_boards, insert_board_do_nothing.
    cbn [data with_data boards set_boards].
    rewrite (existsb_filter_cons _ _ _ _ Hone). reflexivity.
Qed.

Lemma admin_chapters_twice (n : string) (z : Z) (saved saved' : list chapter) (s : state) :
  AiFetch.placeholder "chapter " n = false ->
  raises Insert n = false ->
  chapters_named n z (chapters (data s)) = [] ->
  exists r s1,
    AiFetch.chapters_row raises (Some z) n saved s = (Ok (saved ++ [r])%list, s1)
    /\ AiFetch.chapters_row raises (Some z) n saved' s1 = (Ok saved', s1)
    /\ chapters_named n z (chapters (data s1)) = [r]
    /\ chapter_name r = n /\ chapter_subject_id r = Some z.
Proof.
  intros Hguard Hok Hnone. destruct s as [d snap act]. cbn [data] in Hnone.
  set (r := {| chapter_id := fresh chapter_id (chapters d); chapter_name := n;
               chapter_subject_id := Some z; chapter_is_active := true |}).
  assert (chapters_named n z (chapters d ++ [r]) = [r]) as Hone.
  { unfold chapters_named in *. rewrite filter_snoc, Hnone. simpl.
    unfold r. by rewrite chapter_conflict_self. }
  exists r, {| data := set_chapters (chapters d ++ [r]) d; snapshot := snap;
               activeFetches := act |}.
  split; [|split; [|split]]; try done.
  - unfold AiFetch.chapters_row. rewrite Hguard.
    unfold bind. rewrite query_ok by done. unfold on_chapters, insert_chapter_do_nothing.
    cbn [data with_data]. rewrite (existsb_filter_nil _ _ Hnone). reflexivity.
  - unfold AiFetch.chapters_row. rewrite Hguard.
    unfold bind. rewrite query_ok by done. unfold on_chapters, insert_chapter_do_nothing.
    cbn [data with_data chapters set_chapters].
    rewrite (existsb_filter_cons _ _ _ _ Hone). reflexivity.
Qed.

End IdempotenceProperties.

(** C1, as the code has it. Ingesting one accepted candidate name twice
    into one scope whose parent is a concrete id, from a table with no row
    for it and with no statement refused: on the fetch-out routes (boards,
    subjects, chapters) the first run inserts a row and the second run
    reactivates and returns that same row without adding one; on the admin
    on-conflict routes (boards, chapters) the second run is skipped and
    leaves the store as it is.  Afterwards the table holds exactly one row
    for the scope and name.  A fetch-out request without the id of its
    parent is answered 400 and changes nothing, so on those routes no
    scope is left out. *)
Theorem ingest_twice_one_row (raises : Route.statement -> string -> bool) :
  (forall (it : Structure.item) (z : Z) (saved : list (Z * string)) (s : Route.state),
     let n := Structure.candidate_name it in
     Js.is_empty n = false ->
     Js.some_includes Structure.nonSchoolKeywords (Js.toLowerCase n) = false ->
     raises Route.Insert n = false ->
     boards_for n z (Sql.boards (Route.data s)) = [] ->
     exists id s1 s2,
       Structure.fetch_out_boards_row raises (Some z) it saved s
         = (Route.Ok (saved ++ [(id, n)])%list, s1)
       /\ Structure.fetch_out_boards_row raises (Some z) it (saved ++ [(id, n)])%list s1
          = (Route.Ok ((saved ++ [(id, n)]) ++ [(id, n)])%list, s2)
       /\ boards_for n z (Sql.boards (Route.data s2))
          = [{| Sql.board_id := id; Sql.board_name := n; Sql.board_state_id := Some z;
                Sql.board_is_active := true |}]
       /\ length (Sql.boards (Route.data s2)) = length (Sql.boards (Route.data s1)))
  /\ (forall (it : Structure.item) (b c : Z) (stream : option Z)
        (saved : list (Z * string)) (s : Route.state),
        let n := Structure.candidate_name it in
        let st := Js.or_null stream in
        Js.is_empty n = false ->
        (forall kind, raises kind n = false) ->
        subjects_for n b c st (Sql.subjects (Route.data s)) = [] ->
        exists id s1 s2 r,
          Structure.fetch_out_subjects_row raises (Some b) (Some c) stream it saved s
            = (Route.Ok (saved ++ [(id, n)])%list, s1)
          /\ Structure.fetch_out_subjects_row raises (Some b) (Some c) stream it
               (saved ++ [(id, n)])%list s1
             = (Route.Ok ((saved ++ [(id, n)]) ++ [(id, n)])%list, s2)
          /\ subjects_for n b c st (Sql.subjects (Route.data s2)) = [r]
          /\ Sql.subject_id r = id /\ Sql.subject_name r = n
          /\ Sql.subject_is_active r = true
          /\ length (Sql.subjects (Route.data s2)) = length (Sql.subjects (Route.data s1)))
  /\ (forall (it : Structure.item) (z : Z) (saved : list (Z * string)) (s : Route.state),
        let n := Structure.candidate_name it in
        Js.is_empty n = false ->
        (forall kind, raises kind n = false) ->
        chapters_for n z (Sql.chapters (Route.data s)) = [] ->
        exists id s1 s2,
          Structure.fetch_out_chapters_row raises (Some z) it saved s
            = (Route.Ok (saved ++ [(id, n)])%list, s1)
          /\ Structure.fetch_out_chapters_row raises (Some z) it (saved ++ [(id, n)])%list s1
             = (Route.Ok ((saved ++ [(id, n)]) ++ [(id, n)])%list, s2)
          /\ chapters_for n z (Sql.chapters (Route.data s2))
             = [{| Sql.chapter_id := id; Sql.chapter_name := n;
                   Sql.chapter_subject_id := Some z; Sql.chapter_is_active := true |}]
          /\ length (Sql.chapters (Route.data s2)) = length (Sql.chapters (Route.data s1)))
  /\ (forall (n : string) (z : Z) (saved saved' : list Sql.board) (s : Route.state),
        AiFetch.placeholder "board " n = false ->
        raises Route.Insert n = false ->
        boards_for n z (Sql.boards (Route.data s)) = [] ->
        exists r s1,
          AiFetch.boards_row raises (Some z) n saved s = (Route.Ok (saved ++ [r])%list, s1)
          /\ AiFetch.boards_row raises (Some z) n saved' s1 = (Route.Ok saved', s1)
          /\ boards_for n z (Sql.boards (Route.data s1)) = [r]
          /\ Sql.board_name r = n /\ Sql.board_state_id r = Some z)
  /\ (forall (n : string) (z : Z) (saved saved' : list Sql.chapter) (s : Route.state),
        AiFetch.placeholder "chapter " n = false ->
        raises Route.Insert n = false ->
        chapters_named n z (Sql.chapters (Route.data s)) = [] ->
        exists r s1,
          AiFetch.chapters_row raises (Some z) n saved s = (Route.Ok (saved ++ [r])%list, s1)
          /\ AiFetch.chapters_row raises (Some z) n saved' s1 = (Route.Ok saved', s1)
          /\ chapters_named n z (Sql.chapters (Route.data s1)) = [r]
          /\ Sql.chapter_name r = n /\ Sql.chapter_subject_id r = Some z)
  /\ (forall (body : Structure.boards_body) (generated : list Structure.item)
        (s : Route.state),
        Structure.state_id body = None ->
        Structure.fetch_out_boards raises body generated s = (Route.Ok Route.Status400, s))
  /\ (forall (body : Structure.subjects_body) (generated : list Structure.item)
        (s : Route.state),
        Structure.board_id body = None \/ Structure.class_id body = None ->
        Structure.fetch_out_subjects raises body generated s = (Route.Ok Route.Status400, s))
  /\ (forall (body : Structure.chapters_body) (generated : list Structure.item)
        (s : Route.state),
        Structure.subject_id body = None ->
        Structure.fetch_out_chapters raises body generated s = (Route.Ok Route.Status400, s)).
Proof.
  split; [|split; [|split; [|split; [|split; [|split; [|split]]]]]].
  - apply fetch_out_boards_twice.
  - apply fetch_out_subjects_twice.
  - apply fetch_out_chapters_twice.
  - apply admin_boards_twice.
  - apply admin_chapters_twice.
  - intros body generated s Hid. unfold Structure.fetch_out_boards. by rewrite Hid.
  - intros body generated s [Hid|Hid]; unfold Structure.fetch_out_subjects; rewrite Hid.
    + done.
    + cbn [Js.falsy]. by rewrite orb_true_r.
  - intros body generated s Hid. unfold Structure.fetch_out_chapters. by rewrite Hid.
Qed.

Lemma ingest_twice_one_row_witness :
  exists id s1 s2,
    Structure.fetch_out_boards_row no_faults (Some 7) {| Structure.name := Some "WBBSE" |}
      [] (idle empty_db)
      = (Route.Ok [(id, "WBBSE")], s1)
    /\ Structure.fetch_out_boards_row no_faults (Some 7) {| Structure.name := Some "WBBSE" |}
         [(id, "WBBSE")] s1
       = (Route.Ok [(id, "WBBSE"); (id, "WBBSE")], s2)
    /\ boards_for "WBBSE" 7 (Sql.boards (Route.data s2))
       = [{| Sql.board_id := id; Sql.board_name := "WBBSE"; Sql.board_state_id := Some 7;
             Sql.board_is_active := true |}]
    /\ length (Sql.boards (Route.data s2)) = length (Sql.boards (Route.data s1)).
Proof.
  apply (proj1 (ingest_twice_one_row no_faults) {| Structure.name := Some "WBBSE" |} 7 []
           (idle empty_db)); reflexivity.
Defined.

(** ** Loops, placeholders and transactions *)

Section LoopProperties.
Import Sql Route.

(** A candidate on which the loop body does [continue] leaves no trace. *)
Lemma for_of_skip {A S : Type} (body : A -> S -> M S) (x : A) (before after : list A) :
  (forall acc, body x acc = ret acc) ->
  forall acc s, for_of (before ++ x :: after) body acc s = for_of (before ++ after) body acc s.
Proof.
  intros Hskip. induction before as [|y before IH]; intros acc s; simpl.
  - unfold bind. rewrite Hskip. reflexivity.
  - unfold bind. destruct (body y acc s) as [[acc'|e] s']; [apply IH | done].
Qed.

(** What every iteration preserves, the loop preserves. *)
Lemma for_of_invariant {A S : Type} (I : state -> Prop) (body : A -> S -> M S) :
  (forall x acc s, I s -> I (body x acc s).2) ->
  forall l acc s, I s -> I (for_of l body acc s).2.
Proof.
  intros Hbody l. induction l as [|x l IH]; intros acc s Hs; simpl; [done|].
  unfold bind. pose proof (Hbody x acc s Hs) as Hx.
  destruct (body x acc s) as [[acc'|e] s']; simpl in *; [by apply IH | done].
Qed.

(** The loop throws as soon as one of its candidates makes the body throw. *)
Lemma for_of_throws {A S : Type} (body : A -> S -> M S) (x : A) (l : list A) :
  In x l ->
  (forall acc s, exists e, body x acc s = (Throw e, s)) ->
  forall acc s, exists e s', for_of l body acc s = (Throw e, s').
Proof.
  intros Hin Hthrow. induction l as [|y l IH]; intros acc s; [destruct Hin|].
  simpl. unfold bind.
  destruct (body y acc s) as [[acc'|e] s'] eqn:Hy.
  - destruct Hin as [->|Hin].
    + destruct (Hthrow acc s) as [e He]. congruence.
    + by apply IH.
  - by exists e, s'.
Qed.

End LoopProperties.

Section PlaceholderProperties.
Import Sql Route.

Variable raises : statement -> string -> bool.

Lemma some_includes_university (s : string) :
  Js.includes s "university" = true ->
  Js.some_includes Structure.nonSchoolKeywords s = true.
Proof. intros H. unfold Js.some_includes, Structure.nonSchoolKeywords. simpl. by rewrite H. Qed.

Lemma fetch_out_boards_row_non_school (state_id : option Z) (it : Structure.item) :
  Js.includes (Js.toLowerCase (Structure.candidate_name it)) "university" = true ->
  forall saved, Structure.fetch_out_boards_row raises state_id it saved = ret saved.
Proof.
  intros H saved. unfold Structure.fetch_out_boards_row.
  rewrite (some_includes_university _ H). by destruct (Js.is_empty _).
Qed.

Lemma admin_boards_row_board_1 (state_id : option Z) :
  forall saved, AiFetch.boards_row raises state_id "Board 1" saved = ret saved.
Proof. reflexivity. Qed.

End PlaceholderProperties.

(** C5, as the code has it. The admin route POST /ai-fetch/boards never
    persists a candidate named "Board 1": its run is the run without that
    candidate.  POST /fetch-out-boards never persists a candidate whose
    name, cut to 200 characters and trimmed, contains "university" in any
    letter case: its run is the run without that candidate. *)
Theorem placeholders_not_persisted (raises : Route.statement -> string -> bool) :
  (forall (body : AiFetch.boards_body) (before after : list string) (s : Route.state),
     AiFetch.post_boards raises body (before ++ "Board 1" :: after) s
     = AiFetch.post_boards raises body (before ++ after) s)
  /\ (forall (body : Structure.boards_body) (it : Structure.item)
        (before after : list Structure.item) (s : Route.state),
        Js.includes (Js.toLowerCase (Structure.candidate_name it)) "university" = true ->
        Structure.fetch_out_boards raises body (before ++ it :: after) s
        = Structure.fetch_out_boards raises body (before ++ after) s).
Proof.
  split.
  - intros body before after s.
    unfold AiFetch.post_boards, AiFetch.handler, AiFetch.transaction.
    unfold Route.try_catch, Route.bind.
    destruct (Route.BEGIN s) as [[u|e] s0]; [|done].
    rewrite (for_of_skip (AiFetch.boards_row raises (AiFetch.state_id body)) "Board 1");
      [done | apply admin_boards_row_board_1].
  - intros body it before after s Hit.
    unfold Structure.fetch_out_boards.
    destruct (Js.falsy (Structure.state_id body) || Structure.missing (Structure.state_name body));
      [done|].
    unfold Route.bind, Route.try_finally, Route.try_catch.
    destruct (Route.has_active _ s) as [[[]|e] s0]; try done.
    destruct (Route.add_active _ s0) as [[u|e] s1]; [|done].
    rewrite (for_of_skip (Structure.fetch_out_boards_row raises (Structure.state_id body)) it);
      [done | by apply fetch_out_boards_row_non_school].
Qed.

Lemma placeholders_not_persisted_witness :
  Route.respond
    (Structure.fetch_out_boards no_faults west_bengal
       [ {| Structure.name := Some "WBCHSE" |};
         {| Structure.name := Some "Some University Board" |};
         {| Structure.name := Some "WBBSE" |} ]) (idle empty_db)
  = Route.respond
      (Structure.fetch_out_boards no_faults west_bengal
         [ {| Structure.name := Some "WBCHSE" |}; {| Structure.name := Some "WBBSE" |} ])
      (idle empty_db).
Proof.
  pose proof (proj2 (placeholders_not_persisted no_faults) west_bengal
                {| Structure.name := Some "Some University Board" |}
                [ {| Structure.name := Some "WBCHSE" |} ]
                [ {| Structure.name := Some "WBBSE" |} ] (idle empty_db) eq_refl) as Hsame.
  cbn [app] in Hsame. unfold Route.respond. rewrite Hsame. reflexivity.
Defined.

(** C5 as stated fails on POST /fetch-out-boards, which has no placeholder
    guard: a generated candidate "Board 1" is saved. *)
Lemma board_1_persisted_by_fetch_out :
  (Route.respond
     (Structure.fetch_out_boards no_faults west_bengal [ {| Structure.name := Some "Board 1" |} ])
     (idle empty_db)).1
  = Route.Json200 1 [(1, "Board 1")]
  /\ Sql.boards
       (Route.data
          (Route.respond
             (Structure.fetch_out_boards no_faults west_bengal
                [ {| Structure.name := Some "Board 1" |} ])
             (idle empty_db)).2)
     = [{| Sql.board_id := 1; Sql.board_name := "Board 1"; Sql.board_state_id := Some 7;
           Sql.board_is_active := true |}].
Proof. split; vm_compute; reflexivity. Qed.

(** ** Transactions of the admin routes *)

Section TransactionProperties.
Import Sql Route.

Variable raises : statement -> string -> bool.

Lemma query_frame {A} (kind : statement) (bound : string) (stmt : db -> db * A) (s : state) :
  frame s (query raises kind bound stmt s).2.
Proof.
  unfold query, frame. destruct (raises kind bound); [done|].
  by destruct (stmt (data s)).
Qed.

Lemma insert_row_frame {R} (guard : bool) (bound : string) (stmt : db -> db * list R)
    (saved : list R) (s : state) (k : list R -> list R) :
  frame s ((if guard then ret saved
            else let* result := query raises Insert bound stmt in ret (k result)) s).2.
Proof.
  destruct guard; [done|]. unfold bind.
  pose proof (query_frame Insert bound stmt s) as Hq.
  by destruct (query raises Insert bound stmt s) as [[result|e] s'].
Qed.

Lemma insert_row_throws {R} (bound : string) (stmt : db -> db * list R)
    (saved : list R) (s : state) (k : list R -> list R) :
  raises Insert bound = true ->
  exists e, (let* result := query raises Insert bound stmt in ret (k result)) s = (Throw e, s).
Proof. intros H. unfold bind. rewrite query_raises by done. by eexists. Qed.

(** The shape of an admin route: when one candidate makes the loop body
    throw, the route answers 500 and the store is as before the request. *)
Lemma admin_route_rolls_back {R} (row : string -> list R -> M (list R)) (l : list string)
    (s : state) :
  snapshot s = None ->
  (forall x acc s0, frame s0 (row x acc s0).2) ->
  (exists x, In x l /\ forall acc s0, exists e, row x acc s0 = (Throw e, s0)) ->
  respond (AiFetch.handler (AiFetch.transaction (for_of l row []))) s = (Status500, s).
Proof.
  intros Hidle Hframe (x & Hin & Hthrow).
  destruct s as [d snap act]. simpl in Hidle. subst snap.
  set (s0 := {| data := d; snapshot := Some d; activeFetches := act |}).
  destruct (for_of_throws row x l Hin Hthrow [] s0) as (e & s' & Hloop).
  assert (snapshot s' = Some d /\ activeFetches s' = act) as [Hsnap Hact].
  { pose proof (for_of_invariant
                  (fun st => snapshot st = Some d /\ activeFetches st = act) row) as Hinv.
    specialize (Hinv (fun x0 acc st Hst =>
                        let '(conj H1 H2) := Hframe x0 acc st in
                        conj (eq_trans H1 (proj1 Hst)) (eq_trans H2 (proj2 Hst)))).
    specialize (Hinv l [] s0 (conj eq_refl eq_refl)). by rewrite Hloop in Hinv. }
  unfold respond, AiFetch.handler, AiFetch.transaction, try_catch, bind, BEGIN.
  cbn [snapshot data activeFetches]. fold s0. rewrite Hloop.
  unfold ROLLBACK. rewrite Hsnap, Hact. reflexivity.
Qed.

Lemma post_boards_rolls_back (body : AiFetch.boards_body) (boards : list string) (s : state) :
  snapshot s = None ->
  (exists name, In name boards /\ AiFetch.placeholder "board " name = false
                /\ raises Insert name = true) ->
  respond (AiFetch.post_boards raises body boards) s = (Status500, s).
Proof.
  intros Hidle (name & Hin & Hguard & Hraises).
  apply admin_route_rolls_back; [done | |].
  - intros x acc s0. apply insert_row_frame.
  - exists name. split; [done|]. intros acc s0. unfold AiFetch.boards_row.
    rewrite Hguard. by apply insert_row_throws.
Qed.

Lemma post_universities_rolls_back (body : AiFetch.boards_body) (universities : list string)
    (s : state) :
  snapshot s = None ->
  (exists name, In name universities /\ AiFetch.placeholder "university " name = false
                /\ raises Insert name = true) ->
  respond (AiFetch.post_universities raises body universities) s = (Status500, s).
Proof.
  intros Hidle (name & Hin & Hguard & Hraises).
  apply admin_route_rolls_back; [done | |].
  - intros x acc s0. apply insert_row_frame.
  - exists name. split; [done|]. intros acc s0. unfold AiFetch.universities_row.
    rewrite Hguard. by apply insert_row_throws.
Qed.

Lemma post_papers_rolls_back (body : AiFetch.papers_body) (papers : list string) (s : state) :
  snapshot s = None ->
  (exists name, In name papers /\ raises Insert name = true) ->
  respond (AiFetch.post_papers raises body papers) s = (Status500, s).
Proof.
  intros Hidle (name & Hin & Hraises).
  apply admin_route_rolls_back; [done | |].
  - intros x acc s0. exact (insert_row_frame false x _ acc s0 (push_first acc)).
  - exists name. split; [done|]. intros acc s0. unfold AiFetch.papers_row.
    by apply insert_row_throws.
Qed.

Lemma post_subjects_rolls_back (body : AiFetch.subjects_body) (subjects : list string)
    (s : state) :
  snapshot s = None ->
  (exists name, In name subjects /\ AiFetch.placeholder "subject " name = false
                /\ raises Insert name = true) ->
  respond (AiFetch.post_subjects raises body subjects) s = (Status500, s).
Proof.
  intros Hidle (name & Hin & Hguard & Hraises).
  apply admin_route_rolls_back; [done | |].
  - intros x acc s0. apply insert_row_frame.
  - exists name. split; [done|]. intros acc s0. unfold AiFetch.subjects_row.
    rewrite Hguard. by apply insert_row_throws.
Qed.

Lemma post_chapters_rolls_back (body : AiFetch.chapters_body) (chapters : list string)
    (s : state) :
  snapshot s = None ->
  (exists name, In name chapters /\ AiFetch.placeholder "chapter " name = false
                /\ raises Insert name = true) ->
  respond (AiFetch.post_chapters raises body chapters) s = (Status500, s).
Proof.
  intros Hidle (name & Hin & Hguard & Hraises).
  apply admin_route_rolls_back; [done | |].
  - intros x acc s0. apply insert_row_frame.
  - exists name. split; [done|]. intros acc s0. unfold AiFetch.chapters_row.
    rewrite Hguard. by apply insert_row_throws.
Qed.

End TransactionProperties.

(** C4. Each admin route runs its loop inside one transaction: when the
    statement of any candidate that reaches the store is refused, the route
    answers with status 500 and the store is exactly as before the request,
    whatever rows the loop had inserted before the failure. *)
Theorem admin_batch_rolls_back (raises : Route.statement -> string -> bool)
    (names : list string) (s : Route.state) :
  Route.snapshot s = None ->
  (forall body,
     (exists name, In name names /\ AiFetch.placeholder "board " name = false
                   /\ raises Route.Insert name = true) ->
     Route.respond (AiFetch.post_boards raises body names) s = (Route.Status500, s))
  /\ (forall body,
        (exists name, In name names /\ AiFetch.placeholder "university " name = false
                      /\ raises Route.Insert name = true) ->
        Route.respond (AiFetch.post_universities raises body names) s = (Route.Status500, s))
  /\ (forall body,
        (exists name, In name names /\ raises Route.Insert name = true) ->
        Route.respond (AiFetch.post_papers raises body names) s = (Route.Status500, s))
  /\ (forall body,
        (exists name, In name names /\ AiFetch.placeholder "subject " name = false
                      /\ raises Route.Insert name = true) ->
        Route.respond (AiFetch.post_subjects raises body names) s = (Route.Status500, s))
  /\ (forall body,
        (exists name, In name names /\ AiFetch.placeholder "chapter " name = false
                      /\ raises Route.Insert name = true) ->
        Route.respond (AiFetch.post_chapters raises body names) s = (Route.Status500, s)).
Proof.
  intros Hidle. split; [|split; [|split; [|split]]]; intros body Hfail.
  - by apply post_boards_rolls_back.
  - by apply post_universities_rolls_back.
  - by apply post_papers_rolls_back.
  - by apply post_subjects_rolls_back.
  - by apply post_chapters_rolls_back.
Qed.

Lemma admin_batch_rolls_back_witness :
  Route.respond
    (AiFetch.post_boards refuses_long
       {| AiFetch.state_id := Some 7; AiFetch.state_name := Some "West Bengal" |}
       ["WBBSE"; "WBCHSE"; "Rabindra Mukta Vidyalaya"; "CBSE"])
    (idle empty_db)
  = (Route.Status500, idle empty_db).
Proof.
  apply (proj1 (admin_batch_rolls_back refuses_long
                  ["WBBSE"; "WBCHSE"; "Rabindra Mukta Vidyalaya"; "CBSE"]
                  (idle empty_db) eq_refl)).
  exists "Rabindra Mukta Vidyalaya". split; [|split].
  - simpl. auto.
  - reflexivity.
  - reflexivity.
Defined.

(** ** Rows inserted by POST /fetch-out-subjects *)

Section FetchOutSubjectsProperties.
Import Sql Route.

Variable raises : statement -> string -> bool.

Lemma activate_subject_idem (r : subject) :
  activate_subject (activate_subject r) = activate_subject r.
Proof. reflexivity. Qed.

Lemma grown_refl (t0 : list subject) : grown t0 t0.
Proof.
  exists t0, []. split; [by rewrite app_nil_r|]. split; [|constructor].
  induction t0; constructor; [by left | done].
Qed.

Lemma grown_update (t0 t : list subject) (id : Z) :
  grown t0 t -> grown t0 (update_subject_active id t).
Proof.
  intros (old & inserted & -> & Hold & Hins).
  unfold update_subject_active. rewrite map_app.
  eexists _, _. split; [reflexivity|]. split.
  - clear Hins. induction Hold as [|x y t0 old Hxy Hold IH]; simpl; constructor; [|done].
    destruct (subject_id y =? id); [|done].
    destruct Hxy as [->| ->]; right; [done | apply activate_subject_idem].
  - induction Hins as [|r inserted Hr Hins IH]; simpl; constructor; [|done].
    destruct (subject_id r =? id); [|done].
    destruct Hr as (Hcat & Hact & Happ). by repeat split.
Qed.

Lemma grown_insert (t0 t : list subject) (n : string) (p2 p3 p4 : sqlint) :
  grown t0 t -> grown t0 (insert_subject_fetch_out n p2 p3 p4 t).1.
Proof.
  intros (old & inserted & -> & Hold & Hins). simpl.
  eexists old, _. split; [by rewrite <- app_assoc|]. split; [done|].
  apply Forall_app. split; [done|]. by repeat constructor.
Qed.

Lemma fetch_out_subjects_row_grown (t0 : list subject) (b c st : option Z)
    (it : Structure.item) (saved : list (Z * string)) (s : state) :
  grown t0 (subjects (data s)) ->
  grown t0 (subjects (data (Structure.fetch_out_subjects_row raises b c st it saved s).2)).
Proof.
  intros Hgrown. unfold Structure.fetch_out_subjects_row.
  destruct (Js.is_empty (Structure.candidate_name it)); [done|].
  unfold bind, query.
  destruct (raises Select (Structure.candidate_name it)); [done|].
  cbn [data with_data].
  destruct (select_existing_subjects _ _ _ _ _) as [|id rest].
  - destruct (raises Insert (Structure.candidate_name it)); [done|].
    unfold on_subjects. cbn [data with_data subjects set_subjects snd].
    by apply (grown_insert t0 (subjects (data s))).
  - destruct (raises Update (Structure.candidate_name it)); [done|].
    unfold on_subjects. cbn [data with_data subjects set_subjects snd].
    by apply grown_update.
Qed.

Lemma fetch_out_subjects_grown (body : Structure.subjects_body)
    (generated : list Structure.item) (s : state) :
  grown (subjects (data s))
        (subjects (data (respond (Structure.fetch_out_subjects raises body generated) s).2)).
Proof.
  unfold respond, Structure.fetch_out_subjects.
  destruct (_ || _); [apply grown_refl|].
  unfold bind, has_active. cbn [fst snd].
  destruct (bool_decide _); [apply grown_refl|].
  unfold add_active, try_finally, try_catch, bind.
  set (s0 := {| data := data s; snapshot := snapshot s; activeFetches := _ |}).
  pose proof (for_of_invariant
                (fun st => grown (subjects (data s)) (subjects (data st)))
                (Structure.fetch_out_subjects_row raises (Structure.board_id body)
                   (Structure.class_id body) (Structure.stream_id body))
                (fun x acc st Hst => fetch_out_subjects_row_grown _ _ _ _ x acc st Hst)
                generated [] s0 (grown_refl _)) as Hloop.
  destruct (for_of generated _ [] s0) as [[saved|e] s1]; exact Hloop.
Qed.

End FetchOutSubjectsProperties.

(** C10. Whatever the request body, the generated candidates and the
    refused statements, POST /fetch-out-subjects leaves the subjects table
    as its rows before the request, each unchanged or reactivated, followed
    by the rows it inserted; every inserted row has category_id = 1,
    is_active = TRUE and is_approved = TRUE. *)
Theorem fetch_out_subjects_inserts_public_rows
    (raises : Route.statement -> string -> bool) (body : Structure.subjects_body)
    (generated : list Structure.item) (s : Route.state) :
  exists old inserted,
    Sql.subjects
      (Route.data (Route.respond (Structure.fetch_out_subjects raises body generated) s).2)
    = (old ++ inserted)%list
    /\ Forall2 (fun before after => after = before \/ after = Sql.activate_subject before)
         (Sql.subjects (Route.data s)) old
    /\ Forall (fun r => Sql.subject_category_id r = Some 1
                        /\ Sql.subject_is_active r = true
                        /\ Sql.subject_is_approved r = true) inserted.
Proof. apply fetch_out_subjects_grown. Qed.

(** A run of the route: the stored "Physics" is reactivated under the
    candidate "physics", "Chemistry" is inserted with the public defaults. *)
Example fetch_out_subjects_run :
  let before :=
    Sql.set_subjects
      [{| Sql.subject_id := 1; Sql.subject_name := "Physics";
          Sql.subject_category_id := Some 2;
          Sql.subject_board_id := Some 3; Sql.subject_university_id := None;
          Sql.subject_class_id := Some 11; Sql.subject_stream_id := None;
          Sql.subject_semester_id := None; Sql.subject_degree_type_id := None;
          Sql.subject_paper_stage_id := None;
          Sql.subject_is_active := false; Sql.subject_is_approved := false |}] empty_db in
  let after :=
    Route.respond
      (Structure.fetch_out_subjects no_faults class_eleven
         [ {| Structure.name := Some " physics " |}; {| Structure.name := Some "Chemistry" |} ])
      (idle before) in
  after.1 = Route.Json200 2 [(1, "physics"); (2, "Chemistry")]
  /\ map (fun r => (Sql.subject_name r, Sql.subject_category_id r,
                    Sql.subject_is_active r, Sql.subject_is_approved r))
         (Sql.subjects (Route.data after.2))
     = [("Physics", Some 2, true, false); ("Chemistry", Some 1, true, true)].
Proof. split; vm_compute; reflexivity. Qed.

(** ** The in-flight guard *)

Section GuardProperties.
Import Route Concurrent.

Lemma acquire_held (key : string) (s : state) :
  key ∈ activeFetches s -> acquire key s = (Ok false, s).
Proof.
  intros Hin. unfold acquire, bind, has_active. cbn [fst snd].
  by rewrite bool_decide_eq_true_2.
Qed.

Lemma acquire_free (key : string) (s : state) :
  key ∉ activeFetches s ->
  acquire key s
  = (Ok true, {| data := data s; snapshot := snapshot s;
                 activeFetches := {[key]} ∪ activeFetches s |}).
Proof.
  intros Hout. unfold acquire, bind, has_active. cbn [fst snd].
  by rewrite bool_decide_eq_false_2.
Qed.

(** The guard and the [finally] block of the three routes are [guarded]. *)
Lemma fetch_out_boards_guarded (raises : statement -> string -> bool)
    (body : Structure.boards_body) (generated : list Structure.item) (s : state) :
  Js.falsy (Structure.state_id body) || Structure.missing (Structure.state_name body) = false ->
  Structure.fetch_out_boards raises body generated s
  = guarded ("boards_" +:+ Structure.template (Structure.state_id body))
      (try_catch
         (let* saved :=
            for_of generated (Structure.fetch_out_boards_row raises (Structure.state_id body)) []
          in ret (Json200 (length saved) saved))
         (fun err => ret Status500)) s.
Proof.
  intros Hvalid. unfold Structure.fetch_out_boards, guarded, acquire. rewrite Hvalid.
  unfold bind, has_active. cbn [fst snd]. by destruct (bool_decide _).
Qed.

Lemma fetch_out_subjects_guarded (raises : statement -> string -> bool)
    (body : Structure.subjects_body) (generated : list Structure.item) (s : state) :
  Js.falsy (Structure.board_id body) || Structure.missing (Structure.board_name body)
    || Js.falsy (Structure.class_id body) || Structure.missing (Structure.class_name body)
  = false ->
  Structure.fetch_out_subjects raises body generated s
  = guarded ("subjects_" +:+ Structure.template (Structure.board_id body) +:+ "_"
               +:+ Structure.template (Structure.class_id body) +:+ "_"
               +:+ (if Js.falsy (Structure.stream_id body) then "all"
                    else Structure.template (Structure.stream_id body)))
      (try_catch
         (let* saved :=
            for_of generated
              (Structure.fetch_out_subjects_row raises (Structure.board_id body)
                 (Structure.class_id body) (Structure.stream_id body)) []
          in ret (Json200 (length saved) saved))
         (fun err => ret Status500)) s.
Proof.
  intros Hvalid. unfold Structure.fetch_out_subjects, guarded, acquire. rewrite Hvalid.
  unfold bind, has_active. cbn [fst snd]. by destruct (bool_decide _).
Qed.

Lemma fetch_out_chapters_guarded (raises : statement -> string -> bool)
    (body : Structure.chapters_body) (generated : list Structure.item) (s : state) :
  Js.falsy (Structure.subject_id body) || Structure.missing (Structure.subject_name body)
    || Structure.missing (Structure.chapter_board_name body)
    || Structure.missing (Structure.chapter_class_name body)
  = false ->
  Structure.fetch_out_chapters raises body generated s
  = guarded ("chapters_" +:+ Structure.template (Structure.subject_id body))
      (try_catch
         (let* saved :=
            for_of generated
              (Structure.fetch_out_chapters_row raises (Structure.subject_id body)) []
          in ret (Json200 (length saved) saved))
         (fun err => ret Status500)) s.
Proof.
  intros Hvalid. unfold Structure.fetch_out_chapters, guarded, acquire. rewrite Hvalid.
  unfold bind, has_active. cbn [fst snd]. by destruct (bool_decide _).
Qed.

End GuardProperties.

(** C1 as stated fails for a parent scope without an id: the admin routes
    bind [state_id] and [subject_id] as the body has them, a missing id is
    bound as NULL, a NULL key conflicts with no row, and the second
    ingestion of the same name adds a second row for the same scope and
    name. *)
Lemma null_scope_is_ingested_twice :
  map (fun r => (Sql.board_name r, Sql.board_state_id r))
    (Sql.boards
       (Route.data
          (Route.respond (AiFetch.post_boards no_faults state_without_id ["WBBSE"])
             (Route.respond (AiFetch.post_boards no_faults state_without_id ["WBBSE"])
                (idle empty_db)).2).2))
  = [("WBBSE", None); ("WBBSE", None)]
  /\ map (fun r => (Sql.chapter_name r, Sql.chapter_subject_id r))
       (Sql.chapters
          (Route.data
             (Route.respond (AiFetch.post_chapters no_faults subject_without_id ["Optics"])
                (Route.respond (AiFetch.post_chapters no_faults subject_without_id ["Optics"])
                   (idle empty_db)).2).2))
     = [("Optics", None); ("Optics", None)].
Proof. split; vm_compute; reflexivity. Qed.

(** C2 as stated fails for the board and the class: they are compared with
    [=], which is never true of NULL.  With the Physics of class 11 stored
    without a board, neither check finds it for a candidate without a
    board, and POST /ai-fetch/subjects stores the name a second time. *)
Lemma null_board_is_not_matched :
  Sql.select_existing_subjects None (Some 11) None "Physics"
    (Sql.subjects
       (Route.data
          (Route.respond (AiFetch.post_subjects no_faults class_eleven_without_board
                            ["Physics"])
             (idle empty_db)).2))
  = []
  /\ Sql.admin_subject_exists "Physics" None (Some 11) None
       (Sql.subjects
          (Route.data
             (Route.respond (AiFetch.post_subjects no_faults class_eleven_without_board
                               ["Physics"])
                (idle empty_db)).2))
     = false
  /\ map (fun r => (Sql.subject_name r, Sql.subject_board_id r, Sql.subject_class_id r,
                    Sql.subject_stream_id r))
       (Sql.subjects
          (Route.data
             (Route.respond (AiFetch.post_subjects no_faults class_eleven_without_board
                               ["Physics"])
                (Route.respond (AiFetch.post_subjects no_faults class_eleven_without_board
                                  ["Physics"])
                   (idle empty_db)).2).2))
     = [("Physics", None, Some 11, None); ("Physics", None, Some 11, None)].
Proof. split; [|split]; vm_compute; reflexivity. Qed.

(** C3 as stated fails on the admin path: with "Physics" stored, the
    existence subquery of POST /ai-fetch/subjects does not find it for the
    candidate "physics", and the route inserts a second row. *)
Lemma admin_subject_check_is_case_sensitive :
  same_up_to_case "Physics" "physics"
  /\ Sql.admin_subject_exists "physics" (Some 3) (Some 11) None [physics None] = false
  /\ map Sql.subject_name
       (Sql.subjects
          (Route.data
             (Route.respond (AiFetch.post_subjects no_faults class_eleven_admin ["physics"])
                (idle (Sql.set_subjects [physics None] empty_db))).2))
     = ["Physics"; "physics"].
Proof. split; [|split]; vm_compute; reflexivity. Qed.

(** * Further properties of the modelled code *)

(** ** The rate limiter over a run of checks *)

Section RateLimitRuns.
Import RateLimit.

Lemma rateLimitMiddleware_first (now : Z) (req : request) (m : gmap string record) :
  m !! client req = None ->
  rateLimitMiddleware now req m
  = (<[client req := {| count := 1; resetTime := now + windowMs |}]> m, Next).
Proof. intros Hnone. unfold rateLimitMiddleware. by rewrite Hnone. Qed.

Lemma rateLimitMiddleware_keeps (now : Z) (req : request) (m : gmap string record)
    (k : string) :
  is_Some (m !! k) -> is_Some ((rateLimitMiddleware now req m).1 !! k).
Proof.
  intros Hk. destruct (decide (k = client req)) as [->|Hne].
  - unfold rateLimitMiddleware. destruct (m !! client req) as [rec|]; simpl.
    + destruct (resetTime rec <? now); simpl.
      * rewrite lookup_insert_eq. eauto.
      * destruct (maxRequests <? count rec + 1); simpl; rewrite lookup_insert_eq; eauto.
    + rewrite lookup_insert_eq. eauto.
  - by rewrite rateLimitMiddleware_other.
Qed.

(** X1. A client without a record that sends a burst inside the window its
    first check opens is let through ten times and answered 429 from the
    eleventh check on, and its count ends at the number of checks. *)
Theorem fresh_client_burst (req : request) (t0 : Z) (rest : list Z)
    (m : gmap string record) :
  m !! client req = None ->
  Forall (fun now => now <= t0 + windowMs) rest ->
  (checks req (t0 :: rest) m).2
    = map (fun k => if (10 <? Z.of_nat k) then Status429 else Next)
          (seq 1 (S (length rest)))
  /\ (checks req (t0 :: rest) m).1 !! client req
     = Some {| count := Z.of_nat (S (length rest)); resetTime := t0 + windowMs |}.
Proof.
  intros Hnone Hrest. cbn [checks]. rewrite rateLimitMiddleware_first by done.
  set (m1 := <[client req := {| count := 1; resetTime := t0 + windowMs |}]> m).
  assert (m1 !! client req = Some {| count := 1; resetTime := t0 + windowMs |}) as Hm1.
  { unfold m1. by rewrite lookup_insert_eq. }
  destruct (checks_within_window req rest m1 _ Hm1 Hrest) as [Hmap Hvs].
  destruct (checks req rest m1) as [m2 vs]. cbn [fst snd count resetTime] in *.
  split.
  - cbn [seq map]. f_equal. rewrite Hvs, <- (seq_shift (length rest) 1), map_map.
    apply map_ext. intros k. by replace (1 + Z.of_nat k) with (Z.of_nat (S k)) by lia.
  - rewrite Hmap. f_equal. f_equal. lia.
Qed.

Lemma fresh_client_burst_witness :
  (checks probe [0; 1; 2; 3; 4; 5; 6; 7; 8; 9; 10; 900000] ∅).2
  = [Next; Next; Next; Next; Next; Next; Next; Next; Next; Next; Status429; Status429].
Proof.
  refine (proj1 (fresh_client_burst probe 0 [1; 2; 3; 4; 5; 6; 7; 8; 9; 10; 900000] ∅ _ _)).
  - reflexivity.
  - repeat constructor; unfold windowMs; lia.
Defined.

(** X2. A run of checks by one client leaves the record of every other client
    as it is, and no record is ever removed from the map. *)
Theorem checks_touch_one_client (req : request) (nows : list Z) (m : gmap string record) :
  (forall other, other <> client req -> (checks req nows m).1 !! other = m !! other)
  /\ (forall k, is_Some (m !! k) -> is_Some ((checks req nows m).1 !! k)).
Proof.
  revert m. induction nows as [|now nows IH]; intros m; [done|].
  cbn [checks].
  pose proof (rateLimitMiddleware_other now req m) as Hother.
  pose proof (rateLimitMiddleware_keeps now req m) as Hkeeps.
  destruct (rateLimitMiddleware now req m) as [m1 v]. cbn [fst] in *.
  destruct (IH m1) as [IHother IHkeeps].
  destruct (checks req nows m1) as [m2 vs]. cbn [fst] in *.
  split.
  - intros other Hne. rewrite IHother by done. by apply Hother.
  - intros k Hk. by apply IHkeeps, Hkeeps.
Qed.

Lemma checks_touch_one_client_witness :
  (checks {| ip := Some "198.51.100.1"; remoteAddress := None |} [5; 6; 7] limited_map).1
    !! "203.0.113.9"
  = Some {| count := 11; resetTime := 1000 |}.
Proof.
  rewrite (proj1 (checks_touch_one_client
                    {| ip := Some "198.51.100.1"; remoteAddress := None |} [5; 6; 7]
                    limited_map) "203.0.113.9").
  - reflexivity.
  - discriminate.
Defined.

End RateLimitRuns.

(** ** The normalised candidate name *)

Section CandidateNameFacts.

Lemma substring0_length (n : nat) (s : string) :
  (String.length (Js.substring0 n s) <= n)%nat.
Proof.
  unfold Js.substring0. revert s. induction n as [|n IH]; intros [|c s]; simpl; try lia.
  specialize (IH s). lia.
Qed.

Lemma trimStart_length (s : string) :
  (String.length (Js.trimStart s) <= String.length s)%nat.
Proof.
  induction s as [|c s IH]; simpl; [lia|].
  destruct (Js.is_space c); simpl; lia.
Qed.

Lemma trimEnd_length (s : string) :
  (String.length (Js.trimEnd s) <= String.length s)%nat.
Proof.
  induction s as [|c s IH]; simpl; [lia|].
  destruct (Js.trimEnd s); [destruct (Js.is_space c)|]; simpl in *; lia.
Qed.

Lemma trimEnd_idem (s : string) : Js.trimEnd (Js.trimEnd s) = Js.trimEnd s.
Proof.
  induction s as [|c s IH]; simpl; [done|].
  destruct (Js.trimEnd s) as [|d r] eqn:Hr.
  - destruct (Js.is_space c) eqn:Hc; simpl; [done|]. by rewrite Hc.
  - change (Js.trimEnd (String c (String d r))
            = String c (String d r)).
    cbn [Js.trimEnd]. cbn [Js.trimEnd] in IH. by rewrite IH.
Qed.

Lemma trimStart_clean (s : string) : starts_clean (Js.trimStart s) = true.
Proof.
  induction s as [|c s IH]; simpl; [done|].
  destruct (Js.is_space c) eqn:Hc; [done|]. simpl. by rewrite Hc.
Qed.

Lemma trimStart_fixed (s : string) : starts_clean s = true -> Js.trimStart s = s.
Proof.
  destruct s as [|c s]; simpl; [done|]. by destruct (Js.is_space c).
Qed.

Lemma trimEnd_clean (s : string) :
  starts_clean s = true -> starts_clean (Js.trimEnd s) = true.
Proof.
  destruct s as [|c s]; simpl; [done|]. intros Hc.
  destruct (Js.trimEnd s); [|done].
  destruct (Js.is_space c) eqn:Hspace; simpl in *; rewrite ?Hspace; done.
Qed.

Lemma trim_idem (s : string) : Js.trim (Js.trim s) = Js.trim s.
Proof.
  unfold Js.trim.
  rewrite (trimStart_fixed (Js.trimEnd (Js.trimStart s))).
  - apply trimEnd_idem.
  - apply trimEnd_clean, trimStart_clean.
Qed.

Lemma candidate_name_length (it : Structure.item) :
  (String.length (Structure.candidate_name it) <= 200)%nat.
Proof.
  unfold Structure.candidate_name, Js.trim.
  pose proof (trimEnd_length (Js.trimStart (Js.substring0 200
                (Js.or_string (Structure.name it) EmptyString)))).
  pose proof (trimStart_length (Js.substring0 200
                (Js.or_string (Structure.name it) EmptyString))).
  pose proof (substring0_length 200 (Js.or_string (Structure.name it) EmptyString)).
  lia.
Qed.

Lemma candidate_name_trimmed (it : Structure.item) :
  Js.trim (Structure.candidate_name it) = Structure.candidate_name it.
Proof. apply trim_idem. Qed.

End CandidateNameFacts.

(** ** Runs of the fetch-out routes *)

Section FetchOutRuns.
Import Sql Route Concurrent.

Variable raises : statement -> string -> bool.

Lemma frame_refl (s : state) : frame s s.
Proof. by split. Qed.

Lemma frame_trans (s1 s2 s3 : state) : frame s1 s2 -> frame s2 s3 -> frame s1 s3.
Proof. intros [H1 H2] [H3 H4]. split; congruence. Qed.

Lemma for_of_frame {A S : Type} (body : A -> S -> M S) :
  (forall x acc s, frame s (body x acc s).2) ->
  forall l acc s, frame s (for_of l body acc s).2.
Proof.
  intros Hbody l acc s.
  apply (for_of_invariant (fun st => frame s st) body); [|apply frame_refl].
  intros x acc' st Hst. eapply frame_trans; [exact Hst | apply Hbody].
Qed.

Lemma fetch_out_boards_row_frame (state_id : option Z) (it : Structure.item)
    (acc : list (Z * string)) (s : state) :
  frame s (Structure.fetch_out_boards_row raises state_id it acc s).2.
Proof.
  unfold Structure.fetch_out_boards_row.
  destruct (Js.is_empty _); [apply frame_refl|].
  destruct (Js.some_includes _ _); [apply frame_refl|].
  unfold bind. pose proof (query_frame raises Insert (Structure.candidate_name it)
    (on_boards (upsert_board (Structure.candidate_name it) state_id)) s) as Hq.
  by destruct (query raises Insert _ _ s) as [[result|e] s'].
Qed.

Lemma fetch_out_subjects_row_frame (b c st : option Z) (it : Structure.item)
    (acc : list (Z * string)) (s : state) :
  frame s (Structure.fetch_out_subjects_row raises b c st it acc s).2.
Proof.
  unfold Structure.fetch_out_subjects_row.
  destruct (Js.is_empty _); [apply frame_refl|].
  unfold bind, query.
  destruct (raises Select _); [apply frame_refl|]. cbn [data with_data].
  destruct (select_existing_subjects _ _ _ _ _) as [|id rest].
  - destruct (raises Insert _); [by split|]. by destruct (on_subjects _ _).
  - destruct (raises Update _); [by split|]. by destruct (on_subjects _ _).
Qed.

Lemma fetch_out_chapters_row_frame (z : option Z) (it : Structure.item)
    (acc : list (Z * string)) (s : state) :
  frame s (Structure.fetch_out_chapters_row raises z it acc s).2.
Proof.
  unfold Structure.fetch_out_chapters_row.
  destruct (Js.is_empty _); [apply frame_refl|].
  unfold bind, query.
  destruct (raises Select _); [apply frame_refl|]. cbn [data with_data].
  destruct (select_existing_chapters _ _ _) as [|id rest].
  - destruct (raises Insert _); [by split|]. by destruct (on_chapters _ _).
  - destruct (raises Update _); [by split|]. by destruct (on_chapters _ _).
Qed.

(** A guarded loop answers, and leaves the in-flight set and the
    transaction state as it found them; turned away, it leaves everything. *)
Lemma guarded_loop_run {A B : Type} (key : string) (row : A -> list B -> M (list B))
    (generated : list A) (s : state) :
  (forall x acc s0, frame s0 (row x acc s0).2) ->
  let run :=
    respond
      (guarded key
         (try_catch
            (let* saved := for_of generated row [] in ret (Json200 (length saved) saved))
            (fun err => ret Status500))) s in
  answered run.1
  /\ activeFetches run.2 = activeFetches s
  /\ snapshot run.2 = snapshot s
  /\ (turned_away run.1 -> run.2 = s).
Proof.
  intros Hrow. cbv zeta.
  destruct (decide (key ∈ activeFetches s)) as [Hheld|Hfree].
  - unfold respond, guarded, bind. rewrite acquire_held by done. cbn.
    split; [right; right; by left|]. done.
  - unfold respond, guarded, bind. rewrite acquire_free by done.
    unfold try_finally, try_catch, bind.
    set (s0 := {| data := data s; snapshot := snapshot s;
                  activeFetches := {[key]} ∪ activeFetches s |}).
    destruct (for_of_frame row Hrow generated [] s0) as [Hsnap Hact].
    assert (({[key]} ∪ activeFetches s) ∖ {[key]} = activeFetches s) as Hset.
    { apply set_eq. intros k.
      rewrite elem_of_difference, elem_of_union, elem_of_singleton.
      split; [tauto|]. intros Hk. split; [tauto|]. intros ->. done. }
    destruct (for_of generated row [] s0) as [[saved|e] s1]; cbn in *;
      rewrite Hact, Hsnap, Hset.
    + split; [left; eauto|]. repeat split. intros [H|H]; discriminate.
    + split; [right; right; by right|]. repeat split. intros [H|H]; discriminate.
Qed.

End FetchOutRuns.

(** X3. A fetch-out route always answers, with 200, 400, 429 or 500: no
    exception leaves the handler.  When it has answered, the in-flight set
    and the transaction state are as before the request, whether the run
    succeeded or failed; and a request answered 400 or 429 has changed
    nothing at all. *)
Theorem fetch_out_route_run (raises : Route.statement -> string -> bool)
    (generated : list Structure.item) (s : Route.state) :
  (forall body,
     let run := Route.respond (Structure.fetch_out_boards raises body generated) s in
     answered run.1
     /\ Route.activeFetches run.2 = Route.activeFetches s
     /\ Route.snapshot run.2 = Route.snapshot s
     /\ (turned_away run.1 -> run.2 = s))
  /\ (forall body,
        let run := Route.respond (Structure.fetch_out_subjects raises body generated) s in
        answered run.1
        /\ Route.activeFetches run.2 = Route.activeFetches s
        /\ Route.snapshot run.2 = Route.snapshot s
        /\ (turned_away run.1 -> run.2 = s))
  /\ (forall body,
        let run := Route.respond (Structure.fetch_out_chapters raises body generated) s in
        answered run.1
        /\ Route.activeFetches run.2 = Route.activeFetches s
        /\ Route.snapshot run.2 = Route.snapshot s
        /\ (turned_away run.1 -> run.2 = s)).
Proof.
  split; [|split]; intros body; cbv zeta.
  - destruct (Js.falsy (Structure.state_id body)
              || Structure.missing (Structure.state_name body)) eqn:Hvalid.
    + unfold Structure.fetch_out_boards. rewrite Hvalid. cbn.
      split; [right; by left|]. done.
    + unfold Route.respond. rewrite fetch_out_boards_guarded by done.
      apply (guarded_loop_run _ _ generated s). apply fetch_out_boards_row_frame.
  - destruct (Js.falsy (Structure.board_id body)
              || Structure.missing (Structure.board_name body)
              || Js.falsy (Structure.class_id body)
              || Structure.missing (Structure.class_name body)) eqn:Hvalid.
    + unfold Structure.fetch_out_subjects. rewrite Hvalid. cbn.
      split; [right; by left|]. done.
    + unfold Route.respond. rewrite fetch_out_subjects_guarded by done.
      apply (guarded_loop_run _ _ generated s). apply fetch_out_subjects_row_frame.
  - destruct (Js.falsy (Structure.subject_id body)
              || Structure.missing (Structure.subject_name body)
              || Structure.missing (Structure.chapter_board_name body)
              || Structure.missing (Structure.chapter_class_name body)) eqn:Hvalid.
    + unfold Structure.fetch_out_chapters. rewrite Hvalid. cbn.
      split; [right; by left|]. done.
    + unfold Route.respond. rewrite fetch_out_chapters_guarded by done.
      apply (guarded_loop_run _ _ generated s). apply fetch_out_chapters_row_frame.
Qed.

Lemma fetch_out_route_run_witness :
  (Route.respond (Structure.fetch_out_boards no_faults west_bengal
                    [ {| Structure.name := Some "WBBSE" |} ])
     (Concurrent.shared two_requests)).2
  = Concurrent.shared two_requests.
Proof.
  apply (proj1 (fetch_out_route_run no_faults [ {| Structure.name := Some "WBBSE" |} ]
                  (Concurrent.shared two_requests)) west_bengal).
  right. reflexivity.
Defined.

(** ** A refused statement in a fetch-out run *)

Section FetchOutFailures.
Import Sql Route Concurrent.

Variable raises : statement -> string -> bool.

Lemma for_of_app {A S : Type} (body : A -> S -> M S) (l1 l2 : list A) (acc : S) (s : state) :
  for_of (l1 ++ l2) body acc s
  = match for_of l1 body acc s with
    | (Ok acc', s') => for_of l2 body acc' s'
    | (Throw e, s') => (Throw e, s')
    end.
Proof.
  revert acc s. induction l1 as [|x l1 IH]; intros acc s; simpl; [done|].
  unfold bind. destruct (body x acc s) as [[acc'|e] s']; [apply IH | done].
Qed.

Lemma guarded_loop_stops {A B : Type} (key : string) (row : A -> list B -> M (list B))
    (before after : list A) (x : A) (s : state) :
  (forall acc s0, exists e, row x acc s0 = (Throw e, s0)) ->
  let loop l :=
    guarded key
      (try_catch
         (let* saved := for_of l row [] in ret (Json200 (length saved) saved))
         (fun err => ret Status500)) in
  (respond (loop (before ++ x :: after)%list) s).2 = (respond (loop before) s).2
  /\ ((respond (loop (before ++ x :: after)%list) s).1 = Status429
      \/ (respond (loop (before ++ x :: after)%list) s).1 = Status500).
Proof.
  intros Hthrow. cbv zeta. unfold respond, guarded, bind.
  destruct (decide (key ∈ activeFetches s)) as [Hheld|Hfree].
  { rewrite !acquire_held by done. split; [done | by left]. }
  rewrite !acquire_free by done.
  set (s0 := {| data := data s; snapshot := snapshot s;
                activeFetches := {[key]} ∪ activeFetches s |}).
  unfold try_finally, try_catch, bind. rewrite for_of_app.
  destruct (for_of before row [] s0) as [[acc|e] s1].
  - cbn [for_of]. unfold bind. destruct (Hthrow acc s1) as [e ->]. cbn.
    split; [done | by right].
  - cbn. split; [done | by right].
Qed.

Lemma fetch_out_boards_row_refused (state_id : option Z) (it : Structure.item) :
  refused raises it ->
  Js.some_includes Structure.nonSchoolKeywords
    (Js.toLowerCase (Structure.candidate_name it)) = false ->
  forall acc s, exists e,
    Structure.fetch_out_boards_row raises state_id it acc s = (Throw e, s).
Proof.
  intros [Hname Hraises] Hschool acc s. unfold Structure.fetch_out_boards_row.
  rewrite Hname, Hschool. unfold bind. rewrite query_raises by done. eauto.
Qed.

Lemma fetch_out_subjects_row_refused (b c st : option Z) (it : Structure.item) :
  refused raises it ->
  forall acc s, exists e,
    Structure.fetch_out_subjects_row raises b c st it acc s = (Throw e, s).
Proof.
  intros [Hname Hraises] acc s. unfold Structure.fetch_out_subjects_row.
  rewrite Hname. unfold bind. rewrite query_raises by done. eauto.
Qed.

Lemma fetch_out_chapters_row_refused (z : option Z) (it : Structure.item) :
  refused raises it ->
  forall acc s, exists e,
    Structure.fetch_out_chapters_row raises z it acc s = (Throw e, s).
Proof.
  intros [Hname Hraises] acc s. unfold Structure.fetch_out_chapters_row.
  rewrite Hname. unfold bind. rewrite query_raises by done. eauto.
Qed.

End FetchOutFailures.

(** X4. The fetch-out routes commit row by row: when the store refuses the
    statements of one candidate, the run never answers 200, the candidates
    after it are not tried, and the store is left exactly as the run over
    the candidates before it leaves it, rows saved so far included. *)
Theorem fetch_out_keeps_prefix (raises : Route.statement -> string -> bool)
    (it : Structure.item) (before after : list Structure.item) (s : Route.state) :
  refused raises it ->
  (forall body,
     Js.some_includes Structure.nonSchoolKeywords
       (Js.toLowerCase (Structure.candidate_name it)) = false ->
     let run l := Route.respond (Structure.fetch_out_boards raises body l) s in
     (run (before ++ it :: after)%list).2 = (run before).2
     /\ forall saved, (run (before ++ it :: after)%list).1 <> Route.Json200 (length saved) saved)
  /\ (forall body,
        let run l := Route.respond (Structure.fetch_out_subjects raises body l) s in
        (run (before ++ it :: after)%list).2 = (run before).2
        /\ forall saved, (run (before ++ it :: after)%list).1 <> Route.Json200 (length saved) saved)
  /\ (forall body,
        let run l := Route.respond (Structure.fetch_out_chapters raises body l) s in
        (run (before ++ it :: after)%list).2 = (run before).2
        /\ forall saved, (run (before ++ it :: after)%list).1 <> Route.Json200 (length saved) saved).
Proof.
  intros Hrefused. split; [|split]; intros body; cbv zeta.
  - intros Hschool.
    destruct (Js.falsy (Structure.state_id body)
              || Structure.missing (Structure.state_name body)) eqn:Hvalid.
    + unfold Structure.fetch_out_boards. rewrite Hvalid. by cbn.
    + unfold Route.respond. rewrite !fetch_out_boards_guarded by done.
      destruct (guarded_loop_stops
                  ("boards_" +:+ Structure.template (Structure.state_id body))
                  (Structure.fetch_out_boards_row raises (Structure.state_id body))
                  before after it s
                  (fetch_out_boards_row_refused raises _ it Hrefused Hschool)) as [Hst Hr].
      split; [exact Hst|]. intros saved Hsaved. unfold Route.respond in Hr.
      rewrite Hsaved in Hr. by destruct Hr.
  - destruct (Js.falsy (Structure.board_id body)
              || Structure.missing (Structure.board_name body)
              || Js.falsy (Structure.class_id body)
              || Structure.missing (Structure.class_name body)) eqn:Hvalid.
    + unfold Structure.fetch_out_subjects. rewrite Hvalid. by cbn.
    + unfold Route.respond. rewrite !fetch_out_subjects_guarded by done.
      destruct (guarded_loop_stops
                  ("subjects_" +:+ Structure.template (Structure.board_id body) +:+ "_"
                     +:+ Structure.template (Structure.class_id body) +:+ "_"
                     +:+ (if Js.falsy (Structure.stream_id body) then "all"
                          else Structure.template (Structure.stream_id body)))
                  (Structure.fetch_out_subjects_row raises (Structure.board_id body)
                     (Structure.class_id body) (Structure.stream_id body))
                  before after it s
                  (fetch_out_subjects_row_refused raises _ _ _ it Hrefused)) as [Hst Hr].
      split; [exact Hst|]. intros saved Hsaved. unfold Route.respond in Hr.
      rewrite Hsaved in Hr. by destruct Hr.
  - destruct (Js.falsy (Structure.subject_id body)
              || Structure.missing (Structure.subject_name body)
              || Structure.missing (Structure.chapter_board_name body)
              || Structure.missing (Structure.chapter_class_name body)) eqn:Hvalid.
    + unfold Structure.fetch_out_chapters. rewrite Hvalid. by cbn.
    + unfold Route.respond. rewrite !fetch_out_chapters_guarded by done.
      destruct (guarded_loop_stops
                  ("chapters_" +:+ Structure.template (Structure.subject_id body))
                  (Structure.fetch_out_chapters_row raises (Structure.subject_id body))
                  before after it s
                  (fetch_out_chapters_row_refused raises _ it Hrefused)) as [Hst Hr].
      split; [exact Hst|]. intros saved Hsaved. unfold Route.respond in Hr.
      rewrite Hsaved in Hr. by destruct Hr.
Qed.

Lemma fetch_out_keeps_prefix_witness :
  Sql.boards
    (Route.data
       (Route.respond
          (Structure.fetch_out_boards refuses_long west_bengal
             [ {| Structure.name := Some "WBBSE" |};
               {| Structure.name := Some "Rabindra Mukta Vidyalaya" |};
               {| Structure.name := Some "CBSE" |} ]) (idle empty_db)).2)
  = [{| Sql.board_id := 1; Sql.board_name := "WBBSE"; Sql.board_state_id := Some 7;
        Sql.board_is_active := true |}].
Proof.
  pose proof (proj1 (fetch_out_keeps_prefix refuses_long
                       {| Structure.name := Some "Rabindra Mukta Vidyalaya" |}
                       [ {| Structure.name := Some "WBBSE" |} ]
                       [ {| Structure.name := Some "CBSE" |} ] (idle empty_db)
                       (conj eq_refl (fun kind => eq_refl)))
                west_bengal eq_refl) as [Hsame _].
  cbn [app] in Hsame. rewrite Hsame. reflexivity.
Defined.

(** ** What POST /fetch-out-boards stores *)

Section FetchOutBoardsRows.
Import Sql Route Concurrent.

Variable raises : statement -> string -> bool.

Lemma grown_boards_refl (state_id : option Z) (t0 : list board) : grown_boards state_id t0 t0.
Proof.
  exists t0, []. split; [by rewrite app_nil_r|]. split; [|constructor].
  induction t0; constructor; [by left | done].
Qed.

Lemma grown_boards_upsert (state_id : option Z) (t0 t : list board) (it : Structure.item) :
  Js.is_empty (Structure.candidate_name it) = false ->
  Js.some_includes Structure.nonSchoolKeywords
    (Js.toLowerCase (Structure.candidate_name it)) = false ->
  grown_boards state_id t0 t ->
  grown_boards state_id t0 (upsert_board (Structure.candidate_name it) state_id t).1.
Proof.
  intros Hname Hschool (old & inserted & -> & Hold & Hins). unfold upsert_board.
  destruct (existsb _ _); cbn [fst].
  - rewrite map_app. eexists _, _. split; [reflexivity|]. split.
    + clear Hins. induction Hold as [|x y t0 old Hxy Hold IH]; simpl; constructor; [|done].
      destruct (board_conflict _ _ y); [|done].
      destruct Hxy as [->| ->]; right; [done | by destruct x].
    + induction Hins as [|r inserted Hr Hins IH]; simpl; constructor; [|done].
      destruct (board_conflict _ _ r); [|done].
      destruct Hr as (H1 & H2 & H3 & H4 & H5 & H6). by repeat split.
  - exists old, (inserted ++ [{| board_id := fresh board_id (old ++ inserted);
                                 board_name := Structure.candidate_name it;
                                 board_state_id := state_id;
                                 board_is_active := true |}])%list.
    split; [by rewrite app_assoc|]. split; [done|].
    apply Forall_app. split; [done|]. constructor; [|constructor].
    repeat split; cbn; try done.
    + apply candidate_name_length.
    + apply candidate_name_trimmed.
Qed.

Lemma fetch_out_boards_row_grown (state_id : option Z) (t0 : list board)
    (it : Structure.item) (acc : list (Z * string)) (s : state) :
  grown_boards state_id t0 (boards (data s)) ->
  grown_boards state_id t0
    (boards (data (Structure.fetch_out_boards_row raises state_id it acc s).2)).
Proof.
  intros Hgrown. unfold Structure.fetch_out_boards_row.
  destruct (Js.is_empty _) eqn:Hname; [done|].
  destruct (Js.some_includes _ _) eqn:Hschool; [done|].
  unfold bind, query. destruct (raises Insert _); [done|].
  unfold on_boards.
  pose proof (grown_boards_upsert state_id t0 _ it Hname Hschool Hgrown) as Hup.
  destruct (upsert_board _ _ _) as [t' result]. by cbn in *.
Qed.

Lemma fetch_out_boards_grown (body : Structure.boards_body)
    (generated : list Structure.item) (s : state) :
  grown_boards (Structure.state_id body) (boards (data s))
    (boards (data (respond (Structure.fetch_out_boards raises body generated) s).2)).
Proof.
  unfold respond, Structure.fetch_out_boards.
  destruct (_ || _); [apply grown_boards_refl|].
  unfold bind, has_active. cbn [fst snd].
  destruct (bool_decide _); [apply grown_boards_refl|].
  unfold add_active, try_finally, try_catch, bind.
  set (s0 := {| data := data s; snapshot := snapshot s; activeFetches := _ |}).
  pose proof (for_of_invariant
                (fun st => grown_boards (Structure.state_id body) (boards (data s))
                             (boards (data st)))
                (Structure.fetch_out_boards_row raises (Structure.state_id body))
                (fun x acc st Hst => fetch_out_boards_row_grown _ _ x acc st Hst)
                generated [] s0 (grown_boards_refl _ _)) as Hloop.
  destruct (for_of generated _ [] s0) as [[saved|e] s1]; exact Hloop.
Qed.

End FetchOutBoardsRows.

(** X5. POST /fetch-out-boards never removes or renames a board and never
    deactivates one: the table after the request is the rows before it, each
    unchanged or reactivated, followed by the rows it inserted.  Every
    inserted row belongs to the state of the request, is active, and has a
    name that is not empty, has at most 200 characters, no white space at
    its ends and no non-school keyword. *)
Theorem fetch_out_boards_stores_school_boards
    (raises : Route.statement -> string -> bool) (body : Structure.boards_body)
    (generated : list Structure.item) (s : Route.state) :
  exists old inserted,
    Sql.boards
      (Route.data (Route.respond (Structure.fetch_out_boards raises body generated) s).2)
    = (old ++ inserted)%list
    /\ Forall2 kept_board (Sql.boards (Route.data s)) old
    /\ Forall (school_board_row (Structure.state_id body)) inserted.
Proof. apply fetch_out_boards_grown. Qed.

(** ** Successful runs of the admin routes *)

Section AdminSuccess.
Import Sql Route.

Variable raises : statement -> string -> bool.

Lemma for_of_appending {R} (table : db -> list R) (name_of : R -> string)
    (guard : string -> bool) (fixed : R -> Prop) (row : string -> list R -> M (list R))
    (l : list string) :
  appending raises table name_of guard fixed row ->
  Forall (fun x => raises Insert x = false) l ->
  forall acc s,
    exists new s',
      for_of l row acc s = (Ok (acc ++ new)%list, s')
      /\ table (data s') = (table (data s) ++ new)%list
      /\ frame s s'
      /\ from_candidates name_of guard fixed l new.
Proof.
  intros Hrow Hok. induction Hok as [|x l Hx Hl IH]; intros acc s.
  - exists [], s. rewrite !app_nil_r. repeat split. constructor.
  - destruct (Hrow x acc s Hx) as (new1 & s1 & Hrun1 & Htab1 & Hframe1 & Hnew1).
    destruct (IH (acc ++ new1)%list s1) as (new2 & s2 & Hrun2 & Htab2 & Hframe2 & Hnew2).
    exists (new1 ++ new2)%list, s2. cbn [for_of]. unfold bind. rewrite Hrun1, Hrun2.
    rewrite Htab2, Htab1, !app_assoc. split; [done|]. split; [done|].
    split; [by eapply frame_trans|].
    apply Forall_app. split.
    + eapply Forall_impl; [exact Hnew1|]. intros r (<- & Hg & Hf). split; [by left | done].
    + eapply Forall_impl; [exact Hnew2|]. intros r (Hin & Hg & Hf). split; [by right | done].
Qed.

Lemma admin_route_commits {R} (table : db -> list R) (name_of : R -> string)
    (guard : string -> bool) (fixed : R -> Prop) (row : string -> list R -> M (list R))
    (l : list string) (s : state) :
  appending raises table name_of guard fixed row ->
  snapshot s = None ->
  Forall (fun x => raises Insert x = false) l ->
  exists saved,
    committed table s (respond (AiFetch.handler (AiFetch.transaction (for_of l row []))) s)
      saved
    /\ from_candidates name_of guard fixed l saved.
Proof.
  intros Hrow Hidle Hok.
  set (s0 := {| data := data s; snapshot := Some (data s);
                activeFetches := activeFetches s |}).
  destruct (for_of_appending table name_of guard fixed row l Hrow Hok [] s0)
    as (saved & s1 & Hrun & Htab & [Hsnap Hact] & Hsaved).
  exists saved. split; [|done].
  unfold committed, respond, AiFetch.handler, AiFetch.transaction, try_catch, bind, BEGIN.
  rewrite Hidle. fold s0. rewrite Hrun. cbn. by rewrite Htab, Hact.
Qed.

Lemma insert_row_appending {R} (table : db -> list R) (lift : (list R -> list R * list R) -> db -> db * list R)
    (name_of : R -> string) (guard : string -> bool) (fixed : R -> Prop)
    (stmt : string -> list R -> list R * list R) :
  (forall f d, table (lift f d).1 = (f (table d)).1 /\ (lift f d).2 = (f (table d)).2) ->
  (forall x t, (exists r, stmt x t = ((t ++ [r])%list, [r]) /\ name_of r = x /\ fixed r)
               \/ stmt x t = (t, [])) ->
  appending raises table name_of guard fixed
    (fun x saved =>
       if guard x then ret saved
       else let* result := query raises Insert x (lift (stmt x)) in
            ret (push_first saved result)).
Proof.
  intros Hlift Hstmt x acc s Hx.
  destruct (guard x) eqn:Hguard.
  - exists [], s. rewrite !app_nil_r. repeat split. constructor.
  - unfold bind. rewrite query_ok by done.
    destruct (Hlift (stmt x) (data s)) as [Htab Hres].
    destruct (Hstmt x (table (data s))) as [(r & Hr & Hname & Hfixed)|Hr].
    + exists [r]. eexists. split; [|split; [|split]].
      * rewrite Hres, Hr. reflexivity.
      * cbn. by rewrite Htab, Hr.
      * by split.
      * by repeat constructor.
    + exists []. eexists. split; [|split; [|split]].
      * rewrite Hres, Hr, app_nil_r. reflexivity.
      * cbn. by rewrite Htab, Hr, app_nil_r.
      * by split.
      * constructor.
Qed.

End AdminSuccess.

Section AdminSuccessRoutes.
Import Sql Route.

Variable raises : statement -> string -> bool.

Lemma on_boards_table {A} (f : list board -> list board * A) (d : db) :
  boards (on_boards f d).1 = (f (boards d)).1 /\ (on_boards f d).2 = (f (boards d)).2.
Proof. unfold on_boards. by destruct (f (boards d)). Qed.

Lemma on_universities_table {A} (f : list university -> list university * A) (d : db) :
  universities (on_universities f d).1 = (f (universities d)).1
  /\ (on_universities f d).2 = (f (universities d)).2.
Proof. unfold on_universities. by destruct (f (universities d)). Qed.

Lemma on_papers_stages_table {A} (f : list paper_stage -> list paper_stage * A) (d : db) :
  papers_stages (on_papers_stages f d).1 = (f (papers_stages d)).1
  /\ (on_papers_stages f d).2 = (f (papers_stages d)).2.
Proof. unfold on_papers_stages. by destruct (f (papers_stages d)). Qed.

Lemma on_subjects_table {A} (f : list subject -> list subject * A) (d : db) :
  subjects (on_subjects f d).1 = (f (subjects d)).1
  /\ (on_subjects f d).2 = (f (subjects d)).2.
Proof. unfold on_subjects. by destruct (f (subjects d)). Qed.

Lemma on_chapters_table {A} (f : list chapter -> list chapter * A) (d : db) :
  chapters (on_chapters f d).1 = (f (chapters d)).1
  /\ (on_chapters f d).2 = (f (chapters d)).2.
Proof. unfold on_chapters. by destruct (f (chapters d)). Qed.

Lemma boards_row_appending (state_id : option Z) :
  appending raises boards board_name (AiFetch.placeholder "board ")
    (admin_board_columns state_id) (AiFetch.boards_row raises state_id).
Proof.
  apply (insert_row_appending raises boards (@on_boards _) board_name
           (AiFetch.placeholder "board ") (admin_board_columns state_id)
           (fun x => insert_board_do_nothing x state_id true)).
  - intros f d. apply on_boards_table.
  - intros x t. unfold insert_board_do_nothing.
    destruct (existsb _ t); [by right|]. left. eexists. by repeat split.
Qed.

Lemma universities_row_appending (state_id : option Z) :
  appending raises universities university_name (AiFetch.placeholder "university ")
    (admin_university_columns state_id) (AiFetch.universities_row raises state_id).
Proof.
  apply (insert_row_appending raises universities (@on_universities _) university_name
           (AiFetch.placeholder "university ") (admin_university_columns state_id)
           (fun x => insert_university_do_nothing x state_id false)).
  - intros f d. apply on_universities_table.
  - intros x t. unfold insert_university_do_nothing.
    destruct (existsb _ t); [by right|]. left. eexists. by repeat split.
Qed.

Lemma papers_row_appending (category_id : option Z) :
  appending raises papers_stages paper_stage_name (fun _ => false)
    (admin_paper_columns category_id) (AiFetch.papers_row raises category_id).
Proof.
  apply (insert_row_appending raises papers_stages (@on_papers_stages _) paper_stage_name
           (fun _ => false) (admin_paper_columns category_id)
           (fun x => insert_paper_stage_do_nothing x category_id false)).
  - intros f d. apply on_papers_stages_table.
  - intros x t. unfold insert_paper_stage_do_nothing.
    destruct (existsb _ t); [by right|]. left. eexists. by repeat split.
Qed.

Lemma subjects_row_appending (body : AiFetch.subjects_body) :
  appending raises subjects subject_name (AiFetch.placeholder "subject ")
    (admin_subject_columns body) (AiFetch.subjects_row raises body).
Proof.
  apply (insert_row_appending raises subjects (@on_subjects _) subject_name
           (AiFetch.placeholder "subject ") (admin_subject_columns body)
           (fun x => insert_subject_where_not_exists x (AiFetch.category_id body)
                       (AiFetch.board_id body) (AiFetch.university_id body)
                       (AiFetch.class_id body) (AiFetch.stream_id body)
                       (AiFetch.semester_id body) (AiFetch.degree_type_id body)
                       (AiFetch.paper_stage_id body))).
  - intros f d. apply on_subjects_table.
  - intros x t. unfold insert_subject_where_not_exists.
    destruct (admin_subject_exists _ _ _ _ t); [by right|]. left. eexists.
    by repeat split.
Qed.

Lemma chapters_row_appending (subject_id : option Z) :
  appending raises chapters chapter_name (AiFetch.placeholder "chapter ")
    (admin_chapter_columns subject_id) (AiFetch.chapters_row raises subject_id).
Proof.
  apply (insert_row_appending raises chapters (@on_chapters _) chapter_name
           (AiFetch.placeholder "chapter ") (admin_chapter_columns subject_id)
           (fun x => insert_chapter_do_nothing x subject_id true)).
  - intros f d. apply on_chapters_table.
  - intros x t. unfold insert_chapter_do_nothing.
    destruct (existsb _ t); [by right|]. left. eexists. by repeat split.
Qed.

End AdminSuccessRoutes.

(** X6. When no INSERT is refused, each admin route answers 200 with the rows
    it saved, closes its transaction, and leaves its table as the table
    before the request followed by exactly the rows it reports.  Every
    reported row carries the name of a candidate that passed the
    placeholder guard and the scope keys of the request body. *)
Theorem admin_route_reports_what_it_adds (raises : Route.statement -> string -> bool)
    (names : list string) (s : Route.state) :
  Route.snapshot s = None ->
  Forall (fun x => raises Route.Insert x = false) names ->
  (forall body, exists saved,
     committed Sql.boards s (Route.respond (AiFetch.post_boards raises body names) s) saved
     /\ from_candidates Sql.board_name (AiFetch.placeholder "board ")
          (admin_board_columns (AiFetch.state_id body)) names saved)
  /\ (forall body, exists saved,
        committed Sql.universities s
          (Route.respond (AiFetch.post_universities raises body names) s) saved
        /\ from_candidates Sql.university_name (AiFetch.placeholder "university ")
             (admin_university_columns (AiFetch.state_id body)) names saved)
  /\ (forall body, exists saved,
        committed Sql.papers_stages s
          (Route.respond (AiFetch.post_papers raises body names) s) saved
        /\ from_candidates Sql.paper_stage_name (fun _ => false)
             (admin_paper_columns (AiFetch.papers_category_id body)) names saved)
  /\ (forall body, exists saved,
        committed Sql.subjects s
          (Route.respond (AiFetch.post_subjects raises body names) s) saved
        /\ from_candidates Sql.subject_name (AiFetch.placeholder "subject ")
             (admin_subject_columns body) names saved)
  /\ (forall body, exists saved,
        committed Sql.chapters s
          (Route.respond (AiFetch.post_chapters raises body names) s) saved
        /\ from_candidates Sql.chapter_name (AiFetch.placeholder "chapter ")
             (admin_chapter_columns (AiFetch.subject_id body)) names saved).
Proof.
  intros Hidle Hok. split; [|split; [|split; [|split]]]; intros body.
  - apply (admin_route_commits raises); [apply boards_row_appending | done | done].
  - apply (admin_route_commits raises); [apply universities_row_appending | done | done].
  - apply (admin_route_commits raises); [apply papers_row_appending | done | done].
  - apply (admin_route_commits raises); [apply subjects_row_appending | done | done].
  - apply (admin_route_commits raises); [apply chapters_row_appending | done | done].
Qed.

Lemma admin_route_reports_what_it_adds_witness :
  exists saved,
    committed Sql.boards (idle empty_db)
      (Route.respond
         (AiFetch.post_boards no_faults
            {| AiFetch.state_id := Some 7; AiFetch.state_name := Some "West Bengal" |}
            ["WBBSE"; "Board 2"; "WBBSE"]) (idle empty_db)) saved
    /\ from_candidates Sql.board_name (AiFetch.placeholder "board ")
         (admin_board_columns (Some 7)) ["WBBSE"; "Board 2"; "WBBSE"] saved.
Proof.
  apply (proj1 (admin_route_reports_what_it_adds no_faults ["WBBSE"; "Board 2"; "WBBSE"]
                  (idle empty_db) eq_refl ltac:(repeat constructor))
           {| AiFetch.state_id := Some 7; AiFetch.state_name := Some "West Bengal" |}).
Defined.

(** ** Placeholder guards of the admin routes *)

Section AdminGuards.
Import Sql Route.

Lemma admin_route_skip {R} (row : string -> list R -> M (list R)) (x : string)
    (before after : list string) (s : state) :
  (forall acc, row x acc = ret acc) ->
  AiFetch.handler (AiFetch.transaction (for_of (before ++ x :: after) row [])) s
  = AiFetch.handler (AiFetch.transaction (for_of (before ++ after) row [])) s.
Proof.
  intros Hskip. unfold AiFetch.handler, AiFetch.transaction, try_catch, bind.
  destruct (BEGIN s) as [[u|e] s0]; [|done].
  by rewrite (for_of_skip row x before after Hskip).
Qed.

End AdminGuards.

(** X7. The placeholder guards of the admin routes work on substrings: a
    candidate whose name, in lower case, contains the word of the route
    followed by a space (or "placeholder") anywhere leaves no trace in the
    run, a real name such as "West Bengal Board of Secondary Education"
    included. *)
Theorem admin_guard_drops_names_with_the_word
    (raises : Route.statement -> string -> bool) (name : string)
    (before after : list string) (s : Route.state) :
  (AiFetch.placeholder "board " name = true ->
   forall body,
     AiFetch.post_boards raises body (before ++ name :: after) s
     = AiFetch.post_boards raises body (before ++ after) s)
  /\ (AiFetch.placeholder "university " name = true ->
      forall body,
        AiFetch.post_universities raises body (before ++ name :: after) s
        = AiFetch.post_universities raises body (before ++ after) s)
  /\ (AiFetch.placeholder "subject " name = true ->
      forall body,
        AiFetch.post_subjects raises body (before ++ name :: after) s
        = AiFetch.post_subjects raises body (before ++ after) s)
  /\ (AiFetch.placeholder "chapter " name = true ->
      forall body,
        AiFetch.post_chapters raises body (before ++ name :: after) s
        = AiFetch.post_chapters raises body (before ++ after) s).
Proof.
  split; [|split; [|split]]; intros Hguard body.
  - apply admin_route_skip. intros acc. unfold AiFetch.boards_row. by rewrite Hguard.
  - apply admin_route_skip. intros acc. unfold AiFetch.universities_row. by rewrite Hguard.
  - apply admin_route_skip. intros acc. unfold AiFetch.subjects_row. by rewrite Hguard.
  - apply admin_route_skip. intros acc. unfold AiFetch.chapters_row. by rewrite Hguard.
Qed.

Lemma admin_guard_drops_names_with_the_word_witness :
  Route.respond
    (AiFetch.post_boards no_faults
       {| AiFetch.state_id := Some 7; AiFetch.state_name := Some "West Bengal" |}
       ["West Bengal Board of Secondary Education"; "WBCHSE"]) (idle empty_db)
  = Route.respond
      (AiFetch.post_boards no_faults
         {| AiFetch.state_id := Some 7; AiFetch.state_name := Some "West Bengal" |}
         ["WBCHSE"]) (idle empty_db).
Proof.
  pose proof (proj1 (admin_guard_drops_names_with_the_word no_faults
                       "West Bengal Board of Secondary Education" [] ["WBCHSE"]
                       (idle empty_db)) eq_refl
                {| AiFetch.state_id := Some 7; AiFetch.state_name := Some "West Bengal" |})
    as Hsame.
  cbn [app] in Hsame. unfold Route.respond. rewrite Hsame. reflexivity.
Defined.

(** ** Running an admin route twice *)

Section AdminTwice.
Import Sql Route.

Variable raises : statement -> string -> bool.

Context {R : Type}.
Variable table : db -> list R.
Variable lift : (list R -> list R * list R) -> db -> db * list R.
Variable guard : string -> bool.
Variable known : string -> list R -> bool.
Variable mk : string -> list R -> R.

Hypothesis lift_table :
  forall f d, table (lift f d).1 = (f (table d)).1 /\ (lift f d).2 = (f (table d)).2.
Hypothesis lift_same :
  forall f d, (f (table d)).1 = table d -> (lift f d).1 = d.
Hypothesis known_new : forall x t, known x (t ++ [mk x t]) = true.
Hypothesis known_mono : forall x t t', known x t = true -> known x (t ++ t') = true.

Local Abbreviation skipping_row := (skipping_row raises lift guard known mk).

Lemma skipping_loop_once (l : list string) :
  Forall (fun x => raises Insert x = false) l ->
  forall acc s,
    exists acc' s',
      for_of l skipping_row acc s = (Ok acc', s')
      /\ frame s s'
      /\ (exists t', table (data s') = (table (data s) ++ t')%list)
      /\ Forall (fun x => guard x = false -> known x (table (data s')) = true) l.
Proof.
  intros Hok. induction Hok as [|x l Hx Hl IH]; intros acc s.
  - exists acc, s. split; [done|]. split; [apply frame_refl|].
    split; [exists []; by rewrite app_nil_r | constructor].
  - assert (exists acc1 s1,
               skipping_row x acc s = (Ok acc1, s1) /\ frame s s1
               /\ (exists t', table (data s1) = (table (data s) ++ t')%list)
               /\ (guard x = false -> known x (table (data s1)) = true))
      as (acc1 & s1 & Hrun1 & Hframe1 & [t1 Htab1] & Hknown1).
    { unfold skipping_row. destruct (guard x) eqn:Hguard.
      - exists acc, s. split; [done|]. split; [apply frame_refl|].
        split; [exists []; by rewrite app_nil_r | done].
      - unfold bind. rewrite query_ok by done.
        destruct (lift_table (fun t => if known x t then (t, [])
                                       else ((t ++ [mk x t])%list, [mk x t])) (data s))
          as [Htab Hres].
        eexists _, _. split; [reflexivity|]. split; [by split|].
        cbn [data with_data]. rewrite Htab.
        destruct (known x (table (data s))) eqn:Hknown; cbn [fst].
        + split; [exists []; by rewrite app_nil_r | done].
        + split; [by eexists | intros _; apply known_new]. }
    destruct (IH acc1 s1) as (acc2 & s2 & Hrun2 & Hframe2 & [t2 Htab2] & Hknown2).
    exists acc2, s2. cbn [for_of]. unfold bind. rewrite Hrun1, Hrun2.
    split; [done|]. split; [by eapply frame_trans|]. split.
    + exists (t1 ++ t2)%list. by rewrite Htab2, Htab1, app_assoc.
    + constructor; [|done]. intros Hguard. rewrite Htab2. by apply known_mono, Hknown1.
Qed.

Lemma with_data_same (s : state) (d : db) : d = data s -> with_data d s = s.
Proof. intros ->. by destruct s. Qed.

Lemma skipping_loop_again (l : list string) (s : state) :
  Forall (fun x => raises Insert x = false) l ->
  Forall (fun x => guard x = false -> known x (table (data s)) = true) l ->
  forall acc, for_of l skipping_row acc s = (Ok acc, s).
Proof.
  intros Hok Hknown acc. induction l as [|x l IH]; [done|].
  inversion Hok as [|? ? Hx Hl]; inversion Hknown as [|? ? Hkx Hkl]; subst.
  cbn [for_of]. unfold bind.
  assert (skipping_row x acc s = (Ok acc, s)) as ->; [|by apply IH].
  unfold skipping_row. destruct (guard x) eqn:Hguard; [done|].
  unfold bind. rewrite query_ok by done.
  set (f := fun t => if known x t then (t, []) else ((t ++ [mk x t])%list, [mk x t])).
  assert ((f (table (data s))).1 = table (data s) /\ (f (table (data s))).2 = []) as [Hf1 Hf2].
  { unfold f. by rewrite Hkx. }
  destruct (lift_table f (data s)) as [_ Hres].
  rewrite Hres, Hf2, (lift_same f (data s) Hf1), with_data_same by done. done.
Qed.

Lemma skipping_route_twice (l : list string) (s : state) :
  snapshot s = None ->
  Forall (fun x => raises Insert x = false) l ->
  let first := respond (AiFetch.handler (AiFetch.transaction (for_of l skipping_row []))) s in
  respond (AiFetch.handler (AiFetch.transaction (for_of l skipping_row []))) first.2
  = (Json200 0 [], first.2).
Proof.
  intros Hidle Hok. cbv zeta.
  set (s0 := {| data := data s; snapshot := Some (data s);
                activeFetches := activeFetches s |}).
  destruct (skipping_loop_once l Hok [] s0)
    as (saved & s1 & Hrun & [Hsnap Hact] & _ & Hknown).
  assert (respond (AiFetch.handler (AiFetch.transaction (for_of l skipping_row []))) s
          = (Json200 (length saved) saved,
             {| data := data s1; snapshot := None; activeFetches := activeFetches s1 |}))
    as ->.
  { unfold respond, AiFetch.handler, AiFetch.transaction, try_catch, bind, BEGIN.
    rewrite Hidle. fold s0. by rewrite Hrun. }
  cbn [snd].
  unfold respond, AiFetch.handler, AiFetch.transaction, try_catch, bind, BEGIN.
  cbn [snapshot data activeFetches].
  rewrite (skipping_loop_again l _ Hok); [done|].
  exact Hknown.
Qed.

End AdminTwice.

Section AdminTwiceRoutes.
Import Sql Route.

Variable raises : statement -> string -> bool.

Lemma existsb_app_l {A} (P : A -> bool) (t t' : list A) :
  existsb P t = true -> existsb P (t ++ t') = true.
Proof. intros H. by rewrite existsb_app, H. Qed.

Lemma existsb_snoc {A} (P : A -> bool) (t : list A) (r : A) :
  P r = true -> existsb P (t ++ [r]) = true.
Proof. intros H. rewrite existsb_app. simpl. rewrite H. by destruct (existsb P t). Qed.

Lemma on_boards_same {A} (f : list board -> list board * A) (d : db) :
  (f (boards d)).1 = boards d -> (on_boards f d).1 = d.
Proof. unfold on_boards. destruct (f (boards d)) as [t a]. cbn. intros ->. by destruct d. Qed.

Lemma on_subjects_same {A} (f : list subject -> list subject * A) (d : db) :
  (f (subjects d)).1 = subjects d -> (on_subjects f d).1 = d.
Proof.
  unfold on_subjects. destruct (f (subjects d)) as [t a]. cbn. intros ->. by destruct d.
Qed.

Lemma on_chapters_same {A} (f : list chapter -> list chapter * A) (d : db) :
  (f (chapters d)).1 = chapters d -> (on_chapters f d).1 = d.
Proof.
  unfold on_chapters. destruct (f (chapters d)) as [t a]. cbn. intros ->. by destruct d.
Qed.

Lemma post_boards_twice (z : Z) (state_name : option string) (l : list string) (s : state) :
  snapshot s = None ->
  Forall (fun x => raises Insert x = false) l ->
  let body := {| AiFetch.state_id := Some z; AiFetch.state_name := state_name |} in
  respond (AiFetch.post_boards raises body l)
    (respond (AiFetch.post_boards raises body l) s).2
  = (Json200 0 [], (respond (AiFetch.post_boards raises body l) s).2).
Proof.
  intros Hidle Hok.
  apply (skipping_route_twice raises boards (@on_boards _) (AiFetch.placeholder "board ")
           (fun x t => existsb (board_conflict x (Some z)) t)
           (fun x t => {| board_id := fresh board_id t; board_name := x;
                          board_state_id := Some z; board_is_active := true |})); try done.
  - intros f d. apply on_boards_table.
  - intros f d. apply on_boards_same.
  - intros x t. apply existsb_snoc. by apply board_conflict_spec.
  - intros x t t'. apply existsb_app_l.
Qed.

Lemma post_chapters_twice (z : Z) (subject_name : option string) (l : list string)
    (s : state) :
  snapshot s = None ->
  Forall (fun x => raises Insert x = false) l ->
  let body := {| AiFetch.subject_id := Some z; AiFetch.subject_name := subject_name |} in
  respond (AiFetch.post_chapters raises body l)
    (respond (AiFetch.post_chapters raises body l) s).2
  = (Json200 0 [], (respond (AiFetch.post_chapters raises body l) s).2).
Proof.
  intros Hidle Hok.
  apply (skipping_route_twice raises chapters (@on_chapters _)
           (AiFetch.placeholder "chapter ")
           (fun x t => existsb (chapter_conflict x (Some z)) t)
           (fun x t => {| chapter_id := fresh chapter_id t; chapter_name := x;
                          chapter_subject_id := Some z; chapter_is_active := true |}));
    try done.
  - intros f d. apply on_chapters_table.
  - intros f d. apply on_chapters_same.
  - intros x t. apply existsb_snoc. by apply chapter_conflict_spec.
  - intros x t t'. apply existsb_app_l.
Qed.

Lemma post_subjects_twice (body : AiFetch.subjects_body) (b c : Z) (l : list string)
    (s : state) :
  AiFetch.board_id body = Some b ->
  AiFetch.class_id body = Some c ->
  snapshot s = None ->
  Forall (fun x => raises Insert x = false) l ->
  respond (AiFetch.post_subjects raises body l)
    (respond (AiFetch.post_subjects raises body l) s).2
  = (Json200 0 [], (respond (AiFetch.post_subjects raises body l) s).2).
Proof.
  intros Hb Hc Hidle Hok.
  apply (skipping_route_twice raises subjects (@on_subjects _)
           (AiFetch.placeholder "subject ")
           (fun x t => admin_subject_exists x (AiFetch.board_id body)
                         (AiFetch.class_id body) (AiFetch.stream_id body) t)
           (fun x t => {| subject_id := fresh subject_id t; subject_name := x;
                          subject_category_id := AiFetch.category_id body;
                          subject_board_id := AiFetch.board_id body;
                          subject_university_id := AiFetch.university_id body;
                          subject_class_id := AiFetch.class_id body;
                          subject_stream_id := AiFetch.stream_id body;
                          subject_semester_id := AiFetch.semester_id body;
                          subject_degree_type_id := AiFetch.degree_type_id body;
                          subject_paper_stage_id := AiFetch.paper_stage_id body;
                          subject_is_active := true;
                          subject_is_approved := subject_is_approved_default |}));
    try done.
  - intros f d. apply on_subjects_table.
  - intros f d. apply on_subjects_same.
  - intros x t. unfold admin_subject_exists. apply existsb_snoc.
    rewrite Hb, Hc. by apply admin_subject_where_spec.
  - intros x t t'. unfold admin_subject_exists. apply existsb_app_l.
Qed.

End AdminTwiceRoutes.

(** X8. Running an admin route a second time with the same candidates, for a
    concrete parent (a state for boards, a subject for chapters, a board and
    a class for subjects) and with no INSERT refused, saves nothing: the
    second run answers 200 with no rows and leaves the store exactly as the
    first run left it. *)
Theorem admin_route_twice (raises : Route.statement -> string -> bool)
    (names : list string) (s : Route.state) :
  Route.snapshot s = None ->
  Forall (fun x => raises Route.Insert x = false) names ->
  (forall z state_name,
     let body := {| AiFetch.state_id := Some z; AiFetch.state_name := state_name |} in
     Route.respond (AiFetch.post_boards raises body names)
       (Route.respond (AiFetch.post_boards raises body names) s).2
     = (Route.Json200 0 [], (Route.respond (AiFetch.post_boards raises body names) s).2))
  /\ (forall z subject_name,
        let body := {| AiFetch.subject_id := Some z; AiFetch.subject_name := subject_name |} in
        Route.respond (AiFetch.post_chapters raises body names)
          (Route.respond (AiFetch.post_chapters raises body names) s).2
        = (Route.Json200 0 [],
           (Route.respond (AiFetch.post_chapters raises body names) s).2))
  /\ (forall body b c,
        AiFetch.board_id body = Some b ->
        AiFetch.class_id body = Some c ->
        Route.respond (AiFetch.post_subjects raises body names)
          (Route.respond (AiFetch.post_subjects raises body names) s).2
        = (Route.Json200 0 [],
           (Route.respond (AiFetch.post_subjects raises body names) s).2)).
Proof.
  intros Hidle Hok. split; [|split].
  - intros z state_name. by apply post_boards_twice.
  - intros z subject_name. by apply post_chapters_twice.
  - intros body b c Hb Hc. by eapply post_subjects_twice.
Qed.

Lemma admin_route_twice_witness :
  let body := {| AiFetch.state_id := Some 7; AiFetch.state_name := Some "West Bengal" |} in
  Route.respond (AiFetch.post_boards no_faults body ["WBBSE"; "WBCHSE"; "WBBSE"])
    (Route.respond (AiFetch.post_boards no_faults body ["WBBSE"; "WBCHSE"; "WBBSE"])
       (idle empty_db)).2
  = (Route.Json200 0 [],
     (Route.respond (AiFetch.post_boards no_faults body ["WBBSE"; "WBCHSE"; "WBBSE"])
        (idle empty_db)).2).
Proof.
  apply (proj1 (admin_route_twice no_faults ["WBBSE"; "WBCHSE"; "WBBSE"] (idle empty_db)
                  eq_refl ltac:(repeat constructor)) 7 (Some "West Bengal")).
Defined.

(** ** The generation client: calls, bounds and shapes *)

Section GenerationClientShapes.
Import Route AiService.

Lemma fetchAIStructure_try_calls (w : env) (type context : string) :
  (fetchAIStructure_try w type context).2
  = match ai_providers w with
    | Some rows => match configured rows with Some _ => 1%nat | None => 0%nat end
    | None => 0%nat
    end.
Proof.
  unfold fetchAIStructure_try. destruct (ai_providers w) as [rows|]; [|done].
  destruct (configured rows) as [p|]; [|done].
  destruct (post w _ _) as [|code text]; [done|].
  destruct ((200 <=? code) && (code <? 300))%nat; [|done].
  destruct (Js.is_empty _); [done|]. by destruct (JSON_parse w _).
Qed.

Lemma generateMCQInitial_try_calls (w : env) (topic : string) (count : nat) :
  (generateMCQInitial_try w topic count).2
  = match ai_providers w with
    | Some rows => match configured rows with Some _ => 1%nat | None => 0%nat end
    | None => 0%nat
    end.
Proof.
  unfold generateMCQInitial_try. destruct (ai_providers w) as [rows|]; [|done].
  destruct (configured rows) as [p|]; [|done].
  destruct (post w _ _) as [|code text]; [done|].
  destruct ((200 <=? code) && (code <? 300))%nat; [|done].
  destruct (Js.is_empty _); [done|]. destruct (JSON_parse w _) as [v|]; [|done].
  destruct (normalize _ _ v) as [mcqs|]; [|done]. by destruct (slice0 count mcqs).
Qed.

Lemma fetchAIStructure_calls (w : env) (type context : string) :
  (fetchAIStructure w type context).2 = (fetchAIStructure_try w type context).2.
Proof. unfold fetchAIStructure. by destruct (fetchAIStructure_try _ _ _) as [[v|e] n]. Qed.

Lemma generateMCQInitial_calls (w : env) (topic : string) (count : nat) :
  (generateMCQInitial w topic count).2 = (generateMCQInitial_try w topic count).2.
Proof. unfold generateMCQInitial. by destruct (generateMCQInitial_try _ _ _) as [[v|e] n]. Qed.

Lemma ready_calls (w : env) :
  provider_ready w ->
  match ai_providers w with
  | Some rows => match configured rows with Some _ => 1%nat | None => 0%nat end
  | None => 0%nat
  end = 1%nat.
Proof. intros (rows & p & -> & ->). done. Qed.

Lemma not_ready_calls (w : env) :
  ~ provider_ready w ->
  match ai_providers w with
  | Some rows => match configured rows with Some _ => 1%nat | None => 0%nat end
  | None => 0%nat
  end = 0%nat.
Proof.
  intros Hnot. destruct (ai_providers w) as [rows|] eqn:Hrows; [|done].
  destruct (configured rows) as [p|] eqn:Hp; [|done].
  destruct Hnot. by exists rows, p.
Qed.

End GenerationClientShapes.

(** X9. The clients never retry: with an active provider that has a key they
    make exactly one outbound call, whatever the endpoint answers and
    whether or not they fall back to the mock afterwards; otherwise they
    make none. *)
Theorem client_calls_once_or_never (w : AiService.env) :
  (provider_ready w ->
   (forall type context, (AiService.fetchAIStructure w type context).2 = 1%nat)
   /\ (forall topic count, (AiService.generateMCQInitial w topic count).2 = 1%nat)
   /\ (forall stateName, (AiService.generateSchoolBoards w stateName).2 = 1%nat))
  /\ (~ provider_ready w ->
      (forall type context, (AiService.fetchAIStructure w type context).2 = 0%nat)
      /\ (forall topic count, (AiService.generateMCQInitial w topic count).2 = 0%nat)
      /\ (forall stateName, (AiService.generateSchoolBoards w stateName).2 = 0%nat)).
Proof.
  split; intros Hready.
  - split; [|split].
    + intros type context.
      by rewrite fetchAIStructure_calls, fetchAIStructure_try_calls, ready_calls.
    + intros topic count.
      by rewrite generateMCQInitial_calls, generateMCQInitial_try_calls, ready_calls.
    + intros stateName. unfold AiService.generateSchoolBoards.
      pose proof (fetchAIStructure_calls w "boards" (AiService.boards_prompt stateName)) as Hc.
      rewrite fetchAIStructure_try_calls, ready_calls in Hc by done.
      by destruct (AiService.fetchAIStructure w _ _).
  - split; [|split].
    + intros type context.
      by rewrite fetchAIStructure_calls, fetchAIStructure_try_calls, not_ready_calls.
    + intros topic count.
      by rewrite generateMCQInitial_calls, generateMCQInitial_try_calls, not_ready_calls.
    + intros stateName. unfold AiService.generateSchoolBoards.
      pose proof (fetchAIStructure_calls w "boards" (AiService.boards_prompt stateName)) as Hc.
      rewrite fetchAIStructure_try_calls, not_ready_calls in Hc by done.
      by destruct (AiService.fetchAIStructure w _ _).
Qed.

Lemma client_calls_once_or_never_witness :
  (AiService.fetchAIStructure unreachable "boards" "West Bengal").2 = 1%nat.
Proof.
  apply (proj1 (proj1 (client_calls_once_or_never unreachable)
                  ltac:(exists [gemini], gemini; split; reflexivity))).
Defined.

Section McqProperties.
Import Route AiService.

Lemma fallbackMock_length (topic : string) (count : nat) :
  exists l, fallbackMock topic count = JArray l /\ length l = count.
Proof.
  eexists. split; [reflexivity|]. by rewrite length_map, length_seq.
Qed.

Lemma mock_mcq_marked (topic : string) (i : nat) : is_mock_mcq topic (mock_mcq topic i).
Proof.
  eexists _, _. split; [reflexivity|]. split; [reflexivity|].
  split; [apply startsWith_append|]. split; reflexivity.
Qed.

Lemma fallbackMock_marked (topic : string) (count : nat) :
  exists l, fallbackMock topic count = JArray l /\ length l = count
            /\ Forall (is_mock_mcq topic) l.
Proof.
  eexists. split; [reflexivity|]. split; [by rewrite length_map, length_seq|].
  apply Forall_forall. intros v Hv. apply list_elem_of_In, in_map_iff in Hv as (i & <- & _).
  apply mock_mcq_marked.
Qed.

Lemma slice0_bound (count : nat) (v : json) (l : list json) :
  slice0 count v = Ok (JArray l) -> (length l <= count)%nat.
Proof.
  destruct v; simpl; try discriminate. intros [= <-].
  rewrite length_firstn. lia.
Qed.

Lemma generateMCQInitial_bound (w : env) (topic : string) (count : nat) (l : list json) :
  (generateMCQInitial w topic count).1 = JArray l -> (length l <= count)%nat.
Proof.
  destruct (fallbackMock_length topic count) as (m & Hm & Hlen).
  assert (fallbackMock topic count = JArray l -> (length l <= count)%nat) as Hmock.
  { rewrite Hm. intros [= <-]. lia. }
  unfold generateMCQInitial, generateMCQInitial_try.
  destruct (ai_providers w) as [rows|]; [|exact Hmock].
  destruct (configured rows) as [p|]; [|exact Hmock].
  destruct (post w _ _) as [|code text]; [exact Hmock|].
  destruct ((200 <=? code) && (code <? 300))%nat; [|exact Hmock].
  destruct (Js.is_empty _); [exact Hmock|].
  destruct (JSON_parse w _) as [v|]; [|exact Hmock].
  destruct (normalize _ _ v) as [mcqs|]; [|exact Hmock].
  destruct (slice0 count mcqs) as [r|] eqn:Hslice; [|exact Hmock].
  cbn [fst]. intros ->. by eapply slice0_bound.
Qed.

End McqProperties.

(** X10. [generateMCQInitial(topic, count)] never hands out more than [count]
    questions: whenever it resolves to an array, from the provider or from
    the mock, the array has at most [count] elements. *)
Theorem mcq_count_is_a_ceiling (w : AiService.env) (topic : string) (count : nat)
    (l : list AiService.json) :
  (AiService.generateMCQInitial w topic count).1 = AiService.JArray l ->
  (length l <= count)%nat.
Proof. apply generateMCQInitial_bound. Qed.

Lemma mcq_count_is_a_ceiling_witness :
  (AiService.generateMCQInitial answers_three "Algebra" 2).1
  = AiService.JArray [AiService.JNumber 1; AiService.JNumber 2]
  /\ (length [AiService.JNumber 1; AiService.JNumber 2] <= 2)%nat.
Proof.
  split; [reflexivity|].
  apply (mcq_count_is_a_ceiling answers_three "Algebra" 2). reflexivity.
Defined.

(** X11. With no active provider or no API key, [generateMCQInitial] makes no
    outbound call and resolves to exactly [count] mock questions, each
    marked [MOCK] in its question text, filed under the topic and with the
    first option as the correct one. *)
Theorem mcq_mock_without_provider (w : AiService.env) (topic : string) (count : nat) :
  unconfigured w ->
  exists l,
    AiService.generateMCQInitial w topic count = (AiService.JArray l, 0%nat)
    /\ length l = count
    /\ Forall (is_mock_mcq topic) l.
Proof.
  intros (rows & Hrows & Hnone).
  destruct (fallbackMock_marked topic count) as (l & Hl & Hlen & Hall).
  exists l. split; [|done].
  unfold AiService.generateMCQInitial, AiService.generateMCQInitial_try.
  by rewrite Hrows, Hnone, Hl.
Qed.

Lemma mcq_mock_without_provider_witness :
  exists l,
    AiService.generateMCQInitial offline "Algebra" 5 = (AiService.JArray l, 0%nat)
    /\ length l = 5%nat
    /\ Forall (is_mock_mcq "Algebra") l.
Proof.
  apply (mcq_mock_without_provider offline "Algebra" 5).
  exists []. split; reflexivity.
Defined.

(** ** What the school generators hand to the routes *)

Section SchoolGenerators.
Import Route AiService.

Lemma wrap_name_not_bare (v : json) : not_bare_string (wrap_name v).
Proof. intros s. by destruct v. Qed.

Lemma as_named_not_bare (v : json) : Forall not_bare_string (as_named v).
Proof.
  destruct v as [| | | |l|]; try constructor.
  simpl. induction l as [|x l IH]; constructor; [apply wrap_name_not_bare | done].
Qed.

Lemma as_named_strings (l : list json) (s : string) :
  In (JString s) l -> In (JObject [("name", JString s)]) (as_named (JArray l)).
Proof. intros Hin. simpl. apply in_map_iff. by exists (JString s). Qed.

Lemma as_named_not_array (v : json) :
  (forall l, v <> JArray l) -> as_named v = [].
Proof. intros Hv. destruct v as [| | | |l|]; try done. by destruct (Hv l). Qed.

Lemma as_named_mock (type context : string) :
  exists l, as_named (fallbackMockStructure type context) = l
            /\ length l = 5%nat /\ Forall is_named_mock l.
Proof.
  eexists. split; [reflexivity|]. split; [reflexivity|].
  repeat constructor; eexists; (split; [reflexivity|]);
    unfold mock_marker; apply startsWith_append.
Qed.

Lemma unconfigured_structure (w : env) (type context : string) :
  unconfigured w -> fetchAIStructure w type context = (fallbackMockStructure type context, 0%nat).
Proof.
  intros (rows & Hrows & Hnone). unfold fetchAIStructure, fetchAIStructure_try.
  by rewrite Hrows, Hnone.
Qed.

End SchoolGenerators.

(** X12. What [generateSchoolBoards], [generateSchoolSubjects] and
    [generateSchoolChapters] resolve to is always a list without bare
    strings: every string of the client's array arrives as an object with
    that name, a result of the client that is no array arrives as the empty
    list, and with no provider configured the list is the five mock items
    as named objects. *)
Theorem school_generators_hand_out_named_items (w : AiService.env) :
  (forall stateName,
     let raw := (AiService.fetchAIStructure w "boards" (AiService.boards_prompt stateName)).1 in
     let items := (AiService.generateSchoolBoards w stateName).1 in
     Forall not_bare_string items
     /\ (forall l s, raw = AiService.JArray l -> In (AiService.JString s) l ->
                     In (AiService.JObject [("name", AiService.JString s)]) items)
     /\ ((forall l, raw <> AiService.JArray l) -> items = [])
     /\ (unconfigured w -> length items = 5%nat /\ Forall is_named_mock items))
  /\ (forall boardName className streamName,
        let raw := (AiService.fetchAIStructure w "subjects"
                      (AiService.subjects_prompt boardName className streamName)).1 in
        let items := (AiService.generateSchoolSubjects w boardName className streamName).1 in
        Forall not_bare_string items
        /\ (forall l s, raw = AiService.JArray l -> In (AiService.JString s) l ->
                        In (AiService.JObject [("name", AiService.JString s)]) items)
        /\ ((forall l, raw <> AiService.JArray l) -> items = [])
        /\ (unconfigured w -> length items = 5%nat /\ Forall is_named_mock items))
  /\ (forall subjectName boardName className,
        let raw := (AiService.fetchAIStructure w "chapters"
                      (AiService.chapters_prompt subjectName boardName className)).1 in
        let items := (AiService.generateSchoolChapters w subjectName boardName className).1 in
        Forall not_bare_string items
        /\ (forall l s, raw = AiService.JArray l -> In (AiService.JString s) l ->
                        In (AiService.JObject [("name", AiService.JString s)]) items)
        /\ ((forall l, raw <> AiService.JArray l) -> items = [])
        /\ (unconfigured w -> length items = 5%nat /\ Forall is_named_mock items)).
Proof.
  assert (forall type context,
            let raw := (AiService.fetchAIStructure w type context).1 in
            let items := AiService.as_named raw in
            Forall not_bare_string items
            /\ (forall l s, raw = AiService.JArray l -> In (AiService.JString s) l ->
                            In (AiService.JObject [("name", AiService.JString s)]) items)
            /\ ((forall l, raw <> AiService.JArray l) -> items = [])
            /\ (unconfigured w -> length items = 5%nat /\ Forall is_named_mock items))
    as Hshape.
  { intros type context. cbv zeta. split; [apply as_named_not_bare|]. split; [|split].
    - intros l s -> Hin. by apply as_named_strings.
    - apply as_named_not_array.
    - intros Hun. rewrite (unconfigured_structure w type context Hun). cbn [fst].
      destruct (as_named_mock type context) as (l & <- & Hlen & Hall). done. }
  split; [|split].
  - intros stateName. cbv zeta. unfold AiService.generateSchoolBoards.
    pose proof (Hshape "boards" (AiService.boards_prompt stateName)) as H.
    by destruct (AiService.fetchAIStructure w _ _).
  - intros boardName className streamName. cbv zeta.
    unfold AiService.generateSchoolSubjects.
    pose proof (Hshape "subjects"
                  (AiService.subjects_prompt boardName className streamName)) as H.
    by destruct (AiService.fetchAIStructure w _ _).
  - intros subjectName boardName className. cbv zeta.
    unfold AiService.generateSchoolChapters.
    pose proof (Hshape "chapters"
                  (AiService.chapters_prompt subjectName boardName className)) as H.
    by destruct (AiService.fetchAIStructure w _ _).
Qed.

Lemma school_generators_hand_out_named_items_witness :
  (AiService.generateSchoolBoards answers_text "West Bengal").1 = [].
Proof.
  apply (proj1 (proj2 (proj2 (proj1 (school_generators_hand_out_named_items answers_text)
                                "West Bengal")))).
  intros l. vm_compute. discriminate.
Defined.

(** ** The shapes of a parsed answer *)

Section ParsedShapes.
Import Route AiService.

Lemma fetchAIStructure_parsed (w : env) (type context : string) (v : json) :
  parsed_as w (structure_prompt type context) v ->
  (fetchAIStructure w type context).1
  = match normalize "items" "list" v with
    | Ok r => r
    | Throw _ => fallbackMockStructure type context
    end.
Proof.
  intros (rows & p & code & text & Hq & Hp & Hpost & Hcode & Htext & Hparse).
  unfold fetchAIStructure, fetchAIStructure_try.
  rewrite Hq, Hp, Hpost, Hcode, (or_string_some _ Htext), Htext, Hparse.
  by destruct (normalize "items" "list" v).
Qed.

End ParsedShapes.

(** X13. What [fetchAIStructure] makes of a 2xx answer whose text parses: an
    array is returned as it is, its elements unchecked; [null] ends in the
    mock; a number, a boolean or a string gives the empty list; an object
    gives its [items] when truthy, else its [list] when truthy, else the
    empty list, whatever the type of the field. *)
Theorem structure_answer_shapes (w : AiService.env) (type context : string)
    (v : AiService.json) :
  parsed_as w (AiService.structure_prompt type context) v ->
  let result := (AiService.fetchAIStructure w type context).1 in
  (forall l, v = AiService.JArray l -> result = AiService.JArray l)
  /\ (v = AiService.JNull -> result = AiService.fallbackMockStructure type context)
  /\ ((exists n, v = AiService.JNumber n) \/ (exists b, v = AiService.JBool b)
      \/ (exists s, v = AiService.JString s) -> result = AiService.JArray [])
  /\ (forall fields x,
        v = AiService.JObject fields ->
        AiService.lookup_field "items" fields = Some x -> AiService.truthy x = true ->
        result = x)
  /\ (forall fields y,
        v = AiService.JObject fields ->
        (AiService.lookup_field "items" fields = None
         \/ exists x, AiService.lookup_field "items" fields = Some x
                      /\ AiService.truthy x = false) ->
        AiService.lookup_field "list" fields = Some y -> AiService.truthy y = true ->
        result = y)
  /\ (forall fields,
        v = AiService.JObject fields ->
        (AiService.lookup_field "items" fields = None
         \/ exists x, AiService.lookup_field "items" fields = Some x
                      /\ AiService.truthy x = false) ->
        (AiService.lookup_field "list" fields = None
         \/ exists y, AiService.lookup_field "list" fields = Some y
                      /\ AiService.truthy y = false) ->
        result = AiService.JArray []).
Proof.
  intros Hparsed. cbv zeta. rewrite (fetchAIStructure_parsed w type context v Hparsed).
  split; [|split; [|split; [|split; [|split]]]].
  - by intros l ->.
  - by intros ->.
  - by intros [[n ->]|[[b ->]|[s ->]]].
  - intros fields x -> Hx Htx. cbn. unfold AiService.first_truthy. by rewrite Hx, Htx.
  - intros fields y -> Hitems Hy Hty. cbn. unfold AiService.first_truthy.
    destruct Hitems as [->|(x & -> & ->)]; by rewrite Hy, Hty.
  - intros fields -> Hitems Hlist. cbn. unfold AiService.first_truthy.
    destruct Hitems as [->|(x & -> & ->)]; destruct Hlist as [->|(y & -> & ->)]; done.
Qed.

Lemma structure_answer_shapes_witness :
  (AiService.fetchAIStructure answers_text "boards" "West Bengal").1
  = AiService.JString "CBSE".
Proof.
  refine (proj1 (proj2 (proj2 (proj2
            (structure_answer_shapes answers_text "boards" "West Bengal"
               (AiService.JObject [("items", AiService.JString "CBSE")]) _))))
            [("items", AiService.JString "CBSE")] (AiService.JString "CBSE")
            eq_refl eq_refl eq_refl).
  exists [gemini], gemini, 200%nat, items_text. repeat split; reflexivity.
Defined.

(** ** Saved rows are on public display at once *)

Section Display.
Import Sql Route.

Variable name_le : string -> string -> bool.
Variable raises : statement -> string -> bool.

Lemma insert_by_name_In (x y : Z * string) (l : list (Z * string)) :
  In y (Browse.insert_by_name name_le x l) <-> y = x \/ In y l.
Proof.
  induction l as [|z l IH]; simpl; [intuition|].
  destruct (name_le x.2 z.2); simpl; [intuition|]. rewrite IH. intuition.
Qed.

Lemma order_by_name_In (y : Z * string) (l : list (Z * string)) :
  In y (Browse.order_by_name name_le l) <-> In y l.
Proof.
  induction l as [|x l IH]; simpl; [done|].
  rewrite insert_by_name_In, IH. intuition.
Qed.

(** What every successful iteration preserves of the saved rows and the
    store, the loop preserves. *)
Lemma for_of_invariant_acc {A S : Type} (J : S -> state -> Prop) (body : A -> S -> M S) :
  (forall x acc s acc' s', J acc s -> body x acc s = (Ok acc', s') -> J acc' s') ->
  forall l acc s acc' s', J acc s -> for_of l body acc s = (Ok acc', s') -> J acc' s'.
Proof.
  intros Hbody l. induction l as [|x l IH]; intros acc s acc' s' HJ Hrun.
  - cbn in Hrun. injection Hrun as <- <-. done.
  - cbn [for_of] in Hrun. unfold bind in Hrun.
    destruct (body x acc s) as [[acc1|e] s1] eqn:Hx; [|discriminate].
    eapply IH; [|exact Hrun]. by eapply Hbody.
Qed.

Lemma fetch_out_boards_row_display (z : Z) (it : Structure.item)
    (acc acc' : list (Z * string)) (s s' : state) :
  boards_on_display z acc s ->
  Structure.fetch_out_boards_row raises (Some z) it acc s = (Ok acc', s') ->
  boards_on_display z acc' s'.
Proof.
  intros HJ. unfold Structure.fetch_out_boards_row.
  destruct (Js.is_empty _); [by intros [= <- <-]|].
  destruct (Js.some_includes _ _); [by intros [= <- <-]|].
  unfold bind, query. destruct (raises Insert _); [discriminate|].
  unfold on_boards, upsert_board.
  set (n := Structure.candidate_name it).
  destruct (existsb (board_conflict n (Some z)) (boards (data s))) eqn:Hex.
  - cbn. intros [= <- <-]. cbn.
    set (f := fun r => if board_conflict n (Some z) r then activate_board r else r).
    assert (forall r, In r (boards (data s)) -> board_is_active r = true \/
                      board_conflict n (Some z) r = true ->
                      In (f r) (map f (boards (data s)))
                      /\ board_id (f r) = board_id r /\ board_name (f r) = board_name r
                      /\ board_state_id (f r) = board_state_id r
                      /\ board_is_active (f r) = true) as Hf.
    { intros r Hin Hor. split; [by apply in_map|]. unfold f.
      destruct (board_conflict n (Some z) r) eqn:Hc; cbn; [done|].
      destruct Hor as [Ha|Hc']; [done | discriminate]. }
    intros id m Hin.
    assert (In (id, m) acc \/
            exists r, In r (boards (data s)) /\ board_conflict n (Some z) r = true
                      /\ (id, m) = (board_id r, board_name r)) as [Hold|(r & Hr & Hc & Heq)].
    { destruct (List.filter (board_conflict n (Some z)) (boards (data s)))
        as [|r0 rest] eqn:Hfilter; cbn in Hin; [by left|].
      apply in_app_or in Hin as [Hin|[Hin|[]]]; [by left|]. right. exists r0.
      assert (In r0 (List.filter (board_conflict n (Some z)) (boards (data s)))) as Hr0.
      { rewrite Hfilter. by left. }
      apply filter_In in Hr0 as [Hr0 Hc]. done. }
    + destruct (HJ id m Hold) as (r & Hr & Hid & Hname & Hstate & Hactive).
      destruct (Hf r Hr (or_introl Hactive)) as (H1 & H2 & H3 & H4 & H5).
      exists (f r). split; [exact H1|]. repeat split; congruence.
    + injection Heq as -> ->.
      destruct (Hf r Hr (or_intror Hc)) as (H1 & H2 & H3 & H4 & H5).
      apply board_conflict_spec in Hc as [Hstate Hname].
      exists (f r). split; [exact H1|]. repeat split; congruence.
  - cbn. intros [= <- <-]. cbn. intros id m Hin.
    apply in_app_or in Hin as [Hold|[Hnew|[]]].
    + destruct (HJ id m Hold) as (r & Hr & Hrest). exists r.
      split; [apply in_or_app; by left | done].
    + injection Hnew as <- <-. eexists. split; [apply in_or_app; right; by left|]. done.
Qed.

Lemma fetch_out_boards_display (body : Structure.boards_body) (z : Z)
    (generated : list Structure.item) (s s' : state) (count : nat)
    (saved : list (Z * string)) :
  Structure.state_id body = Some z ->
  respond (Structure.fetch_out_boards raises body generated) s = (Json200 count saved, s') ->
  boards_on_display z saved s'.
Proof.
  intros Hz. unfold respond, Structure.fetch_out_boards. rewrite Hz.
  destruct (_ || _); [discriminate|].
  unfold bind, has_active. cbn [fst snd].
  destruct (bool_decide _); [discriminate|].
  unfold add_active, try_finally, try_catch, bind.
  set (s0 := {| data := data s; snapshot := snapshot s; activeFetches := _ |}).
  destruct (for_of generated _ [] s0) as [[acc|e] s1] eqn:Hloop; [|discriminate].
  cbn. intros [= _ <- <-]. cbn.
  apply (for_of_invariant_acc (boards_on_display z)
           (Structure.fetch_out_boards_row raises (Some z))
           (fun x a st a' st' => fetch_out_boards_row_display z x a a' st st')
           generated [] s0 acc s1); [|done].
  intros id n [].
Qed.

End Display.

Section DisplaySubjects.
Import Sql Route.

Variable raises : statement -> string -> bool.

Lemma first_selected {A B} (P : A -> bool) (f : A -> B) (t : list A) (x : B) (rest : list B) :
  map f (List.filter P t) = x :: rest ->
  exists r, In r t /\ P r = true /\ f r = x.
Proof.
  destruct (List.filter P t) as [|r rs] eqn:Hfilter; [discriminate|].
  cbn. intros [= <- _]. exists r.
  assert (In r (List.filter P t)) as Hin by (rewrite Hfilter; by left).
  apply filter_In in Hin as [Hin HP]. done.
Qed.

Lemma fetch_out_subjects_row_display (b c : Z) (stream : option Z) (it : Structure.item)
    (acc acc' : list (Z * string)) (s s' : state) :
  subjects_on_display c acc s ->
  Structure.fetch_out_subjects_row raises (Some b) (Some c) stream it acc s = (Ok acc', s') ->
  subjects_on_display c acc' s'.
Proof.
  intros HJ. unfold Structure.fetch_out_subjects_row.
  destruct (Js.is_empty _); [by intros [= <- <-]|].
  set (n := Structure.candidate_name it).
  unfold bind, query. destruct (raises Select n); [discriminate|].
  cbn [data with_data].
  destruct (select_existing_subjects _ _ _ _ _) as [|id rest] eqn:Hsel.
  - destruct (raises Insert n); [discriminate|].
    unfold on_subjects, insert_subject_fetch_out. cbn. intros [= <- <-]. cbn.
    intros id m Hin. apply in_app_or in Hin as [Hold|[Hnew|[]]].
    + destruct (HJ id m Hold) as (r & Hr & Hrest). exists r.
      split; [apply in_or_app; by left | done].
    + injection Hnew as <- <-. eexists. split; [apply in_or_app; right; by left|]. done.
  - destruct (raises Update n); [discriminate|].
    unfold on_subjects. cbn. intros [= <- <-]. cbn.
    unfold update_subject_active.
    set (f := fun r => if subject_id r =? id then activate_subject r else r).
    assert (forall r, In r (subjects (data s)) ->
                      subject_is_active r = true \/ subject_id r = id ->
                      In (f r) (map f (subjects (data s)))
                      /\ subject_id (f r) = subject_id r
                      /\ subject_name (f r) = subject_name r
                      /\ subject_class_id (f r) = subject_class_id r
                      /\ subject_is_active (f r) = true) as Hf.
    { intros r Hin Hor. split; [by apply in_map|]. unfold f.
      destruct (subject_id r =? id) eqn:Hid; cbn; [done|].
      destruct Hor as [Ha|Hid']; [done|]. apply Z.eqb_neq in Hid. done. }
    intros id' m Hin. apply in_app_or in Hin as [Hold|[Hnew|[]]].
    + destruct (HJ id' m Hold) as (r & Hr & Hid & Hname & Hclass & Hactive).
      destruct (Hf r Hr (or_introl Hactive)) as (H1 & H2 & H3 & H4 & H5).
      exists (f r). split; [exact H1|]. repeat split; congruence.
    + injection Hnew as <- <-.
      apply first_selected in Hsel as (r & Hr & Hwhere & Hid).
      apply fetch_out_subject_where_spec in Hwhere as (Hb & Hc & Hst & Hname).
      destruct (Hf r Hr (or_intror Hid)) as (H1 & H2 & H3 & H4 & H5).
      exists (f r). split; [exact H1|]. unfold same_up_to_case.
      repeat split; try congruence. rewrite H3. exact Hname.
Qed.

Lemma fetch_out_chapters_row_display (z : Z) (it : Structure.item)
    (acc acc' : list (Z * string)) (s s' : state) :
  chapters_on_display z acc s ->
  Structure.fetch_out_chapters_row raises (Some z) it acc s = (Ok acc', s') ->
  chapters_on_display z acc' s'.
Proof.
  intros HJ. unfold Structure.fetch_out_chapters_row.
  destruct (Js.is_empty _); [by intros [= <- <-]|].
  set (n := Structure.candidate_name it).
  unfold bind, query. destruct (raises Select n); [discriminate|].
  cbn [data with_data].
  destruct (select_existing_chapters _ _ _) as [|id rest] eqn:Hsel.
  - destruct (raises Insert n); [discriminate|].
    unfold on_chapters, upsert_chapter.
    destruct (existsb (chapter_conflict n (Some z)) (chapters (data s))) eqn:Hex.
    + exfalso. apply existsb_exists in Hex as (r & Hr & Hc).
      apply chapter_conflict_where in Hc.
      unfold select_existing_chapters in Hsel.
      assert (In r (List.filter (fun r => holds (fetch_out_chapter_where (Some z) n r))
                      (chapters (data s)))) as Hin by (apply filter_In; done).
      destruct (List.filter _ (chapters (data s))); [done | discriminate].
    + cbn. rewrite Hex. cbn. intros [= <- <-]. cbn.
      intros id m Hin. apply in_app_or in Hin as [Hold|[Hnew|[]]].
      * destruct (HJ id m Hold) as (r & Hr & Hrest). exists r.
        split; [apply in_or_app; by left | done].
      * injection Hnew as <- <-. eexists. split; [apply in_or_app; right; by left|]. done.
  - destruct (raises Update n); [discriminate|].
    unfold on_chapters. cbn. intros [= <- <-]. cbn.
    unfold update_chapter_active.
    set (f := fun r => if chapter_id r =? id then activate_chapter r else r).
    assert (forall r, In r (chapters (data s)) ->
                      chapter_is_active r = true \/ chapter_id r = id ->
                      In (f r) (map f (chapters (data s)))
                      /\ chapter_id (f r) = chapter_id r
                      /\ chapter_name (f r) = chapter_name r
                      /\ chapter_subject_id (f r) = chapter_subject_id r
                      /\ chapter_is_active (f r) = true) as Hf.
    { intros r Hin Hor. split; [by apply in_map|]. unfold f.
      destruct (chapter_id r =? id) eqn:Hid; cbn; [done|].
      destruct Hor as [Ha|Hid']; [done|]. apply Z.eqb_neq in Hid. done. }
    intros id' m Hin. apply in_app_or in Hin as [Hold|[Hnew|[]]].
    + destruct (HJ id' m Hold) as (r & Hr & Hid & Hname & Hsub & Hactive).
      destruct (Hf r Hr (or_introl Hactive)) as (H1 & H2 & H3 & H4 & H5).
      exists (f r). split; [exact H1|]. repeat split; congruence.
    + injection Hnew as <- <-.
      apply first_selected in Hsel as (r & Hr & Hwhere & Hid).
      apply fetch_out_chapter_where_spec in Hwhere as (Hsub & Hname).
      destruct (Hf r Hr (or_intror Hid)) as (H1 & H2 & H3 & H4 & H5).
      exists (f r). split; [exact H1|]. unfold same_up_to_case.
      repeat split; try congruence. rewrite H3. exact Hname.
Qed.

Lemma fetch_out_subjects_display (body : Structure.subjects_body) (b c : Z)
    (generated : list Structure.item) (s s' : state) (count : nat)
    (saved : list (Z * string)) :
  Structure.board_id body = Some b ->
  Structure.class_id body = Some c ->
  respond (Structure.fetch_out_subjects raises body generated) s = (Json200 count saved, s') ->
  subjects_on_display c saved s'.
Proof.
  intros Hb Hc. unfold respond, Structure.fetch_out_subjects. rewrite Hb, Hc.
  destruct (_ || _); [discriminate|].
  unfold bind, has_active. cbn [fst snd].
  destruct (bool_decide _); [discriminate|].
  unfold add_active, try_finally, try_catch, bind.
  set (s0 := {| data := data s; snapshot := snapshot s; activeFetches := _ |}).
  destruct (for_of generated _ [] s0) as [[acc|e] s1] eqn:Hloop; [|discriminate].
  cbn. intros [= _ <- <-]. cbn.
  apply (for_of_invariant_acc (subjects_on_display c)
           (Structure.fetch_out_subjects_row raises (Some b) (Some c)
              (Structure.stream_id body))
           (fun x a st a' st' => fetch_out_subjects_row_display b c _ x a a' st st')
           generated [] s0 acc s1); [|done].
  intros id n [].
Qed.

Lemma fetch_out_chapters_display (body : Structure.chapters_body) (z : Z)
    (generated : list Structure.item) (s s' : state) (count : nat)
    (saved : list (Z * string)) :
  Structure.subject_id body = Some z ->
  respond (Structure.fetch_out_chapters raises body generated) s = (Json200 count saved, s') ->
  chapters_on_display z saved s'.
Proof.
  intros Hz. unfold respond, Structure.fetch_out_chapters. rewrite Hz.
  destruct (_ || _); [discriminate|].
  unfold bind, has_active. cbn [fst snd].
  destruct (bool_decide _); [discriminate|].
  unfold add_active, try_finally, try_catch, bind.
  set (s0 := {| data := data s; snapshot := snapshot s; activeFetches := _ |}).
  destruct (for_of generated _ [] s0) as [[acc|e] s1] eqn:Hloop; [|discriminate].
  cbn. intros [= _ <- <-]. cbn.
  apply (for_of_invariant_acc (chapters_on_display z)
           (Structure.fetch_out_chapters_row raises (Some z))
           (fun x a st a' st' => fetch_out_chapters_row_display z x a a' st st')
           generated [] s0 acc s1); [|done].
  intros id n [].
Qed.

End DisplaySubjects.

Section DisplayRoutes.
Import Sql Route.

Variable name_le : string -> string -> bool.
Variable raises : statement -> string -> bool.

Lemma safeFetch_ok {A} (bound : string) (select : db -> list A) (s : state) :
  raises Select bound = false ->
  respond (Browse.safeFetch (query raises Select bound (fun d => (d, select d)))) s
  = (Json200 (length (select (data s))) (select (data s)), s).
Proof.
  intros H. unfold respond, Browse.safeFetch, try_catch, bind.
  rewrite (query_ok raises _ _ _ _ H). cbn. by rewrite with_data_same.
Qed.

Lemma safeFetch_refused {A} (bound : string) (select : db -> list A) (s : state) :
  raises Select bound = true ->
  respond (Browse.safeFetch (query raises Select bound (fun d => (d, select d)))) s
  = (Status500, s).
Proof.
  intros H. unfold respond, Browse.safeFetch, try_catch, bind, query. by rewrite H.
Qed.

Lemma eq_int_same_active (z : Z) : holds (and3 (eq_int (Some z) (Some z)) (Some true)) = true.
Proof. cbn. by rewrite Z.eqb_refl. Qed.

Lemma boards_listed (z : Z) (saved : list (Z * string)) (s : state) :
  boards_on_display z saved s ->
  listed_exactly saved (Browse.select_boards name_le (Some z) (boards (data s))).
Proof.
  intros HJ id n Hin. destruct (HJ id n Hin) as (r & Hr & Hid & Hname & Hstate & Hactive).
  apply order_by_name_In, in_map_iff. exists r. split; [congruence|].
  apply filter_In. split; [done|]. rewrite Hstate, Hactive. apply eq_int_same_active.
Qed.

Lemma subjects_listed (c : Z) (saved : list (Z * string)) (s : state) :
  subjects_on_display c saved s ->
  listed_up_to_case saved (Browse.select_subjects_of_class name_le (Some c) (subjects (data s))).
Proof.
  intros HJ id n Hin. destruct (HJ id n Hin) as (r & Hr & Hid & Hname & Hclass & Hactive).
  exists (subject_name r). split; [|done].
  apply order_by_name_In, in_map_iff. exists r. split; [congruence|].
  apply filter_In. split; [done|]. rewrite Hclass, Hactive. apply eq_int_same_active.
Qed.

Lemma chapters_listed (z : Z) (saved : list (Z * string)) (s : state) :
  chapters_on_display z saved s ->
  listed_up_to_case saved (Browse.select_chapters name_le (Some z) (chapters (data s))).
Proof.
  intros HJ id n Hin. destruct (HJ id n Hin) as (r & Hr & Hid & Hname & Hsub & Hactive).
  exists (chapter_name r). split; [|done].
  apply order_by_name_In, in_map_iff. exists r. split; [congruence|].
  apply filter_In. split; [done|]. rewrite Hsub, Hactive. apply eq_int_same_active.
Qed.

End DisplayRoutes.

(** X14. What a fetch-out route reports as saved is on public display at
    once. When POST /fetch-out-boards answers 200 with the pairs [saved],
    GET /boards/:state_id for the same state, run on the store the route
    left and with its query not refused, answers 200 without changing the
    state and lists every saved pair, whatever the collation of ORDER BY.
    In the same way GET /subjects/:class_id lists every pair saved by POST
    /fetch-out-subjects and GET /chapters/:subject_id every pair saved by
    POST /fetch-out-chapters, there under the stored name, which equals the
    reported one up to letter case. *)
Theorem saved_rows_are_listed (name_le : string -> string -> bool)
    (raises raises' : Route.statement -> string -> bool)
    (generated : list Structure.item) (s s' : Route.state) (count : nat)
    (saved : list (Z * string)) :
  (forall (body : Structure.boards_body) (z : Z),
     Structure.state_id body = Some z ->
     Route.respond (Structure.fetch_out_boards raises body generated) s
     = (Route.Json200 count saved, s') ->
     raises' Route.Select (pretty z) = false ->
     exists rows,
       Route.respond (Browse.get_boards name_le raises' z) s'
       = (Route.Json200 (length rows) rows, s')
       /\ listed_exactly saved rows)
  /\ (forall (body : Structure.subjects_body) (b c : Z),
        Structure.board_id body = Some b ->
        Structure.class_id body = Some c ->
        Route.respond (Structure.fetch_out_subjects raises body generated) s
        = (Route.Json200 count saved, s') ->
        raises' Route.Select (pretty c) = false ->
        exists rows,
          Route.respond (Browse.get_subjects_of_class name_le raises' c) s'
          = (Route.Json200 (length rows) rows, s')
          /\ listed_up_to_case saved rows)
  /\ (forall (body : Structure.chapters_body) (z : Z),
        Structure.subject_id body = Some z ->
        Route.respond (Structure.fetch_out_chapters raises body generated) s
        = (Route.Json200 count saved, s') ->
        raises' Route.Select (pretty z) = false ->
        exists rows,
          Route.respond (Browse.get_chapters name_le raises' z) s'
          = (Route.Json200 (length rows) rows, s')
          /\ listed_up_to_case saved rows).
Proof.
  split; [|split].
  - intros body z Hz Hrun Hselect. eexists. split.
    + apply (safeFetch_ok raises' (pretty z)
               (fun d => Browse.select_boards name_le (Some z) (Sql.boards d)) s' Hselect).
    + apply boards_listed. exact (fetch_out_boards_display raises body z _ _ _ _ _ Hz Hrun).
  - intros body b c Hb Hc Hrun Hselect. eexists. split.
    + apply (safeFetch_ok raises' (pretty c)
               (fun d => Browse.select_subjects_of_class name_le (Some c) (Sql.subjects d))
               s' Hselect).
    + apply subjects_listed.
      exact (fetch_out_subjects_display raises body b c _ _ _ _ _ Hb Hc Hrun).
  - intros body z Hz Hrun Hselect. eexists. split.
    + apply (safeFetch_ok raises' (pretty z)
               (fun d => Browse.select_chapters name_le (Some z) (Sql.chapters d)) s' Hselect).
    + apply chapters_listed. exact (fetch_out_chapters_display raises body z _ _ _ _ _ Hz Hrun).
Qed.

Lemma saved_rows_are_listed_witness :
  exists rows,
    Route.respond (Browse.get_boards String.leb no_faults 7)
      (Route.respond
         (Structure.fetch_out_boards no_faults west_bengal
            [ {| Structure.name := Some "WBBSE" |} ]) (idle empty_db)).2
    = (Route.Json200 (length rows) rows,
       (Route.respond
          (Structure.fetch_out_boards no_faults west_bengal
             [ {| Structure.name := Some "WBBSE" |} ]) (idle empty_db)).2)
    /\ listed_exactly [(1, "WBBSE")] rows.
Proof.
  refine (proj1 (saved_rows_are_listed String.leb no_faults no_faults
                   [ {| Structure.name := Some "WBBSE" |} ] (idle empty_db) _ 1
                   [(1, "WBBSE")]) west_bengal 7 _ _ _); reflexivity.
Defined.

(** ** The filters of GET /subjects *)

Section SubjectFilters.
Import Sql Route Browse.

Lemma built_where_params (conds : list (column * nat)) (ps : list Z) (x : Z) (r : subject)
    (start : option bool) :
  Forall (fun cn : column * nat => exists k, cn.2 = S k /\ (k < length ps)%nat) conds ->
  fold_left (fun acc cn => and3 acc (eq_int (column_of cn.1 r) (placeholder (ps ++ [x]) cn.2)))
    conds start
  = fold_left (fun acc cn => and3 acc (eq_int (column_of cn.1 r) (placeholder ps cn.2)))
      conds start.
Proof.
  intros H. revert start. induction H as [|cn conds (k & Hk & Hlt) _ IH]; intros start; [done|].
  cbn [fold_left]. rewrite IH. do 3 f_equal. rewrite Hk. cbn.
  by rewrite nth_error_app1.
Qed.

Lemma push_filter_where (c : column) (v : option Z) (q : building) (r : subject) :
  well_numbered q ->
  well_numbered (push_filter c v q)
  /\ (holds (built_where (push_filter c v q) r) = true
      <-> holds (built_where q r) = true /\ wanted v (column_of c r)).
Proof.
  intros Hq. destruct v as [x|]; cbn [push_filter wanted]; [|split; [done | tauto]].
  split.
  - unfold well_numbered. cbn [conditions params]. apply Forall_app. split.
    + eapply Forall_impl; [exact Hq|]. intros cn (k & Hk & Hlt). exists k.
      split; [done|]. rewrite length_app. cbn. lia.
    + constructor; [|constructor]. exists (length (params q)). cbn [snd].
      rewrite length_app. cbn. split; lia.
  - unfold built_where. cbn [conditions params]. rewrite fold_left_app. cbn [fold_left fst snd].
    rewrite built_where_params by exact Hq.
    rewrite and3_true, length_app. cbn [length]. rewrite Nat.add_1_r. cbn [placeholder].
    rewrite nth_error_app2, Nat.sub_diag by lia. cbn [nth_error].
    by rewrite holds_eq_int.
Qed.

Lemma build_where (rq : subjects_query) (r : subject) :
  holds (built_where (build rq) r) = true <-> passes_filters rq r.
Proof.
  unfold build, passes_filters.
  set (q0 := {| conditions := []; params := [] |}).
  assert (well_numbered q0) as H0 by constructor.
  destruct (push_filter_where category_id (q_category_id rq) q0 r H0) as [H1 E1].
  destruct (push_filter_where board_id (q_board_id rq) _ r H1) as [H2 E2].
  destruct (push_filter_where class_id (q_class_id rq) _ r H2) as [H3 E3].
  destruct (push_filter_where stream_id (q_stream_id rq) _ r H3) as [H4 E4].
  destruct (push_filter_where university_id (q_university_id rq) _ r H4) as [H5 E5].
  destruct (push_filter_where semester_id (q_semester_id rq) _ r H5) as [H6 E6].
  destruct (push_filter_where paper_stage_id (q_paper_stage_id rq) _ r H6) as [_ E7].
  rewrite E7, E6, E5, E4, E3, E2, E1. cbn [column_of].
  unfold built_where. cbn. destruct (subject_is_active r); cbn; intuition congruence.
Qed.

End SubjectFilters.

(** X15. GET /subjects applies exactly the filters the request gives. With its
    query not refused the route answers 200, leaves the state alone, and
    lists the pair [(id, name)] exactly for the subjects that are active
    and whose column equals the given value for every one of the seven
    query-string keys that is present: each [$n] of the built text is bound
    to the value pushed with it. A subject whose column is NULL is therefore
    never listed under a filter on that column. With its query refused the
    route answers 500. *)
Theorem get_subjects_applies_each_filter (name_le : string -> string -> bool)
    (raises : Route.statement -> string -> bool)
    (rq : Browse.subjects_query) (s : Route.state) :
  (raises Route.Select EmptyString = false ->
   exists rows,
     Route.respond (Browse.get_subjects name_le raises rq) s
     = (Route.Json200 (length rows) rows, s)
     /\ forall id n,
          In (id, n) rows
          <-> exists r, In r (Sql.subjects (Route.data s))
                        /\ Sql.subject_id r = id /\ Sql.subject_name r = n
                        /\ passes_filters rq r)
  /\ (raises Route.Select EmptyString = true ->
      Route.respond (Browse.get_subjects name_le raises rq) s = (Route.Status500, s)).
Proof.
  split; intros Hselect.
  - eexists. split.
    + apply (safeFetch_ok raises EmptyString
               (fun d => Browse.select_subjects name_le (Browse.build rq) (Sql.subjects d))
               s Hselect).
    + intros id n. unfold Browse.select_subjects.
      rewrite order_by_name_In, in_map_iff. split.
      * intros (r & Hpair & Hin). apply filter_In in Hin as [Hin Hwhere].
        injection Hpair as <- <-. exists r. by rewrite <- build_where.
      * intros (r & Hin & <- & <- & Hpass). exists r. split; [done|].
        apply filter_In. by rewrite build_where.
  - apply (safeFetch_refused raises EmptyString
             (fun d => Browse.select_subjects name_le (Browse.build rq) (Sql.subjects d))
             s Hselect).
Qed.

Lemma get_subjects_applies_each_filter_witness :
  exists rows,
    Route.respond (Browse.get_subjects String.leb no_faults of_class_eleven)
      (idle (Sql.set_subjects [physics None] empty_db))
    = (Route.Json200 (length rows) rows, idle (Sql.set_subjects [physics None] empty_db))
    /\ forall id n,
         In (id, n) rows
         <-> exists r, In r (Sql.subjects
                               (Route.data (idle (Sql.set_subjects [physics None] empty_db))))
                       /\ Sql.subject_id r = id /\ Sql.subject_name r = n
                       /\ passes_filters of_class_eleven r.
Proof.
  apply (proj1 (get_subjects_applies_each_filter String.leb no_faults of_class_eleven
                  (idle (Sql.set_subjects [physics None] empty_db)))).
  reflexivity.
Defined.

(** ** The CORS origin callback *)

Section CorsProperties.
Import Server.

Lemma indexOf_from_absent (i : Z) (x : string) (l : list string) :
  ~ In x l -> indexOf_from i x l = -1.
Proof.
  revert i. induction l as [|y l IH]; intros i Hnot; simpl; [done|].
  destruct (String.eqb_spec y x) as [->|Hne]; [exfalso; apply Hnot; by left|].
  apply IH. intros Hin. apply Hnot. by right.
Qed.

Lemma indexOf_from_present (i : Z) (x : string) (l : list string) :
  0 <= i -> In x l -> 0 <= indexOf_from i x l.
Proof.
  revert i. induction l as [|y l IH]; intros i Hi Hin; simpl; [done|].
  destruct (String.eqb_spec y x) as [->|Hne]; [done|].
  apply IH; [lia|]. by destruct Hin.
Qed.

Lemma indexOf_found (x : string) (l : list string) : indexOf l x = -1 <-> ~ In x l.
Proof.
  unfold indexOf. split; [|apply indexOf_from_absent].
  intros Hminus Hin. pose proof (indexOf_from_present 0 x l (Z.le_refl 0) Hin). lia.
Qed.

End CorsProperties.

(** X16. The CORS origin callback of server.js allows by shape, not by list.
    Whatever FRONTEND_URL is: every origin that has the text vercel.app
    anywhere in it is allowed, and so is every origin that begins with
    http://localhost or http://127.0.0.1, whatever follows; the callback
    refuses only with the message of the source; and the three localhost
    entries of allowedOrigins never decide: an origin is allowed exactly
    when the header is absent or empty, or it begins with one of the two
    prefixes, or it is FRONTEND_URL itself, or it contains vercel.app. *)
Theorem cors_allows_by_shape (FRONTEND_URL : option string) :
  (forall p q : string,
     Server.origin FRONTEND_URL (Some (p +:+ "vercel.app" +:+ q)) = Server.Allowed)
  /\ (forall q : string,
        Server.origin FRONTEND_URL (Some ("http://localhost" +:+ q)) = Server.Allowed
        /\ Server.origin FRONTEND_URL (Some ("http://127.0.0.1" +:+ q)) = Server.Allowed)
  /\ (forall o message,
        Server.origin FRONTEND_URL o = Server.Refused message ->
        message = "Not allowed by CORS")
  /\ (forall o : option string,
        Server.origin FRONTEND_URL o = Server.Allowed
        <-> o = None \/ o = Some EmptyString
            \/ (exists s, o = Some s
                          /\ (Js.startsWith s "http://localhost" = true
                              \/ Js.startsWith s "http://127.0.0.1" = true
                              \/ FRONTEND_URL = Some s
                              \/ Js.includes s "vercel.app" = true))).
Proof.
  assert (forall o : string,
            Server.indexOf (Server.allowedOrigins FRONTEND_URL) o = -1
            <-> ~ (FRONTEND_URL = Some o /\ o <> EmptyString
                   \/ o = "http://localhost:5173" \/ o = "http://localhost:3000"
                   \/ o = "http://localhost:4173")) as Hlist.
  { intros o. rewrite indexOf_found. unfold Server.allowedOrigins.
    destruct FRONTEND_URL as [[|c u]|]; simpl; split; intros Hnot Hin; apply Hnot;
      intuition (try congruence). }
  split; [|split; [|split]].
  - intros p q. unfold Server.origin.
    destruct (Js.is_empty _); [done|]. destruct (_ || _); [done|].
    destruct (negb _); [done|]. by rewrite includes_append.
  - intros q. unfold Server.origin. split.
    + destruct (Js.is_empty _); [done|]. by rewrite startsWith_append.
    + destruct (Js.is_empty _); [done|]. by rewrite startsWith_append, orb_true_r.
  - intros [o|] message; unfold Server.origin; [|done].
    destruct (Js.is_empty o); [done|]. destruct (_ || _); [done|].
    destruct (negb _); [done|]. destruct (Js.includes o _); [done|]. by intros [= <-].
  - intros [o|]; unfold Server.origin; [|tauto].
    destruct o as [|c o]; [simpl; tauto|]. cbn [Js.is_empty].
    set (s := String c o).
    destruct (Js.startsWith s "http://localhost") eqn:Hlocal.
    { cbn. split; [|done]. intros _. right. right. exists s. tauto. }
    destruct (Js.startsWith s "http://127.0.0.1") eqn:Hloop.
    { cbn. split; [|done]. intros _. right. right. exists s. tauto. }
    cbn [orb].
    destruct (Server.indexOf (Server.allowedOrigins FRONTEND_URL) s =? -1) eqn:Hindex.
    + apply Z.eqb_eq, Hlist in Hindex. cbn [negb].
      destruct (Js.includes s "vercel.app") eqn:Hvercel.
      * split; [|done]. intros _. right. right. exists s. tauto.
      * split; [done|].
        intros [?|[Hempty|(s' & [= <-] & [?|[?|[Hfront|?]]])]]; try congruence;
          [discriminate Hempty|].
        exfalso. apply Hindex. left. done.
    + apply Z.eqb_neq in Hindex. cbn [negb]. split; [|done]. intros _.
      right. right. exists s. split; [done|].
      destruct (decide (FRONTEND_URL = Some s)) as [Hfront|Hfront]; [tauto|].
      exfalso. apply Hindex, Hlist. intros [[? _]|[Hs|[Hs|Hs]]]; [done| | |];
        rewrite Hs in Hlocal; discriminate.
Qed.

(** ** Cleaning the provider's text *)

Section CleanText.
Import AiService.

Lemma startsWith_fence (s : string) : Js.startsWith s backticks = (3 <=? lead s)%nat.
Proof.
  unfold backticks. destruct s as [|c1 [|c2 [|c3 s]]]; cbn; try done.
  - by destruct (Ascii.eqb _ c1).
  - destruct (Ascii.eqb _ c1); [|done]. by destruct (Ascii.eqb _ c2).
  - destruct (Ascii.eqb _ c1); [|done]. destruct (Ascii.eqb _ c2); [|done].
    destruct (Ascii.eqb _ c3); [by destruct s | done].
Qed.

Lemma includes_cons (c : ascii) (s kw : string) :
  Js.includes (String c s) kw = Js.startsWith (String c s) kw || Js.includes s kw.
Proof. done. Qed.

Lemma remove_all_cons (pat : string) (c : ascii) (s : string) :
  Js.startsWith (String c s) pat = false ->
  remove_all pat (String c s) = String c (remove_all pat s).
Proof. unfold remove_all. cbn [remove_all_from]. by intros ->. Qed.

Lemma remove_all_fence (s : string) :
  Js.startsWith s backticks = true ->
  exists rest, s = backticks +:+ rest /\ remove_all backticks s = remove_all backticks rest.
Proof.
  unfold backticks, remove_all. destruct s as [|c1 [|c2 [|c3 s]]]; cbn; try done.
  - by destruct (Ascii.eqb _ c1).
  - destruct (Ascii.eqb_spec (ascii_of_nat 96) c1) as [<-|]; [|done].
    by destruct (Ascii.eqb _ c2).
  - destruct (Ascii.eqb_spec (ascii_of_nat 96) c1) as [<-|]; [|done].
    destruct (Ascii.eqb_spec (ascii_of_nat 96) c2) as [<-|]; [|done].
    destruct (Ascii.eqb_spec (ascii_of_nat 96) c3) as [<-|]; [|done].
    intros _. exists s. split; [reflexivity|].
    replace (Js.startsWith s EmptyString) with true by (by destruct s). done.
Qed.

Lemma remove_all_no_fence_upto (n : nat) (s : string) :
  (String.length s <= n)%nat ->
  (lead (remove_all backticks s) <= lead s)%nat
  /\ Js.includes (remove_all backticks s) backticks = false.
Proof.
  revert s. induction n as [|n IH]; intros s Hn.
  { destruct s; [done | simpl in Hn; lia]. }
  destruct s as [|c s]; [done|].
  destruct (Js.startsWith (String c s) backticks) eqn:Hstart.
  - destruct (remove_all_fence _ Hstart) as (rest & Hs & ->).
    assert (String.length rest <= n)%nat as Hrest.
    { rewrite Hs in Hn.
      change (String.length (backticks +:+ rest)) with (S (S (S (String.length rest)))) in Hn.
      lia. }
    destruct (IH rest Hrest) as [Hlead Hnone]. split; [|done].
    rewrite Hs. change (lead (backticks +:+ rest)) with (S (S (S (lead rest)))). lia.
  - rewrite (remove_all_cons _ _ _ Hstart).
    assert (String.length s <= n)%nat as Hs by (simpl in Hn; lia).
    destruct (IH s Hs) as [Hlead Hnone].
    rewrite startsWith_fence in Hstart. apply Nat.leb_gt in Hstart.
    split.
    + cbn [lead]. destruct (Ascii.eqb _ c); lia.
    + rewrite includes_cons, Hnone, orb_false_r, startsWith_fence.
      apply Nat.leb_gt. cbn [lead] in *. destruct (Ascii.eqb _ c); lia.
Qed.

Lemma remove_all_no_fence (s : string) :
  Js.includes (remove_all backticks s) backticks = false.
Proof. exact (proj2 (remove_all_no_fence_upto (String.length s) s (le_n _))). Qed.

Lemma includes_trimStart (s kw : string) :
  Js.includes s kw = false -> Js.includes (Js.trimStart s) kw = false.
Proof.
  induction s as [|c s IH]; [done|]. intros H. cbn [Js.trimStart].
  destruct (Js.is_space c); [|done].
  rewrite includes_cons in H. apply orb_false_elim in H as [_ H]. by apply IH.
Qed.

Lemma trimEnd_prefix (s : string) : exists w, s = Js.trimEnd s +:+ w.
Proof.
  induction s as [|c s (w & IH)]; [by exists EmptyString|].
  cbn [Js.trimEnd]. destruct (Js.trimEnd s) as [|d r] eqn:Hend.
  - change (EmptyString +:+ w) with w in IH. subst w.
    destruct (Js.is_space c); [by exists (String c s)|]. by exists s.
  - exists w. change (String c (String d r) +:+ w) with (String c (String d r +:+ w)).
    by rewrite <- IH.
Qed.

Lemma startsWith_prefix (p w kw : string) :
  Js.startsWith p kw = true -> Js.startsWith (p +:+ w) kw = true.
Proof.
  revert kw. induction p as [|c p IH]; intros kw.
  - destruct kw; [|done]. intros _. change (EmptyString +:+ w) with w. by destruct w.
  - change (String c p +:+ w) with (String c (p +:+ w)).
    destruct kw as [|a kw]; [done|]. simpl. destruct (Ascii.eqb a c); [apply IH | done].
Qed.

Lemma includes_prefix (p w kw : string) :
  Js.includes p kw = true -> Js.includes (p +:+ w) kw = true.
Proof.
  induction p as [|c p IH].
  - intros H. apply includes_startsWith. apply startsWith_prefix.
    simpl in H. by rewrite orb_false_r in H.
  - change (String c p +:+ w) with (String c (p +:+ w)).
    rewrite !includes_cons. intros H. apply orb_true_iff in H as [H|H].
    + apply (startsWith_prefix _ w) in H.
      change (String c p +:+ w) with (String c (p +:+ w)) in H. by rewrite H.
    + by rewrite (IH H), orb_true_r.
Qed.

Lemma includes_trimEnd (s kw : string) :
  Js.includes s kw = false -> Js.includes (Js.trimEnd s) kw = false.
Proof.
  intros H. destruct (Js.includes (Js.trimEnd s) kw) eqn:Hend; [|done].
  destruct (trimEnd_prefix s) as (w & Hs).
  apply (includes_prefix _ w) in Hend. rewrite <- Hs in Hend. congruence.
Qed.

Lemma startsWith_longer (s p q : string) :
  Js.startsWith s (p +:+ q) = true -> Js.startsWith s p = true.
Proof.
  revert s. induction p as [|a p IH]; intros s; [by destruct s|].
  change (String a p +:+ q) with (String a (p +:+ q)).
  destruct s as [|b s]; [done|]. simpl. destruct (Ascii.eqb a b); [apply IH | done].
Qed.

Lemma includes_longer (s p q : string) :
  Js.includes s p = false -> Js.includes s (p +:+ q) = false.
Proof.
  induction s as [|c s IH].
  - change (Js.includes EmptyString p) with (Js.startsWith EmptyString p || false).
    change (Js.includes EmptyString (p +:+ q))
      with (Js.startsWith EmptyString (p +:+ q) || false).
    rewrite !orb_false_r. intros H.
    destruct (Js.startsWith EmptyString (p +:+ q)) eqn:Hlong; [|done].
    apply startsWith_longer in Hlong. congruence.
  - rewrite !includes_cons. intros H. apply orb_false_elim in H as [Hstart Hrest].
    rewrite (IH Hrest), orb_false_r.
    destruct (Js.startsWith (String c s) (p +:+ q)) eqn:Hlong; [|done].
    apply startsWith_longer in Hlong. congruence.
Qed.

Lemma remove_all_absent (pat s : string) :
  Js.includes s pat = false -> remove_all pat s = s.
Proof.
  induction s as [|c s IH]; [done|].
  rewrite includes_cons. intros H. apply orb_false_elim in H as [Hstart Hrest].
  rewrite (remove_all_cons _ _ _ Hstart). by rewrite (IH Hrest).
Qed.

Lemma cleanText_no_fence (t : string) : Js.includes (cleanText t) backticks = false.
Proof.
  unfold cleanText, Js.trim. apply includes_trimEnd, includes_trimStart, remove_all_no_fence.
Qed.

End CleanText.

(** X17. The text handed to JSON.parse holds no code fence. Whatever the
    provider's text, what [replace(/```json/g, '').replace(/```/g, '').trim()]
    leaves has no three backticks in a row anywhere, neither left over nor
    formed by the characters that a removed fence had kept apart, and has
    no white space at either end; cleaning it again changes nothing. *)
Theorem cleaned_text_has_no_fence (responseText : string) :
  Js.includes (AiService.cleanText responseText) AiService.backticks = false
  /\ Js.trim (AiService.cleanText responseText) = AiService.cleanText responseText
  /\ AiService.cleanText (AiService.cleanText responseText)
     = AiService.cleanText responseText.
Proof.
  pose proof (cleanText_no_fence responseText) as Hnone.
  assert (Js.trim (AiService.cleanText responseText) = AiService.cleanText responseText)
    as Htrim by apply trim_idem.
  split; [done|]. split; [done|].
  unfold AiService.cleanText at 1.
  rewrite (remove_all_absent (AiService.backticks +:+ "json") _
             (includes_longer _ _ "json" Hnone)).
  by rewrite (remove_all_absent _ _ Hnone).
Qed.

(** ** System settings *)

Section SettingsProperties.
Import Admin.

Lemma into_map_app (m : gmap string string) (a b : list (string * string)) :
  into_map m (a ++ b) = into_map (into_map m a) b.
Proof. apply fold_left_app. Qed.

Lemma into_map_updated (k v : string) (t : list (string * string)) (m : gmap string string) :
  into_map (<[k := v]> m) (map (fun r => if String.eqb r.1 k then (r.1, v) else r) t)
  = <[k := v]> (into_map m t).
Proof.
  revert m. induction t as [|[k' v'] t IH]; intros m; [done|].
  cbn [map into_map fold_left fst snd]. fold (into_map (<[k':=v']> m) t).
  destruct (String.eqb_spec k' k) as [->|Hne]; cbn [fst snd].
  - fold (into_map (<[k:=v]> (<[k:=v]> m)) (map (fun r => if String.eqb r.1 k then (r.1, v) else r) t)).
    rewrite insert_insert_eq, IH. rewrite <- (IH (<[k:=v']> m)).
    by rewrite insert_insert_eq.
  - fold (into_map (<[k':=v']> (<[k:=v]> m))
            (map (fun r => if String.eqb r.1 k then (r.1, v) else r) t)).
    rewrite (insert_insert_ne m k' k) by done. apply IH.
Qed.

Lemma into_map_overwritten (k v : string) (t : list (string * string))
    (m : gmap string string) :
  existsb (fun r => String.eqb r.1 k) t = true ->
  into_map m (map (fun r => if String.eqb r.1 k then (r.1, v) else r) t)
  = into_map (<[k := v]> m) (map (fun r => if String.eqb r.1 k then (r.1, v) else r) t).
Proof.
  revert m. induction t as [|[k' v'] t IH]; intros m; [done|].
  cbn [existsb map fst snd]. unfold into_map. cbn [fold_left].
  destruct (String.eqb_spec k' k) as [->|Hne]; cbn [fst snd orb].
  - intros _. by rewrite insert_insert_eq.
  - intros Hex. rewrite (insert_insert_ne m k' k) by done. apply (IH _ Hex).
Qed.

Lemma fromEntries_upsert (k v : string) (t : list (string * string)) :
  fromEntries (upsert_setting k v t) = <[k := v]> (fromEntries t).
Proof.
  unfold upsert_setting, fromEntries. fold (into_map ∅ t).
  destruct (existsb _ t) eqn:Hex.
  - fold (into_map ∅ (map (fun r => if String.eqb r.1 k then (r.1, v) else r) t)).
    rewrite (into_map_overwritten k v t ∅ Hex). apply into_map_updated.
  - fold (into_map ∅ (t ++ [(k, v)])). by rewrite into_map_app.
Qed.

Lemma for_of_put_setting_accepted (raises : string -> list value -> bool)
    (entries : list (string * value)) (s : store) :
  accepted raises entries ->
  for_of entries (put_setting raises) s
  = (Route.Ok tt, set_system_settings (write_all entries (system_settings s)) s).
Proof.
  revert s. induction entries as [|kv entries IH]; intros s Hall; [by destruct s|].
  cbn [for_of]. unfold bind, put_setting at 1, query.
  rewrite (Hall kv (or_introl eq_refl)).
  rewrite IH by (intros kv' Hin; apply Hall; by right). by destruct s.
Qed.

Lemma for_of_put_setting (entries : list (string * value)) (s : store) :
  for_of entries (put_setting accepts_all) s
  = (Route.Ok tt, set_system_settings (write_all entries (system_settings s)) s).
Proof. by apply for_of_put_setting_accepted. Qed.

Lemma for_of_put_setting_refused (raises : string -> list value -> bool)
    (before after : list (string * value)) (kv : string * value) (s : store) :
  accepted raises before ->
  raises upsert_sql [Text kv.1; Text (String_of kv.2)] = true ->
  for_of (before ++ kv :: after) (put_setting raises) s
  = (Route.Throw "query", set_system_settings (write_all before (system_settings s)) s).
Proof.
  revert s. induction before as [|kv' before IH]; intros s Hall Hrefused.
  - cbn [app for_of]. unfold bind, put_setting, query. rewrite Hrefused. by destruct s.
  - cbn [app for_of]. unfold bind, put_setting at 1, query.
    rewrite (Hall kv' (or_introl eq_refl)).
    rewrite IH by (try done; intros kv'' Hin; apply Hall; by right). by destruct s.
Qed.

Lemma fromEntries_write_all (entries : list (string * value)) (t : list (string * string)) :
  fromEntries (write_all entries t)
  = fold_left (fun m kv => <[kv.1 := String_of kv.2]> m) entries (fromEntries t).
Proof.
  revert t. induction entries as [|kv entries IH]; intros t; [done|].
  cbn [write_all fold_left]. fold (write_all entries (upsert_setting kv.1 (String_of kv.2) t)).
  by rewrite IH, fromEntries_upsert.
Qed.

Lemma inserted_all_other (entries : list (string * value)) (m : gmap string string)
    (k : string) :
  ~ In k (map fst entries) ->
  fold_left (fun m kv => <[kv.1 := String_of kv.2]> m) entries m !! k = m !! k.
Proof.
  revert m. induction entries as [|[k' v'] entries IH]; intros m Hnot; [done|].
  cbn [fold_left fst snd]. rewrite IH.
  - apply lookup_insert_ne. intros ->. apply Hnot. by left.
  - intros Hin. apply Hnot. by right.
Qed.

Lemma inserted_all_written (entries : list (string * value)) (m : gmap string string) :
  NoDup (map fst entries) ->
  written entries m (fold_left (fun m kv => <[kv.1 := String_of kv.2]> m) entries m).
Proof.
  intros Hnodup. split; [|intros k; apply inserted_all_other].
  revert m Hnodup. induction entries as [|[k' v'] entries IH]; intros m Hnodup k v; [done|].
  cbn [map fst] in Hnodup. apply NoDup_cons in Hnodup as [Hfresh Hnodup].
  cbn [fold_left fst snd]. intros [[= -> ->]|Hin].
  - rewrite inserted_all_other by (by intros ?%list_elem_of_In). apply lookup_insert_eq.
  - by apply IH.
Qed.

Lemma get_settings_accepts (s : store) :
  handle (get_settings accepts_all) s
  = (Sent {| system := fromEntries (system_settings s); legal := legal_pages s;
             payment := payment_gateway_settings s |}, s).
Proof. done. Qed.

Lemma loop_reads_back (entries : list (string * value)) (message : string) :
  NoDup (map fst entries) ->
  reads_back (bind (for_of entries (put_setting accepts_all)) (fun _ => ret message))
    message entries.
Proof.
  intros Hnodup s. eexists. eexists.
  split. { unfold handle, bind. rewrite for_of_put_setting. reflexivity. }
  split; [done|]. split; [done|].
  split; [apply get_settings_accepts|].
  cbn [system legal payment system_settings legal_pages payment_gateway_settings
       set_system_settings].
  split; [|done]. rewrite fromEntries_write_all. by apply inserted_all_written.
Qed.

End SettingsProperties.

(** X18. The settings routes write every key they name, and GET /settings reads
    it back. For bodies whose numbers are safe integers (from -(2^53 - 1)
    to 2^53 - 1, where [String] prints the decimal digits) and with no
    statement refused, each of PUT /settings/global (for a body whose
    entries have distinct keys), PUT /settings/free-limit, PUT
    /settings/ads and PUT /settings/seo answers with its message, and GET
    /settings then returns a system object that maps every key of the route
    to [String] of its value and every other key to what it held before;
    the legal pages, the payment settings, the providers and the users are
    untouched. The last three routes write all their keys whatever the body
    holds, so a field missing from the body is read back as the text
    undefined. *)
Theorem settings_are_read_back :
  (forall entries,
     NoDup (map fst entries) ->
     safe_values (map snd entries) ->
     reads_back (Admin.put_settings_global accepts_all (Some entries))
       "Settings updated" entries)
  /\ (forall limit logic,
        safe_values [limit; logic] ->
        reads_back (Admin.put_settings_free_limit accepts_all limit logic)
          "Free limit control updated"
          [("FREE_DAILY_LIMIT", limit); ("FREE_LIMIT_RESET_LOGIC", logic)])
  /\ (forall body,
        safe_values [Admin.ADS_HEADER_SCRIPT body; Admin.ADS_BODY_SCRIPT body;
                     Admin.ADS_TXT body; Admin.ADS_ENABLED body] ->
        reads_back (Admin.put_settings_ads accepts_all body) "Ads settings updated"
          (Admin.ads_keys body))
  /\ (forall body,
        safe_values (map snd (Admin.seo_keys body)) ->
        reads_back (Admin.put_settings_seo accepts_all body) "SEO settings updated"
          (Admin.seo_keys body)).
Proof.
  split; [|split; [|split]].
  - intros entries Hnodup _. by apply loop_reads_back.
  - intros limit logic _ s.
    destruct (loop_reads_back [("FREE_DAILY_LIMIT", limit); ("FREE_LIMIT_RESET_LOGIC", logic)]
                "Free limit control updated" ltac:(compute_done) s)
      as (s' & r & Hrun & Hrest).
    exists s', r. split; [|exact Hrest]. rewrite <- Hrun. reflexivity.
  - intros body _. apply loop_reads_back. compute_done.
  - intros body _. apply loop_reads_back. compute_done.
Qed.

Lemma settings_are_read_back_witness :
  reads_back (Admin.put_settings_global accepts_all (Some two_settings))
    "Settings updated" two_settings
  /\ reads_back (Admin.put_settings_free_limit accepts_all (Admin.Number 5) (Admin.Text "daily"))
       "Free limit control updated"
       [("FREE_DAILY_LIMIT", Admin.Number 5); ("FREE_LIMIT_RESET_LOGIC", Admin.Text "daily")].
Proof.
  split.
  - apply (proj1 settings_are_read_back two_settings).
    + compute_done.
    + repeat constructor.
  - apply (proj1 (proj2 settings_are_read_back) (Admin.Number 5) (Admin.Text "daily")).
    repeat constructor; simpl; lia.
Defined.

(** X19. The settings are written one by one, outside any transaction. When the
    store accepts the writes of the entries [before] and refuses the write
    of the next entry, PUT /settings/global sends nothing and leaves the
    store exactly as a successful PUT /settings/global of [before] alone
    leaves it: the earlier keys are written, the later ones are not. A
    body without [settings] changes nothing and sends nothing. *)
Theorem settings_are_written_one_by_one (raises : string -> list Admin.value -> bool)
    (before after : list (string * Admin.value)) (kv : string * Admin.value)
    (s : Admin.store) :
  (accepted raises before ->
   raises Admin.upsert_sql [Admin.Text kv.1; Admin.Text (Admin.String_of kv.2)] = true ->
   exists s1,
     Admin.handle (Admin.put_settings_global raises (Some before)) s
     = (Admin.Sent "Settings updated", s1)
     /\ Admin.handle (Admin.put_settings_global raises (Some (before ++ kv :: after)%list)) s
        = (Admin.Rejected, s1))
  /\ Admin.handle (Admin.put_settings_global raises None) s = (Admin.Rejected, s).
Proof.
  split; [|done]. intros Hall Hrefused. eexists. split.
  - unfold Admin.handle, Admin.put_settings_global, Admin.bind.
    rewrite (for_of_put_setting_accepted raises before s Hall). reflexivity.
  - unfold Admin.handle, Admin.put_settings_global, Admin.bind.
    by rewrite (for_of_put_setting_refused raises before after kv s Hall Hrefused).
Qed.

Lemma settings_are_written_one_by_one_witness :
  exists s1,
    Admin.handle
      (Admin.put_settings_global refuses_maintenance
         (Some [("SITE_NAME", Admin.Text "Exam Ready")])) one_setting
    = (Admin.Sent "Settings updated", s1)
    /\ Admin.handle
         (Admin.put_settings_global refuses_maintenance
            (Some ([("SITE_NAME", Admin.Text "Exam Ready")]
                   ++ ("MAINTENANCE", Admin.Bool false) :: [("ADS_TXT", Admin.Null)])%list))
         one_setting
       = (Admin.Rejected, s1).
Proof.
  apply (proj1 (settings_are_written_one_by_one refuses_maintenance
                  [("SITE_NAME", Admin.Text "Exam Ready")] [("ADS_TXT", Admin.Null)]
                  ("MAINTENANCE", Admin.Bool false) one_setting)).
  - intros kv [<-|[]]. reflexivity.
  - reflexivity.
Defined.

(** ** Switching the provider *)

Section ProviderProperties.
Import Admin.

Lemma deactivate_all_ids (t : list ai_provider) : map ai_id (deactivate_all t) = map ai_id t.
Proof. unfold deactivate_all. rewrite map_map. done. Qed.

Lemma update_provider_ids (body : provider_body) (id : Z) (t : list ai_provider) :
  map ai_id (update_provider body id t) = map ai_id t.
Proof.
  unfold update_provider. rewrite map_map. apply map_ext.
  intros r. by destruct (ai_id r =? id).
Qed.

Lemma deactivate_all_none (t : list ai_provider) :
  List.filter (fun r => Sql.holds (ai_is_active r)) (deactivate_all t) = [].
Proof. induction t as [|r t IH]; [done|]. cbn. exact IH. Qed.

Lemma switch_cons (body : provider_body) (id : Z) (r : ai_provider) (t : list ai_provider) :
  update_provider body id (deactivate_all (r :: t))
  = (if ai_id r =? id
     then {| ai_id := ai_id r; ai_name := ai_name r; ai_base_url := body_base_url body;
             ai_api_key := body_api_key body; ai_model_name := body_model_name body;
             ai_is_active := body_is_active body |}
     else {| ai_id := ai_id r; ai_name := ai_name r; ai_base_url := ai_base_url r;
             ai_api_key := ai_api_key r; ai_model_name := ai_model_name r;
             ai_is_active := Some false |})
    :: update_provider body id (deactivate_all t).
Proof. reflexivity. Qed.

Lemma switch_unknown (body : provider_body) (id : Z) (t : list ai_provider) :
  ~ In id (map ai_id t) ->
  List.filter (fun r => Sql.holds (ai_is_active r)) (update_provider body id (deactivate_all t))
  = [].
Proof.
  induction t as [|r t IH]; [done|]. intros Hnot. rewrite switch_cons.
  destruct (ai_id r =? id) eqn:Hid.
  - apply Z.eqb_eq in Hid. exfalso. apply Hnot. by left.
  - cbn [List.filter ai_is_active Sql.holds]. apply IH. intros Hin. apply Hnot. by right.
Qed.

Lemma switch_known (body : provider_body) (r0 : ai_provider) (t : list ai_provider) :
  body_is_active body = Some true ->
  NoDup (map ai_id t) ->
  In r0 t ->
  List.filter (fun r => Sql.holds (ai_is_active r))
    (update_provider body (ai_id r0) (deactivate_all t))
  = [switched_on body r0].
Proof.
  intros Hactive. induction t as [|r t IH]; [done|]. intros Hnodup Hin.
  cbn [map] in Hnodup. apply NoDup_cons in Hnodup as [Hfresh Hnodup]. rewrite switch_cons.
  destruct (ai_id r =? ai_id r0) eqn:Hid.
  - apply Z.eqb_eq in Hid. cbn [List.filter ai_is_active]. rewrite Hactive.
    cbn [Sql.holds]. rewrite switch_unknown.
    + destruct Hin as [->|Hin]; [done|].
      exfalso. apply Hfresh. rewrite Hid. apply list_elem_of_In. by apply in_map.
    + rewrite <- Hid. by intros ?%list_elem_of_In.
  - apply Z.eqb_neq in Hid. cbn [List.filter ai_is_active Sql.holds].
    apply IH; [done|]. destruct Hin as [->|Hin]; done.
Qed.

Lemma get_providers_accepted (raises : string -> list value -> bool) (s : store) :
  raises providers_sql [] = false ->
  get_providers raises s
  = (Route.Ok (Route.Json200 (length (select_providers (ai_providers s)))
                 (select_providers (ai_providers s))), s).
Proof. intros H. unfold get_providers, try_catch, bind, query. by rewrite H. Qed.

End ProviderProperties.

(** X20. PUT /ai-providers/:id with [is_active: true] switches the provider, in
    two statements. For a table with distinct ids, when the first statement
    is accepted: if the second is accepted too, the route answers and the
    ids are as before; when [id] is the id of a row [r], the only active
    row is [r] with the fields of the body, GET /ai-fetch/providers lists
    that row alone, and the generation client is configured with exactly
    that row when the body names an API key and is not configured when it
    does not; when no row has that [id], the route still answers and no row
    is active. If the second statement is refused, the route sends nothing
    and no provider is active: the client then hands out mock data without
    any outbound call. *)
Theorem provider_switch (raises : string -> list Admin.value -> bool)
    (body : Admin.provider_body) (id : Z) (s : Admin.store) :
  NoDup (map Admin.ai_id (Admin.ai_providers s)) ->
  Admin.truthy (Admin.body_is_active body) = true ->
  raises Admin.deactivate_sql [] = false ->
  (raises Admin.update_provider_sql (Admin.provider_params body id) = false ->
   exists s',
     Admin.handle (Admin.put_ai_provider raises body id) s
     = (Admin.Sent "AI Provider updated", s')
     /\ map Admin.ai_id (Admin.ai_providers s') = map Admin.ai_id (Admin.ai_providers s)
     /\ (forall r, In r (Admin.ai_providers s) -> Admin.ai_id r = id ->
         active_providers s' = [switched_on body r]
         /\ (raises Admin.providers_sql [] = false ->
             Admin.get_providers raises s'
             = (Route.Ok (Route.Json200 1
                            [ {| Admin.view_id := id;
                                 Admin.view_name := Admin.ai_name r;
                                 Admin.view_model_name := Admin.body_model_name body;
                                 Admin.view_is_active := Some true |} ]), s'))
         /\ AiService.configured (client_rows s')
            = if Js.is_empty (Js.or_string (Admin.body_api_key body) EmptyString)
              then None
              else Some (Admin.as_provider (switched_on body r)))
     /\ (~ In id (map Admin.ai_id (Admin.ai_providers s)) -> active_providers s' = []))
  /\ (raises Admin.update_provider_sql (Admin.provider_params body id) = true ->
      exists s',
        Admin.handle (Admin.put_ai_provider raises body id) s = (Admin.Rejected, s')
        /\ active_providers s' = []
        /\ forall w type context,
             AiService.ai_providers w = Some (client_rows s') ->
             AiService.fetchAIStructure w type context
             = (AiService.fallbackMockStructure type context, 0%nat)).
Proof.
  intros Hnodup Htruthy Hfirst.
  assert (Admin.body_is_active body = Some true) as Hactive.
  { destruct (Admin.body_is_active body) as [[]|]; done. }
  split; intros Hsecond.
  - eexists. split.
    { unfold Admin.handle, Admin.put_ai_provider, Admin.bind, Admin.query.
      rewrite Htruthy, Hfirst. cbn [Admin.ai_providers Admin.set_ai_providers].
      rewrite Hsecond. reflexivity. }
    cbn [Admin.ai_providers Admin.set_ai_providers].
    split; [by rewrite update_provider_ids, deactivate_all_ids|].
    split.
    + intros r Hin <-.
      pose proof (switch_known body r _ Hactive Hnodup Hin) as Hone.
      split; [|split].
      * unfold active_providers. cbn [Admin.ai_providers Admin.set_ai_providers]. exact Hone.
      * intros Hlist. rewrite (get_providers_accepted raises _ Hlist).
        unfold Admin.select_providers. cbn [Admin.ai_providers Admin.set_ai_providers].
        rewrite Hone. reflexivity.
      * unfold client_rows, Admin.select_active_provider.
        cbn [Admin.ai_providers Admin.set_ai_providers]. rewrite Hone. reflexivity.
    + intros Hnot. unfold active_providers.
      cbn [Admin.ai_providers Admin.set_ai_providers]. by apply switch_unknown.
  - eexists. split.
    { unfold Admin.handle, Admin.put_ai_provider, Admin.bind, Admin.query.
      rewrite Htruthy, Hfirst. cbn [Admin.ai_providers Admin.set_ai_providers].
      rewrite Hsecond. reflexivity. }
    unfold active_providers, client_rows, Admin.select_active_provider.
    cbn [Admin.ai_providers Admin.set_ai_providers].
    rewrite deactivate_all_none. split; [done|].
    intros w type context Hrows. apply unconfigured_structure. by exists [].
Qed.

Lemma provider_switch_witness :
  active_providers
    (Admin.handle (Admin.put_ai_provider accepts_all provider_b 2) two_providers).2
  = [ {| Admin.ai_id := 2; Admin.ai_name := Some "Provider B";
         Admin.ai_base_url := Some "https://b.example/v1";
         Admin.ai_api_key := Some "key-b"; Admin.ai_model_name := Some "model-b";
         Admin.ai_is_active := Some true |} ].
Proof.
  destruct (proj1 (provider_switch accepts_all provider_b 2 two_providers
                     ltac:(compute_done) eq_refl eq_refl) eq_refl)
    as (s' & Hrun & _ & Hknown & _).
  rewrite Hrun.
  exact (proj1 (Hknown _ (or_intror (or_introl eq_refl)) eq_refl)).
Defined.

(** ** Subscriptions *)

Section SubscriptionProperties.
Import Admin.

Lemma update_subscription_In (now hours id : Z) (u : user) (t : list user) :
  In u t -> user_id u = id ->
  In (renewed u (default now (premium_expiry u) + hours * hour))
     (update_subscription now hours id t).
Proof.
  intros Hin Hid. unfold update_subscription.
  apply in_map_iff. exists u. split; [|done].
  apply Z.eqb_eq in Hid. by rewrite Hid.
Qed.

Lemma update_subscription_others (now hours id : Z) (v : user) (t : list user) :
  In v (update_subscription now hours id t) -> user_id v <> id -> In v t.
Proof.
  unfold update_subscription. intros Hin Hne.
  apply in_map_iff in Hin as (u & Hv & Hin).
  destruct (user_id u =? id) eqn:Hid; [|by subst].
  apply Z.eqb_eq in Hid. subst v. cbn in Hne. done.
Qed.

Lemma put_user_subscription_accepted (raises : string -> list value -> bool)
    (now : Z) (action : value) (id : Z) (s : store) :
  raises subscription_sql [Number (hours_of action); Number id] = false ->
  handle (put_user_subscription raises now action id) s
  = (Sent "Subscription updated",
     set_users (update_subscription now (hours_of action) id (users s)) s).
Proof.
  intros H. unfold handle, put_user_subscription, bind, query. by rewrite H.
Qed.

Lemma subscriptionCheck_renewed (t until : Z) (u : user) :
  subscriptionCheck t (Some (renewed u until)) = true
  <-> role u = "admin" \/ (exists n, sessions_left u = Some n /\ 0 < n) \/ t < until.
Proof.
  unfold subscriptionCheck, renewed. cbn.
  rewrite orb_true_iff, orb_true_iff, String.eqb_eq, Z.ltb_lt.
  destruct (sessions_left u) as [n|].
  - rewrite Z.ltb_lt. split.
    + intros [?|[?|?]]; [by left | right; left; by exists n | by right; right].
    + intros [?|[(n' & [= <-] & ?)|?]]; tauto.
  - split.
    + intros [?|[?|?]]; [by left | done | by right; right].
    + intros [?|[(n' & ? & ?)|?]]; [tauto | done | tauto].
Qed.

End SubscriptionProperties.

(** X21. What PUT /users/:id/subscription grants. When the statement is accepted
    the route answers, the rows of other users are the old ones, and the
    row of user [id] is premium with the expiry
    [COALESCE(premium_expiry, now) + hours], where [hours] is 24 for the
    action extend and -24 for every other body. A request of that user is
    then marked premium by subscriptionCheck at time [t] exactly when the
    user is an admin, or has sessions left, or [t] is before that expiry:
    the day is counted from the stored expiry, not from now, so extending a
    subscription that ran out more than a day ago grants nothing. *)
Theorem subscription_until (raises : string -> list Admin.value -> bool)
    (now : Z) (action : Admin.value) (id : Z) (s : Admin.store) (u : Admin.user) :
  In u (Admin.users s) ->
  Admin.user_id u = id ->
  raises Admin.subscription_sql [Admin.Number (Admin.hours_of action); Admin.Number id]
  = false ->
  exists s' hours until,
    Admin.handle (Admin.put_user_subscription raises now action id) s
    = (Admin.Sent "Subscription updated", s')
    /\ (action = Admin.Text "extend" /\ hours = 24
        \/ action <> Admin.Text "extend" /\ hours = -24)
    /\ until = default now (Admin.premium_expiry u) + hours * 3600000
    /\ In (renewed u until) (Admin.users s')
    /\ (forall v, In v (Admin.users s') -> Admin.user_id v <> id -> In v (Admin.users s))
    /\ forall t,
         Admin.subscriptionCheck t (Some (renewed u until)) = true
         <-> Admin.role u = "admin"
             \/ (exists n, Admin.sessions_left u = Some n /\ 0 < n)
             \/ t < until.
Proof.
  intros Hin Hid Haccepted.
  exists (Admin.set_users
            (Admin.update_subscription now (Admin.hours_of action) id (Admin.users s)) s),
         (Admin.hours_of action),
         (default now (Admin.premium_expiry u) + Admin.hours_of action * Admin.hour).
  split; [by apply put_user_subscription_accepted|].
  split.
  { destruct action as [| | | |a]; try (by right). unfold Admin.hours_of.
    destruct (String.eqb_spec a "extend") as [->|Hne]; [by left|].
    right. split; [congruence | done]. }
  split; [done|].
  split; [by apply update_subscription_In|].
  split; [intros v; apply update_subscription_others|].
  intros t. apply subscriptionCheck_renewed.
Qed.

Lemma subscription_until_witness :
  exists s' hours until,
    Admin.handle
      (Admin.put_user_subscription accepts_all 500000000 (Admin.Text "extend") 5) one_user
    = (Admin.Sent "Subscription updated", s')
    /\ (Admin.Text "extend" = Admin.Text "extend" /\ hours = 24
        \/ Admin.Text "extend" <> Admin.Text "extend" /\ hours = -24)
    /\ until = default 500000000 (Admin.premium_expiry lapsed_student) + hours * 3600000
    /\ In (renewed lapsed_student until) (Admin.users s')
    /\ (forall v, In v (Admin.users s') -> Admin.user_id v <> 5 -> In v (Admin.users one_user))
    /\ forall t,
         Admin.subscriptionCheck t (Some (renewed lapsed_student until)) = true
         <-> Admin.role lapsed_student = "admin"
             \/ (exists n, Admin.sessions_left lapsed_student = Some n /\ 0 < n)
             \/ t < until.
Proof.
  apply (subscription_until accepts_all 500000000 (Admin.Text "extend") 5 one_user
           lapsed_student).
  - by left.
  - reflexivity.
  - reflexivity.
Defined.

(** X22. Any other action undoes an extension. When user [id] is extended at
    time [now1] and then receives a request whose action is not the text
    extend (reduce, a missing action, Extend) at time [now2], both
    statements accepted, the row ends with the expiry it started from, or
    with [now1] if it had none, and it is flagged premium although the
    expiry may lie in the past. *)
Theorem extend_then_reduce (raises : string -> list Admin.value -> bool)
    (now1 now2 : Z) (action : Admin.value) (id : Z) (s : Admin.store) (u : Admin.user) :
  In u (Admin.users s) ->
  Admin.user_id u = id ->
  action <> Admin.Text "extend" ->
  raises Admin.subscription_sql [Admin.Number 24; Admin.Number id] = false ->
  raises Admin.subscription_sql [Admin.Number (-24); Admin.Number id] = false ->
  exists s1 s2,
    Admin.handle (Admin.put_user_subscription raises now1 (Admin.Text "extend") id) s
    = (Admin.Sent "Subscription updated", s1)
    /\ Admin.handle (Admin.put_user_subscription raises now2 action id) s1
       = (Admin.Sent "Subscription updated", s2)
    /\ In (renewed u (default now1 (Admin.premium_expiry u))) (Admin.users s2).
Proof.
  intros Hin Hid Hother Hextend Hreduce.
  assert (Admin.hours_of action = -24) as Hhours.
  { destruct action as [| | | |a]; try done. unfold Admin.hours_of.
    destruct (String.eqb_spec a "extend") as [->|]; done. }
  eexists. eexists. split; [by apply put_user_subscription_accepted|].
  split; [apply put_user_subscription_accepted; by rewrite Hhours|].
  cbn [Admin.users Admin.set_users]. rewrite Hhours.
  pose proof (update_subscription_In now1 24 id u (Admin.users s) Hin Hid) as H1.
  pose proof (update_subscription_In now2 (-24) id _ _ H1 Hid) as H2.
  cbn in H2. unfold renewed in *. cbn.
  replace (default now1 (Admin.premium_expiry u) + 24 * Admin.hour + -24 * Admin.hour)
    with (default now1 (Admin.premium_expiry u)) in H2 by (unfold Admin.hour; lia).
  exact H2.
Qed.

Lemma extend_then_reduce_witness :
  exists s1 s2,
    Admin.handle (Admin.put_user_subscription accepts_all 2000 (Admin.Text "extend") 5)
      one_user
    = (Admin.Sent "Subscription updated", s1)
    /\ Admin.handle (Admin.put_user_subscription accepts_all 3000 Admin.Undefined 5) s1
       = (Admin.Sent "Subscription updated", s2)
    /\ In (renewed lapsed_student (default 2000 (Admin.premium_expiry lapsed_student)))
          (Admin.users s2).
Proof.
  apply (extend_then_reduce accepts_all 2000 3000 Admin.Undefined 5 one_user lapsed_student).
  - by left.
  - reflexivity.
  - discriminate.
  - reflexivity.
  - reflexivity.
Defined.

(** ** What the admin routes save, on public display *)

Section AdminDisplay.
Import Sql Route.

Variable name_le : string -> string -> bool.
Variables raises raises' : statement -> string -> bool.

Lemma committed_then_listed {R} (table : db -> list R) (id_of : R -> Z) (name_of : R -> string)
    (fixed : R -> Prop) (guard : string -> bool) (names : list string)
    (post : M (response R)) (s : state) (bound : string)
    (select : db -> list (Z * string)) :
  (exists saved, committed table s (respond post s) saved
                 /\ from_candidates name_of guard fixed names saved) ->
  raises' Select bound = false ->
  (forall d r, In r (table d) -> fixed r -> In (id_of r, name_of r) (select d)) ->
  saved_then_listed id_of name_of post
    (Browse.safeFetch (query raises' Select bound (fun d => (d, select d)))) s.
Proof.
  intros (saved & (Hreply & Htable & _) & Hfrom) Hselect Hlisted.
  exists saved, (select (data (respond post s).2)), (respond post s).2.
  split; [by rewrite <- Hreply; destruct (respond post s)|].
  split; [by apply safeFetch_ok|].
  intros r Hin. apply Hlisted.
  - rewrite Htable. apply in_or_app. by right.
  - unfold from_candidates in Hfrom. rewrite Forall_forall in Hfrom.
    apply list_elem_of_In in Hin. by destruct (Hfrom r Hin) as (_ & _ & Hfixed).
Qed.

End AdminDisplay.

(** X23. What an admin route commits is on public display. When no INSERT is
    refused, POST /ai-fetch/boards answers 200 and GET /boards/:state_id of
    the state of the body, run after it with its query accepted, lists
    every row the route reports; so does GET /subjects/:class_id after POST
    /ai-fetch/subjects and GET /chapters/:subject_id after POST
    /ai-fetch/chapters. *)
Theorem admin_rows_are_listed (name_le : string -> string -> bool)
    (raises raises' : Route.statement -> string -> bool)
    (names : list string) (s : Route.state) :
  Route.snapshot s = None ->
  Forall (fun x => raises Route.Insert x = false) names ->
  (forall body z,
     AiFetch.state_id body = Some z ->
     raises' Route.Select (pretty z) = false ->
     saved_then_listed Sql.board_id Sql.board_name
       (AiFetch.post_boards raises body names) (Browse.get_boards name_le raises' z) s)
  /\ (forall body c,
        AiFetch.class_id body = Some c ->
        raises' Route.Select (pretty c) = false ->
        saved_then_listed Sql.subject_id Sql.subject_name
          (AiFetch.post_subjects raises body names)
          (Browse.get_subjects_of_class name_le raises' c) s)
  /\ (forall body z,
        AiFetch.subject_id body = Some z ->
        raises' Route.Select (pretty z) = false ->
        saved_then_listed Sql.chapter_id Sql.chapter_name
          (AiFetch.post_chapters raises body names) (Browse.get_chapters name_le raises' z) s).
Proof.
  intros Hidle Hok. split; [|split].
  - intros body z Hz Hselect.
    apply (committed_then_listed raises' Sql.boards Sql.board_id Sql.board_name
             (admin_board_columns (AiFetch.state_id body)) (AiFetch.placeholder "board ")
             names _ s (pretty z)
             (fun d => Browse.select_boards name_le (Some z) (Sql.boards d))).
    + apply (admin_route_commits raises); [apply boards_row_appending | done | done].
    + done.
    + intros d r Hin [Hstate Hactive]. unfold Browse.select_boards.
      apply order_by_name_In, in_map_iff. exists r. split; [done|].
      apply filter_In. split; [done|]. rewrite Hstate, Hz, Hactive.
      apply eq_int_same_active.
  - intros body c Hc Hselect.
    apply (committed_then_listed raises' Sql.subjects Sql.subject_id Sql.subject_name
             (admin_subject_columns body) (AiFetch.placeholder "subject ")
             names _ s (pretty c)
             (fun d => Browse.select_subjects_of_class name_le (Some c) (Sql.subjects d))).
    + apply (admin_route_commits raises); [apply subjects_row_appending | done | done].
    + done.
    + intros d r Hin (_ & _ & _ & Hclass & _ & _ & _ & _ & Hactive).
      unfold Browse.select_subjects_of_class.
      apply order_by_name_In, in_map_iff. exists r. split; [done|].
      apply filter_In. split; [done|]. rewrite Hclass, Hc, Hactive.
      apply eq_int_same_active.
  - intros body z Hz Hselect.
    apply (committed_then_listed raises' Sql.chapters Sql.chapter_id Sql.chapter_name
             (admin_chapter_columns (AiFetch.subject_id body)) (AiFetch.placeholder "chapter ")
             names _ s (pretty z)
             (fun d => Browse.select_chapters name_le (Some z) (Sql.chapters d))).
    + apply (admin_route_commits raises); [apply chapters_row_appending | done | done].
    + done.
    + intros d r Hin [Hsubject Hactive]. unfold Browse.select_chapters.
      apply order_by_name_In, in_map_iff. exists r. split; [done|].
      apply filter_In. split; [done|]. rewrite Hsubject, Hz, Hactive.
      apply eq_int_same_active.
Qed.

Lemma admin_rows_are_listed_witness :
  saved_then_listed Sql.board_id Sql.board_name
    (AiFetch.post_boards no_faults
       {| AiFetch.state_id := Some 7; AiFetch.state_name := Some "West Bengal" |}
       ["WBBSE"; "Board 2"; "CBSE"])
    (Browse.get_boards String.leb no_faults 7) (idle empty_db).
Proof.
  apply (proj1 (admin_rows_are_listed String.leb no_faults no_faults
                  ["WBBSE"; "Board 2"; "CBSE"] (idle empty_db) eq_refl
                  ltac:(repeat constructor))
           {| AiFetch.state_id := Some 7; AiFetch.state_name := Some "West Bengal" |} 7
           eq_refl eq_refl).
Defined.

(** ** The fetch-out routes from end to end *)

Section EndToEnd.
Import Sql Route AiService.

Variable raises : statement -> string -> bool.

Lemma reading_loop {A} (row : Structure.item -> A -> M A) (generated : list json)
    (items : list Structure.item) :
  readable generated items ->
  forall acc s, for_of generated (Endpoint.reading row) acc s = for_of items row acc s.
Proof.
  induction 1 as [|v it generated items Hv _ IH]; intros acc s; [done|].
  cbn [for_of]. unfold bind, Endpoint.reading at 1. rewrite Hv.
  destruct (row it acc s) as [[acc'|e] s']; [apply IH | done].
Qed.

Lemma guarded_agrees {A} (key : string) (generated : list json) (calls : nat)
    (items : list Structure.item) (row : Structure.item -> list A -> M (list A)) (s : state) :
  readable generated items ->
  (let* held := has_active key in
   if held then ret (Status429, 0%nat) else
   add_active key ;;
   try_finally
     (try_catch
        (let* saved := for_of generated (Endpoint.reading row) [] in
         ret (Json200 (length saved) saved, calls))
        (fun err => ret (Status500, calls)))
     (delete_active key)) s
  = match (let* held := has_active key in
           if held then ret Status429 else
           add_active key ;;
           try_finally
             (try_catch
                (let* saved := for_of items row [] in ret (Json200 (length saved) saved))
                (fun err => ret Status500))
             (delete_active key)) s with
    | (Ok r, s') => (Ok (r, calls_behind calls r), s')
    | (Throw e, s') => (Throw e, s')
    end.
Proof.
  intros Hread. unfold bind, has_active. cbn [fst snd].
  destruct (bool_decide _); [done|].
  unfold add_active, try_finally, try_catch, bind.
  rewrite (reading_loop row generated items Hread).
  by destruct (for_of items row [] _) as [[acc|e] s1].
Qed.

Lemma fetch_out_boards_agrees (w : env) (body : Structure.boards_body)
    (items : list Structure.item) :
  readable
    (generateSchoolBoards w (Js.or_string (Structure.state_name body) EmptyString)).1 items ->
  agrees (Endpoint.fetch_out_boards raises w body)
    (Structure.fetch_out_boards raises body items)
    (generateSchoolBoards w (Js.or_string (Structure.state_name body) EmptyString)).2.
Proof.
  intros Hread s. unfold Endpoint.fetch_out_boards, Structure.fetch_out_boards.
  destruct (_ || _); [done|]. by apply guarded_agrees.
Qed.

Lemma fetch_out_subjects_agrees (w : env) (body : Structure.subjects_body)
    (items : list Structure.item) :
  readable
    (generateSchoolSubjects w (Js.or_string (Structure.board_name body) EmptyString)
       (Js.or_string (Structure.class_name body) EmptyString)
       (Structure.stream_name body)).1 items ->
  agrees (Endpoint.fetch_out_subjects raises w body)
    (Structure.fetch_out_subjects raises body items)
    (generateSchoolSubjects w (Js.or_string (Structure.board_name body) EmptyString)
       (Js.or_string (Structure.class_name body) EmptyString)
       (Structure.stream_name body)).2.
Proof.
  intros Hread s. unfold Endpoint.fetch_out_subjects, Structure.fetch_out_subjects.
  destruct (_ || _); [done|]. by apply guarded_agrees.
Qed.

Lemma fetch_out_chapters_agrees (w : env) (body : Structure.chapters_body)
    (items : list Structure.item) :
  readable
    (generateSchoolChapters w (Js.or_string (Structure.subject_name body) EmptyString)
       (Js.or_string (Structure.chapter_board_name body) EmptyString)
       (Js.or_string (Structure.chapter_class_name body) EmptyString)).1 items ->
  agrees (Endpoint.fetch_out_chapters raises w body)
    (Structure.fetch_out_chapters raises body items)
    (generateSchoolChapters w (Js.or_string (Structure.subject_name body) EmptyString)
       (Js.or_string (Structure.chapter_board_name body) EmptyString)
       (Js.or_string (Structure.chapter_class_name body) EmptyString)).2.
Proof.
  intros Hread s. unfold Endpoint.fetch_out_chapters, Structure.fetch_out_chapters.
  destruct (_ || _); [done|]. by apply guarded_agrees.
Qed.

(** The names of the saved pairs are names of candidates. *)
Lemma for_of_invariant_acc_in {A S : Type} (J : S -> state -> Prop) (body : A -> S -> M S)
    (l : list A) :
  (forall x acc s acc' s', In x l -> J acc s -> body x acc s = (Ok acc', s') -> J acc' s') ->
  forall acc s acc' s', J acc s -> for_of l body acc s = (Ok acc', s') -> J acc' s'.
Proof.
  induction l as [|x l IH]; intros Hbody acc s acc' s' HJ Hrun.
  - cbn in Hrun. injection Hrun as <- <-. done.
  - cbn [for_of] in Hrun. unfold bind in Hrun.
    destruct (body x acc s) as [[acc1|e] s1] eqn:Hx; [|discriminate].
    eapply IH; [|eapply (Hbody x); [by left | exact HJ | exact Hx] | exact Hrun].
    intros y a st a' st' Hin. apply Hbody. by right.
Qed.

Lemma upsert_board_names (n : string) (state_id : sqlint) (t : list board) :
  Forall (fun p : Z * string => p.2 = n) (upsert_board n state_id t).2.
Proof.
  unfold upsert_board. destruct (existsb _ t); cbn [snd]; [|by repeat constructor].
  apply Forall_forall. intros p Hin. apply list_elem_of_In, in_map_iff in Hin as (r & <- & Hr).
  apply filter_In in Hr as [_ Hc]. unfold board_conflict in Hc.
  apply and3_true in Hc as [_ Hc]. by apply holds_eq_text in Hc.
Qed.

Lemma upsert_chapter_names (n : string) (subject_id : sqlint) (t : list chapter) :
  Forall (fun p : Z * string => p.2 = n) (upsert_chapter n subject_id t).2.
Proof.
  unfold upsert_chapter. destruct (existsb _ t); cbn [snd]; [|by repeat constructor].
  apply Forall_forall. intros p Hin. apply list_elem_of_In, in_map_iff in Hin as (r & <- & Hr).
  apply filter_In in Hr as [_ Hc]. unfold chapter_conflict in Hc.
  apply and3_true in Hc as [_ Hc]. by apply holds_eq_text in Hc.
Qed.

Lemma push_first_names (P : string -> Prop) (n : string) (acc rows : list (Z * string)) :
  P n -> names_all P acc -> Forall (fun p : Z * string => p.2 = n) rows ->
  names_all P (push_first acc rows).
Proof.
  intros Hn Hacc Hrows. destruct rows as [|p rows]; [done|]. cbn.
  apply Forall_app. split; [done|]. constructor; [|constructor].
  apply Forall_cons in Hrows as [-> _]. done.
Qed.

Lemma fetch_out_boards_row_names (P : string -> Prop) (state_id : option Z)
    (it : Structure.item) (acc acc' : list (Z * string)) (s s' : state) :
  P (Structure.candidate_name it) ->
  names_all P acc ->
  Structure.fetch_out_boards_row raises state_id it acc s = (Ok acc', s') ->
  names_all P acc'.
Proof.
  intros Hn Hacc. unfold Structure.fetch_out_boards_row.
  destruct (Js.is_empty _); [by intros [= <- <-]|].
  destruct (Js.some_includes _ _); [by intros [= <- <-]|].
  unfold bind, query. destruct (raises Insert _); [discriminate|].
  unfold on_boards.
  pose proof (upsert_board_names (Structure.candidate_name it) state_id (boards (data s)))
    as Hrows.
  destruct (upsert_board _ _ _) as [t rows]. cbn. intros [= <- <-].
  by apply (push_first_names P (Structure.candidate_name it)).
Qed.

Lemma fetch_out_subjects_row_names (P : string -> Prop) (board_id class_id stream_id : option Z)
    (it : Structure.item) (acc acc' : list (Z * string)) (s s' : state) :
  P (Structure.candidate_name it) ->
  names_all P acc ->
  Structure.fetch_out_subjects_row raises board_id class_id stream_id it acc s = (Ok acc', s') ->
  names_all P acc'.
Proof.
  intros Hn Hacc. unfold Structure.fetch_out_subjects_row.
  destruct (Js.is_empty _); [by intros [= <- <-]|].
  unfold bind, query. destruct (raises Select _); [discriminate|].
  cbn [data with_data].
  destruct (select_existing_subjects _ _ _ _ _) as [|id rest].
  - destruct (raises Insert _); [discriminate|].
    unfold on_subjects, insert_subject_fetch_out. cbn. intros [= <- <-].
    apply Forall_app. split; [done|]. by repeat constructor.
  - destruct (raises Update _); [discriminate|].
    unfold on_subjects. cbn. intros [= <- <-].
    apply Forall_app. split; [done|]. by repeat constructor.
Qed.

Lemma fetch_out_chapters_row_names (P : string -> Prop) (subject_id : option Z)
    (it : Structure.item) (acc acc' : list (Z * string)) (s s' : state) :
  P (Structure.candidate_name it) ->
  names_all P acc ->
  Structure.fetch_out_chapters_row raises subject_id it acc s = (Ok acc', s') ->
  names_all P acc'.
Proof.
  intros Hn Hacc. unfold Structure.fetch_out_chapters_row.
  destruct (Js.is_empty _); [by intros [= <- <-]|].
  unfold bind, query. destruct (raises Select _); [discriminate|].
  cbn [data with_data].
  destruct (select_existing_chapters _ _ _) as [|id rest].
  - destruct (raises Insert _); [discriminate|].
    unfold on_chapters.
    pose proof (upsert_chapter_names (Structure.candidate_name it) subject_id
                  (chapters (data s))) as Hrows.
    destruct (upsert_chapter _ _ _) as [t rows]. cbn. intros [= <- <-].
    by apply (push_first_names P (Structure.candidate_name it)).
  - destruct (raises Update _); [discriminate|].
    unfold on_chapters. cbn. intros [= <- <-].
    apply Forall_app. split; [done|]. by repeat constructor.
Qed.

Lemma guarded_names {A} (P : string -> Prop) (key : string) (items : list A)
    (row : A -> list (Z * string) -> M (list (Z * string))) (s s' : state) (count : nat)
    (saved : list (Z * string)) :
  (forall x acc st acc' st', In x items -> names_all P acc -> row x acc st = (Ok acc', st') ->
                             names_all P acc') ->
  respond
    (let* held := has_active key in
     if held then ret Status429 else
     add_active key ;;
     try_finally
       (try_catch
          (let* saved := for_of items row [] in ret (Json200 (length saved) saved))
          (fun err => ret Status500))
       (delete_active key)) s = (Json200 count saved, s') ->
  names_all P saved.
Proof.
  intros Hrow. unfold respond, bind, has_active. cbn [fst snd].
  destruct (bool_decide _); [discriminate|].
  unfold add_active, try_finally, try_catch, bind.
  destruct (for_of items row [] _) as [[acc|e] s1] eqn:Hloop; [|discriminate].
  cbn. intros [= _ <- _].
  apply (for_of_invariant_acc_in (fun acc _ => names_all P acc) row items Hrow _ _ _ _
           (Forall_nil_2 _) Hloop).
Qed.

End EndToEnd.

(** ** The fetch-out handlers between their awaits *)

Section EventLoop.
Import Route AiService Concurrent.

(** *** A handler run alone *)

Lemma bind_cong {A B} (m m' : M A) (f g : A -> M B) (s : state) :
  m s = m' s -> (forall a s', f a s' = g a s') -> bind m f s = bind m' g s.
Proof. intros Hm Hf. unfold bind. rewrite Hm. destruct (m' s) as [[a|e] s']; [apply Hf | done]. Qed.

Lemma run_sync {X A} (m : M X) (k : X -> prog A) (s : state) :
  run (sync m k) s = bind m (fun x => run (k x)) s.
Proof. unfold sync, bind. cbn [run]. by destruct (m s) as [[x|e] s']. Qed.

Lemma run_await {X} (m : M X) (s : state) : run (await m) s = m s.
Proof. unfold await. cbn [run]. by destruct (m s) as [[x|e] s']. Qed.

Lemma run_andThen {A B} (p : prog A) (f : A -> prog B) (s : state) :
  run (andThen p f) s = bind (run p) (fun a => run (f a)) s.
Proof.
  revert s. induction p as [a|e|X m k IH|k IH]; intros s; cbn [run andThen]; try done.
  unfold bind. cbn [run]. destruct (m s) as [o s']. rewrite IH. done.
Qed.

Lemma run_tryCatch {A} (p : prog A) (h : string -> prog A) (s : state) :
  run (tryCatch p h) s = try_catch (run p) (fun e => run (h e)) s.
Proof.
  revert s. induction p as [a|e|X m k IH|k IH]; intros s; cbn [run tryCatch]; try done.
  unfold try_catch. cbn [run]. destruct (m s) as [o s']. rewrite IH. done.
Qed.

Lemma run_tryFinally {A} (p : prog A) (f : M unit) (s : state) :
  run (tryFinally p f) s = try_finally (run p) f s.
Proof.
  revert s. induction p as [a|e|X m k IH|k IH]; intros s; cbn [run tryFinally].
  - unfold try_finally. cbn [run]. by destruct (f s) as [[[]|e] s'].
  - unfold try_finally. cbn [run]. by destruct (f s) as [[[]|e'] s'].
  - unfold try_finally. cbn [run]. destruct (m s) as [o s']. rewrite IH. done.
  - apply IH.
Qed.

Lemma run_forOf {X S : Type} (l : list X) (body : X -> S -> prog S) (row : X -> S -> M S) :
  (forall x acc s, run (body x acc) s = row x acc s) ->
  forall acc s, run (forOf l body acc) s = for_of l row acc s.
Proof.
  intros Hrow. induction l as [|x l IH]; intros acc s; cbn [forOf for_of]; [done|].
  rewrite run_andThen. unfold bind. rewrite Hrow.
  destruct (row x acc s) as [[acc'|e] s']; [apply IH | done].
Qed.

Lemma run_reading {A} (body : Structure.item -> A -> prog A) (row : Structure.item -> A -> M A) :
  (forall it acc s, run (body it acc) s = row it acc s) ->
  forall v acc s, run (Async.reading body v acc) s = Endpoint.reading row v acc s.
Proof.
  intros Hrow v acc s. unfold Async.reading, Endpoint.reading.
  destruct (Endpoint.item_of v) as [it|e]; [apply Hrow | done].
Qed.

Section Rows.

Variable raises : statement -> string -> bool.

Lemma run_fetch_out_boards_row (state_id : option Z) (it : Structure.item)
    (saved : list (Z * string)) (s : state) :
  run (Async.fetch_out_boards_row raises state_id it saved) s
  = Structure.fetch_out_boards_row raises state_id it saved s.
Proof.
  unfold Async.fetch_out_boards_row, Structure.fetch_out_boards_row.
  destruct (Js.is_empty _); [done|]. destruct (Js.some_includes _ _); [done|].
  rewrite run_andThen. apply bind_cong; [apply run_await | done].
Qed.

Lemma run_fetch_out_subjects_row (board_id class_id stream_id : option Z)
    (it : Structure.item) (saved : list (Z * string)) (s : state) :
  run (Async.fetch_out_subjects_row raises board_id class_id stream_id it saved) s
  = Structure.fetch_out_subjects_row raises board_id class_id stream_id it saved s.
Proof.
  unfold Async.fetch_out_subjects_row, Structure.fetch_out_subjects_row.
  destruct (Js.is_empty _); [done|].
  rewrite run_andThen. apply bind_cong; [apply run_await|].
  intros [|id rest] s1; rewrite run_andThen; (apply bind_cong; [apply run_await | done]).
Qed.

Lemma run_fetch_out_chapters_row (subject_id : option Z) (it : Structure.item)
    (saved : list (Z * string)) (s : state) :
  run (Async.fetch_out_chapters_row raises subject_id it saved) s
  = Structure.fetch_out_chapters_row raises subject_id it saved s.
Proof.
  unfold Async.fetch_out_chapters_row, Structure.fetch_out_chapters_row.
  destruct (Js.is_empty _); [done|].
  rewrite run_andThen. apply bind_cong; [apply run_await|].
  intros [|id rest] s1; rewrite run_andThen; (apply bind_cong; [apply run_await | done]).
Qed.

(** The [try] block with its [catch] and [finally], run alone. *)
Lemma run_try_block (key : string) (generated : list json) (calls : nat)
    (body : Structure.item -> list (Z * string) -> prog (list (Z * string)))
    (row : Structure.item -> list (Z * string) -> M (list (Z * string))) (s : state) :
  (forall it acc s, run (body it acc) s = row it acc s) ->
  run (tryFinally
         (tryCatch
            (Await
               (andThen (forOf generated (Async.reading body) [])
                  (fun saved => Return (Json200 (length saved) saved, calls))))
            (fun err => Return (Status500, calls)))
         (delete_active key)) s
  = try_finally
      (try_catch
         (let* saved := for_of generated (Endpoint.reading row) [] in
          ret (Json200 (length saved) saved, calls))
         (fun err => ret (Status500, calls)))
      (delete_active key) s.
Proof.
  intros Hrow. rewrite run_tryFinally. unfold try_finally.
  rewrite run_tryCatch. unfold try_catch. cbn [run]. rewrite run_andThen. unfold bind.
  rewrite (run_forOf generated (Async.reading body) (Endpoint.reading row))
    by (by apply run_reading).
  by destruct (for_of generated _ [] s) as [[saved|e] s1].
Qed.

Variable w : env.

Lemma run_fetch_out_boards (body : Structure.boards_body) (s : state) :
  run (Async.fetch_out_boards raises w body) s = Endpoint.fetch_out_boards raises w body s.
Proof.
  unfold Async.fetch_out_boards, Endpoint.fetch_out_boards.
  destruct (_ || _); [done|]. rewrite run_sync. unfold bind at 1 2, has_active.
  destruct (bool_decide _); [done|]. rewrite run_sync. unfold bind at 1 2, add_active.
  cbv zeta. apply run_try_block. apply run_fetch_out_boards_row.
Qed.

Lemma run_fetch_out_subjects (body : Structure.subjects_body) (s : state) :
  run (Async.fetch_out_subjects raises w body) s = Endpoint.fetch_out_subjects raises w body s.
Proof.
  unfold Async.fetch_out_subjects, Endpoint.fetch_out_subjects.
  destruct (_ || _); [done|]. rewrite run_sync. unfold bind at 1 2, has_active.
  destruct (bool_decide _); [done|]. rewrite run_sync. unfold bind at 1 2, add_active.
  cbv zeta. apply run_try_block. apply run_fetch_out_subjects_row.
Qed.

Lemma run_fetch_out_chapters (body : Structure.chapters_body) (s : state) :
  run (Async.fetch_out_chapters raises w body) s = Endpoint.fetch_out_chapters raises w body s.
Proof.
  unfold Async.fetch_out_chapters, Endpoint.fetch_out_chapters.
  destruct (_ || _); [done|]. rewrite run_sync. unfold bind at 1 2, has_active.
  destruct (bool_decide _); [done|]. rewrite run_sync. unfold bind at 1 2, add_active.
  cbv zeta. apply run_try_block. apply run_fetch_out_chapters_row.
Qed.

(** *** What a handler leaves alone *)

Lemma calm_may_raise {A} (p : prog A) : calm false p -> calm true p.
Proof.
  induction 1 as [a|e He|X m k Hm Hk IH|k Hk IH].
  - apply calm_Return.
  - discriminate He.
  - by apply calm_Do.
  - by apply calm_Await.
Qed.

Lemma calm_andThen {A B} (b : bool) (p : prog A) (f : A -> prog B) :
  calm b p -> (forall a, calm b (f a)) -> calm b (andThen p f).
Proof.
  intros Hp Hf. induction Hp as [a|e He|X m k Hm Hk IH|k Hk IH]; cbn [andThen].
  - apply Hf.
  - by apply calm_Raise.
  - by apply calm_Do.
  - by apply calm_Await.
Qed.

Lemma calm_tryCatch {A} (p : prog A) (h : string -> prog A) :
  calm true p -> (forall e, calm false (h e)) -> calm false (tryCatch p h).
Proof.
  intros Hp Hh. induction Hp as [a|e He|X m k Hm Hk IH|k Hk IH]; cbn [tryCatch].
  - apply calm_Return.
  - apply Hh.
  - by apply calm_Do.
  - by apply calm_Await.
Qed.

Lemma calm_forOf {X S : Type} (b : bool) (l : list X) (body : X -> S -> prog S) :
  (forall x acc, calm b (body x acc)) -> forall acc, calm b (forOf l body acc).
Proof.
  intros Hbody. induction l as [|x l IH]; intros acc; cbn [forOf].
  - apply calm_Return.
  - by apply calm_andThen.
Qed.

Lemma calm_query {A} (kind : statement) (bound : string) (stmt : Sql.db -> Sql.db * A) :
  calm true (await (query raises kind bound stmt)).
Proof.
  unfold await. apply calm_Await, calm_Do.
  - intros s. apply (query_frame raises kind bound stmt s).
  - intros [x|e]; apply calm_Await; [apply calm_Return | by apply calm_Raise].
Qed.

Lemma calm_reading {A} (body : Structure.item -> A -> prog A) (v : json) (acc : A) :
  (forall it acc, calm true (body it acc)) -> calm true (Async.reading body v acc).
Proof.
  intros Hbody. unfold Async.reading.
  destruct (Endpoint.item_of v) as [it|e]; [apply Hbody | by apply calm_Raise].
Qed.

Lemma calm_fetch_out_boards_row (state_id : option Z) (it : Structure.item)
    (saved : list (Z * string)) :
  calm true (Async.fetch_out_boards_row raises state_id it saved).
Proof.
  unfold Async.fetch_out_boards_row.
  destruct (Js.is_empty _); [apply calm_Return|].
  destruct (Js.some_includes _ _); [apply calm_Return|].
  apply calm_andThen; [apply calm_query | intros; apply calm_Return].
Qed.

Lemma calm_fetch_out_subjects_row (board_id class_id stream_id : option Z)
    (it : Structure.item) (saved : list (Z * string)) :
  calm true (Async.fetch_out_subjects_row raises board_id class_id stream_id it saved).
Proof.
  unfold Async.fetch_out_subjects_row.
  destruct (Js.is_empty _); [apply calm_Return|].
  apply calm_andThen; [apply calm_query|]. intros [|id rest].
  - apply calm_andThen; [apply calm_query | intros; apply calm_Return].
  - apply calm_andThen; [apply calm_query | intros; apply calm_Return].
Qed.

Lemma calm_fetch_out_chapters_row (subject_id : option Z) (it : Structure.item)
    (saved : list (Z * string)) :
  calm true (Async.fetch_out_chapters_row raises subject_id it saved).
Proof.
  unfold Async.fetch_out_chapters_row.
  destruct (Js.is_empty _); [apply calm_Return|].
  apply calm_andThen; [apply calm_query|]. intros [|id rest].
  - apply calm_andThen; [apply calm_query | intros; apply calm_Return].
  - apply calm_andThen; [apply calm_query | intros; apply calm_Return].
Qed.

(** *** The turn a request arrives in *)

(** After the guard has let the request in, it is suspended in its [try]
    block. *)
Lemma try_block_suspends (key : string) (generated : list json) (calls : nat)
    (body : Structure.item -> list (Z * string) -> prog (list (Z * string))) (s : state) :
  (forall it acc, calm true (body it acc)) ->
  exists k,
    advance
      (tryFinally
         (tryCatch
            (Await
               (andThen (forOf generated (Async.reading body) [])
                  (fun saved => Return (Json200 (length saved) saved, calls))))
            (fun err => Return (Status500, calls)))
         (delete_active key)) s
    = (Suspended k, s)
    /\ in_try key k.
Proof.
  intros Hbody. eexists. split; [reflexivity|].
  eexists. split; [reflexivity|].
  apply calm_tryCatch; [|intros; apply calm_Return].
  apply calm_andThen; [|intros; apply calm_Return].
  apply calm_forOf. intros v acc. by apply calm_reading.
Qed.

(** The guard runs in one turn. *)
Lemma guard_advance {A} (key : string) (rejected : A) (p : prog A) (s : state) :
  advance
    (sync (has_active key) (fun held =>
     if held then Return rejected else sync (add_active key) (fun _ => p))) s
  = if bool_decide (key ∈ activeFetches s) then (Finished (Ok rejected), s)
    else advance p {| data := data s; snapshot := snapshot s;
                      activeFetches := {[key]} ∪ activeFetches s |}.
Proof. unfold sync, has_active, add_active. cbn [advance]. by destruct (bool_decide _). Qed.

Lemma handler_arrives (l : Async.request) (s : state) :
  (complete l = false
   /\ advance (Async.handler raises w l) s = (Finished (Ok (Status400, 0%nat)), s))
  \/ (complete l = true /\ key_of l ∈ activeFetches s
      /\ advance (Async.handler raises w l) s = (Finished (Ok (Status429, 0%nat)), s))
  \/ (complete l = true /\ (key_of l ∉ activeFetches s)
      /\ exists k,
           advance (Async.handler raises w l) s
           = (Suspended k,
              {| data := data s; snapshot := snapshot s;
                 activeFetches := {[key_of l]} ∪ activeFetches s |})
           /\ in_try (key_of l) k).
Proof.
  destruct l as [body|body|body]; cbn [Async.handler complete key_of].
  - unfold Async.fetch_out_boards.
    destruct (_ || _); [by left|]. right.
    rewrite !guard_advance. destruct (bool_decide _) eqn:Hheld.
    + left. apply bool_decide_eq_true_1 in Hheld. done.
    + right. apply bool_decide_eq_false_1 in Hheld. split; [done|]. split; [done|].
      cbv zeta.
      apply try_block_suspends. apply calm_fetch_out_boards_row.
  - unfold Async.fetch_out_subjects.
    destruct (_ || _); [by left|]. right.
    rewrite !guard_advance. destruct (bool_decide _) eqn:Hheld.
    + left. apply bool_decide_eq_true_1 in Hheld. done.
    + right. apply bool_decide_eq_false_1 in Hheld. split; [done|]. split; [done|].
      cbv zeta.
      apply try_block_suspends. apply calm_fetch_out_subjects_row.
  - unfold Async.fetch_out_chapters.
    destruct (_ || _); [by left|]. right.
    rewrite !guard_advance. destruct (bool_decide _) eqn:Hheld.
    + left. apply bool_decide_eq_true_1 in Hheld. done.
    + right. apply bool_decide_eq_false_1 in Hheld. split; [done|]. split; [done|].
      cbv zeta.
      apply try_block_suspends. apply calm_fetch_out_chapters_row.
Qed.

End Rows.

(** *** The turn a request is resumed in *)

(** A request in its [try] block either gives way again, still in the
    block and with [activeFetches] as it was, or it ends with an answer and
    its key deleted. *)
Lemma in_try_advance {A} (key : string) (k : prog A) (s : state) :
  in_try key k ->
  match advance k s with
  | (Suspended k', s') => in_try key k' /\ activeFetches s' = activeFetches s
  | (Finished o, s') =>
      (exists a, o = Ok a) /\ activeFetches s' = activeFetches s ∖ {[key]}
  end.
Proof.
  intros (q & -> & Hq). revert s.
  induction Hq as [a|e He|X m k Hm Hk IH|k Hk IH]; intros s; cbn [tryFinally advance].
  - unfold delete_active. cbn [advance activeFetches]. split; [by exists a | done].
  - discriminate He.
  - specialize (Hm s). destruct (m s) as [o s1]. cbn [snd] in Hm.
    specialize (IH o s1). destruct (advance _ s1) as [[k'|o'] s2].
    + by rewrite <- Hm.
    + by rewrite <- Hm.
  - split; [|done]. by exists k.
Qed.

(** Whatever the [try] block does short of touching [activeFetches], answer
    or exception, the key is gone when the function has run. *)
Lemma tryFinally_releases {A} (key : string) (p : prog A) (s : state) :
  calm true p ->
  activeFetches (run (tryFinally p (delete_active key)) s).2 = activeFetches s ∖ {[key]}.
Proof.
  intros Hp. revert s.
  induction Hp as [a|e He|X m k Hm Hk IH|k Hk IH]; intros s; cbn [tryFinally run].
  - done.
  - done.
  - specialize (Hm s). destruct (m s) as [o s1]. cbn [snd] in Hm.
    by rewrite IH, Hm.
  - apply IH.
Qed.

(** *** The requests in flight *)

Lemma in_flight_snoc (s s' : state) (rs : list (Async.request * status _))
    (l : Async.request) (st : status (response (Z * string) * nat)) (i : nat) (key : string) :
  in_flight {| shared := s'; requests := (rs ++ [(l, st)])%list |} i key
  <-> in_flight {| shared := s; requests := rs |} i key
      \/ (i = length rs /\ key_of l = key /\ exists k, st = Suspended k).
Proof.
  unfold in_flight. cbn [requests]. split.
  - intros (l' & k & Hi & Hkey).
    destruct (decide (i < length rs)%nat) as [Hlt|Hge].
    + rewrite lookup_app_l in Hi by done. left. by exists l', k.
    + rewrite lookup_app_r in Hi by lia.
      destruct (i - length rs)%nat as [|n] eqn:Hn; [|done].
      cbn in Hi. injection Hi as <- ->. right. split; [lia|]. split; [done|]. by exists k.
  - intros [(l' & k & Hi & Hkey)|(-> & Hkey & k & ->)].
    + exists l', k. split; [|done]. rewrite lookup_app_l; [done|].
      by eapply lookup_lt_Some.
    + exists l, k. split; [|done]. rewrite lookup_app_r by lia.
      by rewrite Nat.sub_diag.
Qed.

Lemma in_flight_insert (s s' : state) (rs : list (Async.request * status _))
    (i : nat) (l : Async.request) (k : prog _)
    (st : status (response (Z * string) * nat)) (j : nat) (key : string) :
  rs !! i = Some (l, Suspended k) ->
  in_flight {| shared := s'; requests := <[i := (l, st)]> rs |} j key
  <-> (j <> i /\ in_flight {| shared := s; requests := rs |} j key)
      \/ (j = i /\ key_of l = key /\ exists k', st = Suspended k').
Proof.
  intros Hi. unfold in_flight. cbn [requests].
  assert (i < length rs)%nat as Hlt by (by eapply lookup_lt_Some).
  split.
  - intros (l' & k' & Hj & Hkey). destruct (decide (j = i)) as [->|Hne].
    + rewrite list_lookup_insert_eq in Hj by done. injection Hj as <- ->.
      right. split; [done|]. split; [done|]. by exists k'.
    + rewrite list_lookup_insert_ne in Hj by done. left. split; [done|]. by exists l', k'.
  - intros [(Hne & l' & k' & Hj & Hkey)|(-> & Hkey & k' & ->)].
    + exists l', k'. split; [|done]. by rewrite list_lookup_insert_ne.
    + exists l, k'. split; [|done]. by rewrite list_lookup_insert_eq.
Qed.

Lemma suspended_snoc {L A} (rs : list (L * status A)) (l l' : L) (st : status A)
    (k : prog A) (i : nat) :
  (rs ++ [(l, st)])%list !! i = Some (l', Suspended k) ->
  rs !! i = Some (l', Suspended k) \/ (l' = l /\ st = Suspended k).
Proof.
  intros Hi. destruct (decide (i < length rs)%nat) as [Hlt|Hge].
  - rewrite lookup_app_l in Hi by done. by left.
  - rewrite lookup_app_r in Hi by lia.
    destruct (i - length rs)%nat as [|n]; [|done]. cbn in Hi. right. by simplify_eq.
Qed.

Lemma suspended_insert {L A} (rs : list (L * status A)) (l l' : L) (st : status A)
    (k : prog A) (i j : nat) :
  <[i := (l, st)]> rs !! j = Some (l', Suspended k) ->
  rs !! j = Some (l', Suspended k) \/ (l' = l /\ st = Suspended k).
Proof.
  intros Hj. destruct (decide (j = i)) as [->|Hne].
  - destruct (decide (i < length rs)%nat) as [Hlt|Hge].
    + rewrite list_lookup_insert_eq in Hj by done. right. by simplify_eq.
    + rewrite list_insert_ge in Hj by lia. by left.
  - rewrite list_lookup_insert_ne in Hj by done. by left.
Qed.

Section Invariant.

Variable raises : statement -> string -> bool.
Variable w : env.

Lemma guard_invariant_initial (d : Sql.db) : guard_invariant (initial d).
Proof.
  split; [|split].
  - intros i l k Hi. done.
  - intros key. split; [set_solver|]. intros (i & l & k & Hi & _). done.
  - intros i j key (l & k & Hi & _). done.
Qed.

Lemma guard_invariant_arrive (l : Async.request) (σ : fetch_out_system) :
  guard_invariant σ -> guard_invariant (arrive (Async.handler raises w) l σ).
Proof.
  intros (Htry & Hkeys & Huniq). destruct σ as [s rs]. unfold arrive. cbn [shared requests] in *.
  destruct (handler_arrives raises w l s)
    as [(_ & ->)|[(_ & _ & ->)|(_ & Hfree & k & -> & Hk)]]; cbv beta iota.
  - split; [|split].
    + intros i l' k' Hi. cbn [requests] in Hi.
      apply suspended_snoc in Hi as [Hi|[-> Hst]]; [by eapply Htry | by simplify_eq].
    + intros key. rewrite Hkeys. cbn [shared]. split.
      * intros (i & Hi). exists i. apply (in_flight_snoc s). by left.
      * intros (i & Hi). apply (in_flight_snoc s) in Hi as [Hi|(_ & _ & k & Hk)]; [|done].
        by exists i.
    + intros i j key Hi Hj.
      apply (in_flight_snoc s) in Hi as [Hi|(_ & _ & k & Hk)]; [|done].
      apply (in_flight_snoc s) in Hj as [Hj|(_ & _ & k & Hk)]; [|done].
      by eapply Huniq.
  - split; [|split].
    + intros i l' k' Hi. cbn [requests] in Hi.
      apply suspended_snoc in Hi as [Hi|[-> Hst]]; [by eapply Htry | by simplify_eq].
    + intros key. rewrite Hkeys. cbn [shared]. split.
      * intros (i & Hi). exists i. apply (in_flight_snoc s). by left.
      * intros (i & Hi). apply (in_flight_snoc s) in Hi as [Hi|(_ & _ & k & Hk)]; [|done].
        by exists i.
    + intros i j key Hi Hj.
      apply (in_flight_snoc s) in Hi as [Hi|(_ & _ & k & Hk)]; [|done].
      apply (in_flight_snoc s) in Hj as [Hj|(_ & _ & k & Hk)]; [|done].
      by eapply Huniq.
  - assert (forall i, ~ in_flight {| shared := s; requests := rs |} i (key_of l)) as Hnone.
    { intros i Hi. apply Hfree, Hkeys. by exists i. }
    split; [|split].
    + intros i l' k' Hi. cbn [requests] in Hi.
      apply suspended_snoc in Hi as [Hi|[-> Hst]]; [by eapply Htry | by simplify_eq].
    + intros key. cbn [shared activeFetches]. rewrite elem_of_union, elem_of_singleton, Hkeys.
      split.
      * intros [->|(i & Hi)].
        -- exists (length rs). apply (in_flight_snoc s). right.
           split; [done|]. split; [done|]. by exists k.
        -- exists i. apply (in_flight_snoc s). by left.
      * intros (i & Hi). apply (in_flight_snoc s) in Hi as [Hi|(_ & Hkey & _)].
        -- right. by exists i.
        -- by left.
    + intros i j key Hi Hj.
      apply (in_flight_snoc s) in Hi as [Hi|(-> & <- & _)];
        apply (in_flight_snoc s) in Hj as [Hj|(-> & Hkey & _)].
      * by eapply Huniq.
      * rewrite <- Hkey in Hi. by destruct (Hnone i).
      * by destruct (Hnone j).
      * done.
Qed.

Lemma guard_invariant_resume (i : nat) (l : Async.request) (k : prog _)
    (σ : fetch_out_system) :
  requests σ !! i = Some (l, Suspended k) ->
  guard_invariant σ -> guard_invariant (resume i l k σ).
Proof.
  intros Hi (Htry & Hkeys & Huniq). destruct σ as [s rs]. unfold resume.
  cbn [shared requests] in *.
  pose proof (in_try_advance (key_of l) k s (Htry i l k Hi)) as Hadv.
  assert (in_flight {| shared := s; requests := rs |} i (key_of l)) as Hheld.
  { by exists l, k. }
  assert (i < length rs)%nat as Hlt by (by eapply lookup_lt_Some).
  destruct (advance k s) as [[k'|o] s'].
  - destruct Hadv as [Hk' Hact]. split; [|split].
    + intros j l' k'' Hj. cbn [requests] in Hj.
      apply suspended_insert in Hj as [Hj|[-> Hst]]; [by eapply Htry | by simplify_eq].
    + intros key. cbn [shared]. rewrite Hact, Hkeys. split.
      * intros (j & Hj). exists j. apply (in_flight_insert s s' rs i l k); [done|].
        destruct (decide (j = i)) as [->|Hne].
        -- right. split; [done|]. split; [|by exists k'].
           destruct Hj as (l' & k0 & Hj & <-). cbn [requests] in Hj. by simplify_eq.
        -- by left.
      * intros (j & Hj). apply (in_flight_insert s s' rs i l k) in Hj; [|done].
        destruct Hj as [(_ & Hj)|(-> & <- & _)]; [by exists j | by exists i].
    + intros j1 j2 key Hj1 Hj2.
      apply (in_flight_insert s s' rs i l k) in Hj1; [|done].
      apply (in_flight_insert s s' rs i l k) in Hj2; [|done].
      destruct Hj1 as [(Hne1 & Hj1)|(-> & <- & _)], Hj2 as [(Hne2 & Hj2)|(-> & Hkey & _)].
      * by eapply Huniq.
      * rewrite <- Hkey in Hj1. by eapply Huniq.
      * symmetry. by eapply Huniq.
      * done.
  - destruct Hadv as [_ Hact]. split; [|split].
    + intros j l' k'' Hj. cbn [requests] in Hj.
      apply suspended_insert in Hj as [Hj|[-> Hst]]; [by eapply Htry | by simplify_eq].
    + intros key. cbn [shared]. rewrite Hact, elem_of_difference, elem_of_singleton, Hkeys.
      split.
      * intros [(j & Hj) Hne]. exists j. apply (in_flight_insert s s' rs i l k); [done|].
        left. split; [|done]. intros ->. apply Hne.
        destruct Hj as (l' & k' & Hj & <-). cbn [requests] in Hj. by simplify_eq.
      * intros (j & Hj). apply (in_flight_insert s s' rs i l k) in Hj; [|done].
        destruct Hj as [(Hne & Hj)|(_ & _ & k' & Hk')]; [|done].
        split; [by exists j|]. intros ->. apply Hne. by eapply Huniq.
    + intros j1 j2 key Hj1 Hj2.
      apply (in_flight_insert s s' rs i l k) in Hj1; [|done].
      apply (in_flight_insert s s' rs i l k) in Hj2; [|done].
      destruct Hj1 as [(Hne1 & Hj1)|(_ & _ & k' & Hk')]; [|done].
      destruct Hj2 as [(Hne2 & Hj2)|(_ & _ & k' & Hk')]; [|done].
      by eapply Huniq.
Qed.

Lemma reachable_guard_invariant (d : Sql.db) (σ : fetch_out_system) :
  reachable (Async.handler raises w) d σ -> guard_invariant σ.
Proof.
  induction 1 as [|σ σ' Hreach IH Hstep].
  - apply guard_invariant_initial.
  - destruct Hstep as [σ l|σ i l k Hi|σ d'].
    + by apply guard_invariant_arrive.
    + by apply guard_invariant_resume.
    + exact IH.
Qed.

End Invariant.

End EventLoop.

(** C9. In every state that fetch-out requests, taking turns at their
    awaits while the rows change under other routes, can reach: no two
    requests in flight have the same key, and the keys of [activeFetches]
    are exactly the keys of the requests in flight, so none stays behind
    for a request that has ended.  A request with a complete body that
    arrives while its key is in flight is answered 429 in that turn,
    without a call to the generator, and leaves the rows and the set as
    they are; one whose key is free is let in, with its key added and the
    rows untouched; of two that arrive one after the other for a free key,
    the first is let in and the second is answered 429.  A request in
    flight that is resumed either gives way again, the set unchanged, or
    ends with an answer, no exception leaving the handler, and with its key
    and no other deleted; and whatever a [try] block that leaves the set
    alone does, answer or exception, its key is deleted when its
    [finally] has run.  The handlers are those of the routes: run without
    another request in between, each does what the route's handler does
    from the generator's answer on, and what the route does over the items
    read from that answer. *)
Theorem guard_mutual_exclusion (raises : Route.statement -> string -> bool)
    (w : AiService.env) (d : Sql.db) (σ : fetch_out_system) :
  Concurrent.reachable (Async.handler raises w) d σ ->
  (forall i j key, in_flight σ i key -> in_flight σ j key -> i = j)
  /\ (forall key,
        key ∈ Route.activeFetches (Concurrent.shared σ) <-> exists i, in_flight σ i key)
  /\ (forall l i,
        complete l = true ->
        in_flight σ i (key_of l) ->
        Concurrent.arrive (Async.handler raises w) l σ
        = {| Concurrent.shared := Concurrent.shared σ;
             Concurrent.requests :=
               (Concurrent.requests σ
                ++ [(l, Concurrent.Finished (Route.Ok (Route.Status429, 0%nat)))])%list |})
  /\ (forall l,
        complete l = true ->
        (forall i, ~ in_flight σ i (key_of l)) ->
        exists k,
          Concurrent.arrive (Async.handler raises w) l σ
          = {| Concurrent.shared :=
                 {| Route.data := Route.data (Concurrent.shared σ);
                    Route.snapshot := Route.snapshot (Concurrent.shared σ);
                    Route.activeFetches :=
                      {[key_of l]} ∪ Route.activeFetches (Concurrent.shared σ) |};
               Concurrent.requests :=
                 (Concurrent.requests σ ++ [(l, Concurrent.Suspended k)])%list |})
  /\ (forall l l',
        complete l = true ->
        complete l' = true ->
        key_of l' = key_of l ->
        (forall i, ~ in_flight σ i (key_of l)) ->
        exists k,
          Concurrent.arrive (Async.handler raises w) l'
            (Concurrent.arrive (Async.handler raises w) l σ)
          = {| Concurrent.shared :=
                 {| Route.data := Route.data (Concurrent.shared σ);
                    Route.snapshot := Route.snapshot (Concurrent.shared σ);
                    Route.activeFetches :=
                      {[key_of l]} ∪ Route.activeFetches (Concurrent.shared σ) |};
               Concurrent.requests :=
                 ((Concurrent.requests σ ++ [(l, Concurrent.Suspended k)])
                  ++ [(l', Concurrent.Finished (Route.Ok (Route.Status429, 0%nat)))])%list |})
  /\ (forall i l k,
        Concurrent.requests σ !! i = Some (l, Concurrent.Suspended k) ->
        match Concurrent.advance k (Concurrent.shared σ) with
        | (Concurrent.Suspended _, s') =>
            Route.activeFetches s' = Route.activeFetches (Concurrent.shared σ)
        | (Concurrent.Finished o, s') =>
            (exists r calls, o = Route.Ok (r, calls))
            /\ Route.activeFetches s'
               = Route.activeFetches (Concurrent.shared σ) ∖ {[key_of l]}
            /\ key_of l ∉ Route.activeFetches s'
        end)
  /\ (forall (A : Type) (key : string) (p : Concurrent.prog A) (s : Route.state),
        Concurrent.calm true p ->
        Route.activeFetches
          (Concurrent.run (Concurrent.tryFinally p (Route.delete_active key)) s).2
        = Route.activeFetches s ∖ {[key]})
  /\ (forall body s,
        Concurrent.run (Async.fetch_out_boards raises w body) s
        = Endpoint.fetch_out_boards raises w body s)
  /\ (forall body s,
        Concurrent.run (Async.fetch_out_subjects raises w body) s
        = Endpoint.fetch_out_subjects raises w body s)
  /\ (forall body s,
        Concurrent.run (Async.fetch_out_chapters raises w body) s
        = Endpoint.fetch_out_chapters raises w body s)
  /\ (forall body items,
        readable
          (AiService.generateSchoolBoards w
             (Js.or_string (Structure.state_name body) EmptyString)).1 items ->
        agrees (Concurrent.run (Async.fetch_out_boards raises w body))
          (Structure.fetch_out_boards raises body items)
          (AiService.generateSchoolBoards w
             (Js.or_string (Structure.state_name body) EmptyString)).2)
  /\ (forall body items,
        readable
          (AiService.generateSchoolSubjects w
             (Js.or_string (Structure.board_name body) EmptyString)
             (Js.or_string (Structure.class_name body) EmptyString)
             (Structure.stream_name body)).1 items ->
        agrees (Concurrent.run (Async.fetch_out_subjects raises w body))
          (Structure.fetch_out_subjects raises body items)
          (AiService.generateSchoolSubjects w
             (Js.or_string (Structure.board_name body) EmptyString)
             (Js.or_string (Structure.class_name body) EmptyString)
             (Structure.stream_name body)).2)
  /\ (forall body items,
        readable
          (AiService.generateSchoolChapters w
             (Js.or_string (Structure.subject_name body) EmptyString)
             (Js.or_string (Structure.chapter_board_name body) EmptyString)
             (Js.or_string (Structure.chapter_class_name body) EmptyString)).1 items ->
        agrees (Concurrent.run (Async.fetch_out_chapters raises w body))
          (Structure.fetch_out_chapters raises body items)
          (AiService.generateSchoolChapters w
             (Js.or_string (Structure.subject_name body) EmptyString)
             (Js.or_string (Structure.chapter_board_name body) EmptyString)
             (Js.or_string (Structure.chapter_class_name body) EmptyString)).2).
Proof.
  intros Hreach.
  pose proof (reachable_guard_invariant raises w d σ Hreach) as (Htry & Hkeys & Huniq).
  split; [exact Huniq|]. split; [exact Hkeys|].
  split.
  { intros l i Hcomplete Hi. unfold Concurrent.arrive.
    destruct (handler_arrives raises w l (Concurrent.shared σ))
      as [(Hno & _)|[(_ & _ & ->)|(_ & Hfree & _)]]; [congruence | done |].
    destruct Hfree. apply Hkeys. by exists i. }
  split.
  { intros l Hcomplete Hnone. unfold Concurrent.arrive.
    destruct (handler_arrives raises w l (Concurrent.shared σ))
      as [(Hno & _)|[(_ & Hheld & _)|(_ & _ & k & -> & _)]]; [congruence | | by exists k].
    apply Hkeys in Hheld as [i Hi]. by destruct (Hnone i). }
  split.
  { intros l l' Hcomplete Hcomplete' Hsame Hnone. unfold Concurrent.arrive at 2.
    destruct (handler_arrives raises w l (Concurrent.shared σ))
      as [(Hno & _)|[(_ & Hheld & _)|(_ & _ & k & -> & _)]]; [congruence | |].
    { apply Hkeys in Hheld as [i Hi]. by destruct (Hnone i). }
    exists k. unfold Concurrent.arrive. cbn [Concurrent.shared Concurrent.requests].
    match goal with
    | |- context [Concurrent.advance _ ?s1] =>
        destruct (handler_arrives raises w l' s1)
          as [(Hno & _)|[(_ & _ & ->)|(_ & Hfree & _)]]; [congruence | done |]
    end.
    destruct Hfree. rewrite Hsame. cbn [Route.activeFetches].
    apply elem_of_union. left. by apply elem_of_singleton. }
  split.
  { intros i l k Hi.
    pose proof (in_try_advance (key_of l) k (Concurrent.shared σ) (Htry i l k Hi)) as Hadv.
    destruct (Concurrent.advance k (Concurrent.shared σ)) as [[k'|o] s'].
    - apply Hadv.
    - destruct Hadv as [[[r calls] ->] Hact]. split; [by exists r, calls|].
      split; [done|]. rewrite Hact. intros [_ Hnot]%elem_of_difference.
      apply Hnot. by apply elem_of_singleton. }
  split.
  { intros A key p s Hp. by apply tryFinally_releases. }
  split; [apply run_fetch_out_boards|].
  split; [apply run_fetch_out_subjects|].
  split; [apply run_fetch_out_chapters|].
  split; [|split].
  - intros body items Hread s. rewrite run_fetch_out_boards.
    by apply fetch_out_boards_agrees.
  - intros body items Hread s. rewrite run_fetch_out_subjects.
    by apply fetch_out_subjects_agrees.
  - intros body items Hread s. rewrite run_fetch_out_chapters.
    by apply fetch_out_chapters_agrees.
Qed.

Lemma one_request_reachable :
  Concurrent.reachable (Async.handler no_faults offline) empty_db one_request.
Proof.
  apply (Concurrent.reachable_step _ empty_db (Concurrent.initial empty_db)).
  - apply Concurrent.reachable_initial.
  - apply Concurrent.step_arrive.
Qed.

Lemma guard_mutual_exclusion_witness :
  two_requests
  = {| Concurrent.shared := Concurrent.shared one_request;
       Concurrent.requests :=
         (Concurrent.requests one_request
          ++ [(Async.Boards west_bengal,
               Concurrent.Finished (Route.Ok (Route.Status429, 0%nat)))])%list |}.
Proof.
  apply (proj1 (proj2 (proj2 (guard_mutual_exclusion no_faults offline empty_db one_request
                                one_request_reachable)))
           (Async.Boards west_bengal) 0%nat).
  - reflexivity.
  - eexists _, _. split; reflexivity.
Defined.

Section SampleNames.
Import Sql Route AiService.

Lemma substring0_append (p r : string) (n : nat) :
  (String.length p <= n)%nat ->
  Js.substring0 n (p +:+ r) = p +:+ Js.substring0 (n - String.length p) r.
Proof.
  unfold Js.substring0. revert n. induction p as [|c p IH]; intros n Hn.
  - change (EmptyString +:+ r) with r. cbn [String.length]. by rewrite Nat.sub_0_r.
  - cbn [String.length] in *. destruct n as [|n]; [lia|].
    change (String c p +:+ r) with (String c (p +:+ r)).
    change (String c p +:+ substring 0 (S n - S (String.length p)) r)
      with (String c (p +:+ substring 0 (n - String.length p) r)).
    cbn [substring]. rewrite IH by lia. done.
Qed.

Lemma trimEnd_cons (c : ascii) (s : string) :
  Js.trimEnd (String c s)
  = match Js.trimEnd s with
    | EmptyString => if Js.is_space c then EmptyString else String c EmptyString
    | String d r => String c (String d r)
    end.
Proof. reflexivity. Qed.

Lemma trimEnd_append_clean (p x : string) :
  p <> EmptyString -> Js.trimEnd p = p -> exists x', Js.trimEnd (p +:+ x) = p +:+ x'.
Proof.
  induction p as [|c p IH]; [done|]. intros _ Hclean.
  change (String c p +:+ x) with (String c (p +:+ x)).
  rewrite trimEnd_cons in Hclean. rewrite trimEnd_cons.
  destruct p as [|d p].
  - change (EmptyString +:+ x) with x. cbn in Hclean.
    destruct (Js.is_space c) eqn:Hc; [discriminate|].
    destruct (Js.trimEnd x) as [|e r]; [by exists EmptyString | by exists (String e r)].
  - assert (Js.trimEnd (String d p) = String d p) as Hp.
    { destruct (Js.trimEnd (String d p)) as [|e r].
      - destruct (Js.is_space c); discriminate.
      - congruence. }
    destruct (IH ltac:(done) Hp) as (x' & ->).
    change (String d p +:+ x') with (String d (p +:+ x')). by exists x'.
Qed.

Lemma candidate_name_prefix (p rest : string) :
  p <> EmptyString -> starts_clean p = true -> Js.trimEnd p = p ->
  (String.length p <= 200)%nat ->
  Js.startsWith (Structure.candidate_name {| Structure.name := Some (p +:+ rest) |}) p = true.
Proof.
  intros Hne Hstart Hend Hlen. unfold Structure.candidate_name. cbn [Structure.name].
  destruct p as [|c p]; [done|]. cbn in Hstart. apply negb_true_iff in Hstart.
  change (Js.or_string (Some (String c p +:+ rest)) EmptyString)
    with (String c p +:+ rest).
  rewrite substring0_append by done. unfold Js.trim.
  change (Js.trimStart (String c p +:+ Js.substring0 (200 - String.length (String c p)) rest))
    with (if Js.is_space c
          then Js.trimStart (p +:+ Js.substring0 (200 - String.length (String c p)) rest)
          else String c p +:+ Js.substring0 (200 - String.length (String c p)) rest).
  rewrite Hstart.
  destruct (trimEnd_append_clean (String c p)
              (Js.substring0 (200 - String.length (String c p)) rest) Hne Hend) as (x' & ->).
  apply startsWith_append.
Qed.

Lemma sample_item_named (short digit context : string) :
  short +:+ digit <> EmptyString ->
  starts_clean (short +:+ digit) = true ->
  Js.trimEnd (short +:+ digit) = short +:+ digit ->
  (String.length (short +:+ digit) <= 200)%nat ->
  Js.startsWith
    (Structure.candidate_name
       {| Structure.name := Some ((short +:+ digit) +:+ context +:+ ")") |})
    short = true.
Proof.
  intros Hne Hstart Hend Hlen.
  apply (startsWith_longer _ short digit). by apply candidate_name_prefix.
Qed.

Lemma sample_boards_named (context : string) :
  Forall (fun it => Js.startsWith (Structure.candidate_name it) "Sample boards " = true)
    (sample_items "boards" context).
Proof.
  repeat constructor.
  - apply (sample_item_named "Sample boards " "1 (" context);
      [intros H; vm_compute in H; discriminate H | reflexivity | reflexivity
      | vm_compute; lia].
  - apply (sample_item_named "Sample boards " "2 (" context);
      [intros H; vm_compute in H; discriminate H | reflexivity | reflexivity
      | vm_compute; lia].
  - apply (sample_item_named "Sample boards " "3 (" context);
      [intros H; vm_compute in H; discriminate H | reflexivity | reflexivity
      | vm_compute; lia].
  - apply (sample_item_named "Sample boards " "4 (" context);
      [intros H; vm_compute in H; discriminate H | reflexivity | reflexivity
      | vm_compute; lia].
  - apply (sample_item_named "Sample boards " "5 (" context);
      [intros H; vm_compute in H; discriminate H | reflexivity | reflexivity
      | vm_compute; lia].
Qed.

Lemma sample_subjects_named (context : string) :
  Forall (fun it => Js.startsWith (Structure.candidate_name it) "Sample subjects " = true)
    (sample_items "subjects" context).
Proof.
  repeat constructor.
  - apply (sample_item_named "Sample subjects " "1 (" context);
      [intros H; vm_compute in H; discriminate H | reflexivity | reflexivity
      | vm_compute; lia].
  - apply (sample_item_named "Sample subjects " "2 (" context);
      [intros H; vm_compute in H; discriminate H | reflexivity | reflexivity
      | vm_compute; lia].
  - apply (sample_item_named "Sample subjects " "3 (" context);
      [intros H; vm_compute in H; discriminate H | reflexivity | reflexivity
      | vm_compute; lia].
  - apply (sample_item_named "Sample subjects " "4 (" context);
      [intros H; vm_compute in H; discriminate H | reflexivity | reflexivity
      | vm_compute; lia].
  - apply (sample_item_named "Sample subjects " "5 (" context);
      [intros H; vm_compute in H; discriminate H | reflexivity | reflexivity
      | vm_compute; lia].
Qed.

Lemma sample_chapters_named (context : string) :
  Forall (fun it => Js.startsWith (Structure.candidate_name it) "Sample chapters " = true)
    (sample_items "chapters" context).
Proof.
  repeat constructor.
  - apply (sample_item_named "Sample chapters " "1 (" context);
      [intros H; vm_compute in H; discriminate H | reflexivity | reflexivity
      | vm_compute; lia].
  - apply (sample_item_named "Sample chapters " "2 (" context);
      [intros H; vm_compute in H; discriminate H | reflexivity | reflexivity
      | vm_compute; lia].
  - apply (sample_item_named "Sample chapters " "3 (" context);
      [intros H; vm_compute in H; discriminate H | reflexivity | reflexivity
      | vm_compute; lia].
  - apply (sample_item_named "Sample chapters " "4 (" context);
      [intros H; vm_compute in H; discriminate H | reflexivity | reflexivity
      | vm_compute; lia].
  - apply (sample_item_named "Sample chapters " "5 (" context);
      [intros H; vm_compute in H; discriminate H | reflexivity | reflexivity
      | vm_compute; lia].
Qed.

Lemma samples_readable (type context : string) :
  readable (as_named (fallbackMockStructure type context)) (sample_items type context).
Proof. repeat constructor. Qed.

End SampleNames.

Section NoProvider.
Import Sql Route AiService.

Variable raises : statement -> string -> bool.

Lemma fetch_out_boards_names (P : string -> Prop) (body : Structure.boards_body)
    (items : list Structure.item) (s s' : state) (count : nat) (saved : list (Z * string)) :
  Forall (fun it => P (Structure.candidate_name it)) items ->
  respond (Structure.fetch_out_boards raises body items) s = (Json200 count saved, s') ->
  names_all P saved.
Proof.
  intros Hitems. unfold Structure.fetch_out_boards.
  destruct (_ || _); [discriminate|]. apply guarded_names.
  intros x acc st acc' st' Hin. apply fetch_out_boards_row_names.
  rewrite Forall_forall in Hitems. by apply Hitems, list_elem_of_In.
Qed.

Lemma fetch_out_subjects_names (P : string -> Prop) (body : Structure.subjects_body)
    (items : list Structure.item) (s s' : state) (count : nat) (saved : list (Z * string)) :
  Forall (fun it => P (Structure.candidate_name it)) items ->
  respond (Structure.fetch_out_subjects raises body items) s = (Json200 count saved, s') ->
  names_all P saved.
Proof.
  intros Hitems. unfold Structure.fetch_out_subjects.
  destruct (_ || _); [discriminate|]. apply guarded_names.
  intros x acc st acc' st' Hin. apply fetch_out_subjects_row_names.
  rewrite Forall_forall in Hitems. by apply Hitems, list_elem_of_In.
Qed.

Lemma fetch_out_chapters_names (P : string -> Prop) (body : Structure.chapters_body)
    (items : list Structure.item) (s s' : state) (count : nat) (saved : list (Z * string)) :
  Forall (fun it => P (Structure.candidate_name it)) items ->
  respond (Structure.fetch_out_chapters raises body items) s = (Json200 count saved, s') ->
  names_all P saved.
Proof.
  intros Hitems. unfold Structure.fetch_out_chapters.
  destruct (_ || _); [discriminate|]. apply guarded_names.
  intros x acc st acc' st' Hin. apply fetch_out_chapters_row_names.
  rewrite Forall_forall in Hitems. by apply Hitems, list_elem_of_In.
Qed.

(** A 200 of the whole route is a 200 of the loop over the items, on the
    same states, and the calls are those of the generator. *)
Lemma limited_200 {A} (now : Z) (req : RateLimit.request)
    (end_to_end : M (response A * nat)) (loop : M (response A)) (gen_calls : nat)
    (g g' : Endpoint.world) (count : nat) (saved : list A) (calls : nat) :
  agrees end_to_end loop gen_calls ->
  Endpoint.limited now req end_to_end g = ((Endpoint.Handled (Json200 count saved), calls), g') ->
  respond loop (Endpoint.server g) = (Json200 count saved, Endpoint.server g')
  /\ calls = gen_calls.
Proof.
  intros Hagree. unfold Endpoint.limited.
  destruct (RateLimit.rateLimitMiddleware _ _ _) as [m []]; [|discriminate].
  rewrite (Hagree (Endpoint.server g)). unfold respond.
  destruct (loop (Endpoint.server g)) as [[r|e] s1]; [|discriminate].
  intros [= -> <- <-]. done.
Qed.

End NoProvider.

(** X24. Without a provider the public routes store the sample data. When no
    provider row is active, or the active row has no API key, then for
    every request, body and store: a 200 of POST /fetch-out-boards was
    produced without any outbound call, every name it reports begins with
    Sample boards, and the reported rows are active boards of the state of
    the body, on display for GET /boards/:state_id; the same holds for POST
    /fetch-out-subjects with Sample subjects and for POST
    /fetch-out-chapters with Sample chapters. *)
Theorem no_provider_stores_samples (raises : Route.statement -> string -> bool)
    (w : AiService.env) (now : Z) (req : RateLimit.request) (g g' : Endpoint.world)
    (count calls : nat) (saved : list (Z * string)) :
  unconfigured w ->
  (forall body,
     Endpoint.limited now req (Endpoint.fetch_out_boards raises w body) g
     = ((Endpoint.Handled (Route.Json200 count saved), calls), g') ->
     calls = 0%nat
     /\ names_all (fun n => Js.startsWith n "Sample boards " = true) saved
     /\ forall z, Structure.state_id body = Some z ->
                  boards_on_display z saved (Endpoint.server g'))
  /\ (forall body,
        Endpoint.limited now req (Endpoint.fetch_out_subjects raises w body) g
        = ((Endpoint.Handled (Route.Json200 count saved), calls), g') ->
        calls = 0%nat
        /\ names_all (fun n => Js.startsWith n "Sample subjects " = true) saved
        /\ forall b c, Structure.board_id body = Some b -> Structure.class_id body = Some c ->
                       subjects_on_display c saved (Endpoint.server g'))
  /\ (forall body,
        Endpoint.limited now req (Endpoint.fetch_out_chapters raises w body) g
        = ((Endpoint.Handled (Route.Json200 count saved), calls), g') ->
        calls = 0%nat
        /\ names_all (fun n => Js.startsWith n "Sample chapters " = true) saved
        /\ forall z, Structure.subject_id body = Some z ->
                     chapters_on_display z saved (Endpoint.server g')).
Proof.
  intros Hoff. split; [|split]; intros body Hrun.
  - pose proof (fetch_out_boards_agrees raises w body
                  (sample_items "boards"
                     (AiService.boards_prompt
                        (Js.or_string (Structure.state_name body) EmptyString)))) as Hagree.
    unfold AiService.generateSchoolBoards in Hagree.
    rewrite (unconfigured_structure w _ _ Hoff) in Hagree.
    specialize (Hagree (samples_readable _ _)).
    destruct (limited_200 _ _ _ _ _ _ _ _ _ _ Hagree Hrun) as [Hloop ->].
    split; [done|]. split.
    + exact (fetch_out_boards_names raises _ _ _ _ _ _ _ (sample_boards_named _) Hloop).
    + intros z Hz. exact (fetch_out_boards_display raises _ _ _ _ _ _ _ Hz Hloop).
  - pose proof (fetch_out_subjects_agrees raises w body
                  (sample_items "subjects"
                     (AiService.subjects_prompt
                        (Js.or_string (Structure.board_name body) EmptyString)
                        (Js.or_string (Structure.class_name body) EmptyString)
                        (Structure.stream_name body)))) as Hagree.
    unfold AiService.generateSchoolSubjects in Hagree.
    rewrite (unconfigured_structure w _ _ Hoff) in Hagree.
    specialize (Hagree (samples_readable _ _)).
    destruct (limited_200 _ _ _ _ _ _ _ _ _ _ Hagree Hrun) as [Hloop ->].
    split; [done|]. split.
    + exact (fetch_out_subjects_names raises _ _ _ _ _ _ _ (sample_subjects_named _) Hloop).
    + intros b c Hb Hc.
      exact (fetch_out_subjects_display raises _ _ _ _ _ _ _ _ Hb Hc Hloop).
  - pose proof (fetch_out_chapters_agrees raises w body
                  (sample_items "chapters"
                     (AiService.chapters_prompt
                        (Js.or_string (Structure.subject_name body) EmptyString)
                        (Js.or_string (Structure.chapter_board_name body) EmptyString)
                        (Js.or_string (Structure.chapter_class_name body) EmptyString))))
      as Hagree.
    unfold AiService.generateSchoolChapters in Hagree.
    rewrite (unconfigured_structure w _ _ Hoff) in Hagree.
    specialize (Hagree (samples_readable _ _)).
    destruct (limited_200 _ _ _ _ _ _ _ _ _ _ Hagree Hrun) as [Hloop ->].
    split; [done|]. split.
    + exact (fetch_out_chapters_names raises _ _ _ _ _ _ _ (sample_chapters_named _) Hloop).
    + intros z Hz. exact (fetch_out_chapters_display raises _ _ _ _ _ _ _ Hz Hloop).
Qed.

Lemma no_provider_stores_samples_witness :
  let run := Endpoint.limited 0 probe
               (Endpoint.fetch_out_boards no_faults offline west_bengal) first_request in
  run.1 = (Endpoint.Handled (Route.Json200 5 (saved_pairs run.1.1)), 0%nat)
  /\ names_all (fun n => Js.startsWith n "Sample boards " = true) (saved_pairs run.1.1)
  /\ boards_on_display 7 (saved_pairs run.1.1) (Endpoint.server run.2).
Proof.
  intros run.
  assert (run = ((Endpoint.Handled (Route.Json200 5 (saved_pairs run.1.1)), 0%nat), run.2))
    as Hrun by (vm_compute; reflexivity).
  assert (unconfigured offline) as Hoff by (exists []; split; reflexivity).
  destruct (proj1 (no_provider_stores_samples no_faults offline 0 probe first_request run.2 5
                     0 (saved_pairs run.1.1) Hoff) west_bengal Hrun)
    as (_ & Hnames & Hdisplay).
  split; [by rewrite Hrun at 1|]. split; [exact Hnames | exact (Hdisplay 7 eq_refl)].
Defined.

(** ** What a request can cost *)

Section Containment.
Import Sql Route AiService.

Variable raises : statement -> string -> bool.

Lemma reading_frame {A} (row : Structure.item -> A -> M A) :
  (forall x acc st, frame st (row x acc st).2) ->
  forall v acc st, frame st (Endpoint.reading row v acc st).2.
Proof.
  intros Hrow v acc st. unfold Endpoint.reading.
  destruct (Endpoint.item_of v); [apply Hrow | apply frame_refl].
Qed.

Lemma released (key : string) (held : gset string) :
  key ∉ held -> ({[key]} ∪ held) ∖ {[key]} = held.
Proof.
  intros Hout. apply set_eq. intros x.
  rewrite elem_of_difference, elem_of_union, elem_of_singleton.
  split; [intros [[->|Hx] Hne]; done | intros Hx; split; [by right|]].
  intros ->. done.
Qed.

Lemma guarded_reading_run {A} (key : string) (generated : list json) (calls : nat)
    (row : Structure.item -> list A -> M (list A)) (s : state) :
  (forall x acc st, frame st (row x acc st).2) ->
  exists r c s',
    (let* held := has_active key in
     if held then ret (Status429, 0%nat) else
     add_active key ;;
     try_finally
       (try_catch
          (let* saved := for_of generated (Endpoint.reading row) [] in
           ret (Json200 (length saved) saved, calls))
          (fun err => ret (Status500, calls)))
       (delete_active key)) s = (Ok (r, c), s')
    /\ frame s s'
    /\ answered r
    /\ (c = 0%nat /\ s' = s \/ c = calls /\ ~ turned_away r).
Proof.
  intros Hrow. unfold bind, has_active. cbn [fst snd].
  destruct (bool_decide _) eqn:Hheld.
  { exists Status429, 0%nat, s. split; [done|]. split; [apply frame_refl|].
    split; [right; right; by left | by left]. }
  apply bool_decide_eq_false in Hheld.
  unfold add_active, try_finally, try_catch, bind.
  set (s0 := {| data := data s; snapshot := snapshot s;
                activeFetches := {[key]} ∪ activeFetches s |}).
  pose proof (for_of_frame (Endpoint.reading row) (reading_frame row Hrow) generated [] s0)
    as [Hsnap Hact].
  destruct (for_of generated (Endpoint.reading row) [] s0) as [[acc|e] s1]; cbn in *.
  - eexists _, _, _. split; [reflexivity|]. split.
    { split; cbn; [done|]. rewrite Hact. by apply released. }
    split; [left; by exists acc|]. right. split; [done|]. by intros [?|?].
  - eexists _, _, _. split; [reflexivity|]. split.
    { split; cbn; [done|]. rewrite Hact. by apply released. }
    split; [right; right; by right|]. right. split; [done|]. by intros [?|?].
Qed.

Lemma limited_contained {A} (w : env) (now : Z) (req : RateLimit.request)
    (handler : M (response A * nat)) (calls : nat) (g : Endpoint.world) :
  (calls <= 1)%nat -> (calls = 1%nat -> provider_ready w) ->
  (exists r c s',
     handler (Endpoint.server g) = (Ok (r, c), s')
     /\ frame (Endpoint.server g) s'
     /\ answered r
     /\ (c = 0%nat /\ s' = Endpoint.server g \/ c = calls /\ ~ turned_away r)) ->
  contained w g (Endpoint.limited now req handler g).
Proof.
  intros Hle Hready (r & c & s' & Hrun & [Hsnap Hact] & Hanswered & Hcost).
  unfold contained, Endpoint.limited.
  destruct (RateLimit.rateLimitMiddleware _ _ _) as [m []]; [|by cbn; repeat split; lia].
  rewrite Hrun. cbn.
  split; [done|]. split; [done|].
  destruct Hcost as [[Hc Hs]|[Hc Hnot]].
  - subst c s'. split; [lia|]. split; [done|]. split; [done|]. by intros _.
  - subst c. split; [done|]. split; [done|]. split; [done|]. by intros Hturned.
Qed.

Lemma structure_calls (w : env) (type context : string) :
  ((fetchAIStructure w type context).2 <= 1)%nat
  /\ ((fetchAIStructure w type context).2 = 1%nat -> provider_ready w).
Proof.
  rewrite fetchAIStructure_calls, fetchAIStructure_try_calls. unfold provider_ready.
  destruct (ai_providers w) as [rows|]; [|split; [lia | done]].
  destruct (configured rows) as [p|] eqn:Hp; [|split; [lia | done]].
  split; [lia|]. intros _. by exists rows, p.
Qed.

Lemma turned_away_400 {A} (w : env) (now : Z) (req : RateLimit.request) (g : Endpoint.world) :
  contained w g (Endpoint.limited now req (ret (@Status400 A, 0%nat)) g).
Proof.
  apply (limited_contained w now req _ 0%nat g); [lia | done |].
  exists Status400, 0%nat, (Endpoint.server g). split; [done|]. split; [apply frame_refl|].
  split; [right; by left | by left].
Qed.

End Containment.

(** X25. A fetch-out request is contained. For every request, body, provider
    and store, and whatever the generated array holds, each of the three
    fetch-out routes behind the limiter leaves the transaction snapshot and
    the in-flight set as it found them, makes at most one outbound call and
    none without a configured provider, and answers with the 429 of the
    limiter or with 200, 400, 429 or 500; when the limiter, the body check
    or the guard turns the request away, no call is made and no row is
    touched. *)
Theorem fetch_out_request_is_contained (raises : Route.statement -> string -> bool)
    (w : AiService.env) (now : Z) (req : RateLimit.request) (g : Endpoint.world) :
  (forall body,
     contained w g (Endpoint.limited now req (Endpoint.fetch_out_boards raises w body) g))
  /\ (forall body,
        contained w g (Endpoint.limited now req (Endpoint.fetch_out_subjects raises w body) g))
  /\ (forall body,
        contained w g (Endpoint.limited now req (Endpoint.fetch_out_chapters raises w body) g)).
Proof.
  split; [|split]; intros body.
  - unfold Endpoint.fetch_out_boards.
    destruct (_ || _); [apply turned_away_400|].
    unfold AiService.generateSchoolBoards.
    destruct (AiService.fetchAIStructure w "boards" _) as [v calls] eqn:Hgen.
    pose proof (structure_calls w "boards"
                  (AiService.boards_prompt
                     (Js.or_string (Structure.state_name body) EmptyString))) as [Hle Hready].
    rewrite Hgen in Hle, Hready.
    apply (limited_contained w now req _ calls g Hle Hready).
    apply guarded_reading_run. apply fetch_out_boards_row_frame.
  - unfold Endpoint.fetch_out_subjects.
    destruct (_ || _); [apply turned_away_400|].
    unfold AiService.generateSchoolSubjects.
    destruct (AiService.fetchAIStructure w "subjects" _) as [v calls] eqn:Hgen.
    pose proof (structure_calls w "subjects"
                  (AiService.subjects_prompt
                     (Js.or_string (Structure.board_name body) EmptyString)
                     (Js.or_string (Structure.class_name body) EmptyString)
                     (Structure.stream_name body))) as [Hle Hready].
    rewrite Hgen in Hle, Hready.
    apply (limited_contained w now req _ calls g Hle Hready).
    apply guarded_reading_run. apply fetch_out_subjects_row_frame.
  - unfold Endpoint.fetch_out_chapters.
    destruct (_ || _); [apply turned_away_400|].
    unfold AiService.generateSchoolChapters.
    destruct (AiService.fetchAIStructure w "chapters" _) as [v calls] eqn:Hgen.
    pose proof (structure_calls w "chapters"
                  (AiService.chapters_prompt
                     (Js.or_string (Structure.subject_name body) EmptyString)
                     (Js.or_string (Structure.chapter_board_name body) EmptyString)
                     (Js.or_string (Structure.chapter_class_name body) EmptyString)))
      as [Hle Hready].
    rewrite Hgen in Hle, Hready.
    apply (limited_contained w now req _ calls g Hle Hready).
    apply guarded_reading_run. apply fetch_out_chapters_row_frame.
Qed.

(** ** An element that cannot be read *)

Section Unreadable.
Import Sql Route AiService.

Variable raises : statement -> string -> bool.

Lemma guarded_reading_stops {A} (key : string) (before after : list json) (v : json)
    (e : string) (items : list Structure.item) (calls : nat)
    (row : Structure.item -> list A -> M (list A)) (s : state) :
  readable before items ->
  Endpoint.item_of v = Throw e ->
  key ∉ activeFetches s ->
  (let* held := has_active key in
   if held then ret (Status429, 0%nat) else
   add_active key ;;
   try_finally
     (try_catch
        (let* saved := for_of (before ++ v :: after)%list (Endpoint.reading row) [] in
         ret (Json200 (length saved) saved, calls))
        (fun err => ret (Status500, calls)))
     (delete_active key)) s
  = (Ok (Status500, calls),
     (respond
        (let* held := has_active key in
         if held then ret Status429 else
         add_active key ;;
         try_finally
           (try_catch
              (let* saved := for_of items row [] in ret (Json200 (length saved) saved))
              (fun err => ret Status500))
           (delete_active key)) s).2).
Proof.
  intros Hread Hv Hfree. unfold respond, bind, has_active. cbn [fst snd].
  rewrite (bool_decide_eq_false_2 _ Hfree).
  unfold add_active, try_finally, try_catch, bind.
  rewrite for_of_app, (reading_loop row before items Hread).
  destruct (for_of items row [] _) as [[acc|e'] s1]; [|done].
  cbn [for_of]. unfold bind, Endpoint.reading. rewrite Hv. done.
Qed.

End Unreadable.

(** X26. One element that cannot be read ends the run with what was stored
    before it. When the generated array holds, after elements that can be
    read, a null or an element whose name is a truthy value that is no
    string, each fetch-out handler, for a complete body and a free key,
    answers 500 and leaves the store and the in-flight set exactly as the
    run over the elements before it leaves them: the earlier candidates
    stay stored, the later ones are never looked at. *)
Theorem unreadable_item_stops_the_run (raises : Route.statement -> string -> bool)
    (w : AiService.env) (before after : list AiService.json) (v : AiService.json)
    (e : string) (items : list Structure.item) (s : Route.state) :
  readable before items ->
  Endpoint.item_of v = Route.Throw e ->
  (forall body,
     Js.falsy (Structure.state_id body) || Structure.missing (Structure.state_name body)
     = false ->
     ("boards_" +:+ Structure.template (Structure.state_id body)) ∉ Route.activeFetches s ->
     (AiService.generateSchoolBoards w
        (Js.or_string (Structure.state_name body) EmptyString)).1
     = (before ++ v :: after)%list ->
     Endpoint.fetch_out_boards raises w body s
     = (Route.Ok (Route.Status500,
                  (AiService.generateSchoolBoards w
                     (Js.or_string (Structure.state_name body) EmptyString)).2),
        (Route.respond (Structure.fetch_out_boards raises body items) s).2))
  /\ (forall body,
        Js.falsy (Structure.board_id body) || Structure.missing (Structure.board_name body)
        || Js.falsy (Structure.class_id body) || Structure.missing (Structure.class_name body)
        = false ->
        ("subjects_" +:+ Structure.template (Structure.board_id body) +:+ "_"
         +:+ Structure.template (Structure.class_id body) +:+ "_"
         +:+ (if Js.falsy (Structure.stream_id body) then "all"
              else Structure.template (Structure.stream_id body)))
        ∉ Route.activeFetches s ->
        (AiService.generateSchoolSubjects w
           (Js.or_string (Structure.board_name body) EmptyString)
           (Js.or_string (Structure.class_name body) EmptyString)
           (Structure.stream_name body)).1
        = (before ++ v :: after)%list ->
        Endpoint.fetch_out_subjects raises w body s
        = (Route.Ok (Route.Status500,
                     (AiService.generateSchoolSubjects w
                        (Js.or_string (Structure.board_name body) EmptyString)
                        (Js.or_string (Structure.class_name body) EmptyString)
                        (Structure.stream_name body)).2),
           (Route.respond (Structure.fetch_out_subjects raises body items) s).2))
  /\ (forall body,
        Js.falsy (Structure.subject_id body) || Structure.missing (Structure.subject_name body)
        || Structure.missing (Structure.chapter_board_name body)
        || Structure.missing (Structure.chapter_class_name body) = false ->
        ("chapters_" +:+ Structure.template (Structure.subject_id body))
        ∉ Route.activeFetches s ->
        (AiService.generateSchoolChapters w
           (Js.or_string (Structure.subject_name body) EmptyString)
           (Js.or_string (Structure.chapter_board_name body) EmptyString)
           (Js.or_string (Structure.chapter_class_name body) EmptyString)).1
        = (before ++ v :: after)%list ->
        Endpoint.fetch_out_chapters raises w body s
        = (Route.Ok (Route.Status500,
                     (AiService.generateSchoolChapters w
                        (Js.or_string (Structure.subject_name body) EmptyString)
                        (Js.or_string (Structure.chapter_board_name body) EmptyString)
                        (Js.or_string (Structure.chapter_class_name body) EmptyString)).2),
           (Route.respond (Structure.fetch_out_chapters raises body items) s).2)).
Proof.
  intros Hread Hv. split; [|split]; intros body Hbody Hfree Hgen.
  - unfold Endpoint.fetch_out_boards, Structure.fetch_out_boards.
    rewrite Hbody, Hgen. by apply guarded_reading_stops with (e := e).
  - unfold Endpoint.fetch_out_subjects, Structure.fetch_out_subjects.
    rewrite Hbody, Hgen. by apply guarded_reading_stops with (e := e).
  - unfold Endpoint.fetch_out_chapters, Structure.fetch_out_chapters.
    rewrite Hbody, Hgen. by apply guarded_reading_stops with (e := e).
Qed.

Lemma unreadable_item_stops_the_run_witness :
  Endpoint.fetch_out_boards no_faults answers_with_null west_bengal (idle empty_db)
  = (Route.Ok (Route.Status500, 1%nat),
     idle (Sql.set_boards
             [ {| Sql.board_id := 1; Sql.board_name := "CBSE"; Sql.board_state_id := Some 7;
                  Sql.board_is_active := true |} ] empty_db)).
Proof.
  pose proof (proj1 (unreadable_item_stops_the_run no_faults answers_with_null
                       [ AiService.JObject [("name", AiService.JString "CBSE")] ]
                       [ AiService.JObject [("name", AiService.JString "ICSE")] ]
                       AiService.JNull "TypeError"
                       [ {| Structure.name := Some "CBSE" |} ] (idle empty_db)
                       ltac:(repeat constructor) eq_refl)
                west_bengal eq_refl ltac:(apply not_elem_of_empty) eq_refl) as Hrun.
  rewrite Hrun. vm_compute. reflexivity.
Defined.

(** ** The admin routes from the client's answer on *)

Section IngestProperties.
Import Sql Route AiService.

Variable raises : statement -> string -> bool.

Lemma toLowerCase_append (a b : string) :
  Js.toLowerCase (a +:+ b) = Js.toLowerCase a +:+ Js.toLowerCase b.
Proof.
  induction a as [|c a IH]; [done|].
  change (String c a +:+ b) with (String c (a +:+ b)). cbn [Js.toLowerCase].
  by rewrite IH.
Qed.

Lemma includes_suffix (a b kw : string) :
  Js.includes b kw = true -> Js.includes (a +:+ b) kw = true.
Proof.
  intros H. induction a as [|c a IH]; [done|].
  change (String c a +:+ b) with (String c (a +:+ b)).
  rewrite includes_cons, IH. apply orb_true_r.
Qed.

(** A name whose fixed tail holds the guarded word or the word placeholder
    is dropped, whatever the request put in the middle. *)
Lemma placeholder_in_tail (kind head x tail close : string) :
  AiFetch.placeholder kind tail = true ->
  AiFetch.placeholder kind (head +:+ (x +:+ tail) +:+ close) = true.
Proof.
  unfold AiFetch.placeholder. rewrite !toLowerCase_append.
  intros [H|H]%orb_true_iff; apply orb_true_iff; [left | right];
    by apply includes_suffix, includes_prefix, includes_suffix.
Qed.

Lemma iterate_samples (type context : string) :
  Ingest.iterate (fallbackMockStructure type context)
  = Ok (map JString (sample_names type context)).
Proof. reflexivity. Qed.

Lemma names_loop {A} (row : string -> A -> M A) (names : list string) (acc : A) (s : state) :
  for_of (map JString names) (Ingest.reading row) acc s = for_of names row acc s.
Proof.
  revert acc s. induction names as [|n names IH]; intros acc s; [done|].
  cbn [map for_of]. unfold bind. change (Ingest.reading row (JString n) acc s) with (row n acc s).
  destruct (row n acc s) as [[acc'|e] s']; [apply IH | done].
Qed.

Lemma skipping_loop {A} (row : string -> A -> M A) (names : list string) (acc : A) (s : state) :
  Forall (fun n => forall acc, row n acc = ret acc) names ->
  for_of names row acc s = (Ok acc, s).
Proof.
  induction 1 as [|n names Hn _ IH]; [done|]. cbn [for_of]. unfold bind. by rewrite Hn.
Qed.

Lemma nothing_to_save {R} (row : string -> list R -> M (list R)) (names : list string)
    (s : state) :
  snapshot s = None ->
  Forall (fun n => forall acc, row n acc = ret acc) names ->
  respond (AiFetch.handler (AiFetch.transaction (for_of (map JString names)
                                                   (Ingest.reading row) []))) s
  = (Json200 0 [], s).
Proof.
  intros Hidle Hskip. destruct s as [d snap act]. cbn in Hidle. subst snap.
  unfold respond, AiFetch.handler, AiFetch.transaction, try_catch, bind, BEGIN.
  cbn [snapshot data activeFetches].
  by rewrite names_loop, (skipping_loop row names [] _ Hskip).
Qed.

Lemma transaction_rolls_back {R} (body : M (list R)) (s : state) :
  snapshot s = None ->
  (forall s0, exists e s', body s0 = (Throw e, s') /\ frame s0 s') ->
  respond (AiFetch.handler (AiFetch.transaction body)) s = (Status500, s).
Proof.
  intros Hidle Hthrow. destruct s as [d snap act]. cbn in Hidle. subst snap.
  unfold respond, AiFetch.handler, AiFetch.transaction, try_catch, bind, BEGIN.
  cbn [snapshot data activeFetches].
  destruct (Hthrow {| data := d; snapshot := Some d; activeFetches := act |})
    as (e & s' & -> & Hsnap & Hact).
  unfold ROLLBACK. cbn in Hsnap, Hact. by rewrite Hsnap, Hact.
Qed.

Lemma ingest_reading_frame {A} (row : string -> A -> M A) :
  (forall x acc st, frame st (row x acc st).2) ->
  forall v acc st, frame st (Ingest.reading row v acc st).2.
Proof.
  intros Hrow v acc st. unfold Ingest.reading.
  destruct (Ingest.name_of v); [apply Hrow | apply frame_refl].
Qed.

Lemma unusable_rolls_back {R} (generated : json) (row : string -> list R -> M (list R))
    (s : state) :
  snapshot s = None ->
  (forall x acc st, frame st (row x acc st).2) ->
  unusable generated ->
  respond (AiFetch.handler (AiFetch.transaction (Ingest.loop generated row))) s
  = (Status500, s).
Proof.
  intros Hidle Hframe Hbad. apply transaction_rolls_back; [done|]. intros s0.
  unfold Ingest.loop. destruct Hbad as [(e & ->)|(l & v & e & -> & Hin & Hv)].
  - exists e, s0. split; [done | apply frame_refl].
  - destruct (for_of_throws (Ingest.reading row) v l Hin) with (acc := @nil R) (s := s0)
      as (e' & s' & Hloop).
    { intros acc st. exists e. unfold Ingest.reading. by rewrite Hv. }
    exists e', s'. split; [done|].
    pose proof (for_of_frame (Ingest.reading row) (ingest_reading_frame row Hframe) l [] s0)
      as Hf.
    by rewrite Hloop in Hf.
Qed.

End IngestProperties.

Section IngestRoutes.
Import Sql Route AiService.

Variable raises : statement -> string -> bool.

Lemma sample_boards_guarded (state_name : option string) :
  Forall (fun n => AiFetch.placeholder "board " n = true)
    (sample_names "Education Boards" (Ingest.boards_context state_name)).
Proof.
  repeat constructor.
  - exact (placeholder_in_tail "board " "Sample Education Boards 1 (State of "
             (Ingest.template state_name)
             ", India. Strictly provide original board names only. No placeholders." ")"
             eq_refl).
  - exact (placeholder_in_tail "board " "Sample Education Boards 2 (State of "
             (Ingest.template state_name)
             ", India. Strictly provide original board names only. No placeholders." ")"
             eq_refl).
  - exact (placeholder_in_tail "board " "Sample Education Boards 3 (State of "
             (Ingest.template state_name)
             ", India. Strictly provide original board names only. No placeholders." ")"
             eq_refl).
  - exact (placeholder_in_tail "board " "Sample Education Boards 4 (State of "
             (Ingest.template state_name)
             ", India. Strictly provide original board names only. No placeholders." ")"
             eq_refl).
  - exact (placeholder_in_tail "board " "Sample Education Boards 5 (State of "
             (Ingest.template state_name)
             ", India. Strictly provide original board names only. No placeholders." ")"
             eq_refl).
Qed.

Lemma sample_subjects_guarded (context_name : option string) :
  Forall (fun n => AiFetch.placeholder "subject " n = true)
    (sample_names "Subjects" (Ingest.subjects_context context_name)).
Proof.
  repeat constructor.
  - exact (placeholder_in_tail "subject " "Sample Subjects 1 (Context: "
             (Ingest.template context_name)
             ". Strictly original syllabus subject names only. No placeholders." ")"
             eq_refl).
  - exact (placeholder_in_tail "subject " "Sample Subjects 2 (Context: "
             (Ingest.template context_name)
             ". Strictly original syllabus subject names only. No placeholders." ")"
             eq_refl).
  - exact (placeholder_in_tail "subject " "Sample Subjects 3 (Context: "
             (Ingest.template context_name)
             ". Strictly original syllabus subject names only. No placeholders." ")"
             eq_refl).
  - exact (placeholder_in_tail "subject " "Sample Subjects 4 (Context: "
             (Ingest.template context_name)
             ". Strictly original syllabus subject names only. No placeholders." ")"
             eq_refl).
  - exact (placeholder_in_tail "subject " "Sample Subjects 5 (Context: "
             (Ingest.template context_name)
             ". Strictly original syllabus subject names only. No placeholders." ")"
             eq_refl).
Qed.

Lemma sample_chapters_guarded (subject_name : option string) :
  Forall (fun n => AiFetch.placeholder "chapter " n = true)
    (sample_names "Chapters" (Ingest.chapters_context subject_name)).
Proof.
  repeat constructor.
  - exact (placeholder_in_tail "chapter " "Sample Chapters 1 (Subject: "
             (Ingest.template subject_name)
             ". Strictly original syllabus chapter names only." ")" eq_refl).
  - exact (placeholder_in_tail "chapter " "Sample Chapters 2 (Subject: "
             (Ingest.template subject_name)
             ". Strictly original syllabus chapter names only." ")" eq_refl).
  - exact (placeholder_in_tail "chapter " "Sample Chapters 3 (Subject: "
             (Ingest.template subject_name)
             ". Strictly original syllabus chapter names only." ")" eq_refl).
  - exact (placeholder_in_tail "chapter " "Sample Chapters 4 (Subject: "
             (Ingest.template subject_name)
             ". Strictly original syllabus chapter names only." ")" eq_refl).
  - exact (placeholder_in_tail "chapter " "Sample Chapters 5 (Subject: "
             (Ingest.template subject_name)
             ". Strictly original syllabus chapter names only." ")" eq_refl).
Qed.

Lemma names_transaction {R} (row : string -> list R -> M (list R)) (names : list string)
    (s : state) :
  respond (AiFetch.handler (AiFetch.transaction (Ingest.loop (JArray (map JString names)) row)))
    s
  = respond (AiFetch.handler (AiFetch.transaction (for_of names row []))) s.
Proof.
  unfold respond, AiFetch.handler, AiFetch.transaction, try_catch, bind, Ingest.loop.
  cbn [Ingest.iterate]. destruct (BEGIN s) as [[u|e] s0]; [|done].
  by rewrite names_loop.
Qed.

End IngestRoutes.

(** X27. Without a provider the admin routes for boards, subjects and chapters
    save nothing. When no provider row is active, or the active row has no
    API key, then for every body and every store outside a transaction,
    and whatever the store would refuse: POST /ai-fetch/boards, POST
    /ai-fetch/subjects and POST /ai-fetch/chapters make no outbound call,
    answer 200 with no rows and leave the state as it was, because the text
    the route itself puts into every sample name holds the word its guard
    looks for. POST /ai-fetch/universities has no such word in its text:
    with no INSERT refused it commits the rows it reports, each under one
    of the five sample names that its guard lets through. *)
Theorem no_provider_admin_routes (raises : Route.statement -> string -> bool)
    (w : AiService.env) (s : Route.state) :
  unconfigured w ->
  Route.snapshot s = None ->
  (forall body, nothing_saved (Ingest.post_boards raises w body) s)
  /\ (forall body, nothing_saved (Ingest.post_subjects raises w body) s)
  /\ (forall body, nothing_saved (Ingest.post_chapters raises w body) s)
  /\ (forall body,
        Forall (fun x => raises Route.Insert x = false)
          (sample_names "Universities" (Ingest.universities_context (AiFetch.state_name body)))
        ->
        (Ingest.post_universities raises w body).2 = 0%nat
        /\ exists saved,
             committed Sql.universities s
               (Route.respond (Ingest.post_universities raises w body).1 s) saved
             /\ from_candidates Sql.university_name (AiFetch.placeholder "university ")
                  (admin_university_columns (AiFetch.state_id body))
                  (sample_names "Universities"
                     (Ingest.universities_context (AiFetch.state_name body))) saved).
Proof.
  intros Hoff Hidle. split; [|split; [|split]]; intros body.
  - unfold nothing_saved, Ingest.post_boards.
    rewrite (unconfigured_structure w _ _ Hoff). cbn [fst snd]. split; [done|].
    unfold Ingest.loop. rewrite iterate_samples. apply nothing_to_save; [done|].
    eapply Forall_impl; [apply sample_boards_guarded|]. intros n Hn acc.
    unfold AiFetch.boards_row. by rewrite Hn.
  - unfold nothing_saved, Ingest.post_subjects.
    rewrite (unconfigured_structure w _ _ Hoff). cbn [fst snd]. split; [done|].
    unfold Ingest.loop. rewrite iterate_samples. apply nothing_to_save; [done|].
    eapply Forall_impl; [apply sample_subjects_guarded|]. intros n Hn acc.
    unfold AiFetch.subjects_row. by rewrite Hn.
  - unfold nothing_saved, Ingest.post_chapters.
    rewrite (unconfigured_structure w _ _ Hoff). cbn [fst snd]. split; [done|].
    unfold Ingest.loop. rewrite iterate_samples. apply nothing_to_save; [done|].
    eapply Forall_impl; [apply sample_chapters_guarded|]. intros n Hn acc.
    unfold AiFetch.chapters_row. by rewrite Hn.
  - intros Hok. unfold Ingest.post_universities.
    rewrite (unconfigured_structure w _ _ Hoff). cbn [fst snd]. split; [done|].
    change (AiService.fallbackMockStructure "Universities"
              (Ingest.universities_context (AiFetch.state_name body)))
      with (AiService.JArray
              (map AiService.JString
                 (sample_names "Universities"
                    (Ingest.universities_context (AiFetch.state_name body))))).
    rewrite names_transaction.
    apply (admin_route_commits raises); [apply universities_row_appending | done | done].
Qed.

Lemma no_provider_admin_routes_witness :
  nothing_saved (Ingest.post_boards refuses_long offline west_bengal_admin) (idle empty_db).
Proof.
  apply (proj1 (no_provider_admin_routes refuses_long offline (idle empty_db)
                  ltac:(exists []; split; reflexivity) eq_refl)).
Defined.

(** X28. An answer that is no list of names is rolled back as a whole. When
    what the client hands to an admin route is not iterable (a number, a
    boolean, an object), or holds an element that is not a string, the
    route, outside a transaction, answers 500 and leaves the state as it
    was: the names inserted before the offending element are rolled back
    with it. *)
Theorem unusable_answer_is_rolled_back (raises : Route.statement -> string -> bool)
    (w : AiService.env) (s : Route.state) :
  Route.snapshot s = None ->
  (forall body,
     unusable (AiService.fetchAIStructure w "Education Boards"
                 (Ingest.boards_context (AiFetch.state_name body))).1 ->
     rolled_back (Ingest.post_boards raises w body) s)
  /\ (forall body,
        unusable (AiService.fetchAIStructure w "Universities"
                    (Ingest.universities_context (AiFetch.state_name body))).1 ->
        rolled_back (Ingest.post_universities raises w body) s)
  /\ (forall body,
        unusable (AiService.fetchAIStructure w "Subjects"
                    (Ingest.subjects_context (AiFetch.context_name body))).1 ->
        rolled_back (Ingest.post_subjects raises w body) s)
  /\ (forall body,
        unusable (AiService.fetchAIStructure w "Chapters"
                    (Ingest.chapters_context (AiFetch.subject_name body))).1 ->
        rolled_back (Ingest.post_chapters raises w body) s).
Proof.
  intros Hidle. split; [|split; [|split]]; intros body Hbad.
  - apply (unusable_rolls_back _ _ _ Hidle); [|done].
    intros x acc st. apply (insert_row_frame raises).
  - apply (unusable_rolls_back _ _ _ Hidle); [|done].
    intros x acc st. apply (insert_row_frame raises).
  - apply (unusable_rolls_back _ _ _ Hidle); [|done].
    intros x acc st. apply (insert_row_frame raises).
  - apply (unusable_rolls_back _ _ _ Hidle); [|done].
    intros x acc st. apply (insert_row_frame raises).
Qed.

Lemma unusable_answer_is_rolled_back_witness :
  rolled_back (Ingest.post_boards no_faults answers_with_number west_bengal_admin)
    (idle empty_db).
Proof.
  apply (proj1 (unusable_answer_is_rolled_back no_faults answers_with_number (idle empty_db)
                  eq_refl) west_bengal_admin).
  right. exists [AiService.JString "CBSE"; AiService.JNumber 7], (AiService.JNumber 7),
           "TypeError".
  split; [reflexivity|]. split; [right; by left | reflexivity].
Defined.
